(** * Local Transcript App: job pipeline and transcript formats

  A shallow embedding of the worker (apps/worker/main.py,
  output_formatter.py, transcriber.py, audio_processor.py,
  youtube_handler.py) and of the API routes
  (apps/api/routes/jobs.py, export.py, upload.py, youtube.py,
  database.py, models.py),
  with the properties of the written specification stated and
  proved (or refuted) against it.

  Conventions of the embedding.
  - Python [str] is [string]; a character is one code point below 256.
  - Python [float] seconds are exact rationals [Q].  In [OutputFormatter]
    and [ExportRoute] the operations [//], [%] and [int] are the exact
    ones, which is what binary64 computes for [0 <= seconds < 2^53]
    ([Binary64Facts.format_srt_time_exact]); the one operation of the
    time stamp code that rounds in that range, the product
    [(seconds % 1) * 1000], goes through an explicit rounding function
    [fl], about which theorems assume only what IEEE round-to-nearest
    provides ([binary64_rounding]).  [Binary64] has the same time stamp
    functions with every float operation rounded, as CPython computes
    them on any float; there the floor division is off for large
    [seconds].
  - A text file is the string written to it; reading it in text mode
    translates carriage returns ([Py.universal_newlines]).
  - A Python [dict] with string keys that is built once and serialised
    is an association list in insertion order ([json]); the SQLite
    tables keyed by a PRIMARY KEY are [gmap]s; the file system is a
    [gmap] from paths to contents.
  - Exceptions are values of [exn]; effectful code is written in a
    state-and-exception monad over the part of the world it can touch. *)

From Stdlib Require Import ZArith QArith Qround Qabs Qpower Lia Lqa String Ascii List.
From Stdlib Require Import DecimalString DecimalN DecimalPos.
From stdpp Require Import gmap strings list sorting.

Open Scope string_scope.
Open Scope list_scope.

(** ** Python strings *)

Module Py.

Definition NL : string := String "010"%char "".

(** [str.isspace] restricted to code points below 256. *)
Definition isspace (c : ascii) : bool :=
  let n := N_of_ascii c in
  ((9 <=? n) && (n <=? 13) || (28 <=? n) && (n <=? 32)
   || (n =? 133) || (n =? 160))%N.

Definition emit (cur : option string) : list string :=
  match cur with Some w => [w] | None => [] end.

(** [s.split()]: maximal runs of non-space characters. *)
Fixpoint split_go (cur : option string) (s : string) : list string :=
  match s with
  | "" => emit cur
  | String c s' =>
      if isspace c then emit cur ++ split_go None s'
      else split_go (Some (default "" cur +:+ String c "")) s'
  end.
Definition split (s : string) : list string := split_go None s.

(** [sep.join(parts)] *)
Definition join (sep : string) (parts : list string) : string :=
  String.concat sep parts.

Fixpoint lstrip (s : string) : string :=
  match s with
  | "" => ""
  | String c s' => if isspace c then lstrip s' else s
  end.
Fixpoint rstrip (s : string) : string :=
  match s with
  | "" => ""
  | String c s' =>
      match rstrip s' with
      | "" => if isspace c then "" else String c ""
      | r => String c r
      end
  end.
(** [s.strip()] *)
Definition strip (s : string) : string := rstrip (lstrip s).

(** [s.replace(old, new)] for a one-character [old]. *)
Fixpoint replace (old : ascii) (new : string) (s : string) : string :=
  match s with
  | "" => ""
  | String c s' =>
      (if Ascii.eqb c old then new else String c "") +:+ replace old new s'
  end.

(** [re.sub(r' +', ' ', s)] *)
Fixpoint collapse_spaces (s : string) : string :=
  match s with
  | "" => ""
  | String c s' =>
      if Ascii.eqb c " " then
        match s' with
        | String c' _ => if Ascii.eqb c' " " then collapse_spaces s'
                         else String c (collapse_spaces s')
        | "" => String c ""
        end
      else String c (collapse_spaces s')
  end.

(** [not l] for a list. *)
Definition is_empty {A} (l : list A) : bool :=
  match l with [] => true | _ :: _ => false end.

(** [bool(s)] for a string. *)
Definition truthy (s : string) : bool := negb (String.eqb s "").

(** [str(n)] for a non-negative integer. *)
Definition str_N (n : N) : string := NilZero.string_of_uint (N.to_uint n).

(** [str(z)] for an integer. *)
Definition str (z : Z) : string :=
  if (z <? 0)%Z then "-" +:+ str_N (Z.to_N (- z)) else str_N (Z.to_N z).

Fixpoint zeros (n : nat) : string :=
  match n with O => "" | S n' => String "0" (zeros n') end.

Definition zfill (w : nat) (s : string) : string :=
  zeros (w - String.length s) +:+ s.

(** [f"{z:0wd}"]: sign-aware zero padding to total width [w]. *)
Definition format_d (w : nat) (z : Z) : string :=
  if (z <? 0)%Z then "-" +:+ zfill (w - 1) (str_N (Z.to_N (- z)))
  else zfill w (str_N (Z.to_N z)).

(** [enumerate(l, start)] *)
Definition enumerate {A} (start : nat) (l : list A) : list (nat * A) :=
  combine (seq start (length l)) l.

(** Float arithmetic on exact values. *)
Definition floordiv (x y : Q) : Q := inject_Z (Qfloor (x / y)%Q).
Definition mod_ (x y : Q) : Q := (x - inject_Z (Qfloor (x / y)) * y)%Q.
(** [int(x)] truncates toward zero. *)
Definition int (x : Q) : Z :=
  if Qle_bool 0 x then Qfloor x else Qceiling x.

(** [round(x)] to an integer, ties to even. *)
Definition round_half_even (x : Q) : Z :=
  let f := Qfloor x in
  match (x - inject_Z f ?= 1 # 2)%Q with
  | Lt => f
  | Gt => (f + 1)%Z
  | Eq => if Z.even f then f else (f + 1)%Z
  end.

(** [round(x, ndigits)] on a float, read as the decimal it prints. *)
Definition round (x : Q) (ndigits : nat) : Q :=
  let p := (10 ^ Z.of_nat ndigits)%Z in
  Qred (inject_Z (round_half_even (x * inject_Z p)%Q) / inject_Z p)%Q.

(** What [open(path, "r").read()] makes of the characters of a file:
  with the default [newline=None], a carriage return followed by a line
  feed, and a carriage return alone, are each read as one line feed. *)
Fixpoint universal_newlines (s : string) : string :=
  match s with
  | "" => ""
  | String c s' =>
      if Ascii.eqb c "013" then
        match s' with
        | String c' _ =>
            if Ascii.eqb c' "010" then universal_newlines s'
            else String "010" (universal_newlines s')
        | "" => String "010" ""
        end
      else String c (universal_newlines s')
  end.

End Py.

(** What the time stamp code needs of binary64 multiplication: the
  rounding of an exact product is monotone and leaves the integers
  [0..1000] alone. *)
Record binary64_rounding (fl : Q -> Q) : Prop := {
  fl_mono : forall x y, (x <= y)%Q -> (fl x <= fl y)%Q;
  fl_int : forall z : Z, (0 <= z <= 1000)%Z -> (fl (inject_Z z) == inject_Z z)%Q
}.

(** Exact arithmetic is one such rounding. *)
Definition fl_exact (x : Q) : Q := x.

(** What the floor divisions need of binary64: the whole numbers up to
  [2^53] are floats, so that an exact result among them is not moved. *)
Definition binary64_integers (fl : Q -> Q) : Prop :=
  forall z : Z, (0 <= z <= 2 ^ 53)%Z -> (fl (inject_Z z) == inject_Z z)%Q.

(** ** JSON values ([json.dump] input) *)

#[local] Unset Elimination Schemes.
Inductive json : Type :=
| JNull
| JBool (b : bool)
| JInt (z : Z)
| JFloat (q : Q)
| JStr (s : string)
| JList (l : list json)
| JDict (d : list (string * json)).
#[local] Set Elimination Schemes.

(** [d.get(k)] on a dict in insertion order. *)
Fixpoint dict_get (k : string) (d : list (string * json)) : option json :=
  match d with
  | [] => None
  | (k', v) :: d' => if String.eqb k k' then Some v else dict_get k d'
  end.

Definition json_get (k : string) (j : json) : option json :=
  match j with JDict d => dict_get k d | _ => None end.

(** ** The file system, as far as the program looks at it

  The files, by path.  Directories are not part of it: the
  [mkdir(parents=True, exist_ok=True)] calls of the program create
  directories only, change no file, and are left out of the embedding. *)

Inductive file_content : Type :=
| TextFile (s : string)
| JsonFile (j : json)
| MediaFile.

Abbreviation FS := (gmap string file_content).

(** [Path(dir) / name] *)
Definition path_join (dir name : string) : string := dir +:+ "/" +:+ name.

(** ** output_formatter.py *)

Module OutputFormatter.

Record Segment := {
  start : Q;   (* seconds *)
  end_ : Q;    (* seconds *)
  text : string
}.

(** [Segment.to_dict] *)
Definition to_dict (seg : Segment) : json :=
  JDict [("start", JFloat (Py.round (start seg) 3));
         ("end", JFloat (Py.round (end_ seg) 3));
         ("text", JStr (Py.strip (text seg)))].

Section Formatter.
Variable fl : Q -> Q.

(** [//] and [%] are taken exactly here: that is what the floats give
  for [0 <= seconds < 2^53]; [Binary64] has the rounded operations. *)
Definition _format_srt_time (seconds : Q) : string :=
  let hours := Py.int (Py.floordiv seconds 3600) in
  let minutes := Py.int (Py.floordiv (Py.mod_ seconds 3600) 60) in
  let secs := Py.int (Py.mod_ seconds 60) in
  let millis := Py.int (fl (Py.mod_ seconds 1 * 1000)%Q) in
  Py.format_d 2 hours +:+ ":" +:+ Py.format_d 2 minutes +:+ ":"
    +:+ Py.format_d 2 secs +:+ "," +:+ Py.format_d 3 millis.

Definition _format_vtt_time (seconds : Q) : string :=
  let hours := Py.int (Py.floordiv seconds 3600) in
  let minutes := Py.int (Py.floordiv (Py.mod_ seconds 3600) 60) in
  let secs := Py.int (Py.mod_ seconds 60) in
  let millis := Py.int (fl (Py.mod_ seconds 1 * 1000)%Q) in
  Py.format_d 2 hours +:+ ":" +:+ Py.format_d 2 minutes +:+ ":"
    +:+ Py.format_d 2 secs +:+ "." +:+ Py.format_d 3 millis.

Definition _clean_text_for_subtitles (text : string) : string :=
  let text := Py.join " " (Py.split text) in
  Py.replace ">" "&gt;" (Py.replace "<" "&lt;" (Py.replace "&" "&amp;" text)).

(** The [data] dict of [generate_json]. *)
Definition generate_json_data (segments : list Segment)
    (metadata : option (list (string * json))) : json :=
  let data := [("segments", JList (map to_dict segments));
               ("segment_count", JInt (Z.of_nat (length segments)))] in
  let data :=
    match last segments with
    | Some seg => data ++ [("duration", JFloat (Py.round (end_ seg) 2))]
    | None => data
    end in
  let data :=
    match metadata with
    | Some ((_ :: _) as m) => data ++ [("metadata", JDict m)]
    | _ => data
    end in
  JDict data.

Definition generate_json (output_dir : string) (segments : list Segment)
    (output_name : string) (metadata : option (list (string * json)))
    (fs : FS) : FS * string :=
  let output_path := path_join output_dir output_name in
  (<[output_path := JsonFile (generate_json_data segments metadata)]> fs,
   output_path).

(** The loop of [generate_txt]: [lines] after the last iteration. *)
Definition txt_lines (include_timestamps : bool) (segments : list Segment)
    : list string :=
  fold_left (fun lines seg =>
    let text := Py.strip (text seg) in
    if negb (Py.truthy text) then lines
    else if include_timestamps then
      let mins := Py.int (Py.floordiv (start seg) 60) in
      let secs := Py.int (Py.mod_ (start seg) 60) in
      lines ++ ["[" +:+ Py.format_d 2 mins +:+ ":" +:+ Py.format_d 2 secs
                  +:+ "] " +:+ text]
    else lines ++ [text]) segments [].

Definition txt_content (include_timestamps : bool)
    (segments : list Segment) : string :=
  let separator := if include_timestamps then Py.NL else " " in
  Py.collapse_spaces (Py.join separator (txt_lines include_timestamps segments)).

Definition generate_txt (output_dir : string) (segments : list Segment)
    (output_name : string) (include_timestamps : bool) (fs : FS)
    : FS * string :=
  let output_path := path_join output_dir output_name in
  (<[output_path := TextFile (txt_content include_timestamps segments)]> fs,
   output_path).

(** The loop of [generate_srt]: [srt_lines] after the last iteration. *)
Definition srt_lines (segments : list Segment) : list string :=
  fold_left (fun srt_lines '(i, seg) =>
    let text := _clean_text_for_subtitles (text seg) in
    if negb (Py.truthy text) then srt_lines
    else
      let start_time := _format_srt_time (start seg) in
      let end_time := _format_srt_time (end_ seg) in
      srt_lines ++ [Py.str (Z.of_nat i);
                    start_time +:+ " --> " +:+ end_time;
                    text;
                    ""]) (Py.enumerate 1 segments) [].

(** What [generate_srt] writes to the file. *)
Definition srt_content (segments : list Segment) : string :=
  Py.join Py.NL (srt_lines segments).

Definition generate_srt (output_dir : string) (segments : list Segment)
    (output_name : string) (fs : FS) : FS * string :=
  let output_path := path_join output_dir output_name in
  (<[output_path := TextFile (srt_content segments)]> fs, output_path).

(** The loop of [generate_vtt]: [vtt_lines] after the last iteration. *)
Definition vtt_lines (segments : list Segment) : list string :=
  fold_left (fun vtt_lines seg =>
    let text := _clean_text_for_subtitles (text seg) in
    if negb (Py.truthy text) then vtt_lines
    else
      let start_time := _format_vtt_time (start seg) in
      let end_time := _format_vtt_time (end_ seg) in
      vtt_lines ++ [start_time +:+ " --> " +:+ end_time;
                    text;
                    ""]) segments ["WEBVTT"; ""].

(** What [generate_vtt] writes to the file. *)
Definition vtt_content (segments : list Segment) : string :=
  Py.join Py.NL (vtt_lines segments).

Definition generate_vtt (output_dir : string) (segments : list Segment)
    (output_name : string) (fs : FS) : FS * string :=
  let output_path := path_join output_dir output_name in
  (<[output_path := TextFile (vtt_content segments)]> fs, output_path).

(** The four paths returned by [generate_all], keyed as in the source. *)
Record Paths := {
  json_path : string;
  txt_path : string;
  srt_path : string;
  vtt_path : string
}.

Definition generate_all (output_dir : string) (segments : list Segment)
    (base_name : string) (metadata : option (list (string * json)))
    (fs : FS) : FS * Paths :=
  let '(fs, pj) := generate_json output_dir segments
                     (base_name +:+ "_segments.json") metadata fs in
  let '(fs, pt) := generate_txt output_dir segments
                     (base_name +:+ ".txt") false fs in
  let '(fs, ps) := generate_srt output_dir segments
                     (base_name +:+ ".srt") fs in
  let '(fs, pv) := generate_vtt output_dir segments
                     (base_name +:+ ".vtt") fs in
  (fs, {| json_path := pj; txt_path := pt; srt_path := ps; vtt_path := pv |}).

End Formatter.

End OutputFormatter.

(** ** Time stamps with every float operation rounded *)

Module Binary64.

(** The binary exponent of a positive [a]: [2^e <= a < 2^(e+1)]. *)
Definition exponent (a : Q) : Z :=
  let e := (Z.log2 (Qnum a) - Z.log2 (Zpos (Qden a)))%Z in
  if Qle_bool (2 ^ e) a then e else (e - 1)%Z.

(** Round to nearest, ties to even, at the 53 significant bits of
  binary64 (the exponent range, which the values at hand stay far from,
  is left unbounded). *)
Definition round53 (x : Q) : Q :=
  if Qeq_bool x 0 then 0%Q
  else
    let ulp := (2 ^ (exponent (Qabs x) - 52))%Q in
    Qred (inject_Z (Py.round_half_even (x / ulp)) * ulp).

Definition Qlt_bool (x y : Q) : bool := negb (Qle_bool y x).

Section Float.
Variable fl : Q -> Q.   (* the rounding of an exact result *)

(** C's [fmod]: the exact remainder, with the sign of [vx]. *)
Definition fmod (vx wx : Q) : Q := (vx - inject_Z (Py.int (vx / wx)) * wx)%Q.

(** [vx % wx] on floats, for [wx] other than zero: CPython's
  [float_rem]. *)
Definition mod_ (vx wx : Q) : Q :=
  let rem := fmod vx wx in
  if Qeq_bool rem 0 then 0%Q
  else if Bool.eqb (Qlt_bool wx 0) (Qlt_bool rem 0) then rem
  else fl (rem + wx).

(** [vx // wx] on floats, for [wx] other than zero: CPython's
  [float_floor_div], that is [_float_div_mod] with its
  [div = (vx - mod) / wx], the adjustment of the sign and the snap of
  the quotient to a whole number. *)
Definition floordiv (vx wx : Q) : Q :=
  let rem := fmod vx wx in
  let div := fl (fl (vx - rem) / wx) in
  let div :=
    if Qeq_bool rem 0 then div
    else if Bool.eqb (Qlt_bool wx 0) (Qlt_bool rem 0) then div
    else fl (div - 1) in
  if Qeq_bool div 0 then 0%Q
  else
    let floordiv := inject_Z (Qfloor div) in
    if Qlt_bool (1 # 2) (fl (div - floordiv)) then fl (floordiv + 1)
    else floordiv.

(** [OutputFormatter._format_srt_time] on floats. *)
Definition _format_srt_time (seconds : Q) : string :=
  let hours := Py.int (floordiv seconds 3600) in
  let minutes := Py.int (floordiv (mod_ seconds 3600) 60) in
  let secs := Py.int (mod_ seconds 60) in
  let millis := Py.int (fl (mod_ seconds 1 * 1000)%Q) in
  Py.format_d 2 hours +:+ ":" +:+ Py.format_d 2 minutes +:+ ":"
    +:+ Py.format_d 2 secs +:+ "," +:+ Py.format_d 3 millis.

(** [OutputFormatter._format_vtt_time] on floats. *)
Definition _format_vtt_time (seconds : Q) : string :=
  let hours := Py.int (floordiv seconds 3600) in
  let minutes := Py.int (floordiv (mod_ seconds 3600) 60) in
  let secs := Py.int (mod_ seconds 60) in
  let millis := Py.int (fl (mod_ seconds 1 * 1000)%Q) in
  Py.format_d 2 hours +:+ ":" +:+ Py.format_d 2 minutes +:+ ":"
    +:+ Py.format_d 2 secs +:+ "." +:+ Py.format_d 3 millis.

End Float.

End Binary64.

(** ** Results of fallible code *)

Inductive result (E A : Type) : Type :=
| Ok (a : A)
| Err (e : E).
Arguments Ok {E A} a.
Arguments Err {E A} e.

(** ** api/models.py *)

Module Models.

Inductive JobStatus := QUEUED | RUNNING | DONE | FAILED.
Definition JobStatus_value (s : JobStatus) : string :=
  match s with
  | QUEUED => "queued" | RUNNING => "running"
  | DONE => "done" | FAILED => "failed"
  end.

Inductive JobType := FILE_UPLOAD | YOUTUBE_CAPTIONS | YOUTUBE_AUTO_INGEST.
Definition JobType_value (t : JobType) : string :=
  match t with
  | FILE_UPLOAD => "file_upload"
  | YOUTUBE_CAPTIONS => "youtube_captions"
  | YOUTUBE_AUTO_INGEST => "youtube_auto_ingest"
  end.

Inductive ModelSize := TINY | BASE | SMALL | MEDIUM | LARGE.
Definition ModelSize_value (m : ModelSize) : string :=
  match m with
  | TINY => "tiny" | BASE => "base" | SMALL => "small"
  | MEDIUM => "medium" | LARGE => "large"
  end.

Inductive ExportFormat := TXT | SRT | VTT | JSON.

Record TranscriptSegment := {
  id : Z;
  start : Q;
  end_ : Q;
  text : string
}.

(** [seg.model_dump()] *)
Definition model_dump (seg : TranscriptSegment) : json :=
  JDict [("id", JInt (id seg)); ("start", JFloat (start seg));
         ("end", JFloat (end_ seg)); ("text", JStr (text seg))].

Record TranscriptResponse := {
  job_id : string;
  resp_text : string;
  segments : list TranscriptSegment;
  edited : bool;
  last_edited_at : option string
}.

Record HTTPException := {
  status_code : Z;
  detail : string
}.

End Models.

(** ** The two tables (api/database.py [init_db]) *)

Module Database.
Import Models.

Record JobRow := {
  job_type : string;
  source_url : option string;
  original_filename : option string;
  stored_filename : option string;
  status : string;
  created_at : string;
  updated_at : string;
  model : string;
  language : string;
  error_message : option string
}.

Record TranscriptRow := {
  segments_json_path : option string;
  plain_text_path : option string;
  srt_path : option string;
  vtt_path : option string;
  edited_text : option string;
  (* the JSON text of a list of segment dicts; [None] is SQL NULL *)
  edited_segments_json : option (list TranscriptSegment);
  last_edited_at : option string
}.

(** Rows by primary key ([jobs.id], [transcripts.job_id]). *)
Record DB := {
  jobs : gmap string JobRow;
  transcripts : gmap string TranscriptRow
}.

Definition set_status (st : string) (now : string) (r : JobRow) : JobRow :=
  {| job_type := job_type r; source_url := source_url r;
     original_filename := original_filename r;
     stored_filename := stored_filename r;
     status := st; created_at := created_at r; updated_at := now;
     model := model r; language := language r;
     error_message := error_message r |}.

Definition set_status_error (st : string) (err : string) (now : string)
    (r : JobRow) : JobRow :=
  {| job_type := job_type r; source_url := source_url r;
     original_filename := original_filename r;
     stored_filename := stored_filename r;
     status := st; created_at := created_at r; updated_at := now;
     model := model r; language := language r;
     error_message := Some err |}.

Definition get_job (db : DB) (job_id : string) : option JobRow :=
  jobs db !! job_id.

Definition get_transcript (db : DB) (job_id : string) : option TranscriptRow :=
  transcripts db !! job_id.

Definition save_transcript_edits (db : DB) (job_id : string)
    (edited_text' : string) (edited_segments : option (list TranscriptSegment))
    (now : string) : DB :=
  let segments_json :=
    match edited_segments with
    | Some ((_ :: _) as l) => Some l
    | _ => None
    end in
  let row :=
    match get_transcript db job_id with
    | Some existing =>
        {| segments_json_path := segments_json_path existing;
           plain_text_path := plain_text_path existing;
           srt_path := srt_path existing;
           vtt_path := vtt_path existing;
           edited_text := Some edited_text';
           edited_segments_json := segments_json;
           last_edited_at := Some now |}
    | None =>
        {| segments_json_path := None; plain_text_path := None;
           srt_path := None; vtt_path := None;
           edited_text := Some edited_text';
           edited_segments_json := segments_json;
           last_edited_at := Some now |}
    end in
  {| jobs := jobs db; transcripts := <[job_id := row]> (transcripts db) |}.

(** [c.isalnum()] for a code point below 256. *)
Definition isalnum (c : ascii) : bool :=
  let n := N_of_ascii c in
  ((48 <=? n) && (n <=? 57) || (65 <=? n) && (n <=? 90)
   || (97 <=? n) && (n <=? 122)
   || (n =? 170) || (n =? 178) || (n =? 179) || (n =? 181)
   || (n =? 185) || (n =? 186) || (188 <=? n) && (n <=? 190)
   || (192 <=? n) && (n <=? 214) || (216 <=? n) && (n <=? 246)
   || (248 <=? n))%N.

Fixpoint safe_id (job_id : string) : string :=
  match job_id with
  | "" => ""
  | String c s =>
      if isalnum c || Ascii.eqb c "-" then String c (safe_id s) else safe_id s
  end.

Section Files.
Variable OUTPUTS_DIR : string.

(** [OUTPUTS_DIR / safe_id].  (For an id that keeps no character,
  pathlib gives [OUTPUTS_DIR] itself, and this the same path followed
  by a slash.) *)
Definition get_job_output_dir (job_id : string) : string :=
  path_join OUTPUTS_DIR (safe_id job_id).

Definition as_number (j : json) : option Q :=
  match j with
  | JFloat q => Some q
  | JInt z => Some (inject_Z z)
  | _ => None
  end.

(** The constructor call that turns a loaded dict into a
  [TranscriptSegment], on the dicts the program writes: an integer
  [id], numbers for [start] and [end], a string [text].  Other shapes
  that the validation of the model class would still coerce (a numeric
  string, a float for [id]) count as errors here. *)
Definition segment_of_json (j : json) : option TranscriptSegment :=
  match j with
  | JDict d =>
      match dict_get "id" d, dict_get "start" d,
            dict_get "end" d, dict_get "text" d with
      | Some (JInt i), Some s, Some e, Some (JStr t) =>
          match as_number s, as_number e with
          | Some s, Some e =>
              Some {| id := i; start := s; end_ := e; text := t |}
          | _, _ => None
          end
      | _, _, _, _ => None
      end
  | _ => None
  end.

(** An unhandled exception inside a route; the framework answers 500. *)
Definition internal_error : HTTPException :=
  {| status_code := 500; detail := "Internal Server Error" |}.

Definition load_transcript_segments (fs : FS) (job_id : string)
    : result HTTPException (list TranscriptSegment) :=
  let segments_path := path_join (get_job_output_dir job_id) "segments.json" in
  match fs !! segments_path with
  | None => Ok []
  | Some (JsonFile (JList data)) =>
      match mapM segment_of_json data with
      | Some l => Ok l
      | None => Err internal_error
      end
  | Some _ => Err internal_error
  end.

Definition load_transcript_text (fs : FS) (job_id : string)
    : result HTTPException string :=
  let text_path := path_join (get_job_output_dir job_id) "transcript.txt" in
  match fs !! text_path with
  | None => Ok ""
  | Some (TextFile s) => Ok (Py.universal_newlines s)
  | Some _ => Err internal_error
  end.
End Files.

End Database.

(** ** api/routes/export.py *)

Module ExportRoute.
Import Models Database.

Inductive content :=
  | TextContent (s : string)
  | JsonContent (j : json).   (* [json.dumps(export_data, ...)] *)

(** The [Response]; the Content-Disposition header is left out. *)
Record Response := {
  body : content;
  media_type : string
}.

Section Routes.
Variable fl : Q -> Q.
Variable OUTPUTS_DIR : string.

Definition format_timestamp_srt (seconds : Q) : string :=
  let hours := Py.int (Py.floordiv seconds 3600) in
  let minutes := Py.int (Py.floordiv (Py.mod_ seconds 3600) 60) in
  let secs := Py.int (Py.mod_ seconds 60) in
  let millis := Py.int (fl (Py.mod_ seconds 1 * 1000)%Q) in
  Py.format_d 2 hours +:+ ":" +:+ Py.format_d 2 minutes +:+ ":"
    +:+ Py.format_d 2 secs +:+ "," +:+ Py.format_d 3 millis.

Definition format_timestamp_vtt (seconds : Q) : string :=
  let hours := Py.int (Py.floordiv seconds 3600) in
  let minutes := Py.int (Py.floordiv (Py.mod_ seconds 3600) 60) in
  let secs := Py.int (Py.mod_ seconds 60) in
  let millis := Py.int (fl (Py.mod_ seconds 1 * 1000)%Q) in
  Py.format_d 2 hours +:+ ":" +:+ Py.format_d 2 minutes +:+ ":"
    +:+ Py.format_d 2 secs +:+ "." +:+ Py.format_d 3 millis.

Definition segments_to_srt (segments : list TranscriptSegment) : string :=
  let lines :=
    fold_left (fun lines '(i, seg) =>
      let start := format_timestamp_srt (start seg) in
      let end_ := format_timestamp_srt (end_ seg) in
      lines ++ [Py.str (Z.of_nat i);
                start +:+ " --> " +:+ end_;
                text seg;
                ""]) (Py.enumerate 1 segments) [] in
  Py.join Py.NL lines.

Definition segments_to_vtt (segments : list TranscriptSegment) : string :=
  let lines :=
    fold_left (fun lines '(i, seg) =>
      let start := format_timestamp_vtt (start seg) in
      let end_ := format_timestamp_vtt (end_ seg) in
      lines ++ [Py.str (Z.of_nat i);
                start +:+ " --> " +:+ end_;
                text seg;
                ""]) (Py.enumerate 1 segments) ["WEBVTT"; ""] in
  Py.join Py.NL lines.

(** "Load data (prefer edited version)": the [segments] variable. *)
Definition export_segments (fs : FS) (transcript : option TranscriptRow)
    (job_id : string) : result HTTPException (list TranscriptSegment) :=
  match transcript with
  | Some {| edited_segments_json := Some l |} => Ok l
  | _ => load_transcript_segments OUTPUTS_DIR fs job_id
  end.

(** The [text] variable. *)
Definition export_text (fs : FS) (transcript : option TranscriptRow)
    (job_id : string) : result HTTPException string :=
  match transcript with
  | Some {| edited_text := Some t |} =>
      if Py.truthy t then Ok t else load_transcript_text OUTPUTS_DIR fs job_id
  | _ => load_transcript_text OUTPUTS_DIR fs job_id
  end.

Definition opt_str (o : option string) : json :=
  match o with Some s => JStr s | None => JNull end.

(** "Generate export content": the branch on [fmt]. *)
Definition export_content (job : JobRow) (job_id : string) (text' : string)
    (segments : list TranscriptSegment) (fmt : ExportFormat)
    : result HTTPException Response :=
  match fmt with
  | TXT =>
      Ok {| body := TextContent
              (if Py.truthy text' then text'
               else Py.join " " (map text segments));
            media_type := "text/plain" |}
  | SRT =>
      if Py.is_empty segments then
        Err {| status_code := 400;
               detail := "SRT export requires segment data with timestamps" |}
      else
        Ok {| body := TextContent (segments_to_srt segments);
              media_type := "application/x-subrip" |}
  | VTT =>
      if Py.is_empty segments then
        Err {| status_code := 400;
               detail := "VTT export requires segment data with timestamps" |}
      else
        Ok {| body := TextContent (segments_to_vtt segments);
              media_type := "text/vtt" |}
  | JSON =>
      Ok {| body := JsonContent (JDict
              [("job_id", JStr job_id);
               ("original_filename", opt_str (original_filename job));
               ("source_url", opt_str (source_url job));
               ("text", JStr text');
               ("segments", JList (map model_dump segments));
               ("model", JStr (model job));
               ("language", JStr (language job))]);
            media_type := "application/json" |}
  end.

Definition export_transcript (db : DB) (fs : FS) (job_id : string)
    (fmt : ExportFormat) : result HTTPException Response :=
  match get_job db job_id with
  | None =>
      Err {| status_code := 404;
             detail := "Job " +:+ job_id +:+ " not found" |}
  | Some job =>
      if negb (String.eqb (status job) (JobStatus_value DONE)) then
        Err {| status_code := 409;
               detail := "Transcript not ready. Job status: " +:+ status job |}
      else
        let transcript := get_transcript db job_id in
        match export_segments fs transcript job_id with
        | Err e => Err e
        | Ok segments =>
            match export_text fs transcript job_id with
            | Err e => Err e
            | Ok text' =>
                if Py.is_empty segments && negb (Py.truthy text') then
                  Err {| status_code := 404;
                         detail := "Transcript data not found" |}
                else export_content job job_id text' segments fmt
            end
        end
  end.
End Routes.

End ExportRoute.

(** ** api/routes/jobs.py *)

Module JobsRoute.
Import Models Database.

Section Routes.
Variable OUTPUTS_DIR : string.

Definition get_transcript (db : DB) (fs : FS) (job_id : string)
    : result HTTPException TranscriptResponse :=
  match get_job db job_id with
  | None =>
      Err {| status_code := 404;
             detail := "Job " +:+ job_id +:+ " not found" |}
  | Some job =>
      if negb (String.eqb (status job) (JobStatus_value DONE)) then
        Err {| status_code := 409;
               detail := "Transcript not ready. Job status: " +:+ status job |}
      else
        let transcript := Database.get_transcript db job_id in
        let finish (text' : string) (segments : list TranscriptSegment)
            (edited : bool) (last_edited : option string) :=
          if negb (Py.truthy text') && Py.is_empty segments then
            Err {| status_code := 404; detail := "Transcript files not found" |}
          else
            Ok {| Models.job_id := job_id; resp_text := text';
                  Models.segments := segments; Models.edited := edited;
                  Models.last_edited_at := last_edited |} in
        let last_edited (t : TranscriptRow) :=
          match Database.last_edited_at t with
          | Some at_ => if Py.truthy at_ then Some at_ else None
          | None => None
          end in
        let original :=
          match load_transcript_text OUTPUTS_DIR fs job_id with
          | Err e => Err e
          | Ok text' =>
              match load_transcript_segments OUTPUTS_DIR fs job_id with
              | Err e => Err e
              | Ok segments => finish text' segments false None
              end
          end in
        match transcript with
        | Some t =>
            match edited_text t with
            | Some text' =>
                if Py.truthy text' then
                  match edited_segments_json t with
                  | Some segments_data =>
                      finish text' segments_data true (last_edited t)
                  | None =>
                      match load_transcript_segments OUTPUTS_DIR fs job_id with
                      | Err e => Err e
                      | Ok segments =>
                          finish text' segments true (last_edited t)
                      end
                  end
                else original
            | None => original
            end
        | None => original
        end
  end.

(** [save_transcript]: the POST route; [now] is the clock reading. *)
Definition save_transcript (db : DB) (job_id : string) (request_text : string)
    (request_segments : option (list TranscriptSegment)) (now : string)
    : result HTTPException DB :=
  match get_job db job_id with
  | None =>
      Err {| status_code := 404;
             detail := "Job " +:+ job_id +:+ " not found" |}
  | Some job =>
      if negb (String.eqb (status job) (JobStatus_value DONE)) then
        Err {| status_code := 409;
               detail := "Cannot edit transcript for incomplete job" |}
      else
        let segments_data :=
          match request_segments with
          | Some ((_ :: _) as l) => Some l
          | _ => None
          end in
        Ok (save_transcript_edits db job_id request_text segments_data now)
  end.
End Routes.

End JobsRoute.

(** ** Exceptions of the worker *)

Inductive exn : Type :=
| YouTubeNoCaptionsError (msg : string)
| YouTubeDurationExceededError (msg : string)
| YouTubeHandlerError (msg : string)
| AudioProcessorError (msg : string)
| TranscriberError (msg : string)
| FileNotFoundError (msg : string)
| ValueError (msg : string)
| TypeError (msg : string)
| OtherException (msg : string).

(** [str(e)] *)
Definition exn_str (e : exn) : string :=
  match e with
  | YouTubeNoCaptionsError m | YouTubeDurationExceededError m
  | YouTubeHandlerError m | AudioProcessorError m | TranscriberError m
  | FileNotFoundError m | ValueError m | TypeError m | OtherException m => m
  end.

(** ** worker/transcriber.py *)

Module Transcriber.

Record TranscriptSegment := {
  start : Q;
  end_ : Q;
  text : string
}.

Record TranscriptionResult := {
  segments : list TranscriptSegment;
  language : string;
  language_probability : Q;
  duration : Q
}.

Definition VALID_MODELS : list string :=
  ["tiny"; "base"; "small"; "medium"; "large-v2"; "large-v3"].

Record Transcriber := {
  model_size : string;
  device : string;
  compute_type : string
}.

(** [Transcriber.__init__] *)
Definition __init__ (model_size' device' : string) : result exn Transcriber :=
  if bool_decide (model_size' ∈ VALID_MODELS) then
    Ok {| model_size := model_size'; device := device'; compute_type := "auto" |}
  else
    Err (TranscriberError ("Invalid model: " +:+ model_size' +:+ ". Valid: "
                             +:+ Py.join ", " VALID_MODELS)).

End Transcriber.

(** ** The worker: worker/main.py with audio_processor.py and
  youtube_handler.py *)

Module Worker.
Import Database.

Record Config := {
  DATA_DIR : string;
  WHISPER_MODEL : string;
  WHISPER_DEVICE : string;
  YOUTUBE_AUTO_INGEST_ENABLED : bool;
  YOUTUBE_MAX_DURATION : Z
}.

Definition UPLOADS_DIR (cfg : Config) : string := path_join (DATA_DIR cfg) "uploads".
Definition OUTPUTS_DIR (cfg : Config) : string := path_join (DATA_DIR cfg) "outputs".

Record MediaInfo := {
  media_duration : Q;
  has_audio : bool
}.

Record YouTubeVideoInfo := {
  video_id : string;
  title : string;
  yt_duration : Z;
  channel : string
}.

Record CaptionSegment := {
  cap_start : Q;
  cap_end : Q;
  cap_text : string
}.

(** What one [subprocess.run] of ffmpeg did. *)
Inductive FfmpegOutcome :=
  | FfCompleted (returncode : Z) (stderr : string) (wrote_output : bool)
  | FfTimeout (wrote_partial : bool)
  | FfNotInstalled.

(** The external engines.  Every call is indexed by the number of
  engine calls made before it, so that an engine may answer
  differently each time. *)
Record Engines := {
  utcnow : nat -> string;
  ffmpeg_version : nat -> result exn unit;
  ffprobe : nat -> string -> result exn MediaInfo;
  ffmpeg : nat -> string -> string -> FfmpegOutcome;
  whisper : nat -> Transcriber.Transcriber -> string -> option string
            -> result string Transcriber.TranscriptionResult;
  yt_info : nat -> string -> result exn YouTubeVideoInfo;
  yt_captions : nat -> string -> string -> result exn (list CaptionSegment);
  yt_download : nat -> string -> result exn string
}.

(** What the pipelines can touch: files, the engines' clock and the
  lazily built components of the [Worker] object. *)
Record Sys := {
  fs : FS;
  tick : nat;
  _audio_processor : bool;
  _transcriber : option Transcriber.Transcriber
}.

Definition M (A : Type) : Type := Sys -> result exn A * Sys.

Definition ret {A} (a : A) : M A := fun s => (Ok a, s).
Definition raise {A} (e : exn) : M A := fun s => (Err e, s).
Definition bind {A B} (m : M A) (k : A -> M B) : M B :=
  fun s =>
    match m s with
    | (Ok a, s') => k a s'
    | (Err e, s') => (Err e, s')
    end.

Declare Scope worker_scope.
Delimit Scope worker_scope with worker.
Notation "x <- m ;; k" := (bind m (fun x => k))
  (at level 100, m at next level, right associativity) : worker_scope.
Notation "m ;;; k" := (bind m (fun _ => k))
  (at level 100, right associativity) : worker_scope.
Local Open Scope worker_scope.

(** One engine call: read the clock, advance it. *)
Definition call {A} (f : nat -> A) : M A :=
  fun s => (Ok (f (tick s)),
            {| fs := fs s; tick := S (tick s);
               _audio_processor := _audio_processor s;
               _transcriber := _transcriber s |}).

Definition exists_ (path : string) : M bool :=
  fun s => (Ok (bool_decide (is_Some (fs s !! path))), s).

Definition with_fs (f : FS -> FS) (s : Sys) : Sys :=
  {| fs := f (fs s); tick := tick s;
     _audio_processor := _audio_processor s;
     _transcriber := _transcriber s |}.

Definition write_file (path : string) (c : file_content) : M unit :=
  fun s => (Ok tt, with_fs (insert path c) s).

(** [path.unlink()] inside [try: ... except Exception: pass], and
  [os.remove] guarded by [os.path.exists]: the file is gone afterwards. *)
Definition unlink (path : string) : M unit :=
  fun s => (Ok tt, with_fs (delete path) s).

(** [try: body finally: cleanup], for a cleanup that does not raise. *)
Definition try_finally {A} (body : M A) (cleanup : M unit) : M A :=
  fun s =>
    let '(r, s') := body s in
    let '(_, s'') := cleanup s' in
    (r, s'').

Section Pipelines.
Variable fl : Q -> Q.
Variable cfg : Config.
Variable eng : Engines.

  (** *** audio_processor.py *)

(** The [audio_processor] property: build (and verify ffmpeg) once. *)
Definition audio_processor : M unit :=
  fun s =>
    if _audio_processor s then (Ok tt, s)
    else
      match call (ffmpeg_version eng) s with
      | (Ok (Ok tt), s') =>
          (Ok tt, {| fs := fs s'; tick := tick s';
                     _audio_processor := true;
                     _transcriber := _transcriber s' |})
      | (Ok (Err e), s') => (Err e, s')
      | (Err e, s') => (Err e, s')
      end.

Definition get_media_info (input_path : string) : M MediaInfo :=
  present <- exists_ input_path ;;
  if negb present then
    raise (AudioProcessorError ("File not found: " +:+ input_path))
  else
    r <- call (fun t => ffprobe eng t input_path) ;;
    match r with
    | Ok info => ret info
    | Err e => raise e
    end.

Definition normalize_audio (input_path output_path : string) : M string :=
    present <- exists_ input_path ;;
    if negb present then
      raise (AudioProcessorError ("Input file not found: " +:+ input_path))
    else
      info <- get_media_info input_path ;;
      if negb (has_audio info) then
        raise (AudioProcessorError "Input file has no audio track")
      else
        outcome <- call (fun t => ffmpeg eng t input_path output_path) ;;
        match outcome with
        | FfCompleted returncode stderr wrote =>
            (if wrote then write_file output_path MediaFile else ret tt) ;;;
            if negb (returncode =? 0)%Z then
              raise (AudioProcessorError ("ffmpeg conversion failed: " +:+ stderr))
            else
              created <- exists_ output_path ;;
              if negb created then
                raise (AudioProcessorError
                         "ffmpeg completed but output file not created")
              else ret output_path
        | FfTimeout wrote =>
            (if wrote then write_file output_path MediaFile else ret tt) ;;;
            (* Clean up partial output *)
            unlink output_path ;;;
            raise (AudioProcessorError "Audio processing timed out")
        | FfNotInstalled =>
            raise (FileNotFoundError "ffmpeg")
        end.

  (** *** transcriber.py *)

(** The [transcriber] property: the default-model instance, built once. *)
Definition transcriber : M Transcriber.Transcriber :=
  fun s =>
    match _transcriber s with
    | Some t => (Ok t, s)
    | None =>
        match Transcriber.__init__ (WHISPER_MODEL cfg) (WHISPER_DEVICE cfg) with
        | Ok t => (Ok t, {| fs := fs s; tick := tick s;
                            _audio_processor := _audio_processor s;
                            _transcriber := Some t |})
        | Err e => (Err e, s)
        end
    end.

(** [Transcriber.transcribe]; model loading and the engine call both
  end in [TranscriberError], so the engine's answer stands for both. *)
Definition transcribe (t : Transcriber.Transcriber) (audio_path : string)
      (language : option string) : M Transcriber.TranscriptionResult :=
    present <- exists_ audio_path ;;
    if negb present then
      raise (TranscriberError ("Audio file not found: " +:+ audio_path))
    else
      r <- call (fun k => whisper eng k t audio_path language) ;;
      match r with
      | Ok res => ret res
      | Err msg => raise (TranscriberError msg)
      end.

  (** *** youtube_handler.py *)

Definition get_video_info (url : string) : M YouTubeVideoInfo :=
  r <- call (fun t => yt_info eng t url) ;;
  match r with
  | Ok info => ret info
  | Err e => raise e
  end.

Definition check_duration_limit (url : string) : M YouTubeVideoInfo :=
  info <- get_video_info url ;;
  if (yt_duration info >? YOUTUBE_MAX_DURATION cfg)%Z then
    raise (YouTubeDurationExceededError
             ("Video duration (" +:+ Py.str (yt_duration info)
                +:+ "s) exceeds limit"))
  else ret info.

Definition fetch_captions (url language : string) : M (list CaptionSegment) :=
  r <- call (fun t => yt_captions eng t url language) ;;
  match r with
  | Ok segs => ret segs
  | Err e => raise e
  end.

(** [download_audio]: on success the returned path exists. *)
Definition download_audio (url : string) : M string :=
  info <- check_duration_limit url ;;
  r <- call (fun t => yt_download eng t url) ;;
  match r with
  | Ok path => write_file path MediaFile ;;; ret path
  | Err e => raise e
  end.

Definition cleanup_download (file_path : string) : M unit :=
    unlink file_path.

  (** *** main.py: the three pipelines *)

(** The dict returned by [get_next_job]. *)
Record Job := {
  id : string;
  job_type : string;
  source_url : option string;
  original_filename : option string;
  stored_filename : option string;
  model : string;
  language : string
}.

Definition to_segment (s : Transcriber.TranscriptSegment)
    : OutputFormatter.Segment :=
  {| OutputFormatter.start := Transcriber.start s;
     OutputFormatter.end_ := Transcriber.end_ s;
     OutputFormatter.text := Transcriber.text s |}.

Definition caption_to_segment (s : CaptionSegment) : OutputFormatter.Segment :=
  {| OutputFormatter.start := cap_start s;
     OutputFormatter.end_ := cap_end s;
     OutputFormatter.text := cap_text s |}.

Definition generate_all (output_dir : string)
    (segments : list OutputFormatter.Segment)
    (metadata : list (string * json)) : M OutputFormatter.Paths :=
  fun s =>
    let '(fs', paths) :=
      OutputFormatter.generate_all fl output_dir segments "transcript"
        (Some metadata) (fs s) in
    (Ok paths, with_fs (fun _ => fs') s).

(** "Use job-specific model if different from default" *)
Definition select_transcriber (model' : string) : M Transcriber.Transcriber :=
  if negb (String.eqb model' (WHISPER_MODEL cfg)) then
    match Transcriber.__init__ model' (WHISPER_DEVICE cfg) with
    | Ok t => ret t
    | Err e => raise e
    end
  else transcriber.

Definition opt_str (o : option string) : json :=
  match o with Some s => JStr s | None => JNull end.

Definition normalized_path_of (job_id : string) : string :=
  path_join (path_join (OUTPUTS_DIR cfg) job_id) "audio_normalized.wav".

Definition process_file_upload (job : Job) : M OutputFormatter.Paths :=
  let job_id := id job in
  let model' := model job in
  let language' := Some (language job) in
  match stored_filename job with
  | None => raise (TypeError "unsupported operand type(s) for /")
  | Some stored =>
      let input_path := path_join (UPLOADS_DIR cfg) stored in
      let job_output_dir := path_join (OUTPUTS_DIR cfg) job_id in
      let normalized_path := path_join job_output_dir "audio_normalized.wav" in
      present <- exists_ input_path ;;
      if negb present then
        raise (FileNotFoundError ("Uploaded file not found: " +:+ input_path))
      else
        (* Step 1: Normalize audio *)
        audio_processor ;;;
        normalize_audio input_path normalized_path ;;;
        (* Step 2: Transcribe *)
        t <- select_transcriber model' ;;
        result <- transcribe t normalized_path language' ;;
        (* Step 3: Generate outputs *)
        let segments := map to_segment (Transcriber.segments result) in
        paths <- generate_all job_output_dir segments
          [("job_id", JStr job_id);
           ("model", JStr model');
           ("language", JStr (Transcriber.language result));
           ("language_probability",
             JFloat (Transcriber.language_probability result));
           ("duration", JFloat (Transcriber.duration result));
           ("original_filename", opt_str (original_filename job))] ;;
        (* Cleanup normalized audio (keep only transcripts) *)
        unlink normalized_path ;;;
        ret paths
  end.

Definition process_youtube_captions (job : Job) : M OutputFormatter.Paths :=
  let job_id := id job in
  match source_url job with
  | Some source_url' =>
      if negb (Py.truthy source_url') then
        raise (ValueError "YouTube job missing source_url")
      else
        (* Setup output directory: the mkdir makes a directory, no file *)
        let job_output_dir := path_join (OUTPUTS_DIR cfg) job_id in
        (* Step 1: Fetch captions *)
        let language' :=
          if Py.truthy (language job) then language job else "en" in
        caption_segments <- fetch_captions source_url' language' ;;
        video_info <- get_video_info source_url' ;;
        (* Step 2: Convert to our segment format *)
        let segments := map caption_to_segment caption_segments in
        (* Step 3: Generate outputs *)
        generate_all job_output_dir segments
          [("job_id", JStr job_id);
           ("source", JStr "youtube_captions");
           ("video_id", JStr (video_id video_info));
           ("title", JStr (title video_info));
           ("channel", JStr (channel video_info));
           ("duration", JInt (yt_duration video_info));
           ("source_url", JStr source_url')]
  | None => raise (ValueError "YouTube job missing source_url")
  end.

Definition process_youtube_auto_ingest (job : Job) : M OutputFormatter.Paths :=
  if negb (YOUTUBE_AUTO_INGEST_ENABLED cfg) then
    raise (ValueError "YouTube auto-ingest is disabled. Set YOUTUBE_AUTO_INGEST=true to enable.")
  else
    let job_id := id job in
    let model' := model job in
    let language' := Some (language job) in
    match source_url job with
    | Some source_url' =>
        if negb (Py.truthy source_url') then
          raise (ValueError "YouTube job missing source_url")
        else
          let job_output_dir := path_join (OUTPUTS_DIR cfg) job_id in
          let normalized_path := path_join job_output_dir "audio_normalized.wav" in
          fun s =>
            (* try: up to the assignment of [downloaded_path] *)
            match (video_info <- check_duration_limit source_url' ;;
                   downloaded_path <- download_audio source_url' ;;
                   ret (video_info, downloaded_path)) s with
            | (Err e, s1) =>
                (* finally, with [downloaded_path = None] *)
                try_finally (raise e) (unlink normalized_path) s1
            | (Ok (video_info, downloaded_path), s1) =>
                try_finally
                  ((* Step 3: Normalize audio *)
                   audio_processor ;;;
                   normalize_audio downloaded_path normalized_path ;;;
                   (* Step 4: Transcribe *)
                   t <- select_transcriber model' ;;
                   result <- transcribe t normalized_path language' ;;
                   (* Step 5: Generate outputs *)
                   let segments := map to_segment (Transcriber.segments result) in
                   generate_all job_output_dir segments
                     [("job_id", JStr job_id);
                      ("source", JStr "youtube_auto_ingest");
                      ("model", JStr model');
                      ("language", JStr (Transcriber.language result));
                      ("language_probability",
                        JFloat (Transcriber.language_probability result));
                      ("video_id", JStr (video_id video_info));
                      ("title", JStr (title video_info));
                      ("channel", JStr (channel video_info));
                      ("duration", JInt (yt_duration video_info));
                      ("source_url", JStr source_url')])
                  ((* finally: cleanup temporary files *)
                   (if Py.truthy downloaded_path
                    then cleanup_download downloaded_path else ret tt) ;;;
                   unlink normalized_path)
                  s1
            end
    | None => raise (ValueError "YouTube job missing source_url")
    end.

End Pipelines.

  (** *** main.py: the dispatcher *)

(** The store, the rest of the system, and the lines
  "Job {job_id}: status -> {status}" that [update_job_status] logs,
  oldest first. *)
Record World := {
  db : DB;
  sys : Sys;
  log : list (string * string)
}.

Section Dispatcher.
Variable fl : Q -> Q.
Variable cfg : Config.
Variable eng : Engines.

(** [SELECT ... WHERE status = 'queued'] *)
Definition queued_rows (jobs : gmap string JobRow) : list (string * JobRow) :=
  filter (fun r => status r.2 = "queued") (map_to_list jobs).

(** [ORDER BY created_at ASC LIMIT 1]: the first row of the sorted
  result, text compared byte by byte.  (Among rows of one and the same
  [created_at], SQLite returns the one it meets first and this function
  the first in key order; nothing proved below depends on which.) *)
Fixpoint oldest (rows : list (string * JobRow)) : option (string * JobRow) :=
  match rows with
  | [] => None
  | r :: rest =>
      match oldest rest with
      | None => Some r
      | Some r' =>
          if String.leb (created_at r.2) (created_at r'.2)
          then Some r else Some r'
      end
  end.

Definition get_next_job (d : DB) : option Job :=
  match oldest (queued_rows (jobs d)) with
  | None => None
  | Some (job_id, row) =>
      Some {| id := job_id;
              job_type := Database.job_type row;
              source_url := Database.source_url row;
              original_filename := Database.original_filename row;
              stored_filename := Database.stored_filename row;
              model := if Py.truthy (Database.model row)
                       then Database.model row else WHISPER_MODEL cfg;
              language := Database.language row |}
  end.

(** One clock reading for [datetime.utcnow()]. *)
Definition now (w : World) : string * World :=
  (utcnow eng (tick (sys w)),
   {| db := db w;
      sys := {| fs := fs (sys w); tick := S (tick (sys w));
                _audio_processor := _audio_processor (sys w);
                _transcriber := _transcriber (sys w) |};
      log := log w |}).

Definition update_job_status (job_id status' : string)
    (error_message' : option string) (w : World) : World :=
  let '(t, w) := now w in
  let upd :=
    match error_message' with
    | Some msg =>
        if Py.truthy msg
        then set_status_error status' (String.substring 0 1000 msg) t
        else set_status status' t
    | None => set_status status' t
    end in
  {| db := {| jobs := alter upd job_id (jobs (db w));
              transcripts := transcripts (db w) |};
     sys := sys w;
     log := log w ++ [(job_id, status')] |}.

Definition save_transcript_paths (job_id : string)
    (paths : OutputFormatter.Paths) (w : World) : World :=
  let row :=
    match transcripts (db w) !! job_id with
    | Some existing =>
        {| segments_json_path := Some (OutputFormatter.json_path paths);
           plain_text_path := Some (OutputFormatter.txt_path paths);
           srt_path := Some (OutputFormatter.srt_path paths);
           vtt_path := Some (OutputFormatter.vtt_path paths);
           edited_text := edited_text existing;
           edited_segments_json := edited_segments_json existing;
           last_edited_at := last_edited_at existing |}
    | None =>
        {| segments_json_path := Some (OutputFormatter.json_path paths);
           plain_text_path := Some (OutputFormatter.txt_path paths);
           srt_path := Some (OutputFormatter.srt_path paths);
           vtt_path := Some (OutputFormatter.vtt_path paths);
           edited_text := None;
           edited_segments_json := None;
           last_edited_at := None |}
    end in
  {| db := {| jobs := jobs (db w);
              transcripts := <[job_id := row]> (transcripts (db w)) |};
     sys := sys w;
     log := log w |}.

(** "Route to appropriate handler" *)
Definition route (job : Job) : M OutputFormatter.Paths :=
  if String.eqb (job_type job) "file_upload" then
    process_file_upload fl cfg eng job
  else if String.eqb (job_type job) "youtube_captions" then
    process_youtube_captions fl cfg eng job
  else if String.eqb (job_type job) "youtube_auto_ingest" then
    process_youtube_auto_ingest fl cfg eng job
  else raise (ValueError ("Unknown job type: " +:+ job_type job)).

(** The [except] clauses of [process_job], in source order. *)
Definition failure_message (e : exn) : string :=
  match e with
  | YouTubeNoCaptionsError m =>
      "No captions available. Please upload a file instead. (" +:+ m +:+ ")"
  | YouTubeDurationExceededError m => m
  | AudioProcessorError m | TranscriberError m | YouTubeHandlerError m => m
  | FileNotFoundError m => "File not found: " +:+ m
  | ValueError m | TypeError m | OtherException m => "Unexpected error: " +:+ m
  end.

Definition process_job (job : Job) (w : World) : World :=
  let job_id := id job in
  (* Mark as running *)
  let w := update_job_status job_id "running" None w in
  match route job (sys w) with
  | (Ok paths, s') =>
      let w := {| db := db w; sys := s'; log := log w |} in
      (* Save transcript paths *)
      let w := save_transcript_paths job_id paths w in
      (* Mark as done *)
      update_job_status job_id "done" None w
  | (Err e, s') =>
      let w := {| db := db w; sys := s'; log := log w |} in
      update_job_status job_id "failed" (Some (failure_message e)) w
  end.

(** One iteration of the [while self.running] loop of [run]; when no
  job is queued the worker sleeps and the world is unchanged. *)
Definition run_once (w : World) : World :=
  match get_next_job (db w) with
  | Some job => process_job job w
  | None => w
  end.

(** [n] iterations of the loop, for the worker on its own: nothing else
  writes to the store between two of its steps.  (The API process does
  write to it: [YouTubeRoute.handle_safe_mode].) *)
Fixpoint run (n : nat) (w : World) : World :=
  match n with
  | O => w
  | S n' => run n' (run_once w)
  end.

End Dispatcher.

(** The status lines logged for one job, oldest first. *)
Definition statuses_of (job_id : string) (l : list (string * string))
    : list string :=
  map snd (filter (fun e => e.1 = job_id) l).

(** The cached default transcriber, if any, was built by [__init__]
  from [WHISPER_MODEL]. *)
Definition cache_consistent (cfg : Config) (s : Sys) : Prop :=
  forall t, _transcriber s = Some t ->
    Transcriber.__init__ (WHISPER_MODEL cfg) (WHISPER_DEVICE cfg) = Ok t.

(** A step that leaves the cached transcriber as it was. *)
Definition keeps_transcriber {A} (m : M A) : Prop :=
  forall s, _transcriber (m s).2 = _transcriber s.

(** A computation that raises from every consistent state. *)
Definition always_fails {A} (cfg : Config) (m : M A) : Prop :=
  forall s, cache_consistent cfg s -> exists e, (m s).1 = Err e.

(** A worker that has not built any component yet. *)
Definition fresh (files : FS) : Sys :=
  {| fs := files; tick := 0; _audio_processor := false; _transcriber := None |}.
End Worker.

(** ** The formats as the specification words them *)

Module Spec.
Import OutputFormatter.

(** The exact product whose rounding becomes the milliseconds field. *)
Definition millis_arg (seconds : Q) : Q := (Py.mod_ seconds 1 * 1000)%Q.

(** A time stamp [HH:MM:SS<sep>mmm] from the four floors. *)
Definition timestamp (fl : Q -> Q) (sep : string) (seconds : Q) : string :=
  let hh := Qfloor (seconds / 3600) in
  let mm := Qfloor (Py.mod_ seconds 3600 / 60) in
  let ss := Qfloor (Py.mod_ seconds 60) in
  let mmm := Qfloor (fl (millis_arg seconds)) in
  Py.format_d 2 hh +:+ ":" +:+ Py.format_d 2 mm +:+ ":" +:+ Py.format_d 2 ss
    +:+ sep +:+ Py.format_d 3 mmm.

(** One SRT block: index line, timing line, text line. *)
Definition srt_block (fl : Q -> Q) (b : nat * Segment) : string :=
  Py.str_N (N.of_nat b.1) +:+ Py.NL
    +:+ _format_srt_time fl (start b.2) +:+ " --> "
    +:+ _format_srt_time fl (end_ b.2) +:+ Py.NL
    +:+ _clean_text_for_subtitles (text b.2) +:+ Py.NL.

(** One VTT block: timing line, text line. *)
Definition vtt_block (fl : Q -> Q) (seg : Segment) : string :=
  _format_vtt_time fl (start seg) +:+ " --> "
    +:+ _format_vtt_time fl (end_ seg) +:+ Py.NL
    +:+ _clean_text_for_subtitles (text seg) +:+ Py.NL.

(** A segment is emitted when its cleaned text is not empty. *)
Definition emitted (seg : Segment) : Prop :=
  _clean_text_for_subtitles (text seg) <> "".

#[global] Instance emitted_dec seg : Decision (emitted seg).
Proof. unfold emitted. apply _. Defined.

(** Blocks, each one after a blank line. *)
Definition each_after_blank_line (blocks : list string) : string :=
  fold_right (fun b rest => Py.NL +:+ b +:+ rest) "" blocks.

(** The export route's blocks: every segment, text as stored. *)
Definition export_timing (t : Q -> string) (seg : Models.TranscriptSegment)
    : string :=
  t (Models.start seg) +:+ " --> " +:+ t (Models.end_ seg).

Definition export_block (t : Q -> string) (b : nat * Models.TranscriptSegment)
    : string :=
  Py.str_N (N.of_nat b.1) +:+ Py.NL +:+ export_timing t b.2 +:+ Py.NL
    +:+ Models.text b.2 +:+ Py.NL.

(** Strings of whitespace only. *)
Fixpoint all_space (s : string) : bool :=
  match s with
  | "" => true
  | String c s' => Py.isspace c && all_space s'
  end.

(** The first character, if any, is not whitespace. *)
Definition no_leading_space (s : string) : bool :=
  match s with
  | "" => true
  | String c _ => negb (Py.isspace c)
  end.

(** The last character, if any, is not whitespace. *)
Fixpoint no_trailing_space (s : string) : bool :=
  match s with
  | "" => true
  | String c "" => negb (Py.isspace c)
  | String _ s' => no_trailing_space s'
  end.

Definition is_digit (c : ascii) : bool :=
  let n := N_of_ascii c in ((48 <=? n) && (n <=? 57))%N.

(** Strings of decimal digits. *)
Fixpoint digits (s : string) : bool :=
  match s with
  | "" => true
  | String c s' => is_digit c && digits s'
  end.

(** [c in s] *)
Fixpoint contains (c : ascii) (s : string) : bool :=
  match s with
  | "" => false
  | String a s' => Ascii.eqb a c || contains c s'
  end.

(** [s.split(c)] for a one-character separator. *)
Fixpoint split_on (c : ascii) (s : string) : list string :=
  match s with
  | "" => [""]
  | String a s' =>
      if Ascii.eqb a c then "" :: split_on c s'
      else match split_on c s' with
           | w :: ws => String a w :: ws
           | [] => [String a ""]
           end
  end.

(** [int(s)] for a string of decimal digits. *)
Definition parse_N (s : string) : option N :=
  N.of_uint <$> NilZero.uint_of_string s.

(** Reading a time stamp back:
  [hours*3600 + minutes*60 + secs + millis/1000]. *)
Definition parse_timestamp (sep : ascii) (s : string) : option Q :=
  match split_on ":" s with
  | [hh; mm; rest] =>
      match split_on sep rest with
      | [ss; mmm] =>
          match parse_N hh, parse_N mm, parse_N ss, parse_N mmm with
          | Some hours, Some minutes, Some secs, Some millis =>
              Some (inject_Z (Z.of_N hours) * 3600
                    + inject_Z (Z.of_N minutes) * 60
                    + inject_Z (Z.of_N secs)
                    + inject_Z (Z.of_N millis) / 1000)%Q
          | _, _, _, _ => None
          end
      | _ => None
      end
  | _ => None
  end.

End Spec.


(** ** Sample data *)

Module Examples.
Import Models Database.

Definition OUT : string := "data/outputs".

Definition done_job : JobRow :=
  {| job_type := "file_upload"; source_url := None;
     original_filename := Some "talk.mp3";
     stored_filename := Some "ab12cd34_talk.mp3";
     status := "done";
     created_at := "2024-05-01T10:00:00";
     updated_at := "2024-05-01T10:03:00";
     model := "small"; language := "auto"; error_message := None |}.

Definition db_done : DB :=
  {| jobs := {[ "job-1" := done_job ]}; transcripts := ∅ |}.

Definition generated : TranscriptSegment :=
  {| id := 0; start := 0; end_ := 5 # 2; text := "generated words" |}.

Definition edited_seg : TranscriptSegment :=
  {| id := 0; start := 0; end_ := 5 # 2; text := "edited words" |}.

(** A job directory holding only the plain text. *)
Definition fs_text_only : FS :=
  {[ "data/outputs/job-1/transcript.txt" := TextFile "generated text" ]}.

(** A job directory holding the text and the segments. *)
Definition fs_generated : FS :=
  <[ "data/outputs/job-1/segments.json" := JsonFile (JList [model_dump generated]) ]>
    fs_text_only.

Definition upload (created model' : string) : JobRow :=
    {| job_type := "file_upload"; source_url := None;
       original_filename := Some "talk.mp3";
       stored_filename := Some "ab12cd34_talk.mp3";
       status := "queued"; created_at := created; updated_at := created;
       model := model'; language := "en"; error_message := None |}.

  (** *** A worker and its engines *)

Import Worker.

Definition cfg : Config :=
  {| DATA_DIR := "data"; WHISPER_MODEL := "small"; WHISPER_DEVICE := "auto";
     YOUTUBE_AUTO_INGEST_ENABLED := false; YOUTUBE_MAX_DURATION := 3600 |}.

(** ffmpeg works and writes its output; the recognizer fails. *)
Definition eng_recognizer_fails : Engines :=
  {| utcnow := fun _ => "2024-05-01T10:05:00";
     ffmpeg_version := fun _ => Ok tt;
     ffprobe := fun _ _ => Ok {| media_duration := 60; has_audio := true |};
     ffmpeg := fun _ _ _ => FfCompleted 0 "" true;
     whisper := fun _ _ _ _ => Err "Transcription failed: engine crashed";
     yt_info := fun _ _ => Err (YouTubeHandlerError "Timeout fetching video info");
     yt_captions := fun _ _ _ => Err (YouTubeNoCaptionsError "No captions available");
     yt_download := fun _ _ => Err (YouTubeHandlerError "Download failed") |}.

(** Every engine works; the recognizer hears one sentence. *)
Definition eng_ok : Engines :=
  {| utcnow := fun _ => "2024-05-01T10:05:00";
     ffmpeg_version := fun _ => Ok tt;
     ffprobe := fun _ _ => Ok {| media_duration := 60; has_audio := true |};
     ffmpeg := fun _ _ _ => FfCompleted 0 "" true;
     whisper := fun _ _ _ _ =>
       Ok {| Transcriber.segments :=
               [{| Transcriber.start := 0; Transcriber.end_ := 5 # 2;
                   Transcriber.text := " Hello world" |}];
             Transcriber.language := "en";
             Transcriber.language_probability := 99 # 100;
             Transcriber.duration := 5 # 2 |};
     yt_info := fun _ _ => Err (YouTubeHandlerError "Timeout fetching video info");
     yt_captions := fun _ _ _ => Err (YouTubeNoCaptionsError "No captions available");
     yt_download := fun _ _ => Err (YouTubeHandlerError "Download failed") |}.

Definition uploads : FS := {[ "data/uploads/ab12cd34_talk.mp3" := MediaFile ]}.

(** One queued upload. *)
Definition world_one : World :=
  {| db := {| jobs := {[ "job-2" := upload "2024-05-01T10:04:00" "small" ]};
              transcripts := ∅ |};
     sys := fresh uploads; log := [] |}.

(** One queued upload asking for the model "large". *)
Definition world_large : World :=
  {| db := {| jobs := {[ "job-3" := upload "2024-05-01T10:04:00" "large" ]};
              transcripts := ∅ |};
     sys := fresh uploads; log := [] |}.

(** Three queued uploads, inserted out of order. *)
Definition world_three : World :=
  {| db := {| jobs := {[ "job-b" := upload "2024-05-01T10:02:00" "small";
                         "job-c" := upload "2024-05-01T10:03:00" "small";
                         "job-a" := upload "2024-05-01T10:01:00" "small" ]};
              transcripts := ∅ |};
     sys := fresh uploads; log := [] |}.

End Examples.

(** ** api/database.py: the writes of the API *)

Module DatabaseWrites.
Import Models Database.

(** [create_job]; [uuid4] is the id drawn and [now] the clock reading.
  The INSERT fails on a PRIMARY KEY that is taken. *)
Definition create_job (db : DB) (uuid4 now : string) (job_type' : JobType)
    (model' : ModelSize) (language' : string)
    (original_filename' stored_filename' source_url' : option string)
    : result exn (string * DB) :=
  let job_id := uuid4 in
  match jobs db !! job_id with
  | Some _ => Err (OtherException "UNIQUE constraint failed: jobs.id")
  | None =>
      let row :=
        {| job_type := JobType_value job_type'; source_url := source_url';
           original_filename := original_filename';
           stored_filename := stored_filename';
           status := JobStatus_value QUEUED;
           created_at := now; updated_at := now;
           model := ModelSize_value model'; language := language';
           error_message := None |} in
      Ok (job_id,
          {| jobs := <[job_id := row]> (jobs db);
             transcripts := transcripts db |})
  end.

(** [update_job_status] of the API: the message is stored whole. *)
Definition update_job_status (db : DB) (job_id : string) (status' : JobStatus)
    (error_message' : option string) (now : string) : DB :=
  let upd :=
    match error_message' with
    | Some msg =>
        if Py.truthy msg
        then set_status_error (JobStatus_value status') msg now
        else set_status (JobStatus_value status') now
    | None => set_status (JobStatus_value status') now
    end in
  {| jobs := alter upd job_id (jobs db); transcripts := transcripts db |}.

(** [create_transcript_record]: an INSERT, which fails on a job that has
  a record. *)
Definition create_transcript_record (db : DB) (job_id : string)
    (segments_json_path' plain_text_path' srt_path' vtt_path' : string)
    : result exn DB :=
  match transcripts db !! job_id with
  | Some _ => Err (OtherException "UNIQUE constraint failed: transcripts.job_id")
  | None =>
      Ok {| jobs := jobs db;
            transcripts :=
              <[job_id := {| segments_json_path := Some segments_json_path';
                             plain_text_path := Some plain_text_path';
                             srt_path := Some srt_path';
                             vtt_path := Some vtt_path';
                             edited_text := None;
                             edited_segments_json := None;
                             last_edited_at := None |}]> (transcripts db) |}
  end.

(** [os.path.basename]: what follows the last slash. *)
Fixpoint basename (p : string) : string :=
  match p with
  | "" => ""
  | String c p' =>
      if Ascii.eqb c "/" then basename p'
      else if Spec.contains "/" p' then basename p'
      else p
  end.

(** The characters [c] of [s] with [c.isalnum() or c in extra], joined. *)
Fixpoint keep_name_chars (extra : string) (s : string) : string :=
  match s with
  | "" => ""
  | String c s' =>
      if isalnum c || Spec.contains c extra
      then String c (keep_name_chars extra s')
      else keep_name_chars extra s'
  end.

(** [get_safe_upload_path]; [hex8] is [uuid.uuid4().hex[:8]]. *)
Definition get_safe_upload_path (UPLOADS_DIR hex8 filename : string) : string :=
  let basename' := basename filename in
  let safe_name := keep_name_chars ".-_" basename' in
  let safe_name := if negb (Py.truthy safe_name) then "upload" else safe_name in
  let unique_name := hex8 +:+ "_" +:+ safe_name in
  path_join UPLOADS_DIR unique_name.

End DatabaseWrites.

(** ** api/routes/upload.py *)

Module UploadRoute.
Import Models Database DatabaseWrites.

(** The keys of [ALLOWED_TYPES]. *)
Definition ALLOWED_TYPES : list string :=
  ["audio/mpeg"; "audio/mp3"; "audio/wav"; "audio/x-wav"; "audio/wave";
   "audio/flac"; "audio/x-flac"; "audio/ogg"; "audio/x-m4a"; "audio/mp4";
   "audio/aac"; "audio/webm";
   "video/mp4"; "video/mpeg"; "video/webm"; "video/x-matroska";
   "video/quicktime"; "video/x-msvideo"].

Definition ALLOWED_EXTENSIONS : list string :=
  [".mp3"; ".wav"; ".flac"; ".ogg"; ".m4a"; ".aac"; ".webm";
   ".mp4"; ".mpeg"; ".mpg"; ".mkv"; ".mov"; ".avi"].

(** [sorted(ALLOWED_EXTENSIONS)] *)
Definition sorted_extensions : list string :=
  [".aac"; ".avi"; ".flac"; ".m4a"; ".mkv"; ".mov"; ".mp3"; ".mp4";
   ".mpeg"; ".mpg"; ".ogg"; ".wav"; ".webm"].

(** One turn of the loop [while chunk := await file.read(...)]: the
  read returns [size] bytes, and [f.write(chunk)], when the loop comes
  to it, succeeds or raises; or the read itself raises. *)
Inductive ReadStep :=
  | Chunk (size : N) (written : bool)
  | ReadError.

(** The [UploadFile] of a request; after the last step [file.read]
  returns no bytes. *)
Record UploadFile := {
  filename : option string;
  content_type : option string;
  reads : list ReadStep
}.

(** [JobCreateResponse]; the routes leave [status] at its default,
  [JobStatus.QUEUED]. *)
Record JobCreateResponse := {
  job_id : string;
  status : JobStatus;
  message : string
}.

(** How a route ends when it does not return: with an [HTTPException],
  or with an exception nothing handles. *)
Inductive Failure :=
  | Http (e : HTTPException)
  | Unhandled (e : exn).

(** How the streaming loop ends. *)
Inductive Streamed :=
  | Saved (total_size : N)
  | TooLarge
  | SaveFailed.

(** [upload_path.name] of a path that does not end in a slash. *)
Definition name (path : string) : string := basename path.

Section Routes.
(** [Path(filename).suffix.lower()] *)
Variable suffix_lower : string -> string.
Variable MAX_FILE_SIZE : N.
Variable UPLOADS_DIR : string.

Definition validate_file_type (filename' content_type' : string) : bool :=
  let ext := suffix_lower filename' in
  if negb (bool_decide (ext ∈ ALLOWED_EXTENSIONS)) then false
  else if Py.truthy content_type'
          && negb (String.eqb content_type' "application/octet-stream") then
    if negb (bool_decide (content_type' ∈ ALLOWED_TYPES)) then false
    else true
  else true.

(** The loop that streams the upload to the open file. *)
Fixpoint stream (steps : list ReadStep) (total_size : N) : Streamed :=
  match steps with
  | [] => Saved total_size
  | ReadError :: _ => SaveFailed
  | Chunk size written :: rest =>
      if (size =? 0)%N then Saved total_size
      else
        let total_size := (total_size + size)%N in
        if (MAX_FILE_SIZE <? total_size)%N then TooLarge
        else if written then stream rest total_size
        else SaveFailed
  end.

(** [upload_file]; [opened] tells whether [aiofiles.open] succeeds,
  [hex8] and [uuid4] are the two identifiers drawn and [now] is the
  clock reading. *)
Definition upload_file (file : UploadFile) (model' : ModelSize)
    (language' : string) (opened : bool) (hex8 uuid4 now : string)
    (db : DB) (fs : FS) : result Failure JobCreateResponse * DB * FS :=
  match filename file with
  | None =>
      (Err (Http {| status_code := 400; detail := "Filename is required" |}),
       db, fs)
  | Some filename' =>
      if negb (Py.truthy filename') then
        (Err (Http {| status_code := 400; detail := "Filename is required" |}),
         db, fs)
      else if negb (validate_file_type filename'
                      (default "" (content_type file))) then
        (Err (Http {| status_code := 415;
                      detail := "Unsupported file type. Allowed: "
                                  +:+ Py.join ", " sorted_extensions |}),
         db, fs)
      else
        let upload_path := get_safe_upload_path UPLOADS_DIR hex8 filename' in
        if negb opened then
          (Err (Http {| status_code := 500; detail := "Failed to save file" |}),
           db, delete upload_path fs)
        else
          let fs := <[upload_path := MediaFile]> fs in
          match stream (reads file) 0 with
          | TooLarge =>
              (Err (Http {| status_code := 413;
                            detail := "File too large. Maximum size: "
                                        +:+ Py.str_N (MAX_FILE_SIZE
                                                      / (1024 * 1024))
                                        +:+ "MB" |}),
               db, delete upload_path fs)
          | SaveFailed =>
              (Err (Http {| status_code := 500;
                            detail := "Failed to save file" |}),
               db, delete upload_path fs)
          | Saved total_size =>
              match create_job db uuid4 now FILE_UPLOAD model' language'
                      (Some filename') (Some (name upload_path)) None with
              | Err e => (Err (Unhandled e), db, fs)
              | Ok (job_id', db) =>
                  (Ok {| job_id := job_id'; status := QUEUED;
                         message :=
                           "File uploaded successfully. Transcription queued with model="
                             +:+ ModelSize_value model' |},
                   db, fs)
              end
          end
  end.

End Routes.

End UploadRoute.

(** ** api/routes/youtube.py *)

Module YouTubeRoute.
Import Models Database DatabaseWrites.

Inductive YouTubeMode := SAFE | AUTO.

Record YouTubeRequest := {
  url : string;
  mode : YouTubeMode;
  model : ModelSize;
  language : string
}.

(** The dict of [get_video_info], as far as the handlers read it;
  the duration in whole seconds. *)
Record VideoInfo := {
  title : string;
  duration : Z;
  has_manual_captions : bool;
  has_auto_captions : bool
}.

Record YouTubeInfoResponse := {
  job_id : option string;
  has_captions : bool;
  resp_title : option string;
  duration_seconds : option Z;
  message : string;
  fallback_options : list string
}.

(** What [process_youtube_url] returns. *)
Inductive Response :=
  | Created (r : UploadRoute.JobCreateResponse)
  | Guidance (r : YouTubeInfoResponse).

(** The class [[a-zA-Z0-9_-]] *)
Definition id_char (c : ascii) : bool :=
  let n := N_of_ascii c in
  ((97 <=? n) && (n <=? 122) || (65 <=? n) && (n <=? 90)
   || (48 <=? n) && (n <=? 57) || (n =? 95) || (n =? 45))%N.

(** [[a-zA-Z0-9_-]{n}] at the head of [s]: the characters matched. *)
Fixpoint id_chars (n : nat) (s : string) : option string :=
  match n with
  | O => Some ""
  | S n' =>
      match s with
      | String c s' =>
          if id_char c then String c <$> id_chars n' s' else None
      | "" => None
      end
  end.

(** What follows the literal [prefix] at the head of [s]. *)
Fixpoint after_prefix (prefix s : string) : option string :=
  match prefix with
  | "" => Some s
  | String p prefix' =>
      match s with
      | String c s' => if Ascii.eqb p c then after_prefix prefix' s' else None
      | "" => None
      end
  end.

(** The alternatives of the pattern of [extract_video_id], in order. *)
Definition id_prefixes : list string :=
  ["youtube.com/watch?v="; "youtu.be/"; "youtube.com/embed/";
   "youtube.com/shorts/"].

(** The pattern matched at the head of [s]: its group 1. *)
Definition match_here (s : string) : option string :=
  foldr (fun prefix other =>
           match after_prefix prefix s ≫= id_chars 11 with
           | Some video_id => Some video_id
           | None => other
           end) None id_prefixes.

(** [re.search(pattern, url)]: the leftmost match. *)
Fixpoint search (url : string) : option string :=
  match match_here url with
  | Some video_id => Some video_id
  | None =>
      match url with
      | String _ url' => search url'
      | "" => None
      end
  end.

Definition extract_video_id (url : string) : option string := search url.

(** ['-->' in s] *)
Fixpoint has_arrow (s : string) : bool :=
  match s with
  | "" => false
  | String _ s' => String.prefix "-->" s || has_arrow s'
  end.

(** [s.split('-->')] *)
Fixpoint split_arrow (s : string) : list string :=
  match s with
  | "" => [""]
  | String c s' =>
      let keep :=
        match split_arrow s' with
        | w :: ws => String c w :: ws
        | [] => [String c ""]
        end in
      match s' with
      | String c2 (String c3 rest) =>
          if Ascii.eqb c "-" && Ascii.eqb c2 "-" && Ascii.eqb c3 ">"
          then "" :: split_arrow rest
          else keep
      | _ => keep
      end
  end.

(** [re.sub(r'<[^>]+>', '', s)], in one pass over [s].  [tag] is [None]
  outside a tag; after a [<] it is the text read since.  The first [>]
  met closes the tag, which is dropped, when text stands between the two;
  [<>] is no tag, and a [<] that no [>] follows is none either: these
  stay, with the text read since. *)
Fixpoint strip_tags_from (tag : option string) (s : string) : string :=
  match s with
  | "" =>
      match tag with
      | None => ""
      | Some body => String "<" body
      end
  | String c s' =>
      match tag with
      | None =>
          if Ascii.eqb c "<" then strip_tags_from (Some "") s'
          else String c (strip_tags_from None s')
      | Some body =>
          if Ascii.eqb c ">" then
            if Py.truthy body then strip_tags_from None s'
            else String "<" (String ">" (strip_tags_from None s'))
          else strip_tags_from (Some (body +:+ String c "")) s'
      end
  end.

Definition strip_tags (s : string) : string := strip_tags_from None s.

(** The inner loop of [parse_vtt_to_segments]: the texts of the lines
  up to the first blank one, and the lines from that one on. *)
Fixpoint text_lines (lines : list string) : list string * list string :=
  match lines with
  | [] => ([], [])
  | l :: rest =>
      if Py.truthy (Py.strip l) then
        let text' := strip_tags (Py.strip l) in
        let '(texts, rest') := text_lines rest in
        (if Py.truthy text' then text' :: texts else texts, rest')
      else ([], lines)
  end.

Section Routes.
Variable fl : Q -> Q.
(** [int(s)] and [float(s)] *)
Variable int_ : string -> result exn Z.
Variable float_ : string -> result exn Q.
Variable OUTPUTS_DIR : string.
Variable YOUTUBE_AUTO_INGEST_ENABLED : bool.
Variable MAX_DURATION_SECONDS : Z.
(** [fetch_captions(url, lang)]: the text of the caption file that was
  downloaded, or [None] *)
Variable fetch_captions : string -> string -> option string.

Definition parse_vtt_timestamp (ts : string) : result exn Q :=
  let parts := Spec.split_on ":" (Py.replace "," "." ts) in
  match parts with
  | [h; m; s] =>
      match int_ h with
      | Err e => Err e
      | Ok h =>
          match int_ m with
          | Err e => Err e
          | Ok m =>
              match float_ s with
              | Err e => Err e
              | Ok s => Ok (fl (fl (inject_Z (h * 3600 + m * 60)%Z) + s)%Q)
              end
          end
      end
  | [m; s] =>
      match int_ m with
      | Err e => Err e
      | Ok m =>
          match float_ s with
          | Err e => Err e
          | Ok s => Ok (fl (fl (inject_Z (m * 60)%Z) + s)%Q)
          end
      end
  | _ => Ok 0%Q
  end.

(** The outer loop of [parse_vtt_to_segments] from line [i] on, [lines]
  being the lines from there; [fuel] bounds the number of its turns. *)
Fixpoint parse_lines (fuel : nat) (lines : list string) (segment_id : Z)
    : result exn (list TranscriptSegment) :=
  match fuel, lines with
  | O, _ | _, [] => Ok []
  | S fuel, l :: rest =>
      let line := Py.strip l in
      if has_arrow line then
        match split_arrow line with
        | [t0; t1] =>
            let start_str := Py.strip t0 in
            match Py.split (Py.strip t1) with
            | [] => Err (OtherException "list index out of range")
            | end_str :: _ =>
                match parse_vtt_timestamp start_str with
                | Err e => Err e
                | Ok start' =>
                    match parse_vtt_timestamp end_str with
                    | Err e => Err e
                    | Ok end' =>
                        let '(texts, rest') := text_lines rest in
                        if negb (Py.is_empty texts) then
                          match parse_lines fuel (tl rest')
                                  (segment_id + 1)%Z with
                          | Err e => Err e
                          | Ok segments =>
                              Ok ({| id := segment_id; start := start';
                                     end_ := end';
                                     text := Py.join " " texts |}
                                    :: segments)
                          end
                        else parse_lines fuel (tl rest') segment_id
                    end
                end
            end
        | _ => parse_lines fuel rest segment_id
        end
      else parse_lines fuel rest segment_id
  end.

(** [parse_vtt_to_segments]; every turn of the loop passes a line, so
  the number of lines is fuel enough. *)
Definition parse_vtt_to_segments (vtt_content : string)
    : result exn (list TranscriptSegment) :=
  let lines := Spec.split_on "010" (Py.strip vtt_content) in
  parse_lines (length lines) lines 0%Z.

(** [handle_safe_mode], from the store and the files it finds to those
  it leaves.  Each of its three database calls commits: the store after
  [create_job], in which the job is [queued], is what another process
  reads until [update_job_status] has committed [done]. *)
Definition handle_safe_mode (request : YouTubeRequest) (info : VideoInfo)
    (uuid4 now1 now2 : string) (db : DB) (fs : FS)
    : result UploadRoute.Failure Response * DB * FS :=
  let guidance :=
    Guidance {| job_id := None; has_captions := false;
                resp_title := Some (title info);
                duration_seconds := Some (duration info);
                message := "No captions available for this video";
                fallback_options :=
                  ["Upload the audio/video file directly";
                   "Download the video yourself and upload it";
                   "Paste captions manually if you have them"] |} in
  let has_captions' := has_manual_captions info || has_auto_captions info in
  if has_captions' then
    let lang := if negb (String.eqb (language request) "auto")
                then language request else "en" in
    match fetch_captions (url request) lang with
    | Some captions =>
        if Py.truthy captions then
          match parse_vtt_to_segments captions with
          | Err e => (Err (UploadRoute.Unhandled e), db, fs)
          | Ok segments =>
              let text' := Py.join " " (map text segments) in
              match create_job db uuid4 now1 YOUTUBE_CAPTIONS (model request)
                      lang (Some (title info +:+ ".vtt")) None
                      (Some (url request)) with
              | Err e => (Err (UploadRoute.Unhandled e), db, fs)
              | Ok (job_id', db) =>
                  let output_dir := get_job_output_dir OUTPUTS_DIR job_id' in
                  let fs :=
                    <[path_join output_dir "segments.json" :=
                        JsonFile (JList (map model_dump segments))]> fs in
                  let fs :=
                    <[path_join output_dir "transcript.txt" :=
                        TextFile text']> fs in
                  let fs :=
                    <[path_join output_dir "transcript.vtt" :=
                        TextFile captions]> fs in
                  match create_transcript_record db job_id'
                          (path_join output_dir "segments.json")
                          (path_join output_dir "transcript.txt")
                          ""
                          (path_join output_dir "transcript.vtt") with
                  | Err e => (Err (UploadRoute.Unhandled e), db, fs)
                  | Ok db =>
                      let db := update_job_status db job_id' DONE None now2 in
                      (Ok (Created
                             {| UploadRoute.job_id := job_id';
                                UploadRoute.status := QUEUED;
                                UploadRoute.message :=
                                  "Captions retrieved successfully from YouTube ("
                                    +:+ Py.str_N (N.of_nat (length segments))
                                    +:+ " segments)" |}),
                       db, fs)
                  end
              end
          end
        else (Ok guidance, db, fs)
    | None => (Ok guidance, db, fs)
    end
  else (Ok guidance, db, fs).

Definition handle_auto_mode (request : YouTubeRequest) (info : VideoInfo)
    (uuid4 now : string) (db : DB)
    : result UploadRoute.Failure UploadRoute.JobCreateResponse * DB :=
  if negb YOUTUBE_AUTO_INGEST_ENABLED then
    (Err (UploadRoute.Http
            {| status_code := 403;
               detail := "Auto Ingest Mode is disabled. Set YOUTUBE_AUTO_INGEST=true to enable." |}),
     db)
  else if (duration info >? MAX_DURATION_SECONDS)%Z then
    (Err (UploadRoute.Http
            {| status_code := 422;
               detail := "Video too long (" +:+ Py.str (duration info)
                           +:+ "s). Maximum: " +:+ Py.str MAX_DURATION_SECONDS
                           +:+ "s" |}),
     db)
  else
    match create_job db uuid4 now YOUTUBE_AUTO_INGEST (model request)
            (language request) (Some (title info)) None
            (Some (url request)) with
    | Err e => (Err (UploadRoute.Unhandled e), db)
    | Ok (job_id', db) =>
        (Ok {| UploadRoute.job_id := job_id'; UploadRoute.status := QUEUED;
               UploadRoute.message :=
                 "Auto ingest queued. Video: " +:+ title info +:+ " ("
                   +:+ Py.str (duration info) +:+ "s)" |},
         db)
    end.

(** [process_youtube_url]; [get_video_info] is the look-up with yt-dlp,
  which returns the dict or raises. *)
Definition process_youtube_url (get_video_info : string -> result exn VideoInfo)
    (request : YouTubeRequest) (uuid4 now1 now2 : string) (db : DB) (fs : FS)
    : result UploadRoute.Failure Response * DB * FS :=
  let bad_url :=
    (Err (UploadRoute.Http
            {| status_code := 400;
               detail := "Could not extract video ID from URL" |}),
     db, fs) in
  match extract_video_id (url request) with
  | None => bad_url
  | Some video_id =>
      if negb (Py.truthy video_id) then bad_url
      else
        match get_video_info (url request) with
        | Err e =>
            (Err (UploadRoute.Http
                    {| status_code := 400;
                       detail := "Failed to fetch video info: " +:+ exn_str e |}),
             db, fs)
        | Ok info =>
            match mode request with
            | SAFE => handle_safe_mode request info uuid4 now1 now2 db fs
            | AUTO =>
                match handle_auto_mode request info uuid4 now1 db with
                | (Ok r, db) => (Ok (Created r), db, fs)
                | (Err e, db) => (Err e, db, fs)
                end
            end
        end
  end.

End Routes.

End YouTubeRoute.

(** ** api/routes/jobs.py and database.py: the views of jobs *)

Module JobsViews.
Import Models Database.

(** [JobType(value)], [JobStatus(value)], [ModelSize(value)]: the member
  with that value. *)
Definition JobType_of (value : string) : result exn JobType :=
  if String.eqb value "file_upload" then Ok FILE_UPLOAD
  else if String.eqb value "youtube_captions" then Ok YOUTUBE_CAPTIONS
  else if String.eqb value "youtube_auto_ingest" then Ok YOUTUBE_AUTO_INGEST
  else Err (ValueError ("'" +:+ value +:+ "' is not a valid JobType")).

Definition JobStatus_of (value : string) : result exn JobStatus :=
  if String.eqb value "queued" then Ok QUEUED
  else if String.eqb value "running" then Ok RUNNING
  else if String.eqb value "done" then Ok DONE
  else if String.eqb value "failed" then Ok FAILED
  else Err (ValueError ("'" +:+ value +:+ "' is not a valid JobStatus")).

Definition ModelSize_of (value : string) : result exn ModelSize :=
  if String.eqb value "tiny" then Ok TINY
  else if String.eqb value "base" then Ok BASE
  else if String.eqb value "small" then Ok SMALL
  else if String.eqb value "medium" then Ok MEDIUM
  else if String.eqb value "large" then Ok LARGE
  else Err (ValueError ("'" +:+ value +:+ "' is not a valid ModelSize")).

(** [ORDER BY created_at DESC]: the row [a] may stand before [b]. *)
Definition newer_first (a b : string * JobRow) : Prop :=
  String.leb (created_at b.2) (created_at a.2) = true.

#[global] Instance newer_first_dec (a b : string * JobRow) :
  Decision (newer_first a b) :=
  bool_eq_dec _ _.

(** [list_jobs] of database.py: the rows selected, each with its id. *)
Definition list_jobs (db : DB) (limit offset : nat)
    (status' : option JobStatus) : list (string * JobRow) :=
  let rows := map_to_list (jobs db) in
  let rows :=
    match status' with
    | Some st => filter (fun r => status r.2 = JobStatus_value st) rows
    | None => rows
    end in
  take limit (drop offset (merge_sort newer_first rows)).

Section Views.
(** [datetime] and [datetime.fromisoformat] *)
Variable datetime : Type.
Variable fromisoformat : string -> result exn datetime.

Record JobSummary := {
  summary_id : string;
  summary_job_type : JobType;
  summary_original_filename : option string;
  summary_source_url : option string;
  summary_status : JobStatus;
  summary_created_at : datetime;
  summary_model : ModelSize;
  summary_language : string
}.

Record JobDetail := {
  id : string;
  job_type : JobType;
  original_filename : option string;
  stored_filename : option string;
  source_url : option string;
  status : JobStatus;
  created_at : datetime;
  updated_at : datetime;
  model : ModelSize;
  language : string;
  error_message : option string
}.

Definition row_to_job_summary (job_id : string) (row : JobRow)
    : result exn JobSummary :=
  match JobType_of (Database.job_type row) with
  | Err e => Err e
  | Ok job_type' =>
      match JobStatus_of (Database.status row) with
      | Err e => Err e
      | Ok status' =>
          match fromisoformat (Database.created_at row) with
          | Err e => Err e
          | Ok created =>
              match ModelSize_of (Database.model row) with
              | Err e => Err e
              | Ok model' =>
                  Ok {| summary_id := job_id;
                        summary_job_type := job_type';
                        summary_original_filename :=
                          Database.original_filename row;
                        summary_source_url := Database.source_url row;
                        summary_status := status';
                        summary_created_at := created;
                        summary_model := model';
                        summary_language := Database.language row |}
              end
          end
      end
  end.

Definition row_to_job_detail (job_id : string) (row : JobRow)
    : result exn JobDetail :=
  match JobType_of (Database.job_type row) with
  | Err e => Err e
  | Ok job_type' =>
      match JobStatus_of (Database.status row) with
      | Err e => Err e
      | Ok status' =>
          match fromisoformat (Database.created_at row) with
          | Err e => Err e
          | Ok created =>
              match fromisoformat (Database.updated_at row) with
              | Err e => Err e
              | Ok updated =>
                  match ModelSize_of (Database.model row) with
                  | Err e => Err e
                  | Ok model' =>
                      Ok {| id := job_id; job_type := job_type';
                            original_filename :=
                              Database.original_filename row;
                            stored_filename := Database.stored_filename row;
                            source_url := Database.source_url row;
                            status := status';
                            created_at := created;
                            updated_at := updated;
                            model := model';
                            language := Database.language row;
                            error_message := Database.error_message row |}
                  end
              end
          end
      end
  end.

(** The list comprehension of the route [list_jobs]. *)
Fixpoint summaries (rows : list (string * JobRow))
    : result exn (list JobSummary) :=
  match rows with
  | [] => Ok []
  | (job_id, row) :: rest =>
      match row_to_job_summary job_id row with
      | Err e => Err e
      | Ok s =>
          match summaries rest with
          | Err e => Err e
          | Ok l => Ok (s :: l)
          end
      end
  end.

(** GET /api/jobs *)
Definition list_jobs_route (db : DB) (limit offset : nat)
    (status_filter : option JobStatus)
    : result UploadRoute.Failure (list JobSummary) :=
  match summaries (list_jobs db limit offset status_filter) with
  | Ok l => Ok l
  | Err e => Err (UploadRoute.Unhandled e)
  end.

(** GET /api/jobs/{job_id} *)
Definition get_job (db : DB) (job_id : string)
    : result UploadRoute.Failure JobDetail :=
  match Database.get_job db job_id with
  | None =>
      Err (UploadRoute.Http
             {| status_code := 404;
                detail := "Job " +:+ job_id +:+ " not found" |})
  | Some job =>
      match row_to_job_detail job_id job with
      | Ok d => Ok d
      | Err e => Err (UploadRoute.Unhandled e)
      end
  end.

End Views.

End JobsViews.

(** ** Shapes of strings and of file systems *)

Module Shape.

(** Every character of [s] satisfies [p]. *)
Fixpoint all_chars (p : ascii -> bool) (s : string) : bool :=
  match s with
  | "" => true
  | String c s' => p c && all_chars p s'
  end.

(** Two spaces in a row somewhere in [s]. *)
Fixpoint double_space (s : string) : bool :=
  match s with
  | String a ((String b _) as s') =>
      (Ascii.eqb a " " && Ascii.eqb b " ") || double_space s'
  | _ => false
  end.

Definition nonspace (c : ascii) : bool := negb (Py.isspace c).

(** A word: not empty, and no whitespace in it. *)
Definition word (w : string) : Prop := w <> "" /\ all_chars nonspace w = true.

(** Whitespace in a line is the space only. *)
Definition spaced (c : ascii) : bool := nonspace c || Ascii.eqb c " ".

(** The string starts with a space. *)
Definition space_head (s : string) : bool :=
  match s with String b _ => Ascii.eqb b " " | "" => false end.

(** A character that may stand in one line of a subtitle block: no
  angle bracket, and no whitespace other than the space. *)
Definition subtitle_char (c : ascii) : bool :=
  negb (Ascii.eqb c "<") && negb (Ascii.eqb c ">") && spaced c.

(** A character of a sanitized name: alphanumeric, or one of [extra]. *)
Definition name_char (extra : string) (c : ascii) : bool :=
  Database.isalnum c || Spec.contains c extra.

(** Two rows of the same job: everything but the status, the time of
  the last update and the error message is equal. *)
Definition same_job (a b : Database.JobRow) : Prop :=
  Database.job_type a = Database.job_type b
  /\ Database.source_url a = Database.source_url b
  /\ Database.original_filename a = Database.original_filename b
  /\ Database.stored_filename a = Database.stored_filename b
  /\ Database.created_at a = Database.created_at b
  /\ Database.model a = Database.model b
  /\ Database.language a = Database.language b.

(** The row update that one status write of the worker applies at
  time [t]. *)
Definition status_update (st : string) (err : option string) (t : string)
    : Database.JobRow -> Database.JobRow :=
  match err with
  | Some msg =>
      if Py.truthy msg
      then Database.set_status_error st (String.substring 0 1000 msg) t
      else Database.set_status st t
  | None => Database.set_status st t
  end.

(** Two transcript records with the same edits. *)
Definition same_edits (a b : Database.TranscriptRow) : Prop :=
  Database.edited_text a = Database.edited_text b
  /\ Database.edited_segments_json a = Database.edited_segments_json b
  /\ Database.last_edited_at a = Database.last_edited_at b.

(** Two file systems agree on every path outside [touched]. *)
Definition same_outside (touched : list string) (a b : FS) : Prop :=
  forall p, p ∉ touched -> a !! p = b !! p.

(** A computation of the worker that writes and deletes no file
  outside [touched]. *)
Definition touches_only {A} (touched : list string) (m : Worker.M A) : Prop :=
  forall s, same_outside touched (Worker.fs (m s).2) (Worker.fs s).

(** The four transcript files of a job, in the worker's naming. *)
Definition transcript_paths (dir : string) : OutputFormatter.Paths :=
  {| OutputFormatter.json_path := path_join dir "transcript_segments.json";
     OutputFormatter.txt_path := path_join dir "transcript.txt";
     OutputFormatter.srt_path := path_join dir "transcript.srt";
     OutputFormatter.vtt_path := path_join dir "transcript.vtt" |}.

(** The same four, as a list. *)
Definition transcript_files (dir : string) : list string :=
  [path_join dir "transcript_segments.json"; path_join dir "transcript.txt";
   path_join dir "transcript.srt"; path_join dir "transcript.vtt"].

(** The bytes an upload delivers: the sizes of the chunks read before
  the first empty one. *)
Fixpoint received (steps : list UploadRoute.ReadStep) : N :=
  match steps with
  | UploadRoute.Chunk size _ :: rest =>
      if (size =? 0)%N then 0%N else (size + received rest)%N
  | _ => 0%N
  end.

(** After a [<]: no tag opens there when [>] follows at once or not
  at all. *)
Definition no_tag_at (s : string) : bool :=
  match s with
  | "" => true
  | String c _ => Ascii.eqb c ">" || negb (Spec.contains ">" s)
  end.

(** No part of [s] has the form of a tag: [<], one or more characters
  other than [>], and [>]. *)
Fixpoint tagless (s : string) : bool :=
  match s with
  | "" => true
  | String c s' => (negb (Ascii.eqb c "<") || no_tag_at s') && tagless s'
  end.

(** The text of a caption: one or more pieces, none empty and none with
  a tag, joined by single spaces. *)
Definition caption_text (t : string) : Prop :=
  exists piece pieces,
    t = Py.join " " (piece :: pieces)
    /\ Forall (fun p => p <> "" /\ tagless p = true) (piece :: pieces).

(** A job row that the API can show: type, status and model are values
  of the enumerations, and the two times are read by [fromisoformat]. *)
Definition api_row {datetime : Type}
    (fromisoformat : string -> result exn datetime) (row : Database.JobRow)
    : Prop :=
  (exists t, Database.job_type row = Models.JobType_value t)
  /\ (exists st, Database.status row = Models.JobStatus_value st)
  /\ (exists m, Database.model row = Models.ModelSize_value m)
  /\ (exists d, fromisoformat (Database.created_at row) = Ok d)
  /\ (exists d, fromisoformat (Database.updated_at row) = Ok d).

(** Every job row of the store can be shown. *)
Definition api_rows {datetime : Type}
    (fromisoformat : string -> result exn datetime) (d : Database.DB)
    : Prop :=
  forall j row, Database.jobs d !! j = Some row -> api_row fromisoformat row.

(** No read and no write of the upload raises. *)
Definition all_written (steps : list UploadRoute.ReadStep) : bool :=
  forallb (fun st => match st with
                     | UploadRoute.Chunk _ written => written
                     | UploadRoute.ReadError => false
                     end) steps.

End Shape.

(** ** More sample data *)

Module Samples.
Import Database Worker.

(** The dict that [get_next_job] returns for the upload of
  [Examples.world_one]. *)
Definition job_two : Job :=
  {| id := "job-2"; job_type := "file_upload"; source_url := None;
     original_filename := Some "talk.mp3";
     stored_filename := Some "ab12cd34_talk.mp3";
     model := "small"; language := "en" |}.

(** A queued auto-ingest job and the dict [get_next_job] returns for it. *)
Definition ingest_row : JobRow :=
  {| Database.job_type := "youtube_auto_ingest";
     Database.source_url := Some "https://youtu.be/dQw4w9WgXcQ";
     Database.original_filename := Some "A talk";
     Database.stored_filename := None;
     status := "queued"; created_at := "2024-05-01T10:06:00";
     updated_at := "2024-05-01T10:06:00";
     Database.model := "small"; Database.language := "en";
     error_message := None |}.

Definition job_ingest : Job :=
  {| id := "job-4"; job_type := "youtube_auto_ingest";
     source_url := Some "https://youtu.be/dQw4w9WgXcQ";
     original_filename := Some "A talk"; stored_filename := None;
     model := "small"; language := "en" |}.

Definition world_ingest : World :=
  {| db := {| jobs := {[ "job-4" := ingest_row ]}; transcripts := ∅ |};
     sys := fresh ∅; log := [] |}.

(** A worker with auto-ingest enabled, and a video of two hours. *)
Definition cfg_ingest : Config :=
  {| DATA_DIR := "data"; WHISPER_MODEL := "small"; WHISPER_DEVICE := "auto";
     YOUTUBE_AUTO_INGEST_ENABLED := true; YOUTUBE_MAX_DURATION := 3600 |}.

Definition eng_long_video : Engines :=
  {| utcnow := fun _ => "2024-05-01T10:07:00";
     ffmpeg_version := fun _ => Ok tt;
     ffprobe := fun _ _ => Ok {| media_duration := 7200; has_audio := true |};
     ffmpeg := fun _ _ _ => FfCompleted 0 "" true;
     whisper := fun _ _ _ _ => Err "Transcription failed: engine crashed";
     yt_info := fun _ _ =>
       Ok {| video_id := "dQw4w9WgXcQ"; title := "A talk";
             yt_duration := 7200; channel := "Talks" |};
     yt_captions := fun _ _ _ => Err (YouTubeNoCaptionsError "No captions available");
     yt_download := fun _ _ => Ok "data/youtube_temp/dQw4w9WgXcQ.wav" |}.

(** [s[s.rfind('.'):]], when [s] has a dot. *)
Fixpoint from_last_dot (s : string) : option string :=
  match s with
  | "" => None
  | String c s' =>
      match from_last_dot s' with
      | Some r => Some r
      | None => if Ascii.eqb c "." then Some s else None
      end
  end.

(** [Path(filename).suffix.lower()] on lower-case names without
  directories that have a dot inside. *)
Definition suffix_lower (filename : string) : string :=
  default "" (from_last_dot filename).

(** An upload of a little more than one megabyte, in two chunks. *)
Definition talk_upload : UploadRoute.UploadFile :=
  {| UploadRoute.filename := Some "talk.mp3";
     UploadRoute.content_type := Some "audio/mpeg";
     UploadRoute.reads := [UploadRoute.Chunk 1048576 true;
                           UploadRoute.Chunk 2000 true] |}.

(** The default limit of 2048 megabytes. *)
Definition MAX_FILE_SIZE : N := 2048 * 1024 * 1024.

(** A request for auto-ingest of a video of two hours. *)
Definition auto_request : YouTubeRoute.YouTubeRequest :=
  {| YouTubeRoute.url := "https://youtu.be/dQw4w9WgXcQ";
     YouTubeRoute.mode := YouTubeRoute.AUTO;
     YouTubeRoute.model := Models.SMALL;
     YouTubeRoute.language := "auto" |}.

(** [int(s)] on strings of decimal digits. *)
Definition int_ (s : string) : result exn Z :=
  match Spec.parse_N s with
  | Some n => Ok (Z.of_N n)
  | None => Err (ValueError ("invalid literal for int() with base 10: " +:+ s))
  end.

(** [float(s)] on strings of the form digits, dot, digits. *)
Definition float_ (s : string) : result exn Q :=
  match Spec.split_on "." s with
  | [a; b] =>
      match Spec.parse_N a, Spec.parse_N b with
      | Some whole, Some frac =>
          Ok (inject_Z (Z.of_N whole)
              + inject_Z (Z.of_N frac)
                / inject_Z (10 ^ Z.of_nat (String.length b)))%Q
      | _, _ => Err (ValueError ("could not convert string to float: " +:+ s))
      end
  | _ => Err (ValueError ("could not convert string to float: " +:+ s))
  end.

(** Captions of one cue with two lines, the first with markup. *)
Definition captions_vtt : string :=
  "WEBVTT" +:+ Py.NL +:+ Py.NL
    +:+ "00:00:01.000 --> 00:00:02.500 align:start" +:+ Py.NL
    +:+ "<c>Hello</c> world" +:+ Py.NL
    +:+ "again" +:+ Py.NL.

(** [datetime.fromisoformat] on times of the form YYYY-MM-DDTHH:MM:SS,
  kept as text. *)
Definition fromisoformat (s : string) : result exn string :=
  if Nat.eqb (String.length s) 19 then Ok s
  else Err (ValueError ("Invalid isoformat string: '" +:+ s +:+ "'")).

(** A request in safe mode, and a video that has captions. *)
Definition safe_request : YouTubeRoute.YouTubeRequest :=
  {| YouTubeRoute.url := "https://youtu.be/dQw4w9WgXcQ";
     YouTubeRoute.mode := YouTubeRoute.SAFE;
     YouTubeRoute.model := Models.SMALL;
     YouTubeRoute.language := "auto" |}.

Definition captioned_video : YouTubeRoute.VideoInfo :=
  {| YouTubeRoute.title := "A talk"; YouTubeRoute.duration := 600;
     YouTubeRoute.has_manual_captions := true;
     YouTubeRoute.has_auto_captions := false |}.

Definition long_video : YouTubeRoute.VideoInfo :=
  {| YouTubeRoute.title := "A talk"; YouTubeRoute.duration := 7200;
     YouTubeRoute.has_manual_captions := false;
     YouTubeRoute.has_auto_captions := false |}.

End Samples.

(** * Properties *)

(** ** Python arithmetic and strings *)

Module PyFacts.
Local Open Scope Q_scope.
Local Arguments String.append : simpl nomatch.

Lemma Qfloor_unique (x : Q) (z : Z) :
  inject_Z z <= x -> x < inject_Z (z + 1) -> Qfloor x = z.
Proof.
  intros Hl Hu.
  pose proof (Qfloor_le x) as Hf. pose proof (Qlt_floor x) as Hg.
  assert (z < Qfloor x + 1)%Z.
  { rewrite Zlt_Qlt. eapply Qle_lt_trans; eauto. }
  assert (Qfloor x < z + 1)%Z.
  { rewrite Zlt_Qlt. eapply Qle_lt_trans; eauto. }
  lia.
Qed.

Lemma Qfloor_sub_Z (x : Q) (z : Z) :
  Qfloor (x - inject_Z z) = (Qfloor x - z)%Z.
Proof.
  apply Qfloor_unique.
  - unfold Zminus. rewrite inject_Z_plus, inject_Z_opp.
    apply Qplus_le_l. apply Qfloor_le.
  - replace (Qfloor x - z + 1)%Z with ((Qfloor x + 1) + - z)%Z by lia.
    rewrite inject_Z_plus, inject_Z_opp.
    apply Qplus_lt_l. apply Qlt_floor.
Qed.

Lemma Qfloor_div_Z (x : Q) (k : Z) :
  (0 < k)%Z -> Qfloor (x / inject_Z k) = (Qfloor x / k)%Z.
Proof.
  intros Hk.
  assert (HkQ : 0 < inject_Z k) by (change 0 with (inject_Z 0); rewrite <- Zlt_Qlt; exact Hk).
  pose proof (Qfloor_le x) as Hf. pose proof (Qlt_floor x) as Hg.
  apply Qfloor_unique.
  - apply Qle_shift_div_l; [exact HkQ|].
    rewrite <- inject_Z_mult.
    eapply Qle_trans; [|exact Hf].
    rewrite <- Zle_Qle. Z.div_mod_to_equations. nia.
  - apply Qlt_shift_div_r; [exact HkQ|].
    rewrite <- inject_Z_mult.
    eapply Qlt_le_trans; [exact Hg|].
    rewrite <- Zle_Qle. Z.div_mod_to_equations. nia.
Qed.

Lemma mod_Z (x : Q) (k : Z) :
  (0 < k)%Z ->
  Py.mod_ x (inject_Z k) == x - inject_Z (k * (Qfloor x / k)).
Proof.
  intros Hk. unfold Py.mod_. rewrite Qfloor_div_Z by exact Hk.
  rewrite inject_Z_mult. ring.
Qed.

Lemma Qfloor_mod (x : Q) (k : Z) :
  (0 < k)%Z -> Qfloor (Py.mod_ x (inject_Z k)) = (Qfloor x mod k)%Z.
Proof.
  intros Hk. rewrite (Qfloor_comp _ _ (mod_Z x k Hk)).
  rewrite Qfloor_sub_Z. Z.div_mod_to_equations. nia.
Qed.

Lemma mod_nonneg (x : Q) (k : Z) :
  (0 < k)%Z -> 0 <= Py.mod_ x (inject_Z k).
Proof.
  intros Hk. rewrite (mod_Z x k Hk).
  pose proof (Qfloor_le x) as Hf.
  apply (Qle_minus_iff (inject_Z (k * (Qfloor x / k))) x).
  eapply Qle_trans; [|exact Hf].
  rewrite <- Zle_Qle. Z.div_mod_to_equations. nia.
Qed.

Lemma mod_1 (x : Q) : Py.mod_ x 1 == x - inject_Z (Qfloor x).
Proof.
  change 1 with (inject_Z 1). rewrite mod_Z by lia.
  rewrite Z.div_1_r, Z.mul_1_l. reflexivity.
Qed.

Lemma mod_1_lt (x : Q) : Py.mod_ x 1 < 1.
Proof.
  rewrite mod_1. pose proof (Qlt_floor x) as Hg.
  rewrite inject_Z_plus in Hg. change (inject_Z 1) with 1 in Hg. lra.
Qed.

Lemma int_nonneg (x : Q) : 0 <= x -> Py.int x = Qfloor x.
Proof.
  intros H. unfold Py.int.
  destruct (Qle_bool 0 x) eqn:E; [reflexivity|].
  apply Qle_bool_iff in H. congruence.
Qed.


Lemma string_app_assoc (a b c : string) : (a +:+ b) +:+ c = a +:+ (b +:+ c).
Proof. induction a; simpl; [reflexivity|]. now rewrite IHa. Qed.

Lemma digits_app a b : Spec.digits (a +:+ b) = Spec.digits a && Spec.digits b.
Proof. induction a; simpl; [reflexivity|]. rewrite IHa. now rewrite andb_assoc. Qed.

Lemma digits_zeros n : Spec.digits (Py.zeros n) = true.
Proof. induction n; simpl; auto. Qed.

Lemma digits_string_of_uint d : Spec.digits (NilEmpty.string_of_uint d) = true.
Proof. induction d; simpl; auto. Qed.

Lemma digits_str_N n : Spec.digits (Py.str_N n) = true.
Proof.
  unfold Py.str_N, NilZero.string_of_uint.
  destruct (N.to_uint n); try apply (digits_string_of_uint); reflexivity.
Qed.

Lemma digits_zfill w s : Spec.digits s = true -> Spec.digits (Py.zfill w s) = true.
Proof. intros H. unfold Py.zfill. now rewrite digits_app, digits_zeros, H. Qed.

Lemma digits_contains c s :
  Spec.is_digit c = false -> Spec.digits s = true -> Spec.contains c s = false.
Proof.
  intros Hc. induction s as [|a s IH]; simpl; [reflexivity|].
  intros [Ha Hs]%andb_true_iff. rewrite (IH Hs), orb_false_r.
  destruct (Ascii.eqb_spec a c) as [->|]; congruence.
Qed.

Lemma split_on_none c s : Spec.contains c s = false -> Spec.split_on c s = [s].
Proof.
  induction s as [|a s IH]; simpl; [reflexivity|].
  intros [Ha Hs]%orb_false_iff. rewrite Ha, (IH Hs). reflexivity.
Qed.

Lemma split_on_app c a b :
  Spec.contains c a = false ->
  Spec.split_on c (a +:+ String c b) = a :: Spec.split_on c b.
Proof.
  induction a as [|x a IH]; simpl.
  - intros _. now rewrite Ascii.eqb_refl.
  - intros [Hx Ha]%orb_false_iff. rewrite Hx, (IH Ha). reflexivity.
Qed.

Lemma uint_of_string_zeros k s d :
  NilEmpty.uint_of_string s = Some d ->
  exists d', NilEmpty.uint_of_string (Py.zeros k +:+ s) = Some d'
             /\ N.of_uint d' = N.of_uint d.
Proof.
  intros H. induction k as [|k [d' [E1 E2]]]; simpl.
  - eauto.
  - exists (Decimal.D0 d'). rewrite E1. simpl. split; [reflexivity|exact E2].
Qed.

Lemma str_N_nonempty n : Py.str_N n <> "".
Proof.
  unfold Py.str_N, NilZero.string_of_uint.
  destruct (N.to_uint n); simpl; congruence.
Qed.

Lemma parse_N_zfill w n : Spec.parse_N (Py.zfill w (Py.str_N n)) = Some n.
Proof.
  unfold Spec.parse_N, NilZero.uint_of_string.
  assert (Hne : Py.zfill w (Py.str_N n) <> "").
  { unfold Py.zfill. pose proof (str_N_nonempty n).
    destruct (Py.zeros _); simpl; [assumption|congruence]. }
  destruct (Py.zfill w (Py.str_N n)) eqn:E; [congruence|]. rewrite <- E.
  assert (Hs : NilEmpty.uint_of_string (Py.str_N n) = Some (N.to_uint n)).
  { assert (Hnn : N.to_uint n <> Decimal.Nil).
    { destruct n; simpl; [discriminate|apply DecimalPos.Unsigned.to_uint_nonnil]. }
    unfold Py.str_N, NilZero.string_of_uint.
    destruct (N.to_uint n) eqn:En; try congruence;
      rewrite <- En; apply NilEmpty.usu. }
  destruct (uint_of_string_zeros (w - String.length (Py.str_N n)) _ _ Hs)
    as [d' [E1 E2]].
  unfold Py.zfill. rewrite E1. simpl. f_equal. rewrite E2.
  apply DecimalN.Unsigned.of_to.
Qed.
End PyFacts.

(** ** Reading a text file *)

Module NewlineFacts.

(** A text read in text mode has no carriage return left. *)
Lemma universal_newlines_no_cr (s : string) :
  Spec.contains "013" (Py.universal_newlines s) = false.
Proof.
  induction s as [|c s IH]; [reflexivity|].
  cbn [Py.universal_newlines].
  destruct (Ascii.eqb_spec c "013") as [->|Hc].
  - destruct s as [|c' s]; [reflexivity|].
    destruct (Ascii.eqb c' "010"); [exact IH|].
    cbn [Spec.contains]. now rewrite IH.
  - cbn [Spec.contains]. rewrite IH.
    now destruct (Ascii.eqb_spec c "013").
Qed.

(** A text without carriage returns is read as it is. *)
Lemma universal_newlines_fixed (s : string) :
  Spec.contains "013" s = false -> Py.universal_newlines s = s.
Proof.
  induction s as [|c s IH]; [reflexivity|].
  cbn [Spec.contains Py.universal_newlines].
  destruct (Ascii.eqb c "013"); [discriminate|].
  cbn [orb]. intros H. now rewrite IH.
Qed.

Lemma universal_newlines_fixed_iff (s : string) :
  Py.universal_newlines s = s <-> Spec.contains "013" s = false.
Proof.
  split.
  - intros E. rewrite <- E. apply universal_newlines_no_cr.
  - apply universal_newlines_fixed.
Qed.

End NewlineFacts.

(** ** Time stamps *)

Module TimestampFacts.
Import OutputFormatter PyFacts.
Local Open Scope Q_scope.
Local Arguments String.append : simpl nomatch.

Lemma int_inject_Z (z : Z) : Py.int (inject_Z z) = z.
Proof.
  unfold Py.int. destruct (Qle_bool 0 (inject_Z z)).
  - apply Qfloor_Z.
  - apply Qceiling_Z.
Qed.

Lemma format_d_nonneg (w : nat) (z : Z) :
  (0 <= z)%Z -> Py.format_d w z = Py.zfill w (Py.str_N (Z.to_N z)).
Proof.
  intros H. unfold Py.format_d.
  destruct (Z.ltb_spec z 0); [lia|reflexivity].
Qed.

Lemma str_of_nat (i : nat) : Py.str (Z.of_nat i) = Py.str_N (N.of_nat i).
Proof.
  unfold Py.str. destruct (Z.ltb_spec (Z.of_nat i) 0); [lia|].
  f_equal. lia.
Qed.

Section Rounding.
Variable fl : Q -> Q.
Hypothesis Hfl : binary64_rounding fl.

Lemma fl_proper (x y : Q) : x == y -> fl x == fl y.
Proof.
  intros E. apply Qle_antisym; apply (fl_mono fl Hfl); rewrite E; apply Qle_refl.
Qed.

Lemma fl_nonneg (x : Q) : 0 <= x -> 0 <= fl x.
Proof.
  intros H. pose proof (fl_int fl Hfl 0 ltac:(lia)) as E0.
  change (inject_Z 0) with 0 in E0. rewrite <- E0.
  apply (fl_mono fl Hfl). exact H.
Qed.

Lemma millis_arg_range (seconds : Q) :
  0 <= Spec.millis_arg seconds /\ Spec.millis_arg seconds < 1000.
Proof.
  unfold Spec.millis_arg.
  pose proof (mod_nonneg seconds 1 ltac:(lia)) as H0.
  change (inject_Z 1) with 1 in H0.
  pose proof (mod_1_lt seconds) as H1. split; lra.
Qed.

(** Rounding moves the product by less than one. *)
Lemma millis_close (seconds : Q) :
  let k := Qfloor (fl (Spec.millis_arg seconds)) in
  (0 <= k <= 1000)%Z
  /\ inject_Z k - 1 < Spec.millis_arg seconds
  /\ Spec.millis_arg seconds < inject_Z k + 1.
Proof.
  intros k. destruct (millis_arg_range seconds) as [H0 H1].
  set (y := Spec.millis_arg seconds) in *.
  pose proof (Qfloor_le (fl y)) as Hle.
  pose proof (Qlt_floor (fl y)) as Hlt. fold k in Hle, Hlt.
  rewrite inject_Z_plus in Hlt. change (inject_Z 1) with 1 in Hlt.
  assert (Hk0 : (0 <= k)%Z).
  { change 0%Z with (Qfloor (inject_Z 0)). apply Qfloor_resp_le.
    apply fl_nonneg. exact H0. }
  assert (Hk1 : (k <= 1000)%Z).
  { change 1000%Z with (Qfloor (inject_Z 1000)). apply Qfloor_resp_le.
    rewrite <- (fl_int fl Hfl 1000 ltac:(lia)).
    apply (fl_mono fl Hfl). apply Qlt_le_weak. exact H1. }
  split; [lia|]. split.
  - destruct (Qlt_le_dec (inject_Z k - 1) y) as [|Hc]; [assumption|exfalso].
    assert (Hk : (1 <= k)%Z).
    { destruct (Z.eq_dec k 0%Z) as [E|]; [|lia].
      rewrite E in Hc. change (inject_Z 0) with 0 in Hc. lra. }
    pose proof (fl_mono fl Hfl _ _ Hc) as Hm.
    assert (E : inject_Z k - 1 == inject_Z (k - 1)).
    { unfold Zminus. rewrite inject_Z_plus. reflexivity. }
    rewrite (fl_proper _ _ E), (fl_int fl Hfl (k - 1) ltac:(lia)) in Hm.
    rewrite <- E in Hm. lra.
  - destruct (Qlt_le_dec y (inject_Z k + 1)) as [|Hc]; [assumption|exfalso].
    assert (Hk : (k + 1 <= 1000)%Z).
    { assert (k + 1 < 1000 + 1)%Z; [|lia].
      rewrite Zlt_Qlt, !inject_Z_plus. change (inject_Z 1) with 1.
      change (inject_Z 1000) with 1000. lra. }
    pose proof (fl_mono fl Hfl _ _ Hc) as Hm.
    assert (E : inject_Z k + 1 == inject_Z (k + 1)).
    { rewrite inject_Z_plus. reflexivity. }
    rewrite (fl_proper _ _ E), (fl_int fl Hfl (k + 1) ltac:(lia)) in Hm.
    rewrite <- E in Hm. lra.
Qed.

(** A product that is a whole number is not moved at all. *)
Lemma millis_exact (seconds : Q) (j : Z) :
  Spec.millis_arg seconds == inject_Z j ->
  Qfloor (fl (Spec.millis_arg seconds)) = j.
Proof.
  intros E. destruct (millis_arg_range seconds) as [H0 H1].
  assert (Hj : (0 <= j <= 1000)%Z).
  { rewrite E in H0, H1. split.
    - rewrite Zle_Qle. exact H0.
    - apply Z.lt_le_incl. rewrite Zlt_Qlt. exact H1. }
  rewrite (Qfloor_comp _ _ (fl_proper _ _ E)).
  rewrite (Qfloor_comp _ _ (fl_int fl Hfl j Hj)). apply Qfloor_Z.
Qed.

Lemma hours_nonneg (seconds : Q) :
  0 <= seconds -> (0 <= Qfloor (seconds / 3600))%Z.
Proof.
  intros H. change 3600 with (inject_Z 3600).
  rewrite Qfloor_div_Z by lia.
  assert (0 <= Qfloor seconds)%Z.
  { change 0%Z with (Qfloor (inject_Z 0)). apply Qfloor_resp_le. exact H. }
  Z.div_mod_to_equations. nia.
Qed.

(** The code's [int(...)] and [:02d] against the four floors. *)
Lemma format_time_floors (sep : string) (seconds : Q) :
  Py.format_d 2 (Py.int (Py.floordiv seconds 3600)) +:+ ":"
    +:+ Py.format_d 2 (Py.int (Py.floordiv (Py.mod_ seconds 3600) 60)) +:+ ":"
    +:+ Py.format_d 2 (Py.int (Py.mod_ seconds 60)) +:+ sep
    +:+ Py.format_d 3 (Py.int (fl (Py.mod_ seconds 1 * 1000)))
  = Spec.timestamp fl sep seconds.
Proof.
  unfold Spec.timestamp, Spec.millis_arg, Py.floordiv. cbv zeta.
  rewrite !int_inject_Z.
  pose proof (mod_nonneg seconds 60 ltac:(lia)) as H60.
  change (inject_Z 60) with 60 in H60.
  destruct (millis_arg_range seconds) as [H0 _]. unfold Spec.millis_arg in H0.
  now rewrite (int_nonneg _ H60), (int_nonneg _ (fl_nonneg _ H0)).
Qed.

Lemma format_srt_time_floors (seconds : Q) :
  _format_srt_time fl seconds = Spec.timestamp fl "," seconds.
Proof. apply format_time_floors. Qed.

Lemma format_vtt_time_floors (seconds : Q) :
  _format_vtt_time fl seconds = Spec.timestamp fl "." seconds.
Proof. apply format_time_floors. Qed.

(** The ranges of the four fields. *)
Lemma timestamp_fields (seconds : Q) :
  (0 <= Qfloor (Py.mod_ seconds 3600 / 60) < 60)%Z
  /\ (0 <= Qfloor (Py.mod_ seconds 60) < 60)%Z
  /\ (0 <= Qfloor (fl (Spec.millis_arg seconds)) <= 1000)%Z
  /\ (0 <= seconds -> (0 <= Qfloor (seconds / 3600))%Z).
Proof.
  split; [|split; [|split]].
  - change 60 with (inject_Z 60). rewrite Qfloor_div_Z by lia.
    change 3600 with (inject_Z 3600). rewrite Qfloor_mod by lia.
    Z.div_mod_to_equations. nia.
  - change 60 with (inject_Z 60). rewrite Qfloor_mod by lia.
    Z.div_mod_to_equations. nia.
  - apply (millis_close seconds).
  - apply hours_nonneg.
Qed.

Lemma split_on_app_sep (c : ascii) (a b : string) :
  Spec.contains c a = false ->
  Spec.split_on c (a +:+ String c "" +:+ b) = a :: Spec.split_on c b.
Proof. apply split_on_app. Qed.

Lemma contains_app (c : ascii) (a b : string) :
  Spec.contains c (a +:+ b) = Spec.contains c a || Spec.contains c b.
Proof. induction a; simpl; [reflexivity|]. now rewrite IHa, orb_assoc. Qed.

(** The whole seconds, split the way the time stamp splits them. *)
Lemma whole_seconds (seconds : Q) :
  inject_Z (Qfloor (seconds / 3600)) * 3600
    + inject_Z (Qfloor (Py.mod_ seconds 3600 / 60)) * 60
    + inject_Z (Qfloor (Py.mod_ seconds 60))
  == inject_Z (Qfloor seconds).
Proof.
  change 3600 with (inject_Z 3600). change 60 with (inject_Z 60).
  rewrite !Qfloor_div_Z, !Qfloor_mod by lia.
  rewrite <- !inject_Z_mult, <- !inject_Z_plus.
  apply inject_Z_injective. Z.div_mod_to_equations. nia.
Qed.

(** Reading back a time stamp built from the four floors. *)
Lemma parse_timestamp_floors (sep : ascii) (seconds : Q) :
  Spec.is_digit sep = false -> sep <> ":"%char -> 0 <= seconds ->
  Spec.parse_timestamp sep (Spec.timestamp fl (String sep "") seconds)
  = Some (inject_Z (Qfloor (seconds / 3600)) * 3600
          + inject_Z (Qfloor (Py.mod_ seconds 3600 / 60)) * 60
          + inject_Z (Qfloor (Py.mod_ seconds 60))
          + inject_Z (Qfloor (fl (Spec.millis_arg seconds))) / 1000).
Proof.
  intros Hd Hc Hs. unfold Spec.parse_timestamp, Spec.timestamp. cbv zeta.
  destruct (timestamp_fields seconds) as ([Hmm _] & [Hss _] & [Hms _] & Hhh).
  specialize (Hhh Hs).
  set (hh := Qfloor (seconds / 3600)) in *.
  set (mm := Qfloor (Py.mod_ seconds 3600 / 60)) in *.
  set (ss := Qfloor (Py.mod_ seconds 60)) in *.
  set (mmm := Qfloor (fl (Spec.millis_arg seconds))) in *.
  rewrite !format_d_nonneg by assumption.
  assert (Hcolon : forall w n, Spec.contains ":" (Py.zfill w (Py.str_N n)) = false).
  { intros. apply digits_contains; [reflexivity|].
    apply digits_zfill, digits_str_N. }
  assert (Hsep : forall w n, Spec.contains sep (Py.zfill w (Py.str_N n)) = false).
  { intros. apply digits_contains; [exact Hd|].
    apply digits_zfill, digits_str_N. }
  rewrite split_on_app_sep by apply Hcolon.
  rewrite split_on_app_sep by apply Hcolon.
  rewrite split_on_none.
  2:{ rewrite contains_app, Hcolon. simpl. rewrite Hcolon, orb_false_r.
      destruct (Ascii.eqb_spec sep ":"); [contradiction|reflexivity]. }
  rewrite split_on_app_sep by apply Hsep.
  rewrite split_on_none by apply Hsep.
  rewrite !parse_N_zfill. rewrite !Z2N.id by assumption. reflexivity.
Qed.

(** Formatting then reading back loses less than a millisecond, and
  nothing at all on a whole number of milliseconds. *)
Lemma round_trip_floors (sep : ascii) (seconds : Q) :
  Spec.is_digit sep = false -> sep <> ":"%char -> 0 <= seconds ->
  exists t,
    Spec.parse_timestamp sep (Spec.timestamp fl (String sep "") seconds)
      = Some t
    /\ Qabs (t - seconds) < 1 / 1000
    /\ (forall j : Z, seconds * 1000 == inject_Z j -> t == seconds).
Proof.
  intros Hd Hc Hs. eexists. split; [apply parse_timestamp_floors; assumption|].
  pose proof (whole_seconds seconds) as Hw.
  pose proof (mod_1 seconds) as Hf.
  destruct (millis_close seconds) as (_ & Hlo & Hhi). cbv zeta in Hlo, Hhi.
  set (k := inject_Z (Qfloor (fl (Spec.millis_arg seconds)))) in *.
  assert (Ey : Spec.millis_arg seconds
               == (seconds - inject_Z (Qfloor seconds)) * 1000).
  { unfold Spec.millis_arg. rewrite Hf. reflexivity. }
  split.
  - apply Qabs_Qlt_condition. rewrite Hw. rewrite Ey in Hlo, Hhi.
    clearbody k. change (1 / 1000) with (1 # 1000).
    change (k / 1000) with (k * (1 # 1000)). split; lra.
  - intros j Hj.
    assert (Ej : Spec.millis_arg seconds
                 == inject_Z (j - 1000 * Qfloor seconds)).
    { rewrite Ey. unfold Zminus.
      rewrite inject_Z_plus, inject_Z_opp, inject_Z_mult.
      change (inject_Z 1000) with 1000. lra. }
    subst k. rewrite (millis_exact seconds _ Ej), Hw.
    unfold Zminus. rewrite inject_Z_plus, inject_Z_opp, inject_Z_mult.
    change (inject_Z 1000) with 1000.
    match goal with |- context [?a / 1000] =>
      change (a / 1000) with (a * (1 # 1000)) end.
    lra.
Qed.

End Rounding.
End TimestampFacts.

(** ** Time stamps on floats *)

Module Binary64Facts.
Import OutputFormatter PyFacts TimestampFacts.
Local Open Scope Q_scope.
Local Arguments String.append : simpl nomatch.

Lemma int_comp (x y : Q) : x == y -> Py.int x = Py.int y.
Proof.
  intros E. unfold Py.int.
  rewrite (Qfloor_comp _ _ E), (Qceiling_comp _ _ E).
  destruct (Qle_bool 0 x) eqn:Hx, (Qle_bool 0 y) eqn:Hy; try reflexivity.
  - apply Qle_bool_iff in Hx. rewrite E in Hx. apply Qle_bool_iff in Hx.
    congruence.
  - apply Qle_bool_iff in Hy. rewrite <- E in Hy. apply Qle_bool_iff in Hy.
    congruence.
Qed.

Lemma Qlt_bool_false (x y : Q) : y <= x -> Binary64.Qlt_bool x y = false.
Proof.
  intros H. unfold Binary64.Qlt_bool. apply Qle_bool_iff in H. now rewrite H.
Qed.

Lemma Qeq_bool_false (x y : Q) : ~ x == y -> Qeq_bool x y = false.
Proof.
  intros H. destruct (Qeq_bool x y) eqn:E; [|reflexivity].
  apply Qeq_bool_iff in E. contradiction.
Qed.

Section Exact.
Variable fl : Q -> Q.
Hypothesis Hfl : binary64_rounding fl.
Hypothesis Hint : binary64_integers fl.

Lemma fl_whole (x : Q) (z : Z) :
  x == inject_Z z -> (0 <= z <= 2 ^ 53)%Z -> fl x == inject_Z z.
Proof.
  intros E Hz. rewrite (fl_proper fl Hfl _ _ E). now apply Hint.
Qed.

Lemma div_nonneg (x : Q) (k : Z) : 0 <= x -> (0 < k)%Z -> 0 <= x / inject_Z k.
Proof.
  intros Hx Hk. apply Qle_shift_div_l.
  - change 0 with (inject_Z 0). now rewrite <- Zlt_Qlt.
  - lra.
Qed.

(** On a dividend that is not negative, C's [fmod] is Python's [%]. *)
Lemma fmod_nonneg (x : Q) (k : Z) :
  0 <= x -> (0 < k)%Z ->
  Binary64.fmod x (inject_Z k) = Py.mod_ x (inject_Z k).
Proof.
  intros Hx Hk. unfold Binary64.fmod, Py.mod_.
  now rewrite (int_nonneg _ (div_nonneg x k Hx Hk)).
Qed.

Lemma mod_exact (x : Q) (k : Z) :
  0 <= x -> (0 < k)%Z ->
  Binary64.mod_ fl x (inject_Z k) == Py.mod_ x (inject_Z k).
Proof.
  intros Hx Hk. unfold Binary64.mod_. cbv zeta.
  rewrite (fmod_nonneg x k Hx Hk).
  pose proof (mod_nonneg x k Hk) as Hm.
  destruct (Qeq_bool (Py.mod_ x (inject_Z k)) 0) eqn:E.
  - apply Qeq_bool_iff in E. now rewrite E.
  - rewrite !Qlt_bool_false; [reflexivity|exact Hm|].
    change 0 with (inject_Z 0). rewrite <- Zle_Qle. lia.
Qed.

Lemma floordiv_exact (x : Q) (k : Z) :
  0 <= x -> x < inject_Z (2 ^ 53) -> (0 < k)%Z ->
  Binary64.floordiv fl x (inject_Z k) == Py.floordiv x (inject_Z k).
Proof.
  intros Hx Hlt Hk. unfold Binary64.floordiv, Py.floordiv. cbv zeta.
  rewrite (fmod_nonneg x k Hx Hk).
  pose proof (mod_nonneg x k Hk) as Hm.
  set (q := Qfloor (x / inject_Z k)).
  assert (HkQ : 0 < inject_Z k)
    by (change 0 with (inject_Z 0); now rewrite <- Zlt_Qlt).
  assert (Hq0 : (0 <= q)%Z).
  { change 0%Z with (Qfloor (inject_Z 0)). apply Qfloor_resp_le.
    now apply div_nonneg. }
  assert (Hsub : x - Py.mod_ x (inject_Z k) == inject_Z (q * k)).
  { unfold Py.mod_. fold q. rewrite inject_Z_mult. ring. }
  assert (Hqk : (q * k <= 2 ^ 53)%Z).
  { apply Z.lt_le_incl. rewrite Zlt_Qlt.
    eapply Qle_lt_trans; [|exact Hlt].
    rewrite <- Hsub. lra. }
  assert (Hq : (q <= 2 ^ 53)%Z) by nia.
  assert (Hdiv : fl (fl (x - Py.mod_ x (inject_Z k)) / inject_Z k)
                 == inject_Z q).
  { apply fl_whole; [|lia].
    rewrite (fl_whole _ (q * k) Hsub) by nia.
    rewrite inject_Z_mult. field. lra. }
  set (div0 := fl (fl (x - Py.mod_ x (inject_Z k)) / inject_Z k)) in *.
  assert (Hadj : (if Qeq_bool (Py.mod_ x (inject_Z k)) 0 then div0
                  else if Bool.eqb (Binary64.Qlt_bool (inject_Z k) 0)
                            (Binary64.Qlt_bool (Py.mod_ x (inject_Z k)) 0)
                       then div0 else fl (div0 - 1)) = div0).
  { destruct (Qeq_bool (Py.mod_ x (inject_Z k)) 0); [reflexivity|].
    rewrite !Qlt_bool_false; [reflexivity|exact Hm|lra]. }
  rewrite Hadj.
  destruct (Qeq_bool div0 0) eqn:E.
  - apply Qeq_bool_iff in E. rewrite <- Hdiv, E. reflexivity.
  - rewrite (Qfloor_comp _ _ Hdiv), Qfloor_Z.
    rewrite Qlt_bool_false; [reflexivity|].
    assert (E0 : div0 - inject_Z q == inject_Z 0).
    { rewrite Hdiv. change (inject_Z 0) with 0. ring. }
    rewrite (fl_whole _ 0 E0) by lia. discriminate.
Qed.

Lemma format_time_exact (sep : string) (seconds : Q) :
  0 <= seconds -> seconds < inject_Z (2 ^ 53) ->
  Py.format_d 2 (Py.int (Binary64.floordiv fl seconds 3600)) +:+ ":"
    +:+ Py.format_d 2
          (Py.int (Binary64.floordiv fl (Binary64.mod_ fl seconds 3600) 60))
    +:+ ":"
    +:+ Py.format_d 2 (Py.int (Binary64.mod_ fl seconds 60)) +:+ sep
    +:+ Py.format_d 3 (Py.int (fl (Binary64.mod_ fl seconds 1 * 1000)))
  = Py.format_d 2 (Py.int (Py.floordiv seconds 3600)) +:+ ":"
    +:+ Py.format_d 2 (Py.int (Py.floordiv (Py.mod_ seconds 3600) 60)) +:+ ":"
    +:+ Py.format_d 2 (Py.int (Py.mod_ seconds 60)) +:+ sep
    +:+ Py.format_d 3 (Py.int (fl (Py.mod_ seconds 1 * 1000))).
Proof.
  intros Hs Hlt.
  pose proof (mod_exact seconds 3600 Hs ltac:(lia)) as E3600.
  pose proof (mod_exact seconds 60 Hs ltac:(lia)) as E60.
  pose proof (mod_exact seconds 1 Hs ltac:(lia)) as E1.
  change (inject_Z 3600) with 3600 in E3600.
  change (inject_Z 60) with 60 in E60.
  change (inject_Z 1) with 1 in E1.
  pose proof (floordiv_exact seconds 3600 Hs Hlt ltac:(lia)) as Eh.
  change (inject_Z 3600) with 3600 in Eh.
  assert (Em : Binary64.floordiv fl (Binary64.mod_ fl seconds 3600) 60
               == Py.floordiv (Py.mod_ seconds 3600) 60).
  { pose proof (mod_nonneg seconds 3600 ltac:(lia)) as H0.
    change (inject_Z 3600) with 3600 in H0.
    assert (H1 : Py.mod_ seconds 3600 < 3600).
    { pose proof (Qfloor_mod seconds 3600 ltac:(lia)) as Hf.
      change (inject_Z 3600) with 3600 in Hf.
      pose proof (Qlt_floor (Py.mod_ seconds 3600)) as Hg.
      rewrite Hf in Hg. eapply Qlt_le_trans; [exact Hg|].
      change 3600 with (inject_Z 3600). rewrite <- Zle_Qle.
      pose proof (Z.mod_pos_bound (Qfloor seconds) 3600 ltac:(lia)). lia. }
    change 60 with (inject_Z 60).
    rewrite (floordiv_exact (Binary64.mod_ fl seconds 3600) 60);
      [| rewrite E3600; exact H0
       | rewrite E3600; eapply Qlt_trans; [exact H1|reflexivity]
       | lia].
    unfold Py.floordiv.
    assert (Ed : Binary64.mod_ fl seconds 3600 / inject_Z 60
                 == Py.mod_ seconds 3600 / inject_Z 60) by now rewrite E3600.
    now rewrite (Qfloor_comp _ _ Ed). }
  rewrite (int_comp _ _ Eh), (int_comp _ _ Em), (int_comp _ _ E60).
  assert (Ems : fl (Binary64.mod_ fl seconds 1 * 1000)
                == fl (Py.mod_ seconds 1 * 1000)).
  { apply (fl_proper fl Hfl). now rewrite E1. }
  now rewrite (int_comp _ _ Ems).
Qed.

(** For [0 <= seconds < 2^53] the time stamp functions on floats print
  what the exact ones print. *)
Lemma format_srt_time_exact (seconds : Q) :
  0 <= seconds -> seconds < inject_Z (2 ^ 53) ->
  Binary64._format_srt_time fl seconds = _format_srt_time fl seconds.
Proof. apply format_time_exact. Qed.

Lemma format_vtt_time_exact (seconds : Q) :
  0 <= seconds -> seconds < inject_Z (2 ^ 53) ->
  Binary64._format_vtt_time fl seconds = _format_vtt_time fl seconds.
Proof. apply format_time_exact. Qed.

End Exact.
End Binary64Facts.

(** ** Rounding to nearest at 53 bits *)

Module Round53Facts.
Local Open Scope Q_scope.

Lemma two_pos (e : Z) : 0 < 2 ^ e.
Proof. apply Qpower_0_lt. reflexivity. Qed.

Lemma two_succ (e : Z) : 2 ^ (e + 1) == 2 ^ e * 2.
Proof. rewrite Qpower_plus by discriminate. reflexivity. Qed.

Lemma two_Z (n : Z) : (0 <= n)%Z -> inject_Z (2 ^ n) == 2 ^ n.
Proof. intros H. now rewrite Zpower_Qpower. Qed.

Lemma mul_lt_cancel (a b d : Q) : 0 < d -> a * d < b * d -> a < b.
Proof. intros Hd H. apply (Qmult_lt_r _ _ d Hd). exact H. Qed.

Lemma exponent_spec (a : Q) :
  0 < a ->
  2 ^ Binary64.exponent a <= a /\ a < 2 ^ (Binary64.exponent a + 1).
Proof.
  intros Ha. unfold Binary64.exponent. destruct a as [n d].
  assert (Hn : (0 < n)%Z).
  { unfold Qlt in Ha. simpl in Ha. lia. }
  cbn [Qnum Qden].
  destruct (Z.log2_spec n Hn) as [Hn1 Hn2].
  destruct (Z.log2_spec (Z.pos d) eq_refl) as [Hd1 Hd2].
  pose proof (Z.log2_nonneg n) as Hln.
  pose proof (Z.log2_nonneg (Z.pos d)) as Hld.
  set (ln := Z.log2 n) in *. set (ld := Z.log2 (Z.pos d)) in *.
  rewrite Zle_Qle, two_Z in Hn1, Hd1 by assumption.
  rewrite Zlt_Qlt, two_Z in Hn2, Hd2 by lia.
  unfold Z.succ in Hn2, Hd2. rewrite two_succ in Hn2, Hd2.
  assert (HD : 0 < inject_Z (Z.pos d)) by reflexivity.
  assert (HaD : (n # d) * inject_Z (Z.pos d) == inject_Z n).
  { rewrite (Qmake_Qdiv n d). field. intros E. rewrite E in HD. discriminate. }
  pose proof (two_pos ln) as HP. pose proof (two_pos ld) as HR.
  pose proof (two_pos (ln - ld)) as HT.
  assert (HTR : 2 ^ (ln - ld) * 2 ^ ld == 2 ^ ln).
  { rewrite Qpower_minus by discriminate. field. intros E. rewrite E in HR.
    discriminate. }
  set (a := n # d) in *. set (N := inject_Z n) in *.
  set (D := inject_Z (Z.pos d)) in *.
  set (P := 2 ^ ln) in *. set (R := 2 ^ ld) in *. set (T := 2 ^ (ln - ld)) in *.
  assert (Hup : a < T * 2).
  { apply (mul_lt_cancel _ _ D HD). rewrite HaD.
    eapply Qlt_le_trans; [exact Hn2|]. rewrite <- HTR.
    assert (T * R * 2 == T * 2 * R) as -> by ring.
    apply Qmult_le_l; [lra|exact Hd1]. }
  assert (Hlo : T < a * 2).
  { apply (mul_lt_cancel _ _ R HR). rewrite HTR.
    eapply Qle_lt_trans; [exact Hn1|]. rewrite <- HaD.
    assert (a * 2 * R == a * (R * 2)) as -> by ring.
    apply Qmult_lt_l; [exact Ha|exact Hd2]. }
  destruct (Qle_bool T a) eqn:E.
  - apply Qle_bool_iff in E. split; [exact E|]. now rewrite two_succ.
  - assert (Hlt : a < T).
    { apply Qnot_le_lt. intros H. apply Qle_bool_iff in H. congruence. }
    assert (E1 : 2 ^ (ln - ld - 1) * 2 == T).
    { rewrite <- two_succ. now replace (ln - ld - 1 + 1)%Z with (ln - ld)%Z by lia. }
    split.
    + clearbody T. lra.
    + now replace (ln - ld - 1 + 1)%Z with (ln - ld)%Z by lia.
Qed.

Lemma exponent_unique (a : Q) (e : Z) :
  2 ^ e <= a -> a < 2 ^ (e + 1) -> Binary64.exponent a = e.
Proof.
  intros H1 H2.
  assert (Ha : 0 < a) by (eapply Qlt_le_trans; [apply (two_pos e)|exact H1]).
  destruct (exponent_spec a Ha) as [G1 G2].
  assert (Binary64.exponent a < e + 1)%Z.
  { apply (Qpower_lt_compat_l_inv 2); [|reflexivity].
    eapply Qle_lt_trans; eassumption. }
  assert (e < Binary64.exponent a + 1)%Z.
  { apply (Qpower_lt_compat_l_inv 2); [|reflexivity].
    eapply Qle_lt_trans; eassumption. }
  lia.
Qed.

(** *** Rounding to a whole number *)

Lemma rne_Z (z : Z) : Py.round_half_even (inject_Z z) = z.
Proof.
  unfold Py.round_half_even. cbv zeta. rewrite Qfloor_Z.
  assert (E : inject_Z z - inject_Z z == 0) by ring.
  now rewrite E.
Qed.

Lemma rne_comp (x y : Q) : x == y -> Py.round_half_even x = Py.round_half_even y.
Proof.
  intros E. unfold Py.round_half_even. cbv zeta.
  rewrite (Qfloor_comp _ _ E).
  assert (E' : x - inject_Z (Qfloor y) == y - inject_Z (Qfloor y)) by now rewrite E.
  now rewrite E'.
Qed.

Lemma rne_bounds (x : Q) :
  (Qfloor x <= Py.round_half_even x <= Qfloor x + 1)%Z.
Proof.
  unfold Py.round_half_even. cbv zeta.
  destruct (x - inject_Z (Qfloor x) ?= 1 # 2); [|lia|lia].
  destruct (Z.even (Qfloor x)); lia.
Qed.

Lemma rne_mono (x y : Q) :
  x <= y -> (Py.round_half_even x <= Py.round_half_even y)%Z.
Proof.
  intros H. pose proof (Qfloor_resp_le _ _ H) as Hf.
  destruct (Z.eq_dec (Qfloor x) (Qfloor y)) as [E|Hne].
  - unfold Py.round_half_even. cbv zeta. rewrite E.
    set (f := Qfloor y).
    destruct (x - inject_Z f ?= 1 # 2) eqn:Cx;
      destruct (y - inject_Z f ?= 1 # 2) eqn:Cy;
      try (destruct (Z.even f)); try lia; exfalso;
      repeat match goal with
             | H : (_ ?= _) = Eq |- _ => apply Qeq_alt in H
             | H : (_ ?= _) = Lt |- _ => apply Qlt_alt in H
             | H : (_ ?= _) = Gt |- _ => apply Qgt_alt in H
             end; lra.
  - pose proof (rne_bounds x). pose proof (rne_bounds y). lia.
Qed.

Lemma Qfloor_opp (x : Q) :
  ~ x == inject_Z (Qfloor x) -> Qfloor (- x) = (- Qfloor x - 1)%Z.
Proof.
  intros Hn. pose proof (Qfloor_le x) as H1. pose proof (Qlt_floor x) as H2.
  rewrite inject_Z_plus in H2. change (inject_Z 1) with 1 in H2.
  apply PyFacts.Qfloor_unique.
  - unfold Zminus. rewrite inject_Z_plus, !inject_Z_opp.
    change (inject_Z 1) with 1. lra.
  - replace (- Qfloor x - 1 + 1)%Z with (- Qfloor x)%Z by lia.
    rewrite inject_Z_opp.
    assert (inject_Z (Qfloor x) < x); [|lra].
    apply Qle_lteq in H1 as [H1|H1]; [exact H1|]. symmetry in H1. contradiction.
Qed.

Lemma rne_opp (x : Q) : Py.round_half_even (- x) = (- Py.round_half_even x)%Z.
Proof.
  destruct (Qeq_dec x (inject_Z (Qfloor x))) as [E|Hn].
  - assert (E' : - x == inject_Z (- Qfloor x)) by (rewrite inject_Z_opp; now rewrite <- E).
    now rewrite (rne_comp _ _ E'), (rne_comp _ _ E), !rne_Z.
  - unfold Py.round_half_even. cbv zeta. rewrite (Qfloor_opp x Hn).
    set (f := Qfloor x) in *.
    pose proof (Qfloor_le x) as H1. fold f in H1.
    unfold Zminus. rewrite inject_Z_plus, !inject_Z_opp.
    change (inject_Z 1) with 1.
    replace (Z.even (- f + - (1))) with (negb (Z.even f)).
    2:{ replace (- f + - (1))%Z with (- (f + 1))%Z by lia.
        rewrite Z.even_opp, Z.even_add. now destruct (Z.even f). }
    destruct (x - inject_Z f ?= 1 # 2) eqn:Cx;
      destruct (- x - (- inject_Z f + - (1)) ?= 1 # 2) eqn:Cy;
      try (destruct (Z.even f); cbn [negb]); try lia; exfalso;
      repeat match goal with
             | H : (_ ?= _) = Eq |- _ => apply Qeq_alt in H
             | H : (_ ?= _) = Lt |- _ => apply Qlt_alt in H
             | H : (_ ?= _) = Gt |- _ => apply Qgt_alt in H
             end; lra.
Qed.

(** *** Rounding to 53 bits *)

Lemma exponent_abs_pos (x : Q) :
  0 < x -> Binary64.exponent (Qabs x) = Binary64.exponent x.
Proof.
  intros H. destruct x as [n d].
  assert (Hn : (0 < n)%Z) by (unfold Qlt in H; simpl in H; lia).
  unfold Qabs. now rewrite Z.abs_eq by lia.
Qed.

Lemma exponent_abs_opp (x : Q) :
  Binary64.exponent (Qabs (- x)) = Binary64.exponent (Qabs x).
Proof. destruct x as [n d]. unfold Qabs, Qopp. cbn [Qnum Qden]. now rewrite Z.abs_opp. Qed.

Lemma round53_nonzero (x : Q) :
  ~ x == 0 ->
  Binary64.round53 x
  == inject_Z (Py.round_half_even (x / 2 ^ (Binary64.exponent (Qabs x) - 52)))
     * 2 ^ (Binary64.exponent (Qabs x) - 52).
Proof.
  intros H. unfold Binary64.round53.
  destruct (Qeq_bool x 0) eqn:E.
  - apply Qeq_bool_iff in E. contradiction.
  - cbv zeta. apply Qred_correct.
Qed.

Lemma round53_zero (x : Q) : x == 0 -> Binary64.round53 x == 0.
Proof.
  intros H. unfold Binary64.round53. apply Qeq_bool_iff in H. now rewrite H.
Qed.

Lemma round53_opp (x : Q) : Binary64.round53 (- x) == - Binary64.round53 x.
Proof.
  destruct (Qeq_dec x 0) as [E|Hn].
  - rewrite (round53_zero x E), (round53_zero (- x)); [reflexivity|].
    rewrite E. reflexivity.
  - rewrite (round53_nonzero x Hn), (round53_nonzero (- x)).
    2:{ intros E. apply Hn. lra. }
    rewrite exponent_abs_opp.
    set (u := 2 ^ (Binary64.exponent (Qabs x) - 52)).
    assert (Hu : 0 < u) by apply two_pos.
    assert (E : - x / u == - (x / u)).
    { field. intros E. rewrite E in Hu. discriminate. }
    rewrite (rne_comp _ _ E), rne_opp, inject_Z_opp. ring.
Qed.

(** Inside a binade. *)
Lemma round53_binade (x : Q) (e : Z) :
  2 ^ e <= x -> x < 2 ^ (e + 1) ->
  Binary64.round53 x
  == inject_Z (Py.round_half_even (x / 2 ^ (e - 52))) * 2 ^ (e - 52)
  /\ 2 ^ e <= Binary64.round53 x /\ Binary64.round53 x <= 2 ^ (e + 1).
Proof.
  intros H1 H2.
  assert (Hx : 0 < x) by (eapply Qlt_le_trans; [apply (two_pos e)|exact H1]).
  assert (Hn : ~ x == 0) by (intros E; rewrite E in Hx; discriminate).
  pose proof (round53_nonzero x Hn) as Er.
  rewrite (exponent_abs_pos x Hx), (exponent_unique x e H1 H2) in Er.
  split; [exact Er|]. rewrite Er. clear Er.
  set (u := 2 ^ (e - 52)).
  assert (Hu : 0 < u) by apply two_pos.
  assert (Eu : 2 ^ 52 * u == 2 ^ e).
  { unfold u. rewrite <- Qpower_plus by discriminate.
    now replace (52 + (e - 52))%Z with e by lia. }
  assert (Eu' : 2 ^ 53 * u == 2 ^ (e + 1)).
  { unfold u. rewrite <- Qpower_plus by discriminate.
    now replace (53 + (e - 52))%Z with (e + 1)%Z by lia. }
  assert (L : inject_Z (2 ^ 52) <= x / u).
  { apply Qle_shift_div_l; [exact Hu|].
    change (inject_Z (2 ^ 52)) with (2 ^ 52). now rewrite Eu. }
  assert (U : x / u <= inject_Z (2 ^ 53)).
  { apply Qle_shift_div_r; [exact Hu|].
    change (inject_Z (2 ^ 53)) with (2 ^ 53). rewrite Eu'.
    now apply Qlt_le_weak. }
  apply rne_mono in L, U. rewrite rne_Z in L, U.
  set (m := Py.round_half_even (x / u)) in *.
  rewrite Zle_Qle in L, U.
  change (inject_Z (2 ^ 52)) with (2 ^ 52) in L.
  change (inject_Z (2 ^ 53)) with (2 ^ 53) in U.
  rewrite <- Eu, <- Eu'. split; apply Qmult_le_r; assumption.
Qed.

Lemma round53_pos (x : Q) : 0 < x -> 0 < Binary64.round53 x.
Proof.
  intros Hx. destruct (exponent_spec x Hx) as [H1 H2].
  destruct (round53_binade x _ H1 H2) as (_ & H & _).
  eapply Qlt_le_trans; [apply two_pos|exact H].
Qed.

Lemma round53_mono_pos (x y : Q) :
  0 < x -> x <= y -> Binary64.round53 x <= Binary64.round53 y.
Proof.
  intros Hx Hxy.
  assert (Hy : 0 < y) by (eapply Qlt_le_trans; eassumption).
  destruct (exponent_spec x Hx) as [X1 X2].
  destruct (exponent_spec y Hy) as [Y1 Y2].
  set (ex := Binary64.exponent x) in *. set (ey := Binary64.exponent y) in *.
  assert (Hle : (ex <= ey)%Z).
  { assert (ex < ey + 1)%Z; [|lia].
    apply (Qpower_lt_compat_l_inv 2); [|reflexivity].
    eapply Qle_lt_trans; [exact X1|]. eapply Qle_lt_trans; eassumption. }
  destruct (round53_binade x ex X1 X2) as (Ex & _ & Ux).
  destruct (round53_binade y ey Y1 Y2) as (Ey & Ly & _).
  destruct (Z.eq_dec ex ey) as [E|Hne].
  - rewrite Ex, Ey, E.
    assert (Hu : 0 < 2 ^ (ey - 52)) by apply two_pos.
    apply Qmult_le_r; [exact Hu|]. rewrite <- Zle_Qle. apply rne_mono.
    apply Qmult_le_r; [|exact Hxy]. now apply Qinv_lt_0_compat.
  - eapply Qle_trans; [exact Ux|]. eapply Qle_trans; [|exact Ly].
    apply Qpower_le_compat_l; [lia|discriminate].
Qed.

Lemma round53_mono (x y : Q) :
  x <= y -> Binary64.round53 x <= Binary64.round53 y.
Proof.
  intros Hxy.
  destruct (Q_dec x 0) as [[Hx|Hx]|Hx].
  - (* x < 0 *)
    assert (Hrx : Binary64.round53 x < 0).
    { assert (H : 0 < Binary64.round53 (- x)) by (apply round53_pos; lra).
      rewrite round53_opp in H. lra. }
    destruct (Q_dec y 0) as [[Hy|Hy]|Hy].
    + assert (H : Binary64.round53 (- y) <= Binary64.round53 (- x))
        by (apply round53_mono_pos; lra).
      rewrite !round53_opp in H. lra.
    + pose proof (round53_pos y Hy). lra.
    + rewrite (round53_zero y Hy). lra.
  - now apply round53_mono_pos.
  - rewrite (round53_zero x Hx).
    destruct (Q_dec y 0) as [[Hy|Hy]|Hy].
    + lra.
    + pose proof (round53_pos y Hy). lra.
    + rewrite (round53_zero y Hy). lra.
Qed.

(** The whole numbers up to [2^53] are not moved. *)
Lemma round53_integers : binary64_integers Binary64.round53.
Proof.
  intros z [Hz0 Hz1].
  destruct (Z.eq_dec z 0%Z) as [->|Hne]; [reflexivity|].
  assert (Hx : 0 < inject_Z z).
  { change 0 with (inject_Z 0). rewrite <- Zlt_Qlt. lia. }
  destruct (exponent_spec _ Hx) as [H1 H2].
  set (e := Binary64.exponent (inject_Z z)) in *.
  destruct (round53_binade _ e H1 H2) as (E & _ & _). rewrite E.
  assert (He0 : (0 <= e)%Z).
  { assert (0 < e + 1)%Z; [|lia].
    apply (Qpower_lt_compat_l_inv 2); [|reflexivity].
    eapply Qle_lt_trans; [|exact H2].
    change (2 ^ 0) with (inject_Z 1). rewrite <- Zle_Qle. lia. }
  assert (He1 : (e <= 53)%Z).
  { apply (Qpower_le_compat_l_inv 2); [|reflexivity].
    eapply Qle_trans; [exact H1|].
    change (2 ^ 53) with (inject_Z (2 ^ 53)). now rewrite <- Zle_Qle. }
  destruct (Z.eq_dec e 53%Z) as [E53|Hne53].
  - assert (Ez : z = (2 ^ 53)%Z).
    { apply Z.le_antisymm; [exact Hz1|]. rewrite Zle_Qle.
      change (inject_Z (2 ^ 53)) with (2 ^ 53). now rewrite <- E53. }
    rewrite E53, Ez. vm_compute. reflexivity.
  - assert (Eq : inject_Z z / 2 ^ (e - 52) == inject_Z (z * 2 ^ (52 - e))).
    { rewrite inject_Z_mult, two_Z by lia.
      replace (e - 52)%Z with (- (52 - e))%Z by lia.
      rewrite Qpower_opp. field.
      intros E0. pose proof (two_pos (52 - e)) as Hp. rewrite E0 in Hp.
      discriminate. }
    rewrite (rne_comp _ _ Eq), rne_Z, inject_Z_mult, two_Z by lia.
    rewrite <- Qmult_assoc, <- Qpower_plus by discriminate.
    replace (52 - e + (e - 52))%Z with 0%Z by lia.
    change (2 ^ 0) with 1. ring.
Qed.

Lemma round53_rounding : binary64_rounding Binary64.round53.
Proof.
  split.
  - apply round53_mono.
  - intros z Hz. apply round53_integers. lia.
Qed.

End Round53Facts.

(** ** Subtitle files: the loops against the block structure *)

Module SubtitleFacts.
Import OutputFormatter PyFacts TimestampFacts.
Local Arguments String.append : simpl nomatch.

Lemma app_empty_r (s : string) : s +:+ "" = s.
Proof. induction s; simpl; [reflexivity|]. now rewrite IHs. Qed.

Lemma fold_left_pointwise {A B} (f g : B -> A -> B) (l : list A) (acc : B) :
  (forall acc x, f acc x = g acc x) -> fold_left f l acc = fold_left g l acc.
Proof.
  intros E. revert acc. induction l as [|x l IH]; intros acc; simpl;
    [reflexivity|]. now rewrite E, IH.
Qed.

Lemma fold_left_append {A} (f : A -> list string) (l : list A)
    (acc : list string) :
  fold_left (fun acc x => acc ++ f x) l acc = acc ++ flat_map f l.
Proof.
  revert acc. induction l as [|x l IH]; intros acc; simpl.
  - now rewrite app_nil_r.
  - rewrite IH. now rewrite <- List.app_assoc.
Qed.

Lemma flat_map_filter {A B} (P : A -> Prop) `{forall x, Decision (P x)}
    (g : A -> list B) (l : list A) :
  flat_map (fun x => if decide (P x) then g x else []) l
  = flat_map g (filter P l).
Proof.
  induction l as [|x l IH]; simpl; [reflexivity|].
  rewrite filter_cons. destruct (decide (P x)); simpl; now rewrite IH.
Qed.

(** Four lines per block, joined by newlines: blocks one blank line apart. *)
Lemma join_four_lines {A} (l1 l2 l3 : A -> string) (bs : list A) :
  Py.join Py.NL (flat_map (fun b => [l1 b; l2 b; l3 b; ""]) bs)
  = Py.join Py.NL
      (map (fun b => l1 b +:+ Py.NL +:+ l2 b +:+ Py.NL +:+ l3 b +:+ Py.NL) bs).
Proof.
  unfold Py.join. induction bs as [|b bs IH]; [reflexivity|].
  cbn [flat_map map app String.concat].
  destruct bs as [|b' bs].
  - cbn [flat_map String.concat]. rewrite !string_app_assoc. reflexivity.
  - cbn [flat_map map app String.concat] in IH |- *.
    rewrite IH. rewrite !string_app_assoc. reflexivity.
Qed.

Lemma concat_cons2 (sep x y : string) (l : list string) :
  String.concat sep (x :: y :: l) = x +:+ sep +:+ String.concat sep (y :: l).
Proof. reflexivity. Qed.

Lemma each_after_blank_line_cons (b : string) (bs : list string) :
  Spec.each_after_blank_line (b :: bs)
  = Py.NL +:+ b +:+ Spec.each_after_blank_line bs.
Proof. reflexivity. Qed.

(** After a blank line, three lines per block. *)
Lemma join_after_blank {A} (l1 l2 : A -> string) (bs : list A) :
  Py.join Py.NL ("" :: flat_map (fun b => [l1 b; l2 b; ""]) bs)
  = Spec.each_after_blank_line
      (map (fun b => l1 b +:+ Py.NL +:+ l2 b +:+ Py.NL) bs).
Proof.
  unfold Py.join. induction bs as [|b bs IH]; [reflexivity|].
  cbn [flat_map map app].
  rewrite (concat_cons2 _ ""), (concat_cons2 _ (l1 b)), (concat_cons2 _ (l2 b)).
  rewrite IH, each_after_blank_line_cons, !string_app_assoc. reflexivity.
Qed.

(** After a blank line, four lines per block. *)
Lemma join_after_blank_four {A} (l1 l2 l3 : A -> string) (bs : list A) :
  Py.join Py.NL ("" :: flat_map (fun b => [l1 b; l2 b; l3 b; ""]) bs)
  = Spec.each_after_blank_line
      (map (fun b => l1 b +:+ Py.NL +:+ l2 b +:+ Py.NL +:+ l3 b +:+ Py.NL) bs).
Proof.
  unfold Py.join. induction bs as [|b bs IH]; [reflexivity|].
  cbn [flat_map map app].
  rewrite (concat_cons2 _ ""), (concat_cons2 _ (l1 b)), (concat_cons2 _ (l2 b)),
    (concat_cons2 _ (l3 b)).
  rewrite IH, each_after_blank_line_cons, !string_app_assoc. reflexivity.
Qed.

Lemma truthy_emitted (seg : Segment) :
  negb (Py.truthy (_clean_text_for_subtitles (text seg)))
  = if decide (Spec.emitted seg) then false else true.
Proof.
  unfold Py.truthy, Spec.emitted. rewrite negb_involutive.
  destruct (String.eqb_spec (_clean_text_for_subtitles (text seg)) "");
    destruct (decide _) as [He|He]; unfold Spec.emitted in He;
    try reflexivity; [contradiction|].
  exfalso. apply He. assumption.
Qed.

Section Loops.
Variable fl : Q -> Q.

Lemma srt_lines_blocks (segments : list Segment) :
  srt_lines fl segments
  = flat_map (fun b : nat * Segment =>
                [Py.str_N (N.of_nat b.1);
                 _format_srt_time fl (start b.2) +:+ " --> "
                   +:+ _format_srt_time fl (end_ b.2);
                 _clean_text_for_subtitles (text b.2);
                 ""])
      (filter (fun b => Spec.emitted b.2) (Py.enumerate 1 segments)).
Proof.
  unfold srt_lines.
  rewrite <- (flat_map_filter (fun b : nat * Segment => Spec.emitted b.2)).
  rewrite <- (app_nil_l (flat_map _ _)).
  rewrite <- fold_left_append. apply fold_left_pointwise.
  intros acc [i seg]. cbn [fst snd]. rewrite truthy_emitted.
  destruct (decide (Spec.emitted seg)).
  - rewrite str_of_nat. reflexivity.
  - now rewrite app_nil_r.
Qed.

Lemma srt_content_blocks (segments : list Segment) :
  srt_content fl segments
  = Py.join Py.NL
      (map (Spec.srt_block fl)
         (filter (fun b => Spec.emitted b.2) (Py.enumerate 1 segments))).
Proof.
  unfold srt_content. rewrite srt_lines_blocks.
  rewrite (join_four_lines
             (fun b : nat * Segment => Py.str_N (N.of_nat b.1))
             (fun b => _format_srt_time fl (start b.2) +:+ " --> "
                         +:+ _format_srt_time fl (end_ b.2))
             (fun b => _clean_text_for_subtitles (text b.2))).
  f_equal. apply map_ext. intros b. unfold Spec.srt_block.
  rewrite !string_app_assoc. reflexivity.
Qed.

Lemma vtt_lines_blocks (segments : list Segment) :
  vtt_lines fl segments
  = ["WEBVTT"; ""]
    ++ flat_map (fun seg : Segment =>
                   [_format_vtt_time fl (start seg) +:+ " --> "
                      +:+ _format_vtt_time fl (end_ seg);
                    _clean_text_for_subtitles (text seg);
                    ""])
         (filter Spec.emitted segments).
Proof.
  unfold vtt_lines.
  rewrite <- (flat_map_filter Spec.emitted).
  rewrite <- fold_left_append. apply fold_left_pointwise.
  intros acc seg. rewrite truthy_emitted.
  destruct (decide (Spec.emitted seg)).
  - reflexivity.
  - now rewrite app_nil_r.
Qed.

Lemma vtt_content_blocks (segments : list Segment) :
  vtt_content fl segments
  = "WEBVTT" +:+ Py.NL
      +:+ Spec.each_after_blank_line
            (map (Spec.vtt_block fl) (filter Spec.emitted segments)).
Proof.
  unfold vtt_content. rewrite vtt_lines_blocks.
  cbn [app]. unfold Py.join. rewrite (concat_cons2 _ "WEBVTT").
  fold (Py.join Py.NL). rewrite (join_after_blank
             (fun seg : Segment => _format_vtt_time fl (start seg) +:+ " --> "
                         +:+ _format_vtt_time fl (end_ seg))
             (fun seg => _clean_text_for_subtitles (text seg))).
  rewrite (map_ext _ (Spec.vtt_block fl)); [reflexivity|].
  intros b. unfold Spec.vtt_block. rewrite !string_app_assoc. reflexivity.
Qed.

Lemma segments_to_vtt_blocks (segments : list Models.TranscriptSegment) :
  ExportRoute.segments_to_vtt fl segments
  = "WEBVTT" +:+ Py.NL
      +:+ Spec.each_after_blank_line
            (map (Spec.export_block (ExportRoute.format_timestamp_vtt fl))
               (Py.enumerate 1 segments)).
Proof.
  unfold ExportRoute.segments_to_vtt.
  rewrite (fold_left_pointwise _
    (fun acc (b : nat * Models.TranscriptSegment) =>
       acc ++ [Py.str_N (N.of_nat b.1);
               Spec.export_timing (ExportRoute.format_timestamp_vtt fl) b.2;
               Models.text b.2; ""])).
  2:{ intros acc [i seg]. cbn [fst snd]. now rewrite str_of_nat. }
  rewrite fold_left_append. cbn [app]. unfold Py.join.
  rewrite (concat_cons2 _ "WEBVTT").
  fold (Py.join Py.NL). rewrite (join_after_blank_four
             (fun b : nat * Models.TranscriptSegment => Py.str_N (N.of_nat b.1))
             (fun b => Spec.export_timing (ExportRoute.format_timestamp_vtt fl) b.2)
             (fun b => Models.text b.2)).
  reflexivity.
Qed.

End Loops.


End SubtitleFacts.

(** ** Output formats: the claims *)

Import OutputFormatter.

Lemma fl_exact_rounding : binary64_rounding fl_exact.
Proof. split; unfold fl_exact; intros; [assumption|reflexivity]. Qed.





(** C7, as amended.  For [0 <= seconds < 2^53], with every float
  operation of the two functions rounded as binary64 rounds it: reading
  the SRT or the VTT time stamp back as
  [hours*3600 + minutes*60 + secs + millis/1000] gives a value less
  than a millisecond away from [seconds], and [seconds] itself when it
  is a whole number of milliseconds; in that range the floor divisions
  and remainders are exact, so that the time stamps are those of
  [OutputFormatter]. *)
Theorem timestamp_round_trip (fl : Q -> Q) (seconds : Q) :
  binary64_rounding fl -> binary64_integers fl ->
  (0 <= seconds)%Q -> (seconds < inject_Z (2 ^ 53))%Q ->
  (exists t,
      Spec.parse_timestamp "," (Binary64._format_srt_time fl seconds) = Some t
      /\ (Qabs (t - seconds) < 1 / 1000)%Q
      /\ (forall j : Z, (seconds * 1000 == inject_Z j)%Q -> (t == seconds)%Q))
  /\ (exists t,
      Spec.parse_timestamp "." (Binary64._format_vtt_time fl seconds) = Some t
      /\ (Qabs (t - seconds) < 1 / 1000)%Q
      /\ (forall j : Z, (seconds * 1000 == inject_Z j)%Q -> (t == seconds)%Q))
  /\ Binary64._format_srt_time fl seconds = _format_srt_time fl seconds
  /\ Binary64._format_vtt_time fl seconds = _format_vtt_time fl seconds.
Proof.
  intros Hfl Hint Hs Hlt.
  pose proof (Binary64Facts.format_srt_time_exact fl Hfl Hint seconds Hs Hlt)
    as Esrt.
  pose proof (Binary64Facts.format_vtt_time_exact fl Hfl Hint seconds Hs Hlt)
    as Evtt.
  split; [|split; [|split; [exact Esrt|exact Evtt]]].
  - rewrite Esrt, (TimestampFacts.format_srt_time_floors fl Hfl).
    apply (TimestampFacts.round_trip_floors fl Hfl ",");
      [reflexivity|discriminate|exact Hs].
  - rewrite Evtt, (TimestampFacts.format_vtt_time_floors fl Hfl).
    apply (TimestampFacts.round_trip_floors fl Hfl ".");
      [reflexivity|discriminate|exact Hs].
Qed.

Lemma timestamp_round_trip_witness :
  binary64_rounding Binary64.round53 /\ binary64_integers Binary64.round53
  /\ (0 <= 7325001 # 1000)%Q /\ (7325001 # 1000 < inject_Z (2 ^ 53))%Q
  /\ (exists t,
      Spec.parse_timestamp ","
        (Binary64._format_srt_time Binary64.round53 (7325001 # 1000)) = Some t
      /\ (Qabs (t - (7325001 # 1000)) < 1 / 1000)%Q
      /\ (forall j : Z, ((7325001 # 1000) * 1000 == inject_Z j)%Q
                        -> (t == 7325001 # 1000)%Q)).
Proof.
  split; [exact Round53Facts.round53_rounding|].
  split; [exact Round53Facts.round53_integers|].
  split; [discriminate|]. split; [reflexivity|].
  apply (timestamp_round_trip Binary64.round53 (7325001 # 1000)
           Round53Facts.round53_rounding Round53Facts.round53_integers);
    [discriminate|reflexivity].
Defined.

(** The functions on floats at three floats: 7325.001 as stored, the
  last whole number below [2^53], and 2.2813502111853425e19, where the
  hours are one short of the quotient 6337083919959284. *)
Example float_time_stamps :
  Binary64._format_srt_time Binary64.round53
    (2013480943242707 # 274877906944) = "02:02:05,001"
  /\ Binary64._format_srt_time Binary64.round53 (inject_Z (2 ^ 53 - 1))
     = "2501999792983:36:31,000"
  /\ Binary64._format_srt_time Binary64.round53
       (inject_Z 22813502111853424640) = "6337083919959283:37:20,000"
  /\ Qfloor (inject_Z 22813502111853424640 / 3600) = 6337083919959284%Z.
Proof. repeat split; vm_compute; reflexivity. Qed.

(** Below zero the remainders round as well: at the float next to
  [-1e-20] every field is out of range. *)
Example negative_seconds_time_stamp :
  Binary64._format_srt_time Binary64.round53
    (Binary64.round53 (- (1 # 10 ^ 20)))
  = "-1:60:60,1000".
Proof. vm_compute. reflexivity. Qed.

(** C7 as stated fails for large [seconds].  [round53], rounding to
  nearest at 53 bits, is a rounding of which the theorem holds; and at
  [seconds = 1e20], a float, the subtraction [vx - mod] and the
  division by 3600 inside [//] round: the hours printed are
  27777777777777776 where the quotient is 27777777777777777, and both
  time stamps read back 3600 seconds less than [seconds]. *)
Lemma timestamp_round_trip_counterexample :
  let seconds := inject_Z (10 ^ 20) in
  binary64_rounding Binary64.round53 /\ binary64_integers Binary64.round53
  /\ (0 <= seconds)%Q
  /\ Binary64.round53 seconds = seconds
  /\ Binary64._format_srt_time Binary64.round53 seconds
     = "27777777777777776:46:40,000"
  /\ Binary64._format_vtt_time Binary64.round53 seconds
     = "27777777777777776:46:40.000"
  /\ Qfloor (seconds / 3600) = 27777777777777777%Z
  /\ (exists t,
        Spec.parse_timestamp "," "27777777777777776:46:40,000" = Some t
        /\ (seconds - t == 3600)%Q
        /\ ~ (Qabs (t - seconds) < 1 / 1000)%Q)
  /\ (exists t,
        Spec.parse_timestamp "." "27777777777777776:46:40.000" = Some t
        /\ (seconds - t == 3600)%Q
        /\ ~ (Qabs (t - seconds) < 1 / 1000)%Q).
Proof.
  cbv zeta.
  split; [exact Round53Facts.round53_rounding|].
  split; [exact Round53Facts.round53_integers|].
  split; [discriminate|].
  split; [vm_compute; reflexivity|].
  split; [vm_compute; reflexivity|].
  split; [vm_compute; reflexivity|].
  split; [vm_compute; reflexivity|].
  split; eexists; (split; [vm_compute; reflexivity|]);
    (split; [vm_compute; reflexivity|vm_compute; discriminate]).
Qed.

(** ** The JSON artifact *)

Module JsonFacts.
Import PyFacts.
Local Open Scope Q_scope.
Local Arguments String.append : simpl nomatch.

Lemma round_half_even_close (x : Q) :
  Qabs (inject_Z (Py.round_half_even x) - x) <= 1 # 2.
Proof.
  unfold Py.round_half_even.
  pose proof (Qfloor_le x) as Hl. pose proof (Qlt_floor x) as Hu.
  rewrite inject_Z_plus in Hu. change (inject_Z 1) with 1 in Hu.
  apply Qabs_Qle_condition.
  destruct (x - inject_Z (Qfloor x) ?= 1 # 2) eqn:E.
  - apply Qeq_alt in E. destruct (Z.even (Qfloor x));
      rewrite ?inject_Z_plus; change (inject_Z 1) with 1; split; lra.
  - apply Qlt_alt in E. split; lra.
  - apply Qgt_alt in E. rewrite inject_Z_plus. change (inject_Z 1) with 1.
    split; lra.
Qed.

Lemma pow10_pos (n : nat) : (0 < 10 ^ Z.of_nat n)%Z.
Proof. apply Z.pow_pos_nonneg; lia. Qed.

(** [round(x, n)] is a whole number of units [10^-n], at most half a
  unit away from [x]. *)
Lemma round_decimal (x : Q) (n : nat) :
  (exists z : Z, Py.round x n == inject_Z z / inject_Z (10 ^ Z.of_nat n))
  /\ Qabs (Py.round x n - x) * inject_Z (10 ^ Z.of_nat n) <= 1 # 2.
Proof.
  unfold Py.round. cbv zeta. set (p := (10 ^ Z.of_nat n)%Z).
  assert (Hp : 0 < inject_Z p).
  { change 0 with (inject_Z 0). rewrite <- Zlt_Qlt. apply pow10_pos. }
  split; [eexists; apply Qred_correct|].
  rewrite Qred_correct.
  pose proof (round_half_even_close (x * inject_Z p)) as Hc.
  set (r := inject_Z (Py.round_half_even (x * inject_Z p))) in *.
  assert (E : (r / inject_Z p - x) * inject_Z p == r - x * inject_Z p).
  { field. intros H0. rewrite H0 in Hp. discriminate. }
  rewrite <- (Qabs_pos (inject_Z p)) at 2 by (apply Qlt_le_weak; exact Hp).
  rewrite <- Qabs_Qmult, E. exact Hc.
Qed.

Lemma lstrip_spec (s : string) :
  exists l, Spec.all_space l = true /\ s = l +:+ Py.lstrip s
            /\ Spec.no_leading_space (Py.lstrip s) = true.
Proof.
  induction s as [|c s (l & Hl & Es & Hn)]; simpl.
  - exists "". auto.
  - destruct (Py.isspace c) eqn:Ec.
    + exists (String c l). simpl. rewrite Ec, Hl. split; [reflexivity|].
      split; [now rewrite <- Es|exact Hn].
    + exists "". simpl. rewrite Ec. auto.
Qed.

Lemma rstrip_spec (s : string) :
  exists r, Spec.all_space r = true /\ s = Py.rstrip s +:+ r
            /\ Spec.no_trailing_space (Py.rstrip s) = true.
Proof.
  induction s as [|c s (r & Hr & Es & Hn)]; simpl.
  - exists "". auto.
  - destruct (Py.rstrip s) as [|c' t] eqn:Et.
    + destruct (Py.isspace c) eqn:Ec.
      * exists (String c r). simpl. rewrite Ec, Hr. simpl in Es.
        split; [reflexivity|]. split; [now rewrite <- Es|reflexivity].
      * exists r. simpl in *. rewrite Ec. split; [exact Hr|].
        split; [now rewrite <- Es|reflexivity].
    + exists r. split; [exact Hr|]. split.
      * simpl in Es |- *. now rewrite <- Es.
      * exact Hn.
Qed.

Lemma rstrip_keeps_head (s : string) :
  Spec.no_leading_space s = true ->
  Spec.no_leading_space (Py.rstrip s) = true.
Proof.
  destruct s as [|c s]; simpl; [reflexivity|]. intros Hc.
  destruct (Py.isspace c) eqn:Ec; [discriminate|].
  destruct (Py.rstrip s); simpl; now rewrite Ec.
Qed.

(** [s.strip()] removes a run of whitespace at each end and nothing else. *)
Lemma strip_spec (s : string) :
  exists l r,
    Spec.all_space l = true /\ Spec.all_space r = true
    /\ s = l +:+ Py.strip s +:+ r
    /\ Spec.no_leading_space (Py.strip s) = true
    /\ Spec.no_trailing_space (Py.strip s) = true.
Proof.
  unfold Py.strip.
  destruct (lstrip_spec s) as (l & Hl & Es & Hn).
  destruct (rstrip_spec (Py.lstrip s)) as (r & Hr & Er & Ht).
  exists l, r. repeat split; auto.
  - now rewrite <- Er.
  - now apply rstrip_keeps_head.
Qed.

End JsonFacts.

(** C6, as amended.  In the JSON artifact [segment_count] is the length
  of the list; each segment carries [start] and [end] rounded to three
  decimal places and its text without leading or trailing whitespace;
  [duration] is the end of the last segment rounded to two decimal
  places when the list is not empty, and the key is absent when it is
  empty. *)
Theorem json_artifact_fields (segments : list Segment)
    (metadata : option (list (string * json))) :
  let data := generate_json_data segments metadata in
  json_get "segment_count" data = Some (JInt (Z.of_nat (length segments)))
  /\ json_get "segments" data
     = Some (JList (map (fun seg =>
                      JDict [("start", JFloat (Py.round (start seg) 3));
                             ("end", JFloat (Py.round (end_ seg) 3));
                             ("text", JStr (Py.strip (text seg)))]) segments))
  /\ json_get "duration" data
     = match last segments with
       | Some seg => Some (JFloat (Py.round (end_ seg) 2))
       | None => None
       end
  /\ (forall (x : Q) (n : nat),
        (exists z : Z, (Py.round x n == inject_Z z / inject_Z (10 ^ Z.of_nat n))%Q)
        /\ (Qabs (Py.round x n - x) * inject_Z (10 ^ Z.of_nat n) <= 1 # 2)%Q)
  /\ (forall s : string,
        exists l r,
          Spec.all_space l = true /\ Spec.all_space r = true
          /\ s = l +:+ Py.strip s +:+ r
          /\ Spec.no_leading_space (Py.strip s) = true
          /\ Spec.no_trailing_space (Py.strip s) = true).
Proof.
  cbv zeta. unfold generate_json_data.
  split; [|split; [|split; [|split]]].
  - destruct (last segments); destruct metadata as [[|? ?]|]; reflexivity.
  - destruct (last segments); destruct metadata as [[|? ?]|]; reflexivity.
  - destruct (last segments); destruct metadata as [[|? ?]|]; reflexivity.
  - apply JsonFacts.round_decimal.
  - apply JsonFacts.strip_spec.
Qed.

(** C6 as stated fails: the empty list gives no [duration] key at all
  (not [0]), and a last segment ending at 2.567 gives [duration] 2.57,
  not the end of the segment. *)
Lemma json_duration_counterexample :
  json_get "duration" (generate_json_data [] None) = None
  /\ json_get "duration"
       (generate_json_data [{| start := 0; end_ := 2567 # 1000; text := "hi" |}] None)
     = Some (JFloat (257 # 100))
  /\ ~ (257 # 100 == 2567 # 1000)%Q.
Proof. repeat split; try reflexivity. discriminate. Qed.

(** The two VTT writers, block by block.  The worker's VTT file is the
  line [WEBVTT] and then, for each segment whose cleaned text is not
  empty, a blank line and the block [{start} --> {end}\n{text}\n], with
  no index line; what the export route's [segments_to_vtt] returns has
  the same header and, for every segment, a blank line and a block
  [{index}\n{start} --> {end}\n{text}\n] that starts with an index
  line; in both, a time stamp is
  [HH:MM:SS.mmm] from the four floors, zero-padded. *)
Theorem vtt_header_and_blocks (fl : Q -> Q) (segments : list Segment)
    (exported : list Models.TranscriptSegment) :
  binary64_rounding fl ->
  vtt_content fl segments
  = "WEBVTT" +:+ Py.NL
      +:+ Spec.each_after_blank_line
            (map (Spec.vtt_block fl) (filter Spec.emitted segments))
  /\ ExportRoute.segments_to_vtt fl exported
     = "WEBVTT" +:+ Py.NL
         +:+ Spec.each_after_blank_line
               (map (Spec.export_block (ExportRoute.format_timestamp_vtt fl))
                  (Py.enumerate 1 exported))
  /\ (forall seconds,
        _format_vtt_time fl seconds = Spec.timestamp fl "." seconds
        /\ ExportRoute.format_timestamp_vtt fl seconds
           = Spec.timestamp fl "." seconds).
Proof.
  intros Hfl. split; [apply SubtitleFacts.vtt_content_blocks|].
  split; [apply SubtitleFacts.segments_to_vtt_blocks|].
  intros seconds.
  split; apply (TimestampFacts.format_vtt_time_floors fl Hfl).
Qed.

Lemma vtt_header_and_blocks_witness :
  binary64_rounding fl_exact
  /\ vtt_content fl_exact [{| start := 0; end_ := 5 # 2; text := "Hello world" |}]
     = "WEBVTT" +:+ Py.NL
         +:+ Spec.each_after_blank_line
               (map (Spec.vtt_block fl_exact)
                  (filter Spec.emitted
                     [{| start := 0; end_ := 5 # 2; text := "Hello world" |}])).
Proof.
  split; [exact fl_exact_rounding|].
  apply (vtt_header_and_blocks fl_exact
           [{| start := 0; end_ := 5 # 2; text := "Hello world" |}] []
           fl_exact_rounding).
Defined.

(** C8 at its failing input.  For one segment, the export route's
  [segments_to_vtt] writes the index line [1] before the timing line,
  where the worker's [generate_vtt] writes, for the same segment, the
  timing line right after the blank line.  (In both, the lines are
  joined by newlines: the last block ends in one newline, and the
  header of an empty file is followed by none.) *)
Theorem vtt_export_writes_index_line :
  ExportRoute.segments_to_vtt fl_exact
    [{| Models.id := 0; Models.start := 0; Models.end_ := 5 # 2;
        Models.text := "Hello world" |}]
  = "WEBVTT" +:+ Py.NL +:+ Py.NL +:+ "1" +:+ Py.NL
      +:+ "00:00:00.000 --> 00:00:02.500" +:+ Py.NL +:+ "Hello world" +:+ Py.NL
  /\ vtt_content fl_exact [{| start := 0; end_ := 5 # 2; text := "Hello world" |}]
     = "WEBVTT" +:+ Py.NL +:+ Py.NL
         +:+ "00:00:00.000 --> 00:00:02.500" +:+ Py.NL +:+ "Hello world" +:+ Py.NL
  /\ vtt_content fl_exact [] = "WEBVTT" +:+ Py.NL.
Proof. repeat split; vm_compute; reflexivity. Qed.

(** ** Reads and exports of the API *)

Module ApiFacts.
Import Models Database.

Section Routes.
Variable fl : Q -> Q.
Variable OUT : string.

(** Past the checks, an export is the content branch on the data chosen. *)
Lemma export_of (db : DB) (fs : FS) (job_id : string) (job : JobRow)
    (segments : list TranscriptSegment) (text' : string) (fmt : ExportFormat) :
  get_job db job_id = Some job ->
  status job = "done" ->
  ExportRoute.export_segments OUT fs (get_transcript db job_id) job_id
    = Ok segments ->
  ExportRoute.export_text OUT fs (get_transcript db job_id) job_id
    = Ok text' ->
  ExportRoute.export_transcript fl OUT db fs job_id fmt
  = if Py.is_empty segments && negb (Py.truthy text')
    then Err {| status_code := 404; detail := "Transcript data not found" |}
    else ExportRoute.export_content fl job job_id text' segments fmt.
Proof.
  intros Hj Hd Hs Ht. unfold ExportRoute.export_transcript.
  rewrite Hj, Hd. cbn [JobStatus_value]. rewrite String.eqb_refl.
  cbn [negb]. cbv zeta. rewrite Hs, Ht. reflexivity.
Qed.

Lemma truthy_true (s : string) : Py.truthy s = true <-> s <> "".
Proof.
  unfold Py.truthy. destruct (String.eqb_spec s ""); simpl; split;
    congruence.
Qed.

Lemma export_text_edited (fs : FS) (t : TranscriptRow) (job_id e : string) :
  edited_text t = Some e -> Py.truthy e = true ->
  ExportRoute.export_text OUT fs (Some t) job_id = Ok e.
Proof.
  intros He Ht. unfold ExportRoute.export_text. destruct t; simpl in *.
  subst. now rewrite Ht.
Qed.

Lemma export_segments_edited (fs : FS) (t : TranscriptRow) (job_id : string)
    (l : list TranscriptSegment) :
  edited_segments_json t = Some l ->
  ExportRoute.export_segments OUT fs (Some t) job_id = Ok l.
Proof.
  intros He. unfold ExportRoute.export_segments. destruct t; simpl in *.
  now subst.
Qed.

Lemma export_segments_stored (fs : FS) (t : TranscriptRow) (job_id : string) :
  edited_segments_json t = None ->
  ExportRoute.export_segments OUT fs (Some t) job_id
  = load_transcript_segments OUT fs job_id.
Proof.
  intros He. unfold ExportRoute.export_segments. destruct t; simpl in *.
  now subst.
Qed.

(** What GET returns for a record with a non-empty edited text. *)
Lemma get_transcript_edited (db : DB) (fs : FS) (job_id : string)
    (job : JobRow) (t : TranscriptRow) (e : string) :
  get_job db job_id = Some job ->
  status job = "done" ->
  get_transcript db job_id = Some t ->
  edited_text t = Some e -> Py.truthy e = true ->
  JobsRoute.get_transcript OUT db fs job_id
  = let last_edited :=
      match Database.last_edited_at t with
      | Some at_ => if Py.truthy at_ then Some at_ else None
      | None => None
      end in
    match edited_segments_json t with
    | Some l =>
        Ok {| job_id := job_id; resp_text := e; segments := l;
              edited := true; Models.last_edited_at := last_edited |}
    | None =>
        match load_transcript_segments OUT fs job_id with
        | Ok stored =>
            Ok {| job_id := job_id; resp_text := e; segments := stored;
                  edited := true; Models.last_edited_at := last_edited |}
        | Err err => Err err
        end
    end.
Proof.
  intros Hj Hd Ht He Hne. unfold JobsRoute.get_transcript.
  rewrite Hj, Hd. cbn [JobStatus_value]. rewrite String.eqb_refl.
  cbn [negb]. cbv zeta. rewrite Ht, He, Hne. cbn [negb andb].
  destruct (edited_segments_json t); [reflexivity|].
  destruct (load_transcript_segments OUT fs job_id); reflexivity.
Qed.

(** What the POST route leaves in the store. *)
Lemma save_transcript_record (db db' : DB) (job_id e now : string)
    (request_segments : option (list TranscriptSegment)) :
  JobsRoute.save_transcript db job_id e request_segments now = Ok db' ->
  (exists job, get_job db job_id = Some job /\ status job = "done")
  /\ jobs db' = jobs db
  /\ exists t, get_transcript db' job_id = Some t
       /\ edited_text t = Some e
       /\ edited_segments_json t
          = match request_segments with
            | Some ((_ :: _) as l) => Some l
            | _ => None
            end
       /\ Database.last_edited_at t = Some now.
Proof.
  unfold JobsRoute.save_transcript.
  destruct (get_job db job_id) as [job|] eqn:Hj; [|discriminate].
  destruct (String.eqb_spec (status job) (JobStatus_value DONE)) as [Hd|];
    [|discriminate].
  cbn [negb]. intros [= <-]. split; [|split].
  - exists job. split; [reflexivity|exact Hd].
  - reflexivity.
  - unfold save_transcript_edits, get_transcript. cbn [transcripts].
    rewrite lookup_insert_eq. eexists. split; [reflexivity|].
    destruct (transcripts db !! job_id);
      destruct request_segments as [[|? ?]|]; cbn; repeat split.
Qed.

End Routes.
End ApiFacts.

(** ** Reads and exports: the claims *)

Import Models Database.

(** Edits with a text.  For a job in status done: after edits with a
  non-empty text are saved, GET transcript answers with the edited
  text, together with the edited segments when a non-empty segment list
  was saved with it and with the stored segments otherwise, and every
  export is the content branch ([export_content]) on that text and
  those segments, whatever the generated artifacts hold, until further
  edits are saved; and whenever edited segments are present in the
  TranscriptRecord, every export takes its segments from them.  (Edits
  saved with an empty text are another matter.) *)
Theorem edits_take_precedence (fl : Q -> Q) (OUT : string) (db db' : DB)
    (fs : FS) (job_id e now : string)
    (request_segments : option (list TranscriptSegment)) :
  JobsRoute.save_transcript db job_id e request_segments now = Ok db' ->
  e <> "" ->
  let saved_segments :=
    match request_segments with
    | Some ((_ :: _) as l) => Some l
    | _ => None
    end in
  (forall job, get_job db job_id = Some job ->
      status job = "done" /\ get_job db' job_id = Some job
      (* the record now holds these edits, replacing any earlier ones *)
      /\ (exists t,
            get_transcript db' job_id = Some t
            /\ edited_text t = Some e
            /\ edited_segments_json t = saved_segments
            /\ Database.last_edited_at t = Some now)
      (* reads and exports with edited segments *)
      /\ (forall l, saved_segments = Some l ->
            JobsRoute.get_transcript OUT db' fs job_id
            = Ok {| job_id := job_id; resp_text := e; segments := l;
                    edited := true;
                    Models.last_edited_at :=
                      if Py.truthy now then Some now else None |}
            /\ forall fmt,
                 ExportRoute.export_transcript fl OUT db' fs job_id fmt
                 = ExportRoute.export_content fl job job_id e l fmt)
      (* reads and exports with the edited text only *)
      /\ (forall stored, saved_segments = None ->
            load_transcript_segments OUT fs job_id = Ok stored ->
            JobsRoute.get_transcript OUT db' fs job_id
            = Ok {| job_id := job_id; resp_text := e; segments := stored;
                    edited := true;
                    Models.last_edited_at :=
                      if Py.truthy now then Some now else None |}
            /\ forall fmt,
                 ExportRoute.export_transcript fl OUT db' fs job_id fmt
                 = ExportRoute.export_content fl job job_id e stored fmt))
  (* edited segments in any record feed every export *)
  /\ (forall d job t l text' fmt,
        get_job d job_id = Some job -> status job = "done" ->
        get_transcript d job_id = Some t ->
        edited_segments_json t = Some l -> l <> [] ->
        ExportRoute.export_text OUT fs (Some t) job_id = Ok text' ->
        ExportRoute.export_transcript fl OUT d fs job_id fmt
        = ExportRoute.export_content fl job job_id text' l fmt).
Proof.
  intros Hsave Hne saved_segments. apply ApiFacts.truthy_true in Hne.
  destruct (ApiFacts.save_transcript_record db db' job_id e now request_segments Hsave)
    as ((job0 & Hj0 & Hd) & Hjobs & (t & Ht & He & Hs & Hl)).
  fold saved_segments in Hs.
  split.
  - intros job Hj. assert (job0 = job) as -> by congruence.
    assert (Hj' : get_job db' job_id = Some job).
    { unfold get_job. now rewrite Hjobs. }
    split; [exact Hd|]. split; [exact Hj'|].
    split; [exists t; auto|]. split.
    + intros l El. rewrite El in Hs. split.
      * rewrite (ApiFacts.get_transcript_edited OUT db' fs job_id job t e)
          by assumption.
        now rewrite Hs, Hl.
      * intros fmt.
        rewrite (ApiFacts.export_of fl OUT db' fs job_id job l e fmt); auto.
        -- rewrite Hne. cbn [negb]. now rewrite andb_false_r.
        -- rewrite Ht. now apply ApiFacts.export_segments_edited.
        -- rewrite Ht. now apply ApiFacts.export_text_edited.
    + intros stored En Hld. rewrite En in Hs. split.
      * rewrite (ApiFacts.get_transcript_edited OUT db' fs job_id job t e)
          by assumption.
        now rewrite Hs, Hld, Hl.
      * intros fmt.
        rewrite (ApiFacts.export_of fl OUT db' fs job_id job stored e fmt); auto.
        -- rewrite Hne. cbn [negb]. now rewrite andb_false_r.
        -- rewrite Ht. now rewrite ApiFacts.export_segments_stored.
        -- rewrite Ht. now apply ApiFacts.export_text_edited.
  - intros d job' t' l text' fmt Hj' Hd' Ht' El Hnil Htxt.
    rewrite (ApiFacts.export_of fl OUT d fs job_id job' l text' fmt); auto.
    + destruct l; [contradiction|reflexivity].
    + rewrite Ht'. now apply ApiFacts.export_segments_edited.
    + now rewrite Ht'.
Qed.

Lemma edits_take_precedence_witness :
  JobsRoute.save_transcript Examples.db_done "job-1" "edited text"
    (Some [Examples.edited_seg]) "2024-05-02T09:00:00"
  = Ok (save_transcript_edits Examples.db_done "job-1" "edited text"
          (Some [Examples.edited_seg]) "2024-05-02T09:00:00")
  /\ "edited text" <> ""
  /\ JobsRoute.get_transcript Examples.OUT
       (save_transcript_edits Examples.db_done "job-1" "edited text"
          (Some [Examples.edited_seg]) "2024-05-02T09:00:00")
       Examples.fs_generated "job-1"
     = Ok {| job_id := "job-1"; resp_text := "edited text";
             segments := [Examples.edited_seg]; edited := true;
             Models.last_edited_at := Some "2024-05-02T09:00:00" |}.
Proof.
  assert (Hs : JobsRoute.save_transcript Examples.db_done "job-1" "edited text"
                 (Some [Examples.edited_seg]) "2024-05-02T09:00:00"
               = Ok (save_transcript_edits Examples.db_done "job-1" "edited text"
                       (Some [Examples.edited_seg]) "2024-05-02T09:00:00"))
    by reflexivity.
  assert (Hne : "edited text" <> "") by discriminate.
  split; [exact Hs|]. split; [exact Hne|].
  destruct (edits_take_precedence fl_exact Examples.OUT _ _ Examples.fs_generated
              _ _ _ _ Hs Hne) as [H _].
  destruct (H Examples.done_job eq_refl) as (_ & _ & _ & Hl & _).
  exact (proj1 (Hl [Examples.edited_seg] eq_refl)).
Defined.

(** C4 at its failing input.  On a done job with a generated text and
  a generated segment, edits are saved with the empty text and one
  edited segment.  The record then holds the edited segment; the SRT
  export is generated from it; but GET transcript answers with the
  generated text and the generated segment, marked as not edited: it
  looks at the edited segments only when the edited text is not
  empty. *)
Theorem get_ignores_edited_segments :
  let db' := save_transcript_edits Examples.db_done "job-1" ""
               (Some [Examples.edited_seg]) "2024-05-02T09:00:00" in
  JobsRoute.save_transcript Examples.db_done "job-1" ""
    (Some [Examples.edited_seg]) "2024-05-02T09:00:00" = Ok db'
  /\ (exists t, get_transcript db' "job-1" = Some t
               /\ edited_segments_json t = Some [Examples.edited_seg])
  /\ ExportRoute.export_transcript fl_exact Examples.OUT db'
       Examples.fs_generated "job-1" SRT
     = Ok {| ExportRoute.body :=
               ExportRoute.TextContent
                 (ExportRoute.segments_to_srt fl_exact [Examples.edited_seg]);
             ExportRoute.media_type := "application/x-subrip" |}
  /\ JobsRoute.get_transcript Examples.OUT db' Examples.fs_generated "job-1"
     = Ok {| job_id := "job-1"; resp_text := "generated text";
             segments := [Examples.generated]; edited := false;
             Models.last_edited_at := None |}.
Proof.
  cbv zeta. split; [reflexivity|]. split.
  - eexists. split; reflexivity.
  - split; vm_compute; reflexivity.
Qed.

(** C9.  On a job in status done whose segments (edited or stored) are
  none while some text is available, an SRT or VTT export fails with
  the 400 "requires segment data" error, and the TXT and JSON exports
  succeed; the 404 error is what every format gets when the job is
  missing, or when the text is missing as well. *)
Theorem export_requires_segment_data (fl : Q -> Q) (OUT : string) (db : DB)
    (fs : FS) (job_id : string) :
  (get_job db job_id = None ->
     forall fmt,
       ExportRoute.export_transcript fl OUT db fs job_id fmt
       = Err {| status_code := 404;
                detail := "Job " +:+ job_id +:+ " not found" |})
  /\ (forall job text',
        get_job db job_id = Some job -> status job = "done" ->
        ExportRoute.export_segments OUT fs (get_transcript db job_id) job_id
          = Ok [] ->
        ExportRoute.export_text OUT fs (get_transcript db job_id) job_id
          = Ok text' ->
        (text' <> "" ->
           ExportRoute.export_transcript fl OUT db fs job_id SRT
           = Err {| status_code := 400;
                    detail := "SRT export requires segment data with timestamps" |}
           /\ ExportRoute.export_transcript fl OUT db fs job_id VTT
              = Err {| status_code := 400;
                       detail := "VTT export requires segment data with timestamps" |}
           /\ ExportRoute.export_transcript fl OUT db fs job_id TXT
              = Ok {| ExportRoute.body := ExportRoute.TextContent text';
                      ExportRoute.media_type := "text/plain" |}
           /\ exists r, ExportRoute.export_transcript fl OUT db fs job_id JSON
                        = Ok r)
        /\ (text' = "" ->
             forall fmt,
               ExportRoute.export_transcript fl OUT db fs job_id fmt
               = Err {| status_code := 404;
                        detail := "Transcript data not found" |})).
Proof.
  split.
  - intros Hj fmt. unfold ExportRoute.export_transcript. now rewrite Hj.
  - intros job text' Hj Hd Hs Ht. split.
    + intros Hne. apply ApiFacts.truthy_true in Hne.
      rewrite !(ApiFacts.export_of fl OUT db fs job_id job [] text') by assumption.
      rewrite Hne. cbn [Py.is_empty negb andb ExportRoute.export_content].
      rewrite Hne. repeat split. eexists. reflexivity.
    + intros -> fmt.
      rewrite (ApiFacts.export_of fl OUT db fs job_id job [] "") by assumption.
      reflexivity.
Qed.

Lemma export_requires_segment_data_witness :
  get_job Examples.db_done "job-1" = Some Examples.done_job
  /\ status Examples.done_job = "done"
  /\ ExportRoute.export_segments Examples.OUT Examples.fs_text_only
       (get_transcript Examples.db_done "job-1") "job-1" = Ok []
  /\ ExportRoute.export_text Examples.OUT Examples.fs_text_only
       (get_transcript Examples.db_done "job-1") "job-1" = Ok "generated text"
  /\ "generated text" <> ""
  /\ ExportRoute.export_transcript fl_exact Examples.OUT Examples.db_done
       Examples.fs_text_only "job-1" SRT
     = Err {| status_code := 400;
              detail := "SRT export requires segment data with timestamps" |}.
Proof.
  assert (H1 : get_job Examples.db_done "job-1" = Some Examples.done_job)
    by reflexivity.
  assert (H2 : status Examples.done_job = "done") by reflexivity.
  assert (H3 : ExportRoute.export_segments Examples.OUT Examples.fs_text_only
                 (get_transcript Examples.db_done "job-1") "job-1" = Ok [])
    by (vm_compute; reflexivity).
  assert (H4 : ExportRoute.export_text Examples.OUT Examples.fs_text_only
                 (get_transcript Examples.db_done "job-1") "job-1"
               = Ok "generated text")
    by (vm_compute; reflexivity).
  assert (H5 : "generated text" <> "") by discriminate.
  do 5 (split; [assumption|]).
  exact (proj1 (proj1 (proj2 (export_requires_segment_data fl_exact Examples.OUT
                                Examples.db_done Examples.fs_text_only "job-1")
                         Examples.done_job "generated text" H1 H2 H3 H4) H5)).
Defined.

(** ** The dispatcher *)

Module WorkerFacts.
Import Database Worker.

Lemma leb_trans (a b c : string) :
  String.leb a b = true -> String.leb b c = true -> String.leb a c = true.
Proof.
  intros H1 H2. apply Is_true_true.
  apply (@transitivity _ String.le _ a b c); apply Is_true_true; assumption.
Qed.

Lemma leb_refl (a : string) : String.leb a a = true.
Proof. apply Is_true_true. apply (@reflexivity _ String.le _). Qed.

Lemma ltb_not_leb (a b : string) :
  String.ltb a b = true -> String.leb b a = false.
Proof.
  unfold String.ltb, String.leb. rewrite (String.compare_antisym b a).
  destruct (String.compare a b); simpl; congruence.
Qed.

(** The first row of the sorted result is a row, and no row is older. *)
Lemma oldest_spec (rows : list (string * JobRow)) (r : string * JobRow) :
  oldest rows = Some r ->
  r ∈ rows
  /\ forall r', r' ∈ rows -> String.leb (created_at r.2) (created_at r'.2) = true.
Proof.
  revert r. induction rows as [|x rows IH]; intros r; simpl; [discriminate|].
  destruct (oldest rows) as [y|] eqn:E.
  - destruct (IH y eq_refl) as [Hy Hmin].
    destruct (String.leb (created_at x.2) (created_at y.2)) eqn:Hxy;
      intros [= <-]; split.
    + apply elem_of_cons; auto.
    + intros r' [->|Hr']%elem_of_cons; [apply leb_refl|].
      eapply leb_trans; [exact Hxy|]. now apply Hmin.
    + apply elem_of_cons; auto.
    + intros r' [->|Hr']%elem_of_cons; [|now apply Hmin].
      destruct (String.leb_total (created_at y.2) (created_at x.2)); congruence.
  - intros [= <-]. destruct rows; [|simpl in E; destruct (oldest rows);
      [destruct (String.leb _ _)|]; discriminate].
    split; [apply elem_of_cons; auto|].
    intros r' [->|Hr']%elem_of_cons; [apply leb_refl|inversion Hr'].
Qed.

Lemma oldest_None (rows : list (string * JobRow)) :
  oldest rows = None <-> rows = [].
Proof.
  split; [|now intros ->].
  destruct rows as [|x rows]; [reflexivity|]. simpl.
  destruct (oldest rows); [destruct (String.leb _ _)|]; discriminate.
Qed.

Lemma elem_of_queued_rows (m : gmap string JobRow) (j : string) (r : JobRow) :
  (j, r) ∈ queued_rows m <-> m !! j = Some r /\ status r = "queued".
Proof.
  unfold queued_rows. rewrite list_elem_of_filter, elem_of_map_to_list.
  simpl. tauto.
Qed.

Section Dispatch.
Variable fl : Q -> Q.
Variable cfg : Config.
Variable eng : Engines.

Lemma get_next_job_Some (d : DB) (job : Job) :
  get_next_job cfg d = Some job ->
  exists row,
    jobs d !! id job = Some row /\ status row = "queued"
    /\ (forall j r, jobs d !! j = Some r -> status r = "queued" ->
          String.leb (created_at row) (created_at r) = true)
    /\ job_type job = Database.job_type row
    /\ source_url job = Database.source_url row
    /\ stored_filename job = Database.stored_filename row
    /\ model job = (if Py.truthy (Database.model row)
                    then Database.model row else WHISPER_MODEL cfg).
Proof.
  unfold get_next_job.
  destruct (oldest (queued_rows (jobs d))) as [[j row]|] eqn:E; [|discriminate].
  intros [= <-]. cbn [id job_type source_url stored_filename model].
  destruct (oldest_spec _ _ E) as [Hin Hmin].
  apply elem_of_queued_rows in Hin as [Hl Hq].
  exists row. repeat split; try assumption.
  intros j' r' Hl' Hq'. apply (Hmin (j', r')).
  apply elem_of_queued_rows. auto.
Qed.

Lemma get_next_job_None (d : DB) :
  get_next_job cfg d = None
  <-> forall j r, jobs d !! j = Some r -> status r <> "queued".
Proof.
  unfold get_next_job. split.
  - destruct (oldest (queued_rows (jobs d))) as [[j row]|] eqn:E; [discriminate|].
    intros _ j r Hl Hq. apply oldest_None in E.
    assert (Hin : (j, r) ∈ queued_rows (jobs d))
      by (apply elem_of_queued_rows; auto).
    rewrite E in Hin. inversion Hin.
  - intros H. destruct (oldest (queued_rows (jobs d))) as [[j row]|] eqn:E;
      [|reflexivity].
    destruct (oldest_spec _ _ E) as [Hin _].
    apply elem_of_queued_rows in Hin as [Hl Hq]. now destruct (H j row).
Qed.

(** A queued job that is strictly older than every other queued job is
  the one taken. *)
Lemma get_next_job_strictly_oldest (d : DB) (j : string) (row : JobRow) :
  jobs d !! j = Some row -> status row = "queued" ->
  (forall j' r', j' <> j -> jobs d !! j' = Some r' -> status r' = "queued" ->
     String.ltb (created_at row) (created_at r') = true) ->
  exists job, get_next_job cfg d = Some job /\ id job = j.
Proof.
  intros Hl Hq Hlt.
  destruct (get_next_job cfg d) as [job|] eqn:E.
  - exists job. split; [reflexivity|].
    destruct (get_next_job_Some d job E) as (row' & Hl' & Hq' & Hmin & _).
    destruct (decide (id job = j)) as [|Hne]; [assumption|exfalso].
    pose proof (Hmin j row Hl Hq) as Hle.
    pose proof (Hlt (id job) row' Hne Hl' Hq') as Hs.
    apply ltb_not_leb in Hs. congruence.
  - exfalso. apply (proj1 (get_next_job_None d) E j row Hl Hq).
Qed.

Lemma statuses_of_app (j : string) (a b : list (string * string)) :
  statuses_of j (a ++ b) = statuses_of j a ++ statuses_of j b.
Proof. unfold statuses_of. now rewrite filter_app, map_app. Qed.

Lemma statuses_of_same (j st : string) : statuses_of j [(j, st)] = [st].
Proof.
  unfold statuses_of. rewrite filter_cons. cbn [fst].
  destruct (decide (j = j)); [reflexivity|contradiction].
Qed.

Lemma statuses_of_other (j j' st : string) :
  j' <> j -> statuses_of j [(j', st)] = [].
Proof.
  intros H. unfold statuses_of. rewrite filter_cons. cbn [fst].
  destruct (decide (j' = j)); [contradiction|reflexivity].
Qed.

(** One status write: one log line, one row touched, nothing else. *)
Lemma update_job_status_effect (job_id st : string) (err : option string)
    (w : World) :
  exists upd,
    log (update_job_status eng job_id st err w) = log w ++ [(job_id, st)]
    /\ jobs (db (update_job_status eng job_id st err w))
       = alter upd job_id (jobs (db w))
    /\ transcripts (db (update_job_status eng job_id st err w))
       = transcripts (db w)
    /\ (forall r, status (upd r) = st /\ created_at (upd r) = created_at r)
    /\ fs (sys (update_job_status eng job_id st err w)) = fs (sys w)
    /\ _transcriber (sys (update_job_status eng job_id st err w))
       = _transcriber (sys w).
Proof.
  unfold update_job_status, now. cbn [db sys log jobs transcripts fs _transcriber].
  destruct err as [msg|]; [destruct (Py.truthy msg)|];
    eexists; repeat split.
Qed.

(** What [process_job] does to the log and to the store. *)
Lemma process_job_effect (job : Job) (w : World) :
  let w1 := update_job_status eng (id job) "running" None w in
  exists final upd,
    (final = "done" \/ final = "failed")
    /\ log (process_job fl cfg eng job w)
       = log w ++ [(id job, "running"); (id job, final)]
    /\ jobs (db (process_job fl cfg eng job w)) = alter upd (id job) (jobs (db w))
    /\ (forall r, status (upd r) = final /\ created_at (upd r) = created_at r)
    /\ (final = "done" <->
          exists paths s', route fl cfg eng job (sys w1) = (Ok paths, s'))
    /\ (forall paths s', route fl cfg eng job (sys w1) = (Ok paths, s') ->
          process_job fl cfg eng job w
          = update_job_status eng (id job) "done" None
              (save_transcript_paths (id job) paths
                 {| db := db w1; sys := s'; log := log w1 |}))
    /\ (forall e s', route fl cfg eng job (sys w1) = (Err e, s') ->
          process_job fl cfg eng job w
          = update_job_status eng (id job) "failed" (Some (failure_message e))
              {| db := db w1; sys := s'; log := log w1 |}).
Proof.
  cbv zeta. unfold process_job.
  destruct (update_job_status_effect (id job) "running" None w)
    as (u1 & Hl1 & Hj1 & Ht1 & Hu1 & _).
  set (w1 := update_job_status eng (id job) "running" None w) in *.
  destruct (route fl cfg eng job (sys w1)) as [[paths|e] s'] eqn:Er.
  - set (w2 := save_transcript_paths (id job) paths
                 {| db := db w1; sys := s'; log := log w1 |}).
    destruct (update_job_status_effect (id job) "done" None w2)
      as (u2 & Hl2 & Hj2 & Ht2 & Hu2 & _).
    exists "done", (u2 ∘ u1). split; [auto|]. split.
    { rewrite Hl2. subst w2. cbn [save_transcript_paths log]. rewrite Hl1.
      now rewrite <- List.app_assoc. }
    split.
    { rewrite Hj2. subst w2. cbn [save_transcript_paths db jobs]. rewrite Hj1.
      apply alter_alter_eq. }
    split.
    { intros r. cbn. destruct (Hu2 (u1 r)) as [-> ->]. split; [reflexivity|].
      apply Hu1. }
    split; [split; [intros _; exists paths, s'; reflexivity|reflexivity]|]. split.
    + intros p s [= <- <-]. reflexivity.
    + intros e s He. discriminate.
  - set (w2 := {| db := db w1; sys := s'; log := log w1 |}).
    destruct (update_job_status_effect (id job) "failed"
                (Some (failure_message e)) w2)
      as (u2 & Hl2 & Hj2 & Ht2 & Hu2 & _).
    exists "failed", (u2 ∘ u1). split; [auto|]. split.
    { rewrite Hl2. subst w2. cbn [log]. rewrite Hl1.
      now rewrite <- List.app_assoc. }
    split.
    { rewrite Hj2. subst w2. cbn [db jobs]. rewrite Hj1.
      apply alter_alter_eq. }
    split.
    { intros r. cbn. destruct (Hu2 (u1 r)) as [-> ->]. split; [reflexivity|].
      apply Hu1. }
    split; [split; [discriminate|intros (p & s & Hp); discriminate]|]. split.
    + intros p s Hp. discriminate.
    + intros e0 s [= <- <-]. reflexivity.
Qed.

(** One turn of the loop: nothing, or one queued job taken to its end. *)
Lemma run_once_effect (w : World) :
  (get_next_job cfg (db w) = None /\ run_once fl cfg eng w = w)
  \/ exists job row final upd,
       get_next_job cfg (db w) = Some job
       /\ jobs (db w) !! id job = Some row /\ status row = "queued"
       /\ (final = "done" \/ final = "failed")
       /\ log (run_once fl cfg eng w)
          = log w ++ [(id job, "running"); (id job, final)]
       /\ jobs (db (run_once fl cfg eng w)) = alter upd (id job) (jobs (db w))
       /\ (forall r, status (upd r) = final /\ created_at (upd r) = created_at r).
Proof.
  unfold run_once. destruct (get_next_job cfg (db w)) as [job|] eqn:E.
  - right. destruct (get_next_job_Some (db w) job E) as (row & Hl & Hq & _).
    destruct (process_job_effect job w) as (final & upd & Hf & Hlog & Hj & Hu & _).
    exists job, row, final, upd. auto 10.
  - left. auto.
Qed.

(** The history of one job over any number of turns: untouched, or
  claimed once from [queued] and taken to [done] or [failed]. *)
Lemma run_statuses (n : nat) (w : World) (job_id : string) (row : JobRow) :
  jobs (db w) !! job_id = Some row ->
  exists delta row',
    log (run fl cfg eng n w) = log w ++ delta
    /\ jobs (db (run fl cfg eng n w)) !! job_id = Some row'
    /\ created_at row' = created_at row
    /\ ((statuses_of job_id delta = [] /\ status row' = status row)
        \/ (status row = "queued"
            /\ exists final,
                 (final = "done" \/ final = "failed")
                 /\ statuses_of job_id delta = ["running"; final]
                 /\ status row' = final)).
Proof.
  revert w row. induction n as [|n IH]; intros w row Hl; cbn [run].
  - exists [], row. rewrite app_nil_r. split; [reflexivity|].
    split; [exact Hl|]. split; [reflexivity|]. left. split; reflexivity.
  - destruct (run_once_effect w)
      as [[_ ->]|(job & qrow & final & upd & _ & Hq & Hqs & Hf & Hlog & Hj & Hu)].
    + apply IH. exact Hl.
    + set (w1 := run_once fl cfg eng w) in *.
      destruct (decide (id job = job_id)) as [Heq|Hne].
      * subst job_id. assert (qrow = row) as -> by congruence.
        assert (Hl1 : jobs (db w1) !! id job = Some (upd row)).
        { rewrite Hj, lookup_alter_eq, Hl. reflexivity. }
        destruct (IH w1 (upd row) Hl1) as (d & row' & Hd & Hr' & Hc & Hcase).
        destruct (Hu row) as [Hst Hcr].
        exists ([(id job, "running"); (id job, final)] ++ d), row'.
        split; [rewrite Hd, Hlog; now rewrite <- List.app_assoc|].
        split; [exact Hr'|]. split; [congruence|]. right.
        split; [exact Hqs|]. exists final. split; [exact Hf|].
        destruct Hcase as [[Hnil Hs]|[Hqq _]].
        -- rewrite statuses_of_app, Hnil, app_nil_r.
           change [(id job, "running"); (id job, final)]
             with ([(id job, "running")] ++ [(id job, final)]).
           rewrite statuses_of_app, !statuses_of_same. split; [reflexivity|].
           congruence.
        -- exfalso. rewrite Hst in Hqq. destruct Hf; subst; discriminate.
      * assert (Hl1 : jobs (db w1) !! job_id = Some row).
        { rewrite Hj, lookup_alter_ne by exact Hne. exact Hl. }
        destruct (IH w1 row Hl1) as (d & row' & Hd & Hr' & Hc & Hcase).
        exists ([(id job, "running"); (id job, final)] ++ d), row'.
        split; [rewrite Hd, Hlog; now rewrite <- List.app_assoc|].
        split; [exact Hr'|]. split; [exact Hc|].
        assert (E : statuses_of job_id
                      ([(id job, "running"); (id job, final)] ++ d)
                    = statuses_of job_id d).
        { change [(id job, "running"); (id job, final)]
            with ([(id job, "running")] ++ [(id job, final)]).
          now rewrite !statuses_of_app, !statuses_of_other by exact Hne. }
        rewrite E. exact Hcase.
Qed.






End Dispatch.
End WorkerFacts.

(** ** The pipelines *)

Module PipelineFacts.
Import Database Worker.
Local Open Scope worker_scope.

Lemma keeps_ret {A} (a : A) : keeps_transcriber (ret a).
Proof. intros s. reflexivity. Qed.

Lemma keeps_raise {A} (e : exn) : keeps_transcriber (@raise A e).
Proof. intros s. reflexivity. Qed.

Lemma keeps_call {A} (f : nat -> A) : keeps_transcriber (call f).
Proof. intros s. reflexivity. Qed.

Lemma keeps_exists (path : string) : keeps_transcriber (exists_ path).
Proof. intros s. reflexivity. Qed.

Lemma keeps_write_file (path : string) (c : file_content) :
  keeps_transcriber (write_file path c).
Proof. intros s. reflexivity. Qed.

Lemma keeps_unlink (path : string) : keeps_transcriber (unlink path).
Proof. intros s. reflexivity. Qed.

Lemma keeps_bind {A B} (m : M A) (k : A -> M B) :
  keeps_transcriber m -> (forall a, keeps_transcriber (k a)) ->
  keeps_transcriber (bind m k).
Proof.
  intros Hm Hk s. unfold bind. specialize (Hm s).
  destruct (m s) as [[a|e] s1]; cbn [snd] in *; [|exact Hm].
  now rewrite Hk.
Qed.

Lemma keeps_if {A} (b : bool) (m1 m2 : M A) :
  keeps_transcriber m1 -> keeps_transcriber m2 ->
  keeps_transcriber (if b then m1 else m2).
Proof. now destruct b. Qed.

Create HintDb keeps.
#[local] Hint Resolve keeps_ret keeps_raise keeps_call keeps_exists
  keeps_write_file keeps_unlink keeps_if : keeps.

Ltac keeps :=
  repeat first
    [ apply keeps_bind; [|intros ?]
    | apply keeps_if
    | solve [auto with keeps]
    | match goal with
      | |- keeps_transcriber (match ?x with _ => _ end) => destruct x
      end ].

Lemma always_fails_raise {A} (cfg : Config) (e : exn) :
  always_fails cfg (@raise A e).
Proof. intros s _. now exists e. Qed.

Lemma always_fails_bind_l {A B} (cfg : Config) (m : M A) (k : A -> M B) :
  always_fails cfg m -> always_fails cfg (bind m k).
Proof.
  intros Hm s Hc. destruct (Hm s Hc) as [e He]. unfold bind.
  destruct (m s) as [[a|e'] s1]; cbn [fst] in *; [discriminate|eauto].
Qed.

Lemma cache_consistent_eq (cfg : Config) (s s' : Sys) :
  _transcriber s' = _transcriber s ->
  cache_consistent cfg s -> cache_consistent cfg s'.
Proof. intros E Hc t Ht. apply Hc. congruence. Qed.

Lemma always_fails_bind_r {A B} (cfg : Config) (m : M A) (k : A -> M B) :
  keeps_transcriber m -> (forall a, always_fails cfg (k a)) ->
  always_fails cfg (bind m k).
Proof.
  intros Hm Hk s Hc. unfold bind. specialize (Hm s).
  destruct (m s) as [[a|e] s1]; cbn [fst snd] in *; [|eauto].
  apply Hk. now apply (cache_consistent_eq cfg s).
Qed.

Lemma always_fails_try_finally {A} (cfg : Config) (body : M A)
    (cleanup : M unit) :
  always_fails cfg body -> always_fails cfg (try_finally body cleanup).
Proof.
  intros Hb s Hc. destruct (Hb s Hc) as [e He]. unfold try_finally.
  destruct (body s) as [r s1]. destruct (cleanup s1) as [u s2].
  cbn [fst] in *. eauto.
Qed.

Section Pipelines.
Variable fl : Q -> Q.
Variable cfg : Config.
Variable eng : Engines.

Lemma keeps_audio_processor : keeps_transcriber (audio_processor eng).
Proof.
  intros s. unfold audio_processor.
  destruct (_audio_processor s); [reflexivity|]. unfold call.
  destruct (ffmpeg_version eng (tick s)) as [[]|e]; reflexivity.
Qed.

Lemma keeps_get_media_info (path : string) :
  keeps_transcriber (get_media_info eng path).
Proof. unfold get_media_info. keeps. Qed.

Lemma keeps_normalize_audio (input output : string) :
  keeps_transcriber (normalize_audio eng input output).
Proof. unfold normalize_audio. keeps. Qed.

Lemma keeps_get_video_info (url : string) :
  keeps_transcriber (get_video_info eng url).
Proof. unfold get_video_info. keeps. Qed.

Lemma keeps_check_duration_limit (url : string) :
  keeps_transcriber (check_duration_limit cfg eng url).
Proof. unfold check_duration_limit. keeps. Qed.

Lemma keeps_download_audio (url : string) :
  keeps_transcriber (download_audio cfg eng url).
Proof. unfold download_audio. keeps. Qed.

Lemma init_large (device : string) :
  exists msg, Transcriber.__init__ "large" device = Err (TranscriberError msg).
Proof. eexists. vm_compute. reflexivity. Qed.

(** With the model "large" no transcriber is ever obtained. *)
Lemma select_transcriber_large (s : Sys) :
  cache_consistent cfg s ->
  exists msg, select_transcriber cfg "large" s = (Err (TranscriberError msg), s).
Proof.
  intros Hc. unfold select_transcriber.
  destruct (String.eqb_spec "large" (WHISPER_MODEL cfg)) as [E|E]; cbn [negb].
  - unfold transcriber. destruct (_transcriber s) as [t|] eqn:Et.
    + specialize (Hc t Et). rewrite <- E in Hc.
      destruct (init_large (WHISPER_DEVICE cfg)) as [msg Hm]. congruence.
    + rewrite <- E. destruct (init_large (WHISPER_DEVICE cfg)) as [msg Hm].
      rewrite Hm. eauto.
  - destruct (init_large (WHISPER_DEVICE cfg)) as [msg Hm]. rewrite Hm.
    unfold raise. eauto.
Qed.

Lemma always_fails_select_large :
  always_fails cfg (select_transcriber cfg "large").
Proof.
  intros s Hc. destruct (select_transcriber_large s Hc) as [msg ->]. eauto.
Qed.

(** The steps from normalization on, shared by the two transcription
  pipelines. *)
Lemma always_fails_from_normalize {A} (input output : string)
    (rest : Transcriber.Transcriber -> M A) :
  always_fails cfg
    (audio_processor eng ;;;
     normalize_audio eng input output ;;;
     t <- select_transcriber cfg "large" ;; rest t).
Proof.
  apply always_fails_bind_r; [apply keeps_audio_processor|intros _].
  apply always_fails_bind_r; [apply keeps_normalize_audio|intros _].
  apply always_fails_bind_l, always_fails_select_large.
Qed.

Lemma process_file_upload_large (job : Job) :
  model job = "large" ->
  always_fails cfg (process_file_upload fl cfg eng job).
Proof.
  intros Hm. unfold process_file_upload. rewrite Hm.
  destruct (stored_filename job); [|apply always_fails_raise].
  apply always_fails_bind_r; [apply keeps_exists|intros present].
  destruct (negb present); [apply always_fails_raise|].
  apply always_fails_from_normalize.
Qed.

Lemma process_youtube_auto_ingest_large (job : Job) :
  model job = "large" ->
  always_fails cfg (process_youtube_auto_ingest fl cfg eng job).
Proof.
  intros Hm. unfold process_youtube_auto_ingest. rewrite Hm.
  destruct (negb (YOUTUBE_AUTO_INGEST_ENABLED cfg)); [apply always_fails_raise|].
  destruct (source_url job) as [url|]; [|apply always_fails_raise].
  destruct (negb (Py.truthy url)); [apply always_fails_raise|].
  intros s Hc.
  set (first := (video_info <- check_duration_limit cfg eng url ;;
                 downloaded_path <- download_audio cfg eng url ;;
                 ret (video_info, downloaded_path))).
  assert (Hk : keeps_transcriber first).
  { subst first. keeps. }
  specialize (Hk s). destruct (first s) as [[[video_info downloaded]|e] s1].
  - match goal with
    | |- exists e, (try_finally ?b ?c ?st).1 = _ =>
        apply (always_fails_try_finally cfg b c)
    end; [apply always_fails_from_normalize|].
    now apply (cache_consistent_eq cfg s).
  - match goal with
    | |- exists e, (try_finally ?b ?c ?st).1 = _ =>
        apply (always_fails_try_finally cfg b c)
    end; [apply always_fails_raise|].
    now apply (cache_consistent_eq cfg s).
Qed.

(** Routing a job that asks for "large" through a transcription
  pipeline never yields paths. *)
Lemma route_large (job : Job) :
  model job = "large" ->
  job_type job = "file_upload" \/ job_type job = "youtube_auto_ingest" ->
  always_fails cfg (route fl cfg eng job).
Proof.
  intros Hm [Ht|Ht]; unfold route; rewrite Ht; cbn.
  - now apply process_file_upload_large.
  - now apply process_youtube_auto_ingest_large.
Qed.

(** *** Cleanup of intermediate files *)

Lemma bind_Ok {A B} (m : M A) (k : A -> M B) (s s' : Sys) (b : B) :
  bind m k s = (Ok b, s') ->
  exists a s1, m s = (Ok a, s1) /\ k a s1 = (Ok b, s').
Proof.
  unfold bind. destruct (m s) as [[a|e] s1]; [eauto|discriminate].
Qed.

(** A file upload that returns its paths has removed the normalized audio. *)
Lemma file_upload_success_removes_normalized (job : Job) (s s' : Sys)
    (paths : OutputFormatter.Paths) :
  process_file_upload fl cfg eng job s = (Ok paths, s') ->
  fs s' !! normalized_path_of cfg (id job) = None.
Proof.
  unfold process_file_upload, normalized_path_of.
  destruct (stored_filename job); [|discriminate].
  intros (present & s1 & _ & H)%bind_Ok.
  destruct (negb present); [discriminate|].
  apply bind_Ok in H as (? & s2 & _ & H).
  apply bind_Ok in H as (? & s3 & _ & H).
  apply bind_Ok in H as (? & s4 & _ & H).
  apply bind_Ok in H as (? & s5 & _ & H).
  apply bind_Ok in H as (? & s6 & _ & H).
  apply bind_Ok in H as (? & s7 & Hu & H).
  unfold unlink in Hu. injection Hu as _ <-.
  unfold ret in H. injection H as _ <-.
  cbn [with_fs fs]. apply lookup_delete_eq.
Qed.

(** The auto-ingest pipeline removes the normalized audio on every path
  through its [try] block, and the downloaded file once it has one. *)
Lemma auto_ingest_removes_intermediates (job : Job) (url : string) (s : Sys) :
  YOUTUBE_AUTO_INGEST_ENABLED cfg = true ->
  source_url job = Some url -> Py.truthy url = true ->
  fs (process_youtube_auto_ingest fl cfg eng job s).2
    !! normalized_path_of cfg (id job) = None
  /\ forall video_info downloaded s1,
       (video_info <- check_duration_limit cfg eng url ;;
        downloaded_path <- download_audio cfg eng url ;;
        ret (video_info, downloaded_path)) s = (Ok (video_info, downloaded), s1) ->
       Py.truthy downloaded = true ->
       fs (process_youtube_auto_ingest fl cfg eng job s).2 !! downloaded = None.
Proof.
  intros He Hu Ht. unfold process_youtube_auto_ingest, normalized_path_of.
  rewrite He, Hu, Ht. cbn [negb].
  destruct ((video_info <- check_duration_limit cfg eng url ;;
             downloaded_path <- download_audio cfg eng url ;;
             ret (video_info, downloaded_path)) s)
    as [[[video_info downloaded]|e] s1] eqn:E; unfold try_finally.
  - match goal with
    | |- context [let '(r, s') := ?b s1 in _] => destruct (b s1) as [r s2]
    end.
    split.
    + destruct (Py.truthy downloaded);
        cbn [bind cleanup_download unlink ret with_fs fs snd];
        apply lookup_delete_eq.
    + intros vi dl s1' [= <- <- <-] Hd. rewrite Hd.
      cbn [bind cleanup_download unlink ret with_fs fs snd].
      destruct (decide (path_join (path_join (OUTPUTS_DIR cfg) (id job))
                          "audio_normalized.wav" = downloaded)) as [<-|Hne].
      * apply lookup_delete_eq.
      * rewrite lookup_delete_ne by exact Hne. apply lookup_delete_eq.
  - split; [cbn; apply lookup_delete_eq|]. intros vi dl s1' [=].
Qed.

End Pipelines.
End PipelineFacts.

(** ** The dispatcher: the claims *)

Import Worker.

(** The worker on its own.  [process_job] writes [running] and then
  exactly one of [done] (after the transcript paths are saved) and
  [failed] (on every exception of the pipeline); and over any number of
  turns of the worker loop, while nothing else writes to the store
  between its steps, the statuses written to a job are none, or
  [running] followed by [done] or [failed] for a job that was [queued]:
  a job in [done] or [failed] is not written again.  (With the API
  writing in between, this fails.) *)
Theorem status_sequence (fl : Q -> Q) (cfg : Config) (eng : Engines) :
  (forall job w,
     let w1 := update_job_status eng (id job) "running" None w in
     exists final,
       (final = "done" \/ final = "failed")
       /\ log (process_job fl cfg eng job w)
          = log w ++ [(id job, "running"); (id job, final)]
       /\ (forall paths s', route fl cfg eng job (sys w1) = (Ok paths, s') ->
             final = "done"
             /\ process_job fl cfg eng job w
                = update_job_status eng (id job) "done" None
                    (save_transcript_paths (id job) paths
                       {| db := db w1; sys := s'; log := log w1 |}))
       /\ (forall e s', route fl cfg eng job (sys w1) = (Err e, s') ->
             final = "failed"
             /\ process_job fl cfg eng job w
                = update_job_status eng (id job) "failed"
                    (Some (failure_message e))
                    {| db := db w1; sys := s'; log := log w1 |}))
  /\ (forall n w job_id row,
        jobs (db w) !! job_id = Some row ->
        exists delta row',
          log (run fl cfg eng n w) = log w ++ delta
          /\ jobs (db (run fl cfg eng n w)) !! job_id = Some row'
          /\ ((statuses_of job_id delta = [] /\ status row' = status row)
              \/ (status row = "queued"
                  /\ exists final,
                       (final = "done" \/ final = "failed")
                       /\ statuses_of job_id delta = ["running"; final]
                       /\ status row' = final))
          /\ (status row = "done" \/ status row = "failed" ->
                statuses_of job_id delta = [] /\ status row' = status row)).
Proof.
  split.
  - intros job w. cbv zeta.
    destruct (WorkerFacts.process_job_effect fl cfg eng job w)
      as (final & upd & Hf & Hlog & _ & _ & Hiff & Hok & Herr).
    exists final. split; [exact Hf|]. split; [exact Hlog|]. split.
    + intros paths s' Hr. split; [apply Hiff; eauto|now apply Hok].
    + intros e s' Hr. split; [|now apply Herr].
      destruct Hf as [Hd|Hd]; [|exact Hd].
      apply Hiff in Hd as (p & s & Hp). congruence.
  - intros n w job_id row Hl.
    destruct (WorkerFacts.run_statuses fl cfg eng n w job_id row Hl)
      as (delta & row' & Hlog & Hr & _ & Hcase).
    exists delta, row'. split; [exact Hlog|]. split; [exact Hr|].
    split; [exact Hcase|].
    intros Hterm. destruct Hcase as [H|[Hq _]]; [exact H|].
    rewrite Hq in Hterm. destruct Hterm; discriminate.
Qed.

Lemma status_sequence_witness :
  jobs (db Examples.world_one) !! "job-2"
  = Some (Examples.upload "2024-05-01T10:04:00" "small")
  /\ exists delta row',
       log (run fl_exact Examples.cfg Examples.eng_recognizer_fails 2
              Examples.world_one)
       = log Examples.world_one ++ delta
       /\ jobs (db (run fl_exact Examples.cfg Examples.eng_recognizer_fails 2
                      Examples.world_one)) !! "job-2" = Some row'
       /\ ((statuses_of "job-2" delta = []
            /\ status row' = status (Examples.upload "2024-05-01T10:04:00" "small"))
           \/ (status (Examples.upload "2024-05-01T10:04:00" "small") = "queued"
               /\ exists final,
                    (final = "done" \/ final = "failed")
                    /\ statuses_of "job-2" delta = ["running"; final]
                    /\ status row' = final)).
Proof.
  assert (H : jobs (db Examples.world_one) !! "job-2"
              = Some (Examples.upload "2024-05-01T10:04:00" "small"))
    by reflexivity.
  split; [exact H|].
  destruct (proj2 (status_sequence fl_exact Examples.cfg
                     Examples.eng_recognizer_fails)
              2%nat Examples.world_one "job-2" _ H)
    as (delta & row' & H1 & H2 & H3 & _).
  exists delta, row'. split; [exact H1|]. split; [exact H2|exact H3].
Defined.



(** The three sample uploads are claimed oldest first. *)
Example three_uploads_in_order :
  map fst (log (run fl_exact Examples.cfg Examples.eng_ok 3 Examples.world_three))
  = ["job-a"; "job-a"; "job-b"; "job-b"; "job-c"; "job-c"].
Proof. vm_compute. reflexivity. Qed.

(** C1 at its failing input.  A safe-mode request for a video with
  captions, on a store in which no job is queued.  [handle_safe_mode]
  first commits the job as a [queued] row ([create_job]); a worker
  polling then is handed this job; the route goes on and stores the job
  as [done]; the worker, carrying on with [process_job], writes
  [running] over [done] (its UPDATE names the id only) and then, its
  own caption download failing, [failed].  The statuses observed are
  queued, done, running, failed, and the transcript the route wrote is
  still on disk. *)
Theorem done_job_is_written_again :
  let now1 := "2024-05-01T10:04:00" in
  let now2 := "2024-05-01T10:04:01" in
  exists db1 job r db2 fs2,
    (* the route's first commit *)
    DatabaseWrites.create_job Examples.db_done "job-9" now1 YOUTUBE_CAPTIONS
      Models.SMALL "en" (Some "A talk.vtt") None
      (Some "https://youtu.be/dQw4w9WgXcQ") = Ok ("job-9", db1)
    /\ (status <$> jobs db1 !! "job-9") = Some "queued"
    (* the worker polls *)
    /\ get_next_job Examples.cfg db1 = Some job /\ id job = "job-9"
    (* the route's last commit *)
    /\ YouTubeRoute.handle_safe_mode fl_exact Samples.int_ Samples.float_
         "data/outputs" (fun _ _ => Some Samples.captions_vtt)
         Samples.safe_request Samples.captioned_video "job-9" now1 now2
         Examples.db_done ∅
       = (Ok (YouTubeRoute.Created r), db2, fs2)
    /\ jobs db2 = alter (set_status "done" now2) "job-9" (jobs db1)
    /\ (status <$> jobs db2 !! "job-9") = Some "done"
    (* the worker processes the job it was handed *)
    /\ let w := {| db := db2; sys := fresh fs2; log := [] |} in
       let w1 := update_job_status Examples.eng_ok "job-9" "running" None w in
       let w' := process_job fl_exact Examples.cfg Examples.eng_ok job w in
       (status <$> jobs (db w1) !! "job-9") = Some "running"
       /\ log w' = [("job-9", "running"); ("job-9", "failed")]
       /\ (status <$> jobs (db w') !! "job-9") = Some "failed"
       /\ fs (sys w') !! "data/outputs/job-9/transcript.txt"
          = Some (TextFile "Hello world again").
Proof.
  cbv zeta. eexists _, _, _, _, _.
  split; [vm_compute; reflexivity|].
  repeat split; vm_compute; reflexivity.
Qed.

(** C2 at its failing input.  A queued upload whose audio is normalized
  and whose recognizer then raises: the job ends [failed] and the
  normalized audio is still on disk. *)
Theorem upload_failure_keeps_normalized_audio :
  let w' := run fl_exact Examples.cfg Examples.eng_recognizer_fails 1
              Examples.world_one in
  log w' = [("job-2", "running"); ("job-2", "failed")]
  /\ (status <$> (jobs (db w') !! "job-2")) = Some "failed"
  /\ (error_message <$> (jobs (db w') !! "job-2"))
     = Some (Some "Transcription failed: engine crashed")
  /\ fs (sys Examples.world_one) !! "data/outputs/job-2/audio_normalized.wav"
     = None
  /\ fs (sys w') !! "data/outputs/job-2/audio_normalized.wav" = Some MediaFile.
Proof. cbv zeta. repeat split; vm_compute; reflexivity. Qed.

(** C10.  The API's model value "large" is not a valid transcriber
  model: the constructor raises [TranscriberError] for it; the worker
  hands the job's model to that constructor; and a job with this model
  routed through a transcription pipeline (file upload or auto-ingest)
  never yields paths, so that [process_job] marks it [failed]. *)
Theorem large_model_never_done (fl : Q -> Q) (cfg : Config) (eng : Engines) :
  Models.ModelSize_value Models.LARGE = "large"
  /\ ("large" ∉ Transcriber.VALID_MODELS)
  /\ ("large-v2" ∈ Transcriber.VALID_MODELS)
  /\ ("large-v3" ∈ Transcriber.VALID_MODELS)
  /\ (forall device,
        exists msg,
          Transcriber.__init__ "large" device = Err (TranscriberError msg))
  /\ (forall d job row,
        get_next_job cfg d = Some job -> jobs d !! id job = Some row ->
        Database.model row = "large" -> model job = "large")
  /\ (forall s,
        cache_consistent cfg s ->
        exists msg,
          select_transcriber cfg "large" s = (Err (TranscriberError msg), s))
  /\ (forall job w,
        model job = "large" ->
        job_type job = "file_upload" \/ job_type job = "youtube_auto_ingest" ->
        cache_consistent cfg (sys w) ->
        (forall s, cache_consistent cfg s ->
           exists e, (route fl cfg eng job s).1 = Err e)
        /\ log (process_job fl cfg eng job w)
           = log w ++ [(id job, "running"); (id job, "failed")]
        /\ forall row, jobs (db w) !! id job = Some row ->
             exists row',
               jobs (db (process_job fl cfg eng job w)) !! id job = Some row'
               /\ status row' = "failed").
Proof.
  split; [reflexivity|]. split; [vm_compute; intros H; inversion H; subst;
    repeat match goal with H : _ ∈ _ |- _ => inversion H; clear H; subst end|].
  split; [vm_compute; repeat constructor|].
  split; [vm_compute; repeat constructor|].
  split; [apply (PipelineFacts.init_large)|].
  split.
  { intros d job row Hn Hl Hm.
    destruct (WorkerFacts.get_next_job_Some cfg d job Hn)
      as (row' & Hl' & _ & _ & _ & _ & _ & Hmodel).
    assert (row' = row) as -> by congruence.
    rewrite Hmodel, Hm. reflexivity. }
  split; [apply PipelineFacts.select_transcriber_large|].
  intros job w Hm Ht Hc.
  pose proof (PipelineFacts.route_large fl cfg eng job Hm Ht) as Hroute.
  split; [exact Hroute|].
  destruct (WorkerFacts.process_job_effect fl cfg eng job w)
    as (final & upd & Hf & Hlog & Hj & Hu & Hiff & _).
  cbv zeta in Hiff.
  assert (final = "failed") as ->.
  { destruct Hf as [Hd|Hd]; [|exact Hd].
    apply Hiff in Hd as (paths & s' & Hr).
    destruct (WorkerFacts.update_job_status_effect eng (id job) "running" None w)
      as (u & _ & _ & _ & _ & _ & Htr).
    destruct (Hroute (sys (update_job_status eng (id job) "running" None w)))
      as [e He].
    - now apply (PipelineFacts.cache_consistent_eq cfg (sys w)).
    - rewrite Hr in He. discriminate. }
  split; [exact Hlog|].
  intros row Hl. exists (upd row). split; [|apply Hu].
  rewrite Hj, lookup_alter_eq, Hl. reflexivity.
Qed.

Lemma large_model_never_done_witness :
  (Worker.model
     {| id := "job-3"; job_type := "file_upload"; source_url := None;
        original_filename := Some "talk.mp3";
        stored_filename := Some "ab12cd34_talk.mp3";
        model := "large"; language := "en" |} = "large")
  /\ cache_consistent Examples.cfg (sys Examples.world_large)
  /\ log (process_job fl_exact Examples.cfg Examples.eng_ok
            {| id := "job-3"; job_type := "file_upload"; source_url := None;
               original_filename := Some "talk.mp3";
               stored_filename := Some "ab12cd34_talk.mp3";
               model := "large"; language := "en" |}
            Examples.world_large)
     = log Examples.world_large ++ [("job-3", "running"); ("job-3", "failed")].
Proof.
  assert (Hc : cache_consistent Examples.cfg (sys Examples.world_large)).
  { intros t Ht. discriminate. }
  split; [reflexivity|]. split; [exact Hc|].
  destruct (large_model_never_done fl_exact Examples.cfg Examples.eng_ok)
    as (_ & _ & _ & _ & _ & _ & _ & H).
  exact (proj1 (proj2 (H {| id := "job-3"; job_type := "file_upload";
                            source_url := None;
                            original_filename := Some "talk.mp3";
                            stored_filename := Some "ab12cd34_talk.mp3";
                            model := "large"; language := "en" |}
                          Examples.world_large eq_refl (or_introl eq_refl) Hc))).
Defined.

(** * Further properties of the code *)

(** ** Text of subtitles and of the plain transcript *)

Module TextFacts.
Import Shape.
Local Arguments String.append : simpl nomatch.

Lemma all_chars_app (p : ascii -> bool) (a b : string) :
  all_chars p (a +:+ b) = all_chars p a && all_chars p b.
Proof.
  induction a as [|c a IH]; cbn; [reflexivity|].
  now rewrite IH, andb_assoc.
Qed.

Lemma all_chars_impl (p q : ascii -> bool) (s : string) :
  (forall c, p c = true -> q c = true) ->
  all_chars p s = true -> all_chars q s = true.
Proof.
  intros Hpq. induction s as [|c s IH]; cbn; [reflexivity|].
  intros [Hc Hs]%andb_true_iff. rewrite (Hpq c Hc). now apply IH.
Qed.

Lemma nonspace_not_space (c : ascii) : nonspace c = true -> Ascii.eqb c " " = false.
Proof.
  unfold nonspace. destruct (Ascii.eqb_spec c " ") as [->|]; [|reflexivity].
  vm_compute. discriminate.
Qed.

Lemma append_nonempty_r (a b : string) : b <> "" -> a +:+ b <> "".
Proof. destruct a; cbn; [auto|discriminate]. Qed.

Lemma append_nonempty_l (a b : string) : a <> "" -> a +:+ b <> "".
Proof. destruct a; cbn; [contradiction|discriminate]. Qed.

(** [s.split()] yields words. *)
Lemma split_go_words (s : string) (cur : option string) :
  (forall w, cur = Some w -> word w) -> Forall word (Py.split_go cur s).
Proof.
  revert cur. induction s as [|c s IH]; intros cur Hcur; cbn.
  - destruct cur as [w|]; cbn; [constructor; auto|constructor].
  - destruct (Py.isspace c) eqn:Ec.
    + apply Forall_app. split; [|apply IH; discriminate].
      destruct cur as [w|]; cbn; [constructor; auto|constructor].
    + apply IH. intros w [= <-]. split.
      * apply append_nonempty_r. discriminate.
      * rewrite all_chars_app. apply andb_true_iff. split.
        -- destruct cur as [w|]; cbn; [|reflexivity]. now apply Hcur.
        -- cbn. unfold nonspace. now rewrite Ec.
Qed.

Lemma split_words (s : string) : Forall word (Py.split s).
Proof. apply split_go_words. discriminate. Qed.

Lemma word_no_leading (w rest : string) :
  word w -> Spec.no_leading_space (w +:+ rest) = true.
Proof.
  intros [Hne Hw]. destruct w as [|c w]; [contradiction|]. cbn in *.
  apply andb_true_iff in Hw as [Hc _]. exact Hc.
Qed.

Lemma no_trailing_app (a t : string) :
  t <> "" -> Spec.no_trailing_space (a +:+ t) = Spec.no_trailing_space t.
Proof.
  intros Ht. induction a as [|c a IH]; cbn; [reflexivity|].
  destruct (a +:+ t) eqn:E; [|exact IH].
  exfalso. revert E. now apply append_nonempty_r.
Qed.

Lemma word_no_trailing (w : string) : word w -> Spec.no_trailing_space w = true.
Proof.
  intros [Hne Hw]. induction w as [|c w IH]; [contradiction|]. cbn in *.
  apply andb_true_iff in Hw as [Hc Hw]. destruct w; [exact Hc|].
  apply IH; [discriminate|exact Hw].
Qed.

Lemma double_space_cons (c : ascii) (s : string) :
  double_space (String c s) = (Ascii.eqb c " " && space_head s) || double_space s.
Proof. destruct s; cbn; [now rewrite andb_false_r|reflexivity]. Qed.

Lemma space_head_word (w rest : string) : word w -> space_head (w +:+ rest) = false.
Proof.
  intros [Hne Hw]. destruct w as [|c w]; [contradiction|]. cbn in *.
  apply andb_true_iff in Hw as [Hc _]. now apply nonspace_not_space.
Qed.

Lemma double_space_nonspace_app (w u : string) :
  all_chars nonspace w = true -> double_space (w +:+ u) = double_space u.
Proof.
  induction w as [|c w IH]; cbn [String.append all_chars]; [reflexivity|].
  intros [Hc Hw]%andb_true_iff. rewrite double_space_cons.
  rewrite (nonspace_not_space c Hc). cbn. now apply IH.
Qed.

Lemma no_leading_space_head (s : string) :
  Spec.no_leading_space s = true -> space_head s = false.
Proof.
  destruct s as [|b s]; cbn; [reflexivity|]. apply nonspace_not_space.
Qed.

Lemma word_spaced (w : string) : word w -> all_chars spaced w = true.
Proof.
  intros [_ Hw]. revert Hw. apply all_chars_impl. intros c Hc.
  unfold spaced. now rewrite Hc.
Qed.

(** [" ".join(words)]: single spaces between words, none at the ends. *)
Lemma join_words (ws : list string) :
  Forall word ws ->
  all_chars spaced (Py.join " " ws) = true
  /\ Spec.no_leading_space (Py.join " " ws) = true
  /\ Spec.no_trailing_space (Py.join " " ws) = true
  /\ double_space (Py.join " " ws) = false
  /\ (ws <> [] -> Py.join " " ws <> "").
Proof.
  unfold Py.join. induction 1 as [|w ws Hw Hws IH]; [now cbn|].
  destruct ws as [|w' ws]; [cbn [String.concat]|rewrite SubtitleFacts.concat_cons2].
  - pose proof (word_no_leading w "" Hw) as H1.
    pose proof (double_space_nonspace_app w "" (proj2 Hw)) as H2.
    rewrite SubtitleFacts.app_empty_r in H1, H2.
    rewrite (word_spaced w Hw), (word_no_trailing w Hw), H1, H2.
    repeat split. intros _. apply Hw.
  - destruct IH as (Hs & Hl & Ht & Hd & Hne).
    specialize (Hne ltac:(discriminate)).
    set (t := String.concat " " (w' :: ws)) in *.
    change (" " +:+ t) with (String " " t).
    rewrite all_chars_app, (word_spaced w Hw). cbn [all_chars andb]. rewrite Hs.
    rewrite (word_no_leading w _ Hw).
    rewrite no_trailing_app by discriminate.
    rewrite double_space_nonspace_app by apply Hw.
    rewrite double_space_cons, (no_leading_space_head t Hl), Hd.
    repeat split.
    + destruct t; [contradiction|exact Ht].
    + intros _. apply append_nonempty_l, Hw.
Qed.

(** What [s.replace(old, new)] leaves of a predicate on characters. *)
Lemma replace_all_chars (q : ascii -> bool) (old : ascii) (new s : string) :
  all_chars q (Py.replace old new s)
  = all_chars (fun c => if Ascii.eqb c old then all_chars q new else q c) s.
Proof.
  induction s as [|c s IH]; cbn [Py.replace all_chars]; [reflexivity|].
  rewrite all_chars_app, IH.
  destruct (Ascii.eqb c old); cbn [all_chars]; [reflexivity|].
  now rewrite andb_true_r.
Qed.

Lemma replace_empty (old : ascii) (new s : string) :
  new <> "" -> Py.replace old new s = "" -> s = "".
Proof.
  intros Hn. destruct s as [|c s]; [reflexivity|]. cbn [Py.replace].
  intros E. exfalso. revert E.
  destruct (Ascii.eqb c old); [now apply append_nonempty_l|discriminate].
Qed.

Lemma replace_space_head (old : ascii) (new s : string) :
  word new -> nonspace old = true ->
  space_head (Py.replace old new s) = space_head s.
Proof.
  intros Hn Ho. destruct s as [|c s]; [reflexivity|]. cbn [Py.replace].
  destruct (Ascii.eqb_spec c old) as [->|Hne]; [|reflexivity].
  rewrite (space_head_word new _ Hn). cbn. symmetry.
  now apply nonspace_not_space.
Qed.

(** Replacing a non-space character by a word moves no space. *)
Lemma replace_shape (old : ascii) (new s : string) :
  word new -> nonspace old = true ->
  Spec.no_leading_space (Py.replace old new s) = Spec.no_leading_space s
  /\ Spec.no_trailing_space (Py.replace old new s) = Spec.no_trailing_space s
  /\ double_space (Py.replace old new s) = double_space s.
Proof.
  intros Hn Ho. induction s as [|c s (_ & IHt & IHd)]; [now cbn|].
  cbn [Py.replace]. set (R := Py.replace old new s) in *.
  assert (HR : R = "" -> s = "") by (apply replace_empty, Hn).
  assert (HS : space_head R = space_head s)
    by (apply replace_space_head; assumption).
  destruct (Ascii.eqb_spec c old) as [->|Hne].
  - rewrite (word_no_leading new R Hn).
    rewrite double_space_nonspace_app by apply Hn.
    rewrite double_space_cons, (nonspace_not_space old Ho), IHd.
    split; [cbn; now rewrite <- Ho|]. split; [|reflexivity].
    destruct R as [|r R'] eqn:ER.
    + rewrite (HR eq_refl), SubtitleFacts.app_empty_r. cbn.
      rewrite (word_no_trailing new Hn). now rewrite <- Ho.
    + rewrite no_trailing_app by discriminate. rewrite IHt.
      destruct s; [discriminate ER|reflexivity].
  - change (String c "" +:+ R) with (String c R).
    rewrite !double_space_cons, IHd, HS.
    split; [reflexivity|]. split; [|reflexivity].
    destruct R as [|r R'] eqn:ER.
    + now rewrite (HR eq_refl).
    + destruct s; [discriminate ER|]. exact IHt.
Qed.

End TextFacts.

(** The text line of a subtitle block, as cleaned for SRT and VTT, holds
  no angle bracket and no whitespace but single spaces between words,
  with none at either end: it is one line, and no markup is left in it. *)
Theorem cleaned_text_is_one_plain_line (text : string) :
  let t := _clean_text_for_subtitles text in
  Shape.all_chars Shape.subtitle_char t = true
  /\ Spec.contains "010" t = false
  /\ Spec.no_leading_space t = true
  /\ Spec.no_trailing_space t = true
  /\ Shape.double_space t = false.
Proof.
  cbv zeta. unfold _clean_text_for_subtitles.
  destruct (TextFacts.join_words (Py.split text) (TextFacts.split_words text))
    as (Hs & Hl & Ht & Hd & _).
  set (j := Py.join " " (Py.split text)) in *.
  assert (Hamp : Shape.word "&amp;") by (split; [discriminate|reflexivity]).
  assert (Hlt : Shape.word "&lt;") by (split; [discriminate|reflexivity]).
  assert (Hgt : Shape.word "&gt;") by (split; [discriminate|reflexivity]).
  destruct (TextFacts.replace_shape "&" "&amp;" j Hamp eq_refl) as (L1 & T1 & D1).
  set (t1 := Py.replace "&" "&amp;" j) in *.
  destruct (TextFacts.replace_shape "<" "&lt;" t1 Hlt eq_refl) as (L2 & T2 & D2).
  set (t2 := Py.replace "<" "&lt;" t1) in *.
  destruct (TextFacts.replace_shape ">" "&gt;" t2 Hgt eq_refl) as (L3 & T3 & D3).
  assert (Hc : Shape.all_chars Shape.subtitle_char (Py.replace ">" "&gt;" t2) = true).
  { subst t2 t1. rewrite !TextFacts.replace_all_chars.
    revert Hs. apply TextFacts.all_chars_impl. intros c Hc.
    destruct (Ascii.eqb_spec c "&") as [->|]; [reflexivity|].
    destruct (Ascii.eqb_spec c "<") as [->|N1]; [reflexivity|].
    destruct (Ascii.eqb_spec c ">") as [->|N2]; [reflexivity|].
    unfold Shape.subtitle_char. rewrite Hc.
    apply Ascii.eqb_neq in N1, N2. now rewrite N1, N2. }
  split; [exact Hc|]. split.
  { revert Hc. generalize (Py.replace ">" "&gt;" t2). intros s.
    induction s as [|c s IH]; cbn; [reflexivity|].
    intros [Hc Hs']%andb_true_iff. rewrite (IH Hs'), orb_false_r.
    destruct (Ascii.eqb_spec c "010") as [->|]; [|reflexivity].
    vm_compute in Hc. discriminate. }
  split; [congruence|]. split; congruence.
Qed.

Module PlainTextFacts.
Import Shape TextFacts.
Local Arguments String.append : simpl nomatch.

(** The loop of [generate_txt] without time stamps keeps the stripped
  texts that are not empty, in order. *)
Lemma txt_lines_filter (segments : list Segment) :
  txt_lines false segments
  = filter (fun t => t <> "") (map (fun seg => Py.strip (OutputFormatter.text seg)) segments).
Proof.
  unfold txt_lines.
  enough (H : forall acc,
            fold_left (fun lines seg =>
              let text := Py.strip (OutputFormatter.text seg) in
              if negb (Py.truthy text) then lines
              else if false then
                let mins := Py.int (Py.floordiv (OutputFormatter.start seg) 60) in
                let secs := Py.int (Py.mod_ (OutputFormatter.start seg) 60) in
                lines ++ ["[" +:+ Py.format_d 2 mins +:+ ":" +:+ Py.format_d 2 secs
                            +:+ "] " +:+ text]
              else lines ++ [text]) segments acc
            = acc ++ filter (fun t => t <> "")
                       (map (fun seg => Py.strip (OutputFormatter.text seg)) segments))
    by apply (H []).
  induction segments as [|seg segments IH]; intros acc; cbn [fold_left map].
  - rewrite filter_nil. now rewrite app_nil_r.
  - rewrite IH, filter_cons. cbv zeta. unfold Py.truthy.
    destruct (String.eqb_spec (Py.strip (OutputFormatter.text seg)) "") as [E|E]; cbn [negb].
    + destruct (decide _) as [N|_]; [contradiction|reflexivity].
    + destruct (decide _) as [_|N]; [|contradiction].
      now rewrite <- List.app_assoc.
Qed.

Lemma collapse_space_head (s : string) :
  space_head (Py.collapse_spaces s) = space_head s.
Proof.
  induction s as [|c s IH]; [reflexivity|]. cbn [Py.collapse_spaces].
  destruct (Ascii.eqb_spec c " ") as [->|Hc].
  - destruct s as [|c' s]; [reflexivity|].
    destruct (Ascii.eqb_spec c' " ") as [->|Hc']; [|reflexivity].
    rewrite IH. reflexivity.
  - reflexivity.
Qed.

(** [re.sub(r' +', ' ', s)] leaves no two spaces in a row. *)
Lemma collapse_no_double_space (s : string) :
  double_space (Py.collapse_spaces s) = false.
Proof.
  induction s as [|c s IH]; [reflexivity|]. cbn [Py.collapse_spaces].
  destruct (Ascii.eqb_spec c " ") as [->|Hc].
  - destruct s as [|c' s]; [reflexivity|].
    destruct (Ascii.eqb_spec c' " ") as [->|Hc']; [exact IH|].
    rewrite double_space_cons, IH, collapse_space_head. cbn.
    apply Ascii.eqb_neq in Hc'. now rewrite Hc'.
  - rewrite double_space_cons, IH. apply Ascii.eqb_neq in Hc. now rewrite Hc.
Qed.

(** and changes nothing where there were none. *)
Lemma collapse_id (s : string) :
  double_space s = false -> Py.collapse_spaces s = s.
Proof.
  induction s as [|c s IH]; [reflexivity|].
  rewrite double_space_cons. intros [H1 H2]%orb_false_iff.
  cbn [Py.collapse_spaces]. rewrite (IH H2).
  destruct (Ascii.eqb c " "); [|reflexivity].
  destruct s as [|c' s]; [reflexivity|]. cbn in H1. now rewrite H1.
Qed.

Lemma no_leading_app (a rest : string) :
  a <> "" -> Spec.no_leading_space (a +:+ rest) = Spec.no_leading_space a.
Proof. destruct a; [contradiction|reflexivity]. Qed.

Lemma space_head_app (a rest : string) :
  a <> "" -> space_head (a +:+ rest) = space_head a.
Proof. destruct a; [contradiction|reflexivity]. Qed.

Lemma double_space_sep (a t : string) :
  Spec.no_trailing_space a = true ->
  double_space (a +:+ String " " t)
  = double_space a || space_head t || double_space t.
Proof.
  induction a as [|c a IH]; intros Ha.
  - cbn [String.append]. rewrite double_space_cons. reflexivity.
  - destruct a as [|d a].
    + change (String c "" +:+ String " " t) with (String c (String " " t)).
      rewrite (double_space_cons c), (double_space_cons " " t).
      cbn in Ha. rewrite (nonspace_not_space c Ha). reflexivity.
    + change (String c (String d a) +:+ String " " t)
        with (String c (String d a +:+ String " " t)).
      rewrite (double_space_cons c), IH by exact Ha.
      rewrite (double_space_cons c (String d a)).
      rewrite space_head_app by discriminate. now rewrite !orb_assoc.
Qed.

(** Joining with single spaces texts that are tidy gives a tidy text. *)
Lemma join_tidy (ts : list string) :
  Forall (fun t => t <> "" /\ Spec.no_leading_space t = true
                   /\ Spec.no_trailing_space t = true
                   /\ double_space t = false) ts ->
  double_space (Py.join " " ts) = false
  /\ (ts <> [] -> Spec.no_leading_space (Py.join " " ts) = true).
Proof.
  unfold Py.join. induction 1 as [|t ts (Hne & Hl & Ht & Hd) Hts IH]; [now cbn|].
  destruct ts as [|t' ts]; [cbn [String.concat]; auto|].
  rewrite SubtitleFacts.concat_cons2. destruct IH as [IHd IHl].
  specialize (IHl ltac:(discriminate)).
  set (T := String.concat " " (t' :: ts)) in *.
  change (" " +:+ T) with (String " " T). split.
  - rewrite double_space_sep by exact Ht.
    now rewrite Hd, IHd, (no_leading_space_head T IHl).
  - intros _. now rewrite no_leading_app.
Qed.

End PlainTextFacts.

(** The plain-text transcript is made of the segment texts, each
  stripped, the empty ones left out, joined by single spaces, with
  every run of spaces collapsed to one: it never holds two spaces in a
  row, and when no text has a run of spaces of its own it is exactly
  the texts joined by single spaces. *)
Theorem plain_text_joins_nonblank_segments (segments : list Segment) :
  let texts :=
    filter (fun t => t <> "")
      (map (fun seg => Py.strip (OutputFormatter.text seg)) segments) in
  txt_content false segments = Py.collapse_spaces (Py.join " " texts)
  /\ Shape.double_space (txt_content false segments) = false
  /\ (Forall (fun t => Shape.double_space t = false) texts ->
      txt_content false segments = Py.join " " texts).
Proof.
  cbv zeta. unfold txt_content. rewrite PlainTextFacts.txt_lines_filter.
  split; [reflexivity|]. split; [apply PlainTextFacts.collapse_no_double_space|].
  intros Hd. apply PlainTextFacts.collapse_id, PlainTextFacts.join_tidy.
  rewrite Forall_forall in Hd |- *. intros t Ht. specialize (Hd t Ht).
  apply list_elem_of_filter in Ht as [Hne Hin].
  apply list_elem_of_In, in_map_iff in Hin as (seg & <- & _).
  destruct (JsonFacts.strip_spec (OutputFormatter.text seg))
    as (l & r & _ & _ & _ & Hl & Ht).
  auto.
Qed.

(** ** The files of a job *)

Module FileFacts.
Local Arguments String.append : simpl nomatch.

Lemma append_inj_l (a x y : string) : a +:+ x = a +:+ y -> x = y.
Proof.
  induction a as [|c a IH]; cbn [String.append]; [auto|].
  intros [= E]. now apply IH.
Qed.

Lemma path_join_inj (dir a b : string) :
  path_join dir a = path_join dir b -> a = b.
Proof.
  unfold path_join. intros E%append_inj_l. now apply (append_inj_l "/") in E.
Qed.

(** Two names with the same stem and different extensions are two files. *)
Lemma suffix_paths_ne (dir base s1 s2 : string) :
  s1 <> s2 -> path_join dir (base +:+ s1) <> path_join dir (base +:+ s2).
Proof. intros Hne E%path_join_inj%append_inj_l. contradiction. Qed.

(** The file system after [generate_all]: four writes, in source order. *)
Lemma generate_all_fs (fl : Q -> Q) (dir base : string)
    (segments : list Segment) (metadata : option (list (string * json)))
    (fs : FS) :
  OutputFormatter.generate_all fl dir segments base metadata fs
  = (<[path_join dir (base +:+ ".vtt") := TextFile (vtt_content fl segments)]>
       (<[path_join dir (base +:+ ".srt") := TextFile (srt_content fl segments)]>
          (<[path_join dir (base +:+ ".txt") := TextFile (txt_content false segments)]>
             (<[path_join dir (base +:+ "_segments.json")
                  := JsonFile (generate_json_data segments metadata)]> fs))),
     {| OutputFormatter.json_path := path_join dir (base +:+ "_segments.json");
        OutputFormatter.txt_path := path_join dir (base +:+ ".txt");
        OutputFormatter.srt_path := path_join dir (base +:+ ".srt");
        OutputFormatter.vtt_path := path_join dir (base +:+ ".vtt") |}).
Proof. reflexivity. Qed.

End FileFacts.

(** [generate_all] writes four files next to each other, named after
  the base name: the JSON artifact, the plain text, the SRT and the VTT
  file; it returns their paths; and it leaves every other file as it
  was. *)
Theorem generate_all_writes_four_files (fl : Q -> Q) (output_dir base_name : string)
    (segments : list Segment) (metadata : option (list (string * json)))
    (fs : FS) :
  let pj := path_join output_dir (base_name +:+ "_segments.json") in
  let pt := path_join output_dir (base_name +:+ ".txt") in
  let ps := path_join output_dir (base_name +:+ ".srt") in
  let pv := path_join output_dir (base_name +:+ ".vtt") in
  let out := OutputFormatter.generate_all fl output_dir segments base_name
               metadata fs in
  out.2 = {| OutputFormatter.json_path := pj; OutputFormatter.txt_path := pt;
             OutputFormatter.srt_path := ps; OutputFormatter.vtt_path := pv |}
  /\ out.1 !! pj = Some (JsonFile (generate_json_data segments metadata))
  /\ out.1 !! pt = Some (TextFile (txt_content false segments))
  /\ out.1 !! ps = Some (TextFile (srt_content fl segments))
  /\ out.1 !! pv = Some (TextFile (vtt_content fl segments))
  /\ Shape.same_outside [pj; pt; ps; pv] out.1 fs.
Proof.
  cbv zeta. rewrite FileFacts.generate_all_fs. cbn [fst snd].
  split; [reflexivity|].
  split.
  { rewrite !lookup_insert_ne by (apply FileFacts.suffix_paths_ne; discriminate).
    apply lookup_insert_eq. }
  split.
  { rewrite !lookup_insert_ne by (apply FileFacts.suffix_paths_ne; discriminate).
    apply lookup_insert_eq. }
  split.
  { rewrite lookup_insert_ne by (apply FileFacts.suffix_paths_ne; discriminate).
    apply lookup_insert_eq. }
  split; [apply lookup_insert_eq|].
  intros p Hp. repeat (apply not_elem_of_cons in Hp as [? Hp]).
  now rewrite !lookup_insert_ne by congruence.
Qed.

Module NameFacts.
Import Shape.

(** A character that fails [p] is not in a string whose characters all
  pass it. *)
Lemma all_chars_excludes (p : ascii -> bool) (c : ascii) (s : string) :
  all_chars p s = true -> p c = false -> Spec.contains c s = false.
Proof.
  intros Hs Hc. induction s as [|a s IH]; cbn in *; [reflexivity|].
  apply andb_true_iff in Hs as [Ha Hs]. rewrite (IH Hs), orb_false_r.
  destruct (Ascii.eqb_spec a c) as [->|]; [congruence|reflexivity].
Qed.

Lemma name_char_hyphen (c : ascii) :
  name_char "-" c = isalnum c || Ascii.eqb c "-".
Proof.
  unfold name_char. cbn. rewrite orb_false_r. now rewrite (Ascii.eqb_sym c).
Qed.

Lemma safe_id_chars (job_id : string) :
  all_chars (name_char "-") (safe_id job_id) = true.
Proof.
  induction job_id as [|c s IH]; cbn [safe_id]; [reflexivity|].
  destruct (isalnum c || Ascii.eqb c "-") eqn:E; [|exact IH].
  cbn [all_chars]. now rewrite name_char_hyphen, E.
Qed.

Lemma safe_id_fixed (job_id : string) :
  all_chars (name_char "-") job_id = true -> safe_id job_id = job_id.
Proof.
  induction job_id as [|c s IH]; cbn [safe_id all_chars]; [reflexivity|].
  rewrite name_char_hyphen. intros [-> Hs]%andb_true_iff. now rewrite IH.
Qed.

End NameFacts.

(** The directory of a job's files is named by the job id with every
  character dropped that is not alphanumeric or a hyphen: the name holds
  no path separator and no dot, so the directory lies directly under
  the outputs directory; an id made of such characters only (a UUID) is
  used as it is. *)
Theorem job_output_dir_name_is_sanitized (OUT job_id : string) :
  get_job_output_dir OUT job_id = path_join OUT (safe_id job_id)
  /\ Shape.all_chars (Shape.name_char "-") (safe_id job_id) = true
  /\ Spec.contains "/" (safe_id job_id) = false
  /\ Spec.contains "." (safe_id job_id) = false
  /\ safe_id (safe_id job_id) = safe_id job_id
  /\ (Shape.all_chars (Shape.name_char "-") job_id = true ->
      get_job_output_dir OUT job_id = path_join OUT job_id).
Proof.
  pose proof (NameFacts.safe_id_chars job_id) as Hc.
  split; [reflexivity|]. split; [exact Hc|].
  split; [now apply (NameFacts.all_chars_excludes _ _ _ Hc)|].
  split; [now apply (NameFacts.all_chars_excludes _ _ _ Hc)|].
  split; [now apply NameFacts.safe_id_fixed|].
  intros H. unfold get_job_output_dir. now rewrite NameFacts.safe_id_fixed.
Qed.

(** ** Stored transcripts and the export route *)

Module StoreFacts.
Import Models Database.

(** Reading back the dict that [model_dump] writes. *)
Lemma segment_of_json_model_dump (seg : TranscriptSegment) :
  segment_of_json (model_dump seg) = Some seg.
Proof. destruct seg. reflexivity. Qed.

Lemma mapM_model_dump (segs : list TranscriptSegment) :
  mapM segment_of_json (map model_dump segs) = Some segs.
Proof.
  induction segs as [|seg segs IH]; [reflexivity|].
  cbn [map mapM]. rewrite segment_of_json_model_dump. cbn.
  now rewrite IH.
Qed.

End StoreFacts.

(** What is read back of a stored transcript: after a list of segments
  has been dumped to [segments.json] and a text written to
  [transcript.txt] in the job's directory, [load_transcript_segments]
  returns that list, and [load_transcript_text], which opens the file
  in text mode, returns the text with every carriage return, alone or
  before a line feed, read as a line feed: no carriage return is left
  in what is read, and the text comes back unchanged exactly when it
  has none.  A missing file reads as no segments, or as the empty
  text, not as an error. *)
Theorem stored_transcript_reads_back (OUT : string) (fs : FS) (job_id : string)
    (segs : list TranscriptSegment) (text' : string) :
  let dir := get_job_output_dir OUT job_id in
  let fs' := <[path_join dir "transcript.txt" := TextFile text']>
               (<[path_join dir "segments.json"
                    := JsonFile (JList (map model_dump segs))]> fs) in
  load_transcript_segments OUT fs' job_id = Ok segs
  /\ (exists read,
        load_transcript_text OUT fs' job_id = Ok read
        /\ read = Py.universal_newlines text'
        /\ Spec.contains "013" read = false
        /\ (read = text' <-> Spec.contains "013" text' = false))
  /\ load_transcript_text OUT
       (<[path_join dir "transcript.txt"
            := TextFile ("a" +:+ String "013" (String "010" "b")
                           +:+ String "013" "c")]> fs) job_id
     = Ok ("a" +:+ String "010" "b" +:+ String "010" "c")
  /\ (forall fs0, fs0 !! path_join dir "segments.json" = None ->
        load_transcript_segments OUT fs0 job_id = Ok [])
  /\ (forall fs0, fs0 !! path_join dir "transcript.txt" = None ->
        load_transcript_text OUT fs0 job_id = Ok "").
Proof.
  cbv zeta. unfold load_transcript_segments, load_transcript_text.
  split.
  { rewrite lookup_insert_ne.
    - rewrite lookup_insert_eq. now rewrite StoreFacts.mapM_model_dump.
    - intros E%FileFacts.path_join_inj. discriminate. }
  split.
  { rewrite lookup_insert_eq. eexists. split; [reflexivity|].
    split; [reflexivity|].
    split; [apply NewlineFacts.universal_newlines_no_cr|].
    apply NewlineFacts.universal_newlines_fixed_iff. }
  split; [now rewrite lookup_insert_eq|].
  split; intros fs0 ->; reflexivity.
Qed.

Module ExportFacts.
Import SubtitleFacts.

Section Blocks.
Variable fl : Q -> Q.

(** The export route's SRT: one block for every segment. *)
Lemma segments_to_srt_blocks (segments : list Models.TranscriptSegment) :
  ExportRoute.segments_to_srt fl segments
  = Py.join Py.NL
      (map (Spec.export_block (ExportRoute.format_timestamp_srt fl))
         (Py.enumerate 1 segments)).
Proof.
  unfold ExportRoute.segments_to_srt.
  rewrite (fold_left_pointwise _
    (fun acc (b : nat * Models.TranscriptSegment) =>
       acc ++ [Py.str_N (N.of_nat b.1);
               Spec.export_timing (ExportRoute.format_timestamp_srt fl) b.2;
               Models.text b.2; ""])).
  2:{ intros acc [i seg]. cbn [fst snd]. now rewrite TimestampFacts.str_of_nat. }
  rewrite fold_left_append. cbn [app].
  apply (join_four_lines
           (fun b : nat * Models.TranscriptSegment => Py.str_N (N.of_nat b.1))
           (fun b => Spec.export_timing (ExportRoute.format_timestamp_srt fl) b.2)
           (fun b => Models.text b.2)).
Qed.

Lemma enumerate_cons {A} (k : nat) (x : A) (l : list A) :
  Py.enumerate k (x :: l) = (k, x) :: Py.enumerate (S k) l.
Proof. reflexivity. Qed.

Lemma filter_emitted_all (k : nat) (segments : list Segment) :
  Forall Spec.emitted segments ->
  filter (fun b : nat * Segment => Spec.emitted b.2) (Py.enumerate k segments)
  = Py.enumerate k segments.
Proof.
  intros H. revert k. induction H as [|seg segments He _ IH]; intros k;
    [reflexivity|].
  rewrite enumerate_cons, filter_cons. cbn [snd].
  destruct (decide (Spec.emitted seg)); [|contradiction]. now rewrite IH.
Qed.

(** A stored segment that carries a worker segment with its text cleaned. *)
Lemma blocks_agree (k : nat) (exported : list Models.TranscriptSegment)
    (segments : list Segment) :
  Forall2 (fun (a : Models.TranscriptSegment) (w : Segment) =>
             Models.start a = OutputFormatter.start w
             /\ Models.end_ a = OutputFormatter.end_ w
             /\ Models.text a
                = _clean_text_for_subtitles (OutputFormatter.text w))
    exported segments ->
  map (Spec.export_block (ExportRoute.format_timestamp_srt fl))
    (Py.enumerate k exported)
  = map (Spec.srt_block fl) (Py.enumerate k segments).
Proof.
  intros H. revert k. induction H as [|a w l l' (Hs & He & Ht) _ IH]; intros k;
    [reflexivity|].
  rewrite !enumerate_cons. cbn [map]. rewrite IH. f_equal.
  unfold Spec.export_block, Spec.export_timing, Spec.srt_block. cbn [fst snd].
  rewrite Hs, He, Ht, !PyFacts.string_app_assoc. reflexivity.
Qed.

End Blocks.
End ExportFacts.

(** The SRT text of the export route has one block for every stored
  segment, numbered from 1 in list order, with the text as stored (a
  segment with an empty text keeps its block); and for segments that
  hold the worker's segments with their cleaned, non-empty text, it is
  the same text as the worker's SRT file. *)
Theorem export_srt_one_block_per_segment (fl : Q -> Q)
    (exported : list Models.TranscriptSegment) :
  ExportRoute.segments_to_srt fl exported
  = Py.join Py.NL
      (map (Spec.export_block (ExportRoute.format_timestamp_srt fl))
         (Py.enumerate 1 exported))
  /\ length (Py.enumerate 1 exported) = length exported
  /\ (forall segments : list Segment,
        Forall Spec.emitted segments ->
        Forall2 (fun (a : Models.TranscriptSegment) (w : Segment) =>
                   Models.start a = OutputFormatter.start w
                   /\ Models.end_ a = OutputFormatter.end_ w
                   /\ Models.text a
                      = _clean_text_for_subtitles (OutputFormatter.text w))
          exported segments ->
        ExportRoute.segments_to_srt fl exported = srt_content fl segments).
Proof.
  split; [apply ExportFacts.segments_to_srt_blocks|]. split.
  { unfold Py.enumerate. rewrite length_combine, length_seq. lia. }
  intros segments He H2.
  rewrite ExportFacts.segments_to_srt_blocks, SubtitleFacts.srt_content_blocks.
  rewrite ExportFacts.filter_emitted_all by exact He.
  now rewrite (ExportFacts.blocks_agree fl 1 exported segments H2).
Qed.



Module ConflictFacts.

Section Routes.
Variable fl : Q -> Q.
Variable OUT : string.

(** The three transcript routes on a job that is not done. *)
Lemma not_done_conflict (db : DB) (fs : FS) (job_id : string) (job : JobRow) :
  get_job db job_id = Some job -> status job <> "done" ->
  JobsRoute.get_transcript OUT db fs job_id
  = Err {| status_code := 409;
           detail := "Transcript not ready. Job status: " +:+ status job |}
  /\ (forall fmt,
        ExportRoute.export_transcript fl OUT db fs job_id fmt
        = Err {| status_code := 409;
                 detail := "Transcript not ready. Job status: " +:+ status job |})
  /\ (forall text' segments now,
        JobsRoute.save_transcript db job_id text' segments now
        = Err {| status_code := 409;
                 detail := "Cannot edit transcript for incomplete job" |}).
Proof.
  intros Hj Hd.
  unfold JobsRoute.get_transcript, ExportRoute.export_transcript,
    JobsRoute.save_transcript.
  rewrite Hj. cbn [JobStatus_value].
  destruct (String.eqb_spec (status job) "done") as [E|_]; [contradiction|].
  cbn [negb]. auto.
Qed.

End Routes.
End ConflictFacts.

(** A job that is not done has no transcript to read, export or edit:
  the three transcript routes answer 409 for it; and a job whose
  pipeline raised is in that state after [process_job], its status
  being [failed]. *)
Theorem transcript_routes_refuse_unfinished_jobs (fl : Q -> Q) (OUT : string) :
  (forall (db : DB) (fs : FS) (job_id : string) (job : JobRow),
     get_job db job_id = Some job -> status job <> "done" ->
     JobsRoute.get_transcript OUT db fs job_id
     = Err {| status_code := 409;
              detail := "Transcript not ready. Job status: " +:+ status job |}
     /\ (forall fmt,
           ExportRoute.export_transcript fl OUT db fs job_id fmt
           = Err {| status_code := 409;
                    detail := "Transcript not ready. Job status: "
                                +:+ status job |})
     /\ (forall text' segments now,
           JobsRoute.save_transcript db job_id text' segments now
           = Err {| status_code := 409;
                    detail := "Cannot edit transcript for incomplete job" |}))
  /\ (forall (cfg : Config) (eng : Engines) (job : Job) (w : World)
             (row : JobRow) (e : exn) (s' : Sys) (fs : FS),
        jobs (db w) !! id job = Some row ->
        route fl cfg eng job
          (sys (update_job_status eng (id job) "running" None w)) = (Err e, s') ->
        let d := db (process_job fl cfg eng job w) in
        JobsRoute.get_transcript OUT d fs (id job)
        = Err {| status_code := 409;
                 detail := "Transcript not ready. Job status: failed" |}
        /\ (forall fmt,
              ExportRoute.export_transcript fl OUT d fs (id job) fmt
              = Err {| status_code := 409;
                       detail := "Transcript not ready. Job status: failed" |})
        /\ (forall text' segments now,
              JobsRoute.save_transcript d (id job) text' segments now
              = Err {| status_code := 409;
                       detail := "Cannot edit transcript for incomplete job" |})).
Proof.
  split; [apply ConflictFacts.not_done_conflict|].
  intros cfg eng job w row e s' fs Hl Hr. cbv zeta.
  destruct (WorkerFacts.process_job_effect fl cfg eng job w)
    as (final & upd & Hf & _ & Hj & Hu & Hiff & _).
  cbv zeta in Hiff.
  assert (final = "failed") as ->.
  { destruct Hf as [Hd|Hd]; [|exact Hd].
    apply Hiff in Hd as (paths & s & Hp). congruence. }
  assert (Hg : get_job (db (process_job fl cfg eng job w)) (id job)
               = Some (upd row)).
  { unfold get_job. rewrite Hj, lookup_alter_eq, Hl. reflexivity. }
  destruct (Hu row) as [Hst _].
  destruct (ConflictFacts.not_done_conflict fl OUT _ fs _ _ Hg) as (H1 & H2 & H3).
  { rewrite Hst. discriminate. }
  rewrite Hst in H1, H2. auto.
Qed.

(** ** The worker and the store *)

Module DispatchFacts.
Import Shape WorkerFacts.

Lemma substring_length (n : nat) (s : string) :
  (String.length (String.substring 0 n s) <= n)%nat.
Proof.
  revert s. induction n as [|n IH]; intros [|c s]; cbn; try lia.
  specialize (IH s). lia.
Qed.

Lemma substring_all (n : nat) (s : string) :
  (String.length s <= n)%nat -> String.substring 0 n s = s.
Proof.
  revert s. induction n as [|n IH]; intros [|c s]; cbn; try reflexivity; try lia.
  intros H. rewrite IH by lia. reflexivity.
Qed.

Lemma same_job_refl (r : JobRow) : same_job r r.
Proof. repeat split. Qed.

Lemma same_job_trans (a b c : JobRow) : same_job a b -> same_job b c -> same_job a c.
Proof.
  unfold same_job. intros (?&?&?&?&?&?&?) (?&?&?&?&?&?&?).
  repeat split; congruence.
Qed.

Lemma status_update_fields (st : string) (err : option string) (t : string)
    (r : JobRow) :
  same_job (status_update st err t r) r
  /\ status (status_update st err t r) = st
  /\ updated_at (status_update st err t r) = t
  /\ error_message (status_update st err t r)
     = match err with
       | Some msg =>
           if Py.truthy msg then Some (String.substring 0 1000 msg)
           else error_message r
       | None => error_message r
       end.
Proof.
  unfold status_update. destruct err as [msg|]; [destruct (Py.truthy msg)|];
    repeat split.
Qed.

Section Dispatch.
Variable fl : Q -> Q.
Variable cfg : Config.
Variable eng : Engines.

(** One status write, row by row. *)
Lemma update_job_status_rows (job_id st : string) (err : option string)
    (w : World) :
  jobs (db (update_job_status eng job_id st err w))
  = alter (status_update st err (utcnow eng (tick (sys w)))) job_id (jobs (db w))
  /\ transcripts (db (update_job_status eng job_id st err w)) = transcripts (db w)
  /\ fs (sys (update_job_status eng job_id st err w)) = fs (sys w).
Proof.
  unfold update_job_status, now, status_update.
  destruct err as [msg|]; [destruct (Py.truthy msg)|]; repeat split.
Qed.

(** [process_job], row by row: two status writes to the job's row and,
  on success, one write to its transcript record. *)
Lemma process_job_rows (job : Job) (w : World) :
  exists t1 t2,
    match route fl cfg eng job
            (sys (update_job_status eng (id job) "running" None w)) with
    | (Ok paths, s') =>
        jobs (db (process_job fl cfg eng job w))
        = alter (status_update "done" None t2 ∘ status_update "running" None t1)
            (id job) (jobs (db w))
        /\ transcripts (db (process_job fl cfg eng job w))
           = transcripts (db (save_transcript_paths (id job) paths w))
    | (Err e, s') =>
        jobs (db (process_job fl cfg eng job w))
        = alter (status_update "failed" (Some (failure_message e)) t2
                   ∘ status_update "running" None t1)
            (id job) (jobs (db w))
        /\ transcripts (db (process_job fl cfg eng job w)) = transcripts (db w)
    end.
Proof.
  unfold process_job.
  destruct (update_job_status_rows (id job) "running" None w) as (J1 & T1 & _).
  set (w1 := update_job_status eng (id job) "running" None w) in *.
  exists (utcnow eng (tick (sys w))).
  destruct (route fl cfg eng job (sys w1)) as [[paths|e] s'].
  - set (w2 := save_transcript_paths (id job) paths
                 {| db := db w1; sys := s'; log := log w1 |}).
    destruct (update_job_status_rows (id job) "done" None w2) as (J2 & T2 & _).
    exists (utcnow eng (tick (sys w2))). rewrite J2, T2. subst w2.
    cbn [save_transcript_paths db jobs transcripts]. rewrite J1, T1.
    split; [apply alter_alter_eq|reflexivity].
  - set (w2 := {| db := db w1; sys := s'; log := log w1 |}).
    destruct (update_job_status_rows (id job) "failed"
                (Some (failure_message e)) w2) as (J2 & T2 & _).
    exists (utcnow eng (tick (sys w2))). rewrite J2, T2. subst w2.
    cbn [db jobs transcripts]. rewrite J1, T1.
    split; [apply alter_alter_eq|reflexivity].
Qed.

(** The record of a job after its paths are saved: the edits it had. *)
Lemma save_transcript_paths_rows (job_id : string)
    (paths : OutputFormatter.Paths) (w : World) (j : string) :
  jobs (db (save_transcript_paths job_id paths w)) = jobs (db w)
  /\ (j <> job_id ->
      transcripts (db (save_transcript_paths job_id paths w)) !! j
      = transcripts (db w) !! j)
  /\ (forall t, transcripts (db w) !! j = Some t ->
        exists t', transcripts (db (save_transcript_paths job_id paths w)) !! j
                   = Some t'
                   /\ same_edits t' t).
Proof.
  unfold save_transcript_paths. cbn [db jobs transcripts].
  split; [reflexivity|]. split.
  - intros Hne. now rewrite lookup_insert_ne.
  - intros t Ht. destruct (decide (j = job_id)) as [->|Hne].
    + rewrite lookup_insert_eq, Ht. eexists. split; [reflexivity|].
      repeat split.
    + rewrite lookup_insert_ne by congruence. exists t. repeat split. exact Ht.
Qed.

(** One turn of the loop, row by row. *)
Lemma run_once_rows (w : World) :
  exists job_id upd,
    jobs (db (run_once fl cfg eng w)) = alter upd job_id (jobs (db w))
    /\ (forall r, same_job (upd r) r)
    /\ (forall j t, transcripts (db w) !! j = Some t ->
          exists t', transcripts (db (run_once fl cfg eng w)) !! j = Some t'
                     /\ same_edits t' t).
Proof.
  unfold run_once. destruct (get_next_job cfg (db w)) as [job|].
  - destruct (process_job_rows job w) as (t1 & t2 & H).
    destruct (route fl cfg eng job _) as [[paths|e] s'];
      destruct H as [Hj Ht]; eexists (id job), _; (split; [exact Hj|]); split.
    + intros r. cbn [compose].
      eapply same_job_trans; apply status_update_fields.
    + intros j t Hl. rewrite Ht.
      now apply (proj2 (proj2 (save_transcript_paths_rows (id job) paths w j))).
    + intros r. cbn [compose].
      eapply same_job_trans; apply status_update_fields.
    + intros j t Hl. rewrite Ht. exists t. repeat split. exact Hl.
  - exists "", (fun r => r). split; [now rewrite alter_id|].
    split; [intros r; apply same_job_refl|].
    intros j t Hl. exists t. repeat split. exact Hl.
Qed.

(** Taking one queued row out of the queue shortens it by one. *)
Lemma queued_rows_alter (m : gmap string JobRow) (j : string) (row : JobRow)
    (upd : JobRow -> JobRow) :
  m !! j = Some row -> status row = "queued" -> status (upd row) <> "queued" ->
  S (length (queued_rows (alter upd j m))) = length (queued_rows m).
Proof.
  intros Hl Hq Hn. unfold queued_rows.
  assert (Ha : alter upd j m !! j = Some (upd row))
    by (rewrite lookup_alter_eq, Hl; reflexivity).
  rewrite <- (map_to_list_delete m j row Hl).
  rewrite <- (map_to_list_delete (alter upd j m) j (upd row) Ha).
  rewrite delete_alter_eq, !filter_cons. cbn [snd].
  destruct (decide (status (upd row) = "queued")); [contradiction|].
  destruct (decide (status row = "queued")); [reflexivity|contradiction].
Qed.

(** One turn of the loop takes one job out of the queue, if there is one. *)
Lemma run_once_queue (w : World) :
  length (queued_rows (jobs (db (run_once fl cfg eng w))))
  = pred (length (queued_rows (jobs (db w)))).
Proof.
  destruct (run_once_effect fl cfg eng w)
    as [[Hn ->]|(job & row & final & upd & _ & Hl & Hq & Hf & _ & Hj & Hu)].
  - unfold get_next_job in Hn.
    destruct (oldest (queued_rows (jobs (db w)))) as [[? ?]|] eqn:E;
      [discriminate|].
    apply oldest_None in E. now rewrite E.
  - rewrite Hj. rewrite <- (queued_rows_alter _ _ _ upd Hl Hq); [reflexivity|].
    destruct (Hu row) as [-> _]. destruct Hf; subst; discriminate.
Qed.

Lemma run_queue (n : nat) (w : World) :
  length (queued_rows (jobs (db (run fl cfg eng n w))))
  = (length (queued_rows (jobs (db w))) - n)%nat.
Proof.
  revert w. induction n as [|n IH]; intros w; cbn [run]; [lia|].
  rewrite IH, run_once_queue. lia.
Qed.

Lemma run_add (n k : nat) (w : World) :
  run fl cfg eng (n + k) w = run fl cfg eng k (run fl cfg eng n w).
Proof.
  revert w. induction n as [|n IH]; intros w; cbn [run Nat.add];
    [reflexivity|apply IH].
Qed.

(** With nothing queued the loop idles. *)
Lemma run_idle (k : nat) (w : World) :
  queued_rows (jobs (db w)) = [] -> run fl cfg eng k w = w.
Proof.
  intros E. induction k as [|k IH]; cbn [run]; [reflexivity|].
  unfold run_once, get_next_job. rewrite E. cbn [oldest]. exact IH.
Qed.

End Dispatch.
End DispatchFacts.

(** The error message that [process_job] stores with a failed job is the
  first 1000 characters of the message of the [except] clause taken (the
  whole message when it is no longer than that); a job that succeeds, or
  fails with an empty message, keeps the message it had; so no message
  written by the worker is longer than 1000 characters. *)
Theorem stored_error_message_is_truncated (fl : Q -> Q) (cfg : Config)
    (eng : Engines) (job : Job) (w : World) (row : JobRow) :
  jobs (db w) !! id job = Some row ->
  exists row',
    jobs (db (process_job fl cfg eng job w)) !! id job = Some row'
    /\ (forall paths s',
          route fl cfg eng job
            (sys (update_job_status eng (id job) "running" None w))
          = (Ok paths, s') ->
          status row' = "done" /\ error_message row' = error_message row)
    /\ (forall e s',
          route fl cfg eng job
            (sys (update_job_status eng (id job) "running" None w))
          = (Err e, s') ->
          status row' = "failed"
          /\ error_message row'
             = if Py.truthy (failure_message e)
               then Some (String.substring 0 1000 (failure_message e))
               else error_message row)
    /\ (forall m, error_message row' = Some m ->
          error_message row = Some m \/ (String.length m <= 1000)%nat)
    /\ (forall e, (String.length (failure_message e) <= 1000)%nat ->
          String.substring 0 1000 (failure_message e) = failure_message e).
Proof.
  intros Hl.
  destruct (DispatchFacts.process_job_rows fl cfg eng job w) as (t1 & t2 & H).
  destruct (route fl cfg eng job
              (sys (update_job_status eng (id job) "running" None w)))
    as [[paths|e] s'] eqn:Er; destruct H as [Hj _].
  - exists ((Shape.status_update "done" None t2
               ∘ Shape.status_update "running" None t1) row).
    split; [rewrite Hj, lookup_alter_eq, Hl; reflexivity|]. cbn [compose].
    destruct (DispatchFacts.status_update_fields "done" None t2
                (Shape.status_update "running" None t1 row)) as (_ & S2 & _ & E2).
    destruct (DispatchFacts.status_update_fields "running" None t1 row)
      as (_ & _ & _ & E1).
    rewrite E1 in E2.
    split; [intros p s _; auto|]. split; [intros e s [=]|].
    split; [intros m Hm; left; congruence|].
    intros e. apply DispatchFacts.substring_all.
  - exists ((Shape.status_update "failed" (Some (failure_message e)) t2
               ∘ Shape.status_update "running" None t1) row).
    split; [rewrite Hj, lookup_alter_eq, Hl; reflexivity|]. cbn [compose].
    destruct (DispatchFacts.status_update_fields "failed"
                (Some (failure_message e)) t2
                (Shape.status_update "running" None t1 row)) as (_ & S2 & _ & E2).
    destruct (DispatchFacts.status_update_fields "running" None t1 row)
      as (_ & _ & _ & E1).
    rewrite E1 in E2.
    split; [intros p s [=]|]. split; [intros e0 s [= <- <-]; auto|].
    split; [|intros e0; apply DispatchFacts.substring_all].
    intros m Hm. rewrite E2 in Hm.
    destruct (Py.truthy (failure_message e)); [|now left].
    right. injection Hm as <-. apply DispatchFacts.substring_length.
Qed.

Lemma stored_error_message_is_truncated_witness :
  jobs (db Examples.world_one) !! "job-2"
  = Some (Examples.upload "2024-05-01T10:04:00" "small")
  /\ exists row',
       jobs (db (process_job fl_exact Examples.cfg Examples.eng_recognizer_fails
                   Samples.job_two Examples.world_one)) !! "job-2" = Some row'
       /\ forall m, error_message row' = Some m ->
            error_message (Examples.upload "2024-05-01T10:04:00" "small") = Some m
            \/ (String.length m <= 1000)%nat.
Proof.
  assert (H : jobs (db Examples.world_one) !! id Samples.job_two
              = Some (Examples.upload "2024-05-01T10:04:00" "small"))
    by reflexivity.
  split; [exact H|].
  destruct (stored_error_message_is_truncated fl_exact Examples.cfg
              Examples.eng_recognizer_fails Samples.job_two Examples.world_one
              _ H) as (row' & Hr & _ & _ & Hm & _).
  exists row'. split; [exact Hr|exact Hm].
Defined.

(** Over any number of turns of its loop the worker neither creates nor
  deletes a job, and of a job's row it changes nothing but the status,
  the time of the last update and the error message: type, source URL,
  file names, creation time, model and language stay as the API wrote
  them. *)
Theorem worker_changes_only_status_fields (fl : Q -> Q) (cfg : Config)
    (eng : Engines) (n : nat) (w : World) (j : string) :
  (jobs (db w) !! j = None -> jobs (db (run fl cfg eng n w)) !! j = None)
  /\ (forall row, jobs (db w) !! j = Some row ->
        exists row',
          jobs (db (run fl cfg eng n w)) !! j = Some row'
          /\ Shape.same_job row' row).
Proof.
  revert w. induction n as [|n IH]; intros w; cbn [run].
  - split; [auto|]. intros row Hl. exists row. split; [exact Hl|].
    apply DispatchFacts.same_job_refl.
  - destruct (DispatchFacts.run_once_rows fl cfg eng w) as (k & upd & Hj & Hu & _).
    destruct (IH (run_once fl cfg eng w)) as [IHn IHs]. split.
    + intros Hl. apply IHn. rewrite Hj. now apply lookup_alter_None.
    + intros row Hl.
      assert (exists r1, jobs (db (run_once fl cfg eng w)) !! j = Some r1
                         /\ Shape.same_job r1 row) as (r1 & H1 & S1).
      { rewrite Hj. destruct (decide (k = j)) as [->|Hne].
        - rewrite lookup_alter_eq, Hl. exists (upd row). split; [reflexivity|].
          apply Hu.
        - rewrite lookup_alter_ne by exact Hne. exists row.
          split; [exact Hl|apply DispatchFacts.same_job_refl]. }
      destruct (IHs r1 H1) as (row' & Hr' & S').
      exists row'. split; [exact Hr'|].
      now apply (DispatchFacts.same_job_trans _ r1).
Qed.

(** Every turn of the worker loop takes one job out of the queue while
  there is one: after [n] turns the number of queued jobs is [n] less
  (or none); once as many turns have run as there were queued jobs, no
  job is queued any more, and further turns change nothing. *)
Theorem worker_drains_the_queue (fl : Q -> Q) (cfg : Config) (eng : Engines)
    (n : nat) (w : World) :
  length (queued_rows (jobs (db (run fl cfg eng n w))))
  = (length (queued_rows (jobs (db w))) - n)%nat
  /\ ((length (queued_rows (jobs (db w))) <= n)%nat ->
      get_next_job cfg (db (run fl cfg eng n w)) = None
      /\ (forall j r, jobs (db (run fl cfg eng n w)) !! j = Some r ->
            status r <> "queued")
      /\ (forall k, run fl cfg eng (n + k) w = run fl cfg eng n w)).
Proof.
  pose proof (DispatchFacts.run_queue fl cfg eng n w) as Hq.
  split; [exact Hq|]. intros Hle.
  assert (E : queued_rows (jobs (db (run fl cfg eng n w))) = []).
  { apply length_zero_iff_nil. lia. }
  assert (Hn : get_next_job cfg (db (run fl cfg eng n w)) = None).
  { unfold get_next_job. now rewrite E. }
  split; [exact Hn|]. split.
  - exact (proj1 (WorkerFacts.get_next_job_None cfg _) Hn).
  - intros k. rewrite DispatchFacts.run_add. now apply DispatchFacts.run_idle.
Qed.

Lemma worker_drains_the_queue_witness :
  (length (queued_rows (jobs (db Examples.world_three))) <= 3)%nat
  /\ get_next_job Examples.cfg
       (db (run fl_exact Examples.cfg Examples.eng_ok 3 Examples.world_three))
     = None.
Proof.
  assert (H : (length (queued_rows (jobs (db Examples.world_three))) <= 3)%nat)
    by (vm_compute; lia).
  split; [exact H|].
  exact (proj1 (proj2 (worker_drains_the_queue fl_exact Examples.cfg
                         Examples.eng_ok 3 Examples.world_three) H)).
Defined.

(** The edits of a user and the artifact paths of the worker live in the
  same transcript record without disturbing each other: saving edits
  keeps the four paths, saving paths keeps the edits, the two writes
  give the same store in either order, and over any number of turns of
  the worker loop no transcript record is deleted and no edit changed. *)
Theorem edits_and_artifact_paths_coexist (fl : Q -> Q) (cfg : Config)
    (eng : Engines) (job_id : string) :
  (forall (d : DB) e segments now t,
     get_transcript d job_id = Some t ->
     exists t',
       get_transcript (save_transcript_edits d job_id e segments now) job_id
       = Some t'
       /\ Database.segments_json_path t' = Database.segments_json_path t
       /\ Database.plain_text_path t' = Database.plain_text_path t
       /\ Database.srt_path t' = Database.srt_path t
       /\ Database.vtt_path t' = Database.vtt_path t)
  /\ (forall (w : World) paths t,
        transcripts (db w) !! job_id = Some t ->
        exists t',
          transcripts (db (save_transcript_paths job_id paths w)) !! job_id
          = Some t'
          /\ Shape.same_edits t' t)
  /\ (forall (w : World) paths e segments now,
        db (save_transcript_paths job_id paths
              {| db := save_transcript_edits (db w) job_id e segments now;
                 sys := sys w; log := log w |})
        = save_transcript_edits (db (save_transcript_paths job_id paths w))
            job_id e segments now)
  /\ (forall (n : nat) (w : World) t,
        transcripts (db w) !! job_id = Some t ->
        exists t',
          transcripts (db (run fl cfg eng n w)) !! job_id = Some t'
          /\ Shape.same_edits t' t).
Proof.
  split; [|split; [|split]].
  - intros d e segments now t Ht. unfold save_transcript_edits, get_transcript in *.
    cbn [transcripts]. rewrite lookup_insert_eq, Ht. eexists.
    split; [reflexivity|]. repeat split.
  - intros w paths t Ht.
    now apply (DispatchFacts.save_transcript_paths_rows job_id paths w job_id).
  - intros w paths e segments now.
    unfold save_transcript_paths, save_transcript_edits, get_transcript.
    cbn [db jobs transcripts]. rewrite !lookup_insert_eq, !insert_insert_eq.
    destruct (transcripts (db w) !! job_id); reflexivity.
  - intros n. induction n as [|n IH]; intros w t Ht; cbn [run].
    + exists t. repeat split. exact Ht.
    + destruct (DispatchFacts.run_once_rows fl cfg eng w) as (k & upd & _ & _ & Hk).
      destruct (Hk job_id t Ht) as (t1 & H1 & (E1 & E2 & E3)).
      destruct (IH _ t1 H1) as (t' & Ht' & (F1 & F2 & F3)).
      exists t'. split; [exact Ht'|]. repeat split; congruence.
Qed.

(** ** The pipelines and the file system *)

Module HoareFacts.
Import Shape PipelineFacts.
Local Open Scope worker_scope.

Lemma same_outside_refl (T : list string) (a : FS) : same_outside T a a.
Proof. intros p _. reflexivity. Qed.

Lemma same_outside_trans (T : list string) (a b c : FS) :
  same_outside T a b -> same_outside T b c -> same_outside T a c.
Proof. intros H1 H2 p Hp. rewrite (H1 p Hp). now apply H2. Qed.

Lemma same_outside_weaken (T T' : list string) (a b : FS) :
  T ⊆ T' -> same_outside T a b -> same_outside T' a b.
Proof. intros Hs H p Hp. apply H. intros Hin. apply Hp, Hs, Hin. Qed.

Lemma same_outside_nil (a b : FS) : same_outside [] a b -> a = b.
Proof. intros H. apply map_eq. intros p. apply H. apply not_elem_of_nil. Qed.

Lemma touches_ret {A} (T : list string) (a : A) : touches_only T (ret a).
Proof. intros s. apply same_outside_refl. Qed.

Lemma touches_raise {A} (T : list string) (e : exn) : touches_only T (@raise A e).
Proof. intros s. apply same_outside_refl. Qed.

Lemma touches_call {A} (T : list string) (f : nat -> A) : touches_only T (call f).
Proof. intros s. apply same_outside_refl. Qed.

Lemma touches_exists (T : list string) (path : string) :
  touches_only T (exists_ path).
Proof. intros s. apply same_outside_refl. Qed.

Lemma touches_write_file (T : list string) (path : string) (c : file_content) :
  path ∈ T -> touches_only T (write_file path c).
Proof.
  intros Hin s p Hp. cbn. apply lookup_insert_ne. intros ->. contradiction.
Qed.

Lemma touches_unlink (T : list string) (path : string) :
  path ∈ T -> touches_only T (unlink path).
Proof.
  intros Hin s p Hp. cbn. apply lookup_delete_ne. intros ->. contradiction.
Qed.

Lemma touches_bind {A B} (T : list string) (m : M A) (k : A -> M B) :
  touches_only T m -> (forall a, touches_only T (k a)) ->
  touches_only T (bind m k).
Proof.
  intros Hm Hk s. unfold bind. specialize (Hm s).
  destruct (m s) as [[a|e] s1]; cbn [snd] in *; [|exact Hm].
  eapply same_outside_trans; [apply Hk|exact Hm].
Qed.

Lemma touches_if {A} (T : list string) (b : bool) (m1 m2 : M A) :
  touches_only T m1 -> touches_only T m2 ->
  touches_only T (if b then m1 else m2).
Proof. now destruct b. Qed.

Lemma touches_try_finally {A} (T : list string) (body : M A) (cleanup : M unit) :
  touches_only T body -> touches_only T cleanup ->
  touches_only T (try_finally body cleanup).
Proof.
  intros Hb Hc s. unfold try_finally. specialize (Hb s).
  destruct (body s) as [r s1]. specialize (Hc s1).
  destruct (cleanup s1) as [u s2]. cbn [snd] in *.
  eapply same_outside_trans; eassumption.
Qed.

Lemma touches_weaken {A} (T T' : list string) (m : M A) :
  T ⊆ T' -> touches_only T m -> touches_only T' m.
Proof. intros Hs Hm s. eapply same_outside_weaken; [exact Hs|apply Hm]. Qed.

Create HintDb touches.
#[export] Hint Resolve touches_ret touches_raise touches_call touches_exists
  touches_if : touches.

Ltac touches :=
  repeat first
    [ apply touches_bind; [|intros ?]
    | apply touches_if
    | solve [auto with touches]
    | apply touches_write_file; solve [set_solver]
    | apply touches_unlink; solve [set_solver]
    | match goal with
      | |- touches_only _ (match ?x with _ => _ end) => destruct x
      end ].

End HoareFacts.

Module StepFacts.
Import Shape PipelineFacts HoareFacts.
Local Open Scope worker_scope.

Lemma bind_Err {A B} (m : M A) (k : A -> M B) (s s' : Sys) (e : exn) :
  bind m k s = (Err e, s') ->
  m s = (Err e, s') \/ exists a s1, m s = (Ok a, s1) /\ k a s1 = (Err e, s').
Proof.
  unfold bind. destruct (m s) as [[a|e'] s1]; [eauto|].
  intros [= <- <-]. now left.
Qed.

Lemma exists_inv (path : string) (s s1 : Sys) (b : bool) :
  exists_ path s = (Ok b, s1) ->
  s1 = s /\ b = bool_decide (is_Some (fs s !! path)).
Proof. unfold exists_. intros [= <- <-]. auto. Qed.

Ltac inv_bind H :=
  let a := fresh "a" in
  let s := fresh "s" in
  let Ha := fresh "Ha" in
  apply bind_Ok in H as (a & s & Ha & H).

Section Steps.
Variable fl : Q -> Q.
Variable cfg : Config.
Variable eng : Engines.

Lemma touches_audio_processor (T : list string) :
  touches_only T (audio_processor eng).
Proof.
  intros s. unfold audio_processor.
  destruct (_audio_processor s); [apply same_outside_refl|]. unfold call.
  destruct (ffmpeg_version eng (tick s)) as [[]|e]; apply same_outside_refl.
Qed.

Lemma touches_get_media_info (T : list string) (path : string) :
  touches_only T (get_media_info eng path).
Proof. unfold get_media_info. touches. Qed.

(** [normalize_audio] writes and deletes nothing but its output file. *)
Lemma touches_normalize_audio (input output : string) :
  touches_only [output] (normalize_audio eng input output).
Proof.
  unfold normalize_audio. touches.
Qed.

(** When it returns, it returns the output path, and the file is there. *)
Lemma normalize_audio_Ok (input output : string) (s s1 : Sys) (p : string) :
  normalize_audio eng input output s = (Ok p, s1) ->
  p = output /\ is_Some (fs s1 !! output) /\ is_Some (fs s !! input).
Proof.
  unfold normalize_audio. intros H.
  apply bind_Ok in H as (present & s0 & Hex & H).
  apply exists_inv in Hex as [-> ->].
  destruct (bool_decide (is_Some (fs s !! input))) eqn:Hin; cbn [negb] in H;
    [|discriminate].
  apply bool_decide_eq_true in Hin.
  apply bind_Ok in H as (info & s2 & _ & H).
  destruct (has_audio info); cbn [negb] in H; [|discriminate].
  apply bind_Ok in H as (outcome & s3 & _ & H).
  destruct outcome as [rc stderr wrote|wrote|]; [| |discriminate].
  - apply bind_Ok in H as (u & s4 & _ & H).
    destruct (rc =? 0)%Z; cbn [negb] in H; [|discriminate].
    apply bind_Ok in H as (created & s5 & Hc & H).
    apply exists_inv in Hc as [-> ->].
    destruct (bool_decide (is_Some (fs s4 !! output))) eqn:Hout;
      cbn [negb] in H; [|discriminate].
    apply bool_decide_eq_true in Hout. injection H as <- <-. auto.
  - apply bind_Ok in H as (u & s4 & _ & H).
    apply bind_Ok in H as (u' & s5 & _ & H). discriminate.
Qed.

Lemma touches_transcriber (T : list string) : touches_only T (transcriber cfg).
Proof.
  intros s. unfold transcriber. destruct (_transcriber s);
    [apply same_outside_refl|].
  destruct (Transcriber.__init__ _ _); apply same_outside_refl.
Qed.

Lemma touches_select_transcriber (T : list string) (model' : string) :
  touches_only T (select_transcriber cfg model').
Proof.
  unfold select_transcriber. destruct (negb _); [|apply touches_transcriber].
  destruct (Transcriber.__init__ _ _); touches.
Qed.

Lemma touches_transcribe (T : list string) (t : Transcriber.Transcriber)
    (path : string) (language : option string) :
  touches_only T (transcribe eng t path language).
Proof. unfold transcribe. touches. Qed.

(** A transcription that returns is an answer of the recognizer. *)
Lemma transcribe_Ok (t : Transcriber.Transcriber) (path : string)
    (language : option string) (s s1 : Sys)
    (res : Transcriber.TranscriptionResult) :
  transcribe eng t path language s = (Ok res, s1) ->
  is_Some (fs s !! path) /\ exists k, whisper eng k t path language = Ok res.
Proof.
  unfold transcribe. intros H.
  apply bind_Ok in H as (present & s0 & Hex & H).
  apply exists_inv in Hex as [-> ->].
  destruct (bool_decide (is_Some (fs s !! path))) eqn:Hin; cbn [negb] in H;
    [|discriminate].
  apply bool_decide_eq_true in Hin. split; [exact Hin|].
  apply bind_Ok in H as (r & s2 & Hc & H). unfold call in Hc.
  injection Hc as <- <-. exists (tick s).
  destruct (whisper eng (tick s) t path language); [|discriminate].
  now injection H as <- _.
Qed.

Lemma generate_all_inv (dir : string) (segments : list Segment)
    (metadata : list (string * json)) (s s1 : Sys)
    (paths : OutputFormatter.Paths) :
  Worker.generate_all fl dir segments metadata s = (Ok paths, s1) ->
  paths = transcript_paths dir
  /\ fs s1 = (OutputFormatter.generate_all fl dir segments "transcript"
                (Some metadata) (fs s)).1.
Proof.
  unfold Worker.generate_all. rewrite FileFacts.generate_all_fs.
  intros [= <- <-]. split; reflexivity.
Qed.

End Steps.
End StepFacts.

Module UploadFacts.
Import Shape PipelineFacts HoareFacts StepFacts.
Local Open Scope worker_scope.

Lemma touches_state {A} (T : list string) (m : M A) (s s1 : Sys)
    (r : result exn A) :
  touches_only T m -> m s = (r, s1) -> same_outside T (fs s1) (fs s).
Proof. intros Hm E. specialize (Hm s). now rewrite E in Hm. Qed.

Lemma keeps_fs {A} (m : M A) (s s1 : Sys) (r : result exn A) :
  touches_only [] m -> m s = (r, s1) -> fs s1 = fs s.
Proof. intros Hm E. eapply same_outside_nil, touches_state; eassumption. Qed.

Section Files.
Variable fl : Q -> Q.

(** The four transcript files after [generate_all] with the worker's
  base name. *)
Lemma generate_transcript_files (dir : string) (segments : list Segment)
    (metadata : option (list (string * json))) (files : FS) :
  let files' := (OutputFormatter.generate_all fl dir segments "transcript"
                   metadata files).1 in
  files' !! path_join dir "transcript_segments.json"
  = Some (JsonFile (generate_json_data segments metadata))
  /\ files' !! path_join dir "transcript.txt"
     = Some (TextFile (txt_content false segments))
  /\ files' !! path_join dir "transcript.srt"
     = Some (TextFile (srt_content fl segments))
  /\ files' !! path_join dir "transcript.vtt"
     = Some (TextFile (vtt_content fl segments))
  /\ same_outside (transcript_files dir) files' files.
Proof.
  cbv zeta. rewrite FileFacts.generate_all_fs. cbn [fst].
  change ("transcript" +:+ "_segments.json") with "transcript_segments.json".
  change ("transcript" +:+ ".txt") with "transcript.txt".
  change ("transcript" +:+ ".srt") with "transcript.srt".
  change ("transcript" +:+ ".vtt") with "transcript.vtt".
  assert (Hne : forall a b : string, a <> b -> path_join dir a <> path_join dir b).
  { intros a b Hab E%FileFacts.path_join_inj. contradiction. }
  split; [rewrite !lookup_insert_ne by (apply Hne; discriminate);
          apply lookup_insert_eq|].
  split; [rewrite !lookup_insert_ne by (apply Hne; discriminate);
          apply lookup_insert_eq|].
  split; [rewrite !lookup_insert_ne by (apply Hne; discriminate);
          apply lookup_insert_eq|].
  split; [apply lookup_insert_eq|].
  intros p Hp. unfold transcript_files in Hp.
  repeat (apply not_elem_of_cons in Hp as [? Hp]).
  now rewrite !lookup_insert_ne by congruence.
Qed.

End Files.

Section Pipeline.
Variable fl : Q -> Q.
Variable cfg : Config.
Variable eng : Engines.

(** A file upload that returns: the uploaded file was there, the
  recognizer answered, and the files are those of [generate_all] with
  the normalized audio removed. *)
Lemma file_upload_success (job : Job) (s s' : Sys)
    (paths : OutputFormatter.Paths) :
  process_file_upload fl cfg eng job s = (Ok paths, s') ->
  exists stored t k result files,
    stored_filename job = Some stored
    /\ is_Some (fs s !! path_join (UPLOADS_DIR cfg) stored)
    /\ whisper eng k t (normalized_path_of cfg (id job)) (Some (language job))
       = Ok result
    /\ paths = transcript_paths (path_join (OUTPUTS_DIR cfg) (id job))
    /\ same_outside [normalized_path_of cfg (id job)] files (fs s)
    /\ fs s'
       = delete (normalized_path_of cfg (id job))
           (OutputFormatter.generate_all fl
              (path_join (OUTPUTS_DIR cfg) (id job))
              (map to_segment (Transcriber.segments result)) "transcript"
              (Some [("job_id", JStr (id job));
                     ("model", JStr (model job));
                     ("language", JStr (Transcriber.language result));
                     ("language_probability",
                       JFloat (Transcriber.language_probability result));
                     ("duration", JFloat (Transcriber.duration result));
                     ("original_filename", opt_str (original_filename job))])
              files).1.
Proof.
  unfold process_file_upload, normalized_path_of.
  destruct (stored_filename job) as [stored|]; [|discriminate].
  set (input := path_join (UPLOADS_DIR cfg) stored).
  set (dir := path_join (OUTPUTS_DIR cfg) (id job)).
  set (normalized := path_join dir "audio_normalized.wav").
  intros H.
  apply bind_Ok in H as (present & s0 & Hex & H).
  apply exists_inv in Hex as [-> ->].
  destruct (bool_decide (is_Some (fs s !! input))) eqn:Hin; cbn [negb] in H;
    [|discriminate].
  apply bool_decide_eq_true in Hin.
  apply bind_Ok in H as (u1 & s1 & H1 & H).
  apply (keeps_fs _ _ _ _ (touches_audio_processor eng [])) in H1.
  apply bind_Ok in H as (p & s2 & H2 & H).
  apply (touches_state _ _ _ _ _ (touches_normalize_audio eng input normalized))
    in H2.
  apply bind_Ok in H as (t & s3 & H3 & H).
  apply (keeps_fs _ _ _ _ (touches_select_transcriber cfg [] (model job))) in H3.
  apply bind_Ok in H as (result & s4 & H4 & H).
  pose proof (keeps_fs _ _ _ _
                (touches_transcribe eng [] t normalized (Some (language job))) H4)
    as H4'.
  apply transcribe_Ok in H4 as (_ & k & Hk).
  apply bind_Ok in H as (paths0 & s5 & H5 & H).
  apply generate_all_inv in H5 as [-> H5].
  apply bind_Ok in H as (u2 & s6 & H6 & H).
  unfold unlink in H6. injection H6 as _ <-. injection H as <- <-.
  exists stored, t, k, result, (fs s4).
  split; [reflexivity|]. split; [exact Hin|]. split; [exact Hk|].
  split; [reflexivity|]. split.
  - rewrite H4', H3. now rewrite H1 in H2.
  - cbn [with_fs fs]. now rewrite H5.
Qed.

End Pipeline.

(** Uploads and outputs are different directories. *)
Lemma uploads_ne_outputs (cfg : Config) (a b c : string) :
  path_join (UPLOADS_DIR cfg) a <> path_join (path_join (OUTPUTS_DIR cfg) b) c.
Proof.
  unfold UPLOADS_DIR, OUTPUTS_DIR, path_join.
  rewrite !PyFacts.string_app_assoc. intros E%FileFacts.append_inj_l.
  discriminate.
Qed.

End UploadFacts.

(** A file upload whose pipeline returns leaves, in the job's output
  directory, the four transcript files made from the recognizer's
  segments, at the paths it returns; the normalized audio is gone, the
  uploaded file is still there, and no other file has changed. *)
Theorem file_upload_leaves_the_transcripts (fl : Q -> Q) (cfg : Config)
    (eng : Engines) (job : Job) (s s' : Sys) (paths : OutputFormatter.Paths) :
  process_file_upload fl cfg eng job s = (Ok paths, s') ->
  let dir := path_join (OUTPUTS_DIR cfg) (id job) in
  exists stored result,
    stored_filename job = Some stored
    /\ (exists k t,
          whisper eng k t (normalized_path_of cfg (id job)) (Some (language job))
          = Ok result)
    /\ paths = Shape.transcript_paths dir
    /\ (let segments := map to_segment (Transcriber.segments result) in
        fs s' !! OutputFormatter.json_path paths
        = Some (JsonFile
                  (generate_json_data segments
                     (Some [("job_id", JStr (id job));
                            ("model", JStr (model job));
                            ("language", JStr (Transcriber.language result));
                            ("language_probability",
                              JFloat (Transcriber.language_probability result));
                            ("duration", JFloat (Transcriber.duration result));
                            ("original_filename",
                              opt_str (original_filename job))])))
        /\ fs s' !! OutputFormatter.txt_path paths
           = Some (TextFile (txt_content false segments))
        /\ fs s' !! OutputFormatter.srt_path paths
           = Some (TextFile (srt_content fl segments))
        /\ fs s' !! OutputFormatter.vtt_path paths
           = Some (TextFile (vtt_content fl segments)))
    /\ fs s' !! normalized_path_of cfg (id job) = None
    /\ is_Some (fs s' !! path_join (UPLOADS_DIR cfg) stored)
    /\ Shape.same_outside
         (normalized_path_of cfg (id job) :: Shape.transcript_files dir)
         (fs s') (fs s).
Proof.
  intros H. cbv zeta.
  destruct (UploadFacts.file_upload_success fl cfg eng job s s' paths H)
    as (stored & t & k & result & files & Hst & Hin & Hk & -> & Hf & ->).
  exists stored, result. split; [exact Hst|]. split; [eauto|].
  split; [reflexivity|].
  unfold normalized_path_of in *.
  set (dir := path_join (OUTPUTS_DIR cfg) (id job)) in *.
  set (normalized := path_join dir "audio_normalized.wav") in *.
  destruct (UploadFacts.generate_transcript_files fl dir
              (map to_segment (Transcriber.segments result))
              (Some [("job_id", JStr (id job));
                     ("model", JStr (model job));
                     ("language", JStr (Transcriber.language result));
                     ("language_probability",
                       JFloat (Transcriber.language_probability result));
                     ("duration", JFloat (Transcriber.duration result));
                     ("original_filename", opt_str (original_filename job))])
              files) as (Gj & Gt & Gs & Gv & Go).
  assert (Hne : forall name, name <> "audio_normalized.wav" ->
                  normalized <> path_join dir name).
  { intros name Hn E%FileFacts.path_join_inj. congruence. }
  assert (Hout : Shape.same_outside (normalized :: Shape.transcript_files dir)
                   (delete normalized
                      (OutputFormatter.generate_all fl dir
                         (map to_segment (Transcriber.segments result))
                         "transcript"
                         (Some [("job_id", JStr (id job));
                                ("model", JStr (model job));
                                ("language", JStr (Transcriber.language result));
                                ("language_probability",
                                  JFloat (Transcriber.language_probability result));
                                ("duration", JFloat (Transcriber.duration result));
                                ("original_filename",
                                  opt_str (original_filename job))])
                         files).1)
                   (fs s)).
  { intros p Hp. apply not_elem_of_cons in Hp as [Hp1 Hp2].
    rewrite lookup_delete_ne by congruence. rewrite (Go p Hp2).
    apply Hf. now apply not_elem_of_cons. }
  cbn [Shape.transcript_paths OutputFormatter.json_path OutputFormatter.txt_path
       OutputFormatter.srt_path OutputFormatter.vtt_path].
  split.
  { repeat split; (rewrite lookup_delete_ne by (apply Hne; discriminate));
      assumption. }
  split; [apply lookup_delete_eq|]. split; [|exact Hout].
  rewrite Hout; [exact Hin|].
  unfold Shape.transcript_files, normalized, dir.
  repeat (apply not_elem_of_cons; split;
          [apply UploadFacts.uploads_ne_outputs|]).
  apply not_elem_of_nil.
Qed.

Lemma file_upload_leaves_the_transcripts_witness :
  exists paths s',
    process_file_upload fl_exact Examples.cfg Examples.eng_ok Samples.job_two
      (fresh Examples.uploads) = (Ok paths, s')
    /\ paths = Shape.transcript_paths "data/outputs/job-2"
    /\ fs s' !! "data/outputs/job-2/audio_normalized.wav" = None.
Proof.
  destruct (process_file_upload fl_exact Examples.cfg Examples.eng_ok
              Samples.job_two (fresh Examples.uploads))
    as [[paths|e] s'] eqn:E; [|vm_compute in E; discriminate].
  exists paths, s'. split; [reflexivity|].
  destruct (file_upload_leaves_the_transcripts fl_exact Examples.cfg
              Examples.eng_ok Samples.job_two _ _ _ E)
    as (stored & result & _ & _ & Hp & _ & Hn & _).
  split; [exact Hp|exact Hn].
Defined.

(** What the API loads for a job the worker has transcribed.  The worker
  writes [transcript.txt] and [transcript_segments.json]; the API reads
  [transcript.txt] (in text mode, so that a carriage return comes back
  as a line feed) and [segments.json].  So the API's text is the
  worker's plain text as read back, and the API's segments are whatever
  was there before.  With no [segments.json] and no edits: when that
  text is not empty, GET transcript answers with the text and an empty
  segment list, and the SRT and VTT exports are refused with 400 for
  want of segments; when it is empty, GET transcript and every export
  answer 404. *)
Theorem api_reads_the_text_not_the_segments (fl : Q -> Q) (cfg : Config)
    (eng : Engines) (job : Job) (s s' : Sys) (paths : OutputFormatter.Paths) :
  process_file_upload fl cfg eng job s = (Ok paths, s') ->
  Shape.all_chars (Shape.name_char "-") (id job) = true ->
  let OUT := OUTPUTS_DIR cfg in
  exists result,
    (exists k t,
       whisper eng k t (normalized_path_of cfg (id job)) (Some (language job))
       = Ok result)
    /\ let text' := Py.universal_newlines
                      (txt_content false
                         (map to_segment (Transcriber.segments result))) in
       fs s' !! path_join (path_join OUT (id job)) "transcript.txt"
       = Some (TextFile (txt_content false
                           (map to_segment (Transcriber.segments result))))
       /\ load_transcript_text OUT (fs s') (id job) = Ok text'
       /\ load_transcript_segments OUT (fs s') (id job)
          = load_transcript_segments OUT (fs s) (id job)
       /\ forall (d : DB) (row : JobRow),
            get_job d (id job) = Some row -> status row = "done" ->
            (forall t, get_transcript d (id job) = Some t ->
               edited_text t = None /\ edited_segments_json t = None) ->
            fs s !! path_join (path_join OUT (id job)) "segments.json" = None ->
            (text' <> "" ->
             JobsRoute.get_transcript OUT d (fs s') (id job)
             = Ok {| Models.job_id := id job; Models.resp_text := text';
                     Models.segments := []; Models.edited := false;
                     Models.last_edited_at := None |}
             /\ ExportRoute.export_transcript fl OUT d (fs s') (id job) SRT
                = Err {| status_code := 400;
                         detail := "SRT export requires segment data with timestamps" |}
             /\ ExportRoute.export_transcript fl OUT d (fs s') (id job) VTT
                = Err {| status_code := 400;
                         detail := "VTT export requires segment data with timestamps" |})
            /\ (text' = "" ->
                JobsRoute.get_transcript OUT d (fs s') (id job)
                = Err {| status_code := 404;
                         detail := "Transcript files not found" |}
                /\ forall fmt,
                     ExportRoute.export_transcript fl OUT d (fs s') (id job) fmt
                     = Err {| status_code := 404;
                              detail := "Transcript data not found" |}).
Proof.
  intros H Hid. cbv zeta.
  destruct (UploadFacts.file_upload_success fl cfg eng job s s' paths H)
    as (stored & t & k & result & files & _ & _ & Hk & _ & Hf & Hfs).
  exists result. split; [eauto|].
  unfold normalized_path_of in *.
  set (dir := path_join (OUTPUTS_DIR cfg) (id job)) in *.
  set (normalized := path_join dir "audio_normalized.wav") in *.
  set (segments := map to_segment (Transcriber.segments result)) in *.
  destruct (UploadFacts.generate_transcript_files fl dir segments
              (Some [("job_id", JStr (id job));
                     ("model", JStr (model job));
                     ("language", JStr (Transcriber.language result));
                     ("language_probability",
                       JFloat (Transcriber.language_probability result));
                     ("duration", JFloat (Transcriber.duration result));
                     ("original_filename", opt_str (original_filename job))])
              files) as (_ & Gt & _ & _ & Go).
  cbv zeta in Gt, Go.
  assert (Hdir : get_job_output_dir (OUTPUTS_DIR cfg) (id job) = dir).
  { unfold get_job_output_dir. now rewrite NameFacts.safe_id_fixed. }
  assert (Hfile : fs s' !! path_join dir "transcript.txt"
                  = Some (TextFile (txt_content false segments))).
  { rewrite Hfs.
    rewrite lookup_delete_ne
      by (intros E%FileFacts.path_join_inj; discriminate).
    exact Gt. }
  set (text' := Py.universal_newlines (txt_content false segments)).
  assert (Ht : load_transcript_text (OUTPUTS_DIR cfg) (fs s') (id job)
               = Ok text').
  { unfold load_transcript_text. now rewrite Hdir, Hfile. }
  assert (Hseg : fs s' !! path_join dir "segments.json"
                 = fs s !! path_join dir "segments.json").
  { rewrite Hfs.
    rewrite lookup_delete_ne
      by (intros E%FileFacts.path_join_inj; discriminate).
    rewrite Go.
    - apply Hf. apply not_elem_of_cons. split; [|apply not_elem_of_nil].
      intros E%FileFacts.path_join_inj. discriminate.
    - unfold Shape.transcript_files.
      repeat (apply not_elem_of_cons; split;
              [intros E%FileFacts.path_join_inj; discriminate|]).
      apply not_elem_of_nil. }
  assert (Hs : load_transcript_segments (OUTPUTS_DIR cfg) (fs s') (id job)
               = load_transcript_segments (OUTPUTS_DIR cfg) (fs s) (id job)).
  { unfold load_transcript_segments. now rewrite Hdir, Hseg. }
  split; [exact Hfile|]. split; [exact Ht|]. split; [exact Hs|].
  intros d row Hj Hd Hno Hnone.
  assert (Hs0 : load_transcript_segments (OUTPUTS_DIR cfg) (fs s') (id job) = Ok []).
  { rewrite Hs. unfold load_transcript_segments. now rewrite Hdir, Hnone. }
  assert (Hes : ExportRoute.export_segments (OUTPUTS_DIR cfg) (fs s')
                  (get_transcript d (id job)) (id job) = Ok []).
  { unfold ExportRoute.export_segments.
    destruct (get_transcript d (id job)) as [tr|]; [|exact Hs0].
    destruct (Hno tr eq_refl) as [_ E2]. destruct tr; cbn in E2.
    now rewrite E2. }
  assert (Het : ExportRoute.export_text (OUTPUTS_DIR cfg) (fs s')
                  (get_transcript d (id job)) (id job)
                = Ok text').
  { unfold ExportRoute.export_text.
    destruct (get_transcript d (id job)) as [tr|]; [|exact Ht].
    destruct (Hno tr eq_refl) as [E1 _]. destruct tr; cbn in E1.
    now rewrite E1. }
  assert (Hget : JobsRoute.get_transcript (OUTPUTS_DIR cfg) d (fs s') (id job)
                 = if negb (Py.truthy text') && Py.is_empty (A:=TranscriptSegment) []
                   then Err {| status_code := 404;
                               detail := "Transcript files not found" |}
                   else Ok {| Models.job_id := id job; Models.resp_text := text';
                              Models.segments := []; Models.edited := false;
                              Models.last_edited_at := None |}).
  { unfold JobsRoute.get_transcript. rewrite Hj, Hd. cbn [JobStatus_value].
    rewrite String.eqb_refl. cbn [negb]. cbv zeta. rewrite Ht, Hs0.
    destruct (Database.get_transcript d (id job)) as [tr|] eqn:Etr;
      [|reflexivity].
    destruct (Hno tr eq_refl) as [E1 _]. now rewrite E1. }
  split.
  - intros Hne. apply ApiFacts.truthy_true in Hne. split.
    + rewrite Hget, Hne. reflexivity.
    + rewrite !(ApiFacts.export_of fl _ d (fs s') (id job) row [] text')
        by assumption.
      rewrite Hne. cbn. auto.
  - intros He. split.
    + rewrite Hget, He. reflexivity.
    + intros fmt.
      rewrite (ApiFacts.export_of fl _ d (fs s') (id job) row [] text')
        by assumption.
      rewrite He. reflexivity.
Qed.

Lemma api_reads_the_text_not_the_segments_witness :
  exists paths s',
    process_file_upload fl_exact Examples.cfg Examples.eng_ok Samples.job_two
      (fresh Examples.uploads) = (Ok paths, s')
    /\ Shape.all_chars (Shape.name_char "-") "job-2" = true
    /\ load_transcript_segments "data/outputs" (fs s') "job-2"
       = load_transcript_segments "data/outputs" Examples.uploads "job-2".
Proof.
  destruct (process_file_upload fl_exact Examples.cfg Examples.eng_ok
              Samples.job_two (fresh Examples.uploads))
    as [[paths|e] s'] eqn:E; [|vm_compute in E; discriminate].
  exists paths, s'. split; [reflexivity|].
  assert (Hid : Shape.all_chars (Shape.name_char "-") (id Samples.job_two) = true)
    by reflexivity.
  split; [exact Hid|].
  destruct (api_reads_the_text_not_the_segments fl_exact Examples.cfg
              Examples.eng_ok Samples.job_two _ _ _ E Hid)
    as (result & _ & _ & _ & Hs & _).
  exact Hs.
Defined.

Module CaptionFacts.
Import Shape PipelineFacts HoareFacts StepFacts UploadFacts.
Local Open Scope worker_scope.

Section Pipeline.
Variable fl : Q -> Q.
Variable cfg : Config.
Variable eng : Engines.

Lemma touches_get_video_info (T : list string) (url : string) :
  touches_only T (get_video_info eng url).
Proof. unfold get_video_info. touches. Qed.

Lemma touches_fetch_captions (T : list string) (url language : string) :
  touches_only T (fetch_captions eng url language).
Proof. unfold fetch_captions. touches. Qed.

Lemma get_video_info_Ok (url : string) (s s1 : Sys) (info : YouTubeVideoInfo) :
  get_video_info eng url s = (Ok info, s1) ->
  yt_info eng (tick s) url = Ok info /\ fs s1 = fs s /\ tick s1 = S (tick s).
Proof.
  unfold get_video_info, bind, call. cbn.
  destruct (yt_info eng (tick s) url); [|discriminate].
  intros [= <- <-]. auto.
Qed.

Lemma fetch_captions_Ok (url language : string) (s s1 : Sys)
    (caps : list CaptionSegment) :
  fetch_captions eng url language s = (Ok caps, s1) ->
  yt_captions eng (tick s) url language = Ok caps
  /\ fs s1 = fs s /\ tick s1 = S (tick s).
Proof.
  unfold fetch_captions, bind, call. cbn.
  destruct (yt_captions eng (tick s) url language); [|discriminate].
  intros [= <- <-]. auto.
Qed.

(** The captions pipeline up to the point where it writes. *)
Lemma captions_outcome (job : Job) (s : Sys) :
  match process_youtube_captions fl cfg eng job s with
  | (Err e, s') => fs s' = fs s
  | (Ok paths, s') =>
      exists url caps info,
        source_url job = Some url /\ url <> ""
        /\ yt_captions eng (tick s) url
             (if Py.truthy (language job) then language job else "en") = Ok caps
        /\ yt_info eng (S (tick s)) url = Ok info
        /\ paths = transcript_paths (path_join (OUTPUTS_DIR cfg) (id job))
        /\ fs s'
           = (OutputFormatter.generate_all fl
                (path_join (OUTPUTS_DIR cfg) (id job))
                (map caption_to_segment caps) "transcript"
                (Some [("job_id", JStr (id job));
                       ("source", JStr "youtube_captions");
                       ("video_id", JStr (video_id info));
                       ("title", JStr (title info));
                       ("channel", JStr (channel info));
                       ("duration", JInt (yt_duration info));
                       ("source_url", JStr url)])
                (fs s)).1
  end.
Proof.
  unfold process_youtube_captions.
  destruct (source_url job) as [url|]; [|reflexivity].
  destruct (Py.truthy url) eqn:Hu; cbn [negb]; [|reflexivity].
  apply ApiFacts.truthy_true in Hu.
  set (lang := if Py.truthy (language job) then language job else "en").
  unfold bind at 1.
  destruct (fetch_captions eng url lang s) as [[caps|e] s1] eqn:E1.
  2:{ now apply (keeps_fs _ _ _ _ (touches_fetch_captions [] url lang)) in E1. }
  apply fetch_captions_Ok in E1 as (Hc & F1 & T1).
  unfold bind at 1.
  destruct (get_video_info eng url s1) as [[info|e] s2] eqn:E2.
  2:{ apply (keeps_fs _ _ _ _ (touches_get_video_info [] url)) in E2.
      congruence. }
  apply get_video_info_Ok in E2 as (Hi & F2 & T2).
  unfold Worker.generate_all. rewrite FileFacts.generate_all_fs.
  exists url, caps, info. rewrite T1 in Hi.
  repeat split; try assumption. cbn [with_fs fs fst]. now rewrite F2, F1.
Qed.

End Pipeline.
End CaptionFacts.

(** The captions pipeline writes files only when it succeeds.  Without
  a source URL it raises before any call; whenever it raises, as when
  fetching the captions or the video information fails, every file is
  as it was: none has been created, changed or removed (the job's
  output directory, which is no file, has been made by then); and when
  it returns, the four transcript files are made from the caption
  segments, fetched in the job's language (English when the job names
  none), and no other file has changed. *)
Theorem captions_job_writes_only_on_success (fl : Q -> Q) (cfg : Config)
    (eng : Engines) (job : Job) (s : Sys) :
  (source_url job = None \/ source_url job = Some "" ->
   process_youtube_captions fl cfg eng job s
   = (Err (ValueError "YouTube job missing source_url"), s))
  /\ (forall e s',
        process_youtube_captions fl cfg eng job s = (Err e, s') ->
        fs s' = fs s)
  /\ (forall paths s',
        process_youtube_captions fl cfg eng job s = (Ok paths, s') ->
        let dir := path_join (OUTPUTS_DIR cfg) (id job) in
        exists url caps info,
          source_url job = Some url
          /\ yt_captions eng (tick s) url
               (if Py.truthy (language job) then language job else "en")
             = Ok caps
          /\ yt_info eng (S (tick s)) url = Ok info
          /\ paths = Shape.transcript_paths dir
          /\ (let segments := map caption_to_segment caps in
              fs s' !! OutputFormatter.json_path paths
              = Some (JsonFile
                        (generate_json_data segments
                           (Some [("job_id", JStr (id job));
                                  ("source", JStr "youtube_captions");
                                  ("video_id", JStr (video_id info));
                                  ("title", JStr (title info));
                                  ("channel", JStr (channel info));
                                  ("duration", JInt (yt_duration info));
                                  ("source_url", JStr url)])))
              /\ fs s' !! OutputFormatter.txt_path paths
                 = Some (TextFile (txt_content false segments))
              /\ fs s' !! OutputFormatter.srt_path paths
                 = Some (TextFile (srt_content fl segments))
              /\ fs s' !! OutputFormatter.vtt_path paths
                 = Some (TextFile (vtt_content fl segments)))
          /\ Shape.same_outside (Shape.transcript_files dir) (fs s') (fs s)).
Proof.
  pose proof (CaptionFacts.captions_outcome fl cfg eng job s) as H.
  split; [|split].
  - unfold process_youtube_captions. intros [->| ->]; reflexivity.
  - intros e s' E. now rewrite E in H.
  - intros paths s' E. rewrite E in H. cbv zeta.
    destruct H as (url & caps & info & Hu & _ & Hc & Hi & -> & ->).
    exists url, caps, info.
    split; [exact Hu|]. split; [exact Hc|]. split; [exact Hi|].
    split; [reflexivity|].
    destruct (UploadFacts.generate_transcript_files fl
                (path_join (OUTPUTS_DIR cfg) (id job))
                (map caption_to_segment caps)
                (Some [("job_id", JStr (id job));
                       ("source", JStr "youtube_captions");
                       ("video_id", JStr (video_id info));
                       ("title", JStr (title info));
                       ("channel", JStr (channel info));
                       ("duration", JInt (yt_duration info));
                       ("source_url", JStr url)])
                (fs s)) as (Gj & Gt & Gs & Gv & Go).
    split; [|exact Go]. repeat split; assumption.
Qed.

Module RunFacts.
Import PipelineFacts.
Local Open Scope worker_scope.

Lemma bind_eq {A B} (m : M A) (k : A -> M B) (s s1 : Sys) (a : A) :
  m s = (Ok a, s1) -> bind m k s = k a s1.
Proof. unfold bind. now intros ->. Qed.

Lemma bind_raise {A B} (m : M A) (k : A -> M B) (s s1 : Sys) (e : exn) :
  m s = (Err e, s1) -> bind m k s = (Err e, s1).
Proof. unfold bind. now intros ->. Qed.

Lemma bind_exists {B} (path : string) (k : bool -> M B) (s : Sys) :
  bind (exists_ path) k s = k (bool_decide (is_Some (fs s !! path))) s.
Proof. reflexivity. Qed.

Lemma bind_call {A B} (f : nat -> A) (k : A -> M B) (s : Sys) :
  bind (call f) k s = k (f (tick s)) (call f s).2.
Proof. reflexivity. Qed.

Lemma call_state {A} (f : nat -> A) (s : Sys) :
  fs (call f s).2 = fs s /\ tick (call f s).2 = S (tick s)
  /\ _audio_processor (call f s).2 = _audio_processor s
  /\ _transcriber (call f s).2 = _transcriber s.
Proof. repeat split. Qed.

Section Runs.
Variable eng : Engines.

(** [get_media_info] on a file that is there: one run of ffprobe. *)
Lemma get_media_info_run (path : string) (s : Sys) (info : MediaInfo) :
  is_Some (fs s !! path) -> ffprobe eng (tick s) path = Ok info ->
  get_media_info eng path s
  = (Ok info, (call (fun t => ffprobe eng t path) s).2).
Proof.
  intros Hin Hp. unfold get_media_info.
  rewrite bind_exists, bool_decide_eq_true_2 by exact Hin. cbn [negb].
  rewrite bind_call, Hp. reflexivity.
Qed.

End Runs.
End RunFacts.

(** The outcomes of [normalize_audio].  It writes and deletes no file
  but its output; when it returns, it returns the output path, the
  output file exists and the input file was there; a missing input
  raises before any tool is run; after a timeout of ffmpeg the output
  file is gone, partial or not; but after a failing exit code a partial
  output file is left where it is. *)
Theorem normalize_audio_outcomes (eng : Engines) (input output : string)
    (s : Sys) :
  Shape.touches_only [output] (normalize_audio eng input output)
  /\ (forall p s',
        normalize_audio eng input output s = (Ok p, s') ->
        p = output /\ is_Some (fs s' !! output) /\ is_Some (fs s !! input))
  /\ (fs s !! input = None ->
      exists msg,
        normalize_audio eng input output s = (Err (AudioProcessorError msg), s))
  /\ (forall info wrote,
        is_Some (fs s !! input) ->
        ffprobe eng (tick s) input = Ok info -> has_audio info = true ->
        ffmpeg eng (S (tick s)) input output = FfTimeout wrote ->
        exists msg s',
          normalize_audio eng input output s
          = (Err (AudioProcessorError msg), s')
          /\ fs s' = delete output (fs s))
  /\ (forall info rc stderr,
        is_Some (fs s !! input) ->
        ffprobe eng (tick s) input = Ok info -> has_audio info = true ->
        rc <> 0%Z ->
        ffmpeg eng (S (tick s)) input output = FfCompleted rc stderr true ->
        exists msg s',
          normalize_audio eng input output s
          = (Err (AudioProcessorError msg), s')
          /\ fs s' !! output = Some MediaFile).
Proof.
  split; [apply StepFacts.touches_normalize_audio|].
  split; [intros p s'; apply StepFacts.normalize_audio_Ok|].
  split.
  { intros Hn. eexists. unfold normalize_audio, bind, exists_.
    rewrite Hn. rewrite bool_decide_eq_false_2 by (intros [? ?]; discriminate).
    reflexivity. }
  split.
  - intros info wrote Hin Hp Ha Hf. unfold normalize_audio.
    rewrite RunFacts.bind_exists, bool_decide_eq_true_2 by exact Hin.
    cbn [negb].
    rewrite (RunFacts.bind_eq _ _ _ _ _
               (RunFacts.get_media_info_run eng input s info Hin Hp)).
    rewrite Ha. cbn [negb]. rewrite RunFacts.bind_call.
    change (tick (call (fun t => ffprobe eng t input) s).2) with (S (tick s)).
    rewrite Hf.
    destruct wrote; do 2 eexists; (split; [reflexivity|]); cbn.
    + apply delete_insert_eq.
    + reflexivity.
  - intros info rc stderr Hin Hp Ha Hrc Hf. unfold normalize_audio.
    rewrite RunFacts.bind_exists, bool_decide_eq_true_2 by exact Hin.
    cbn [negb].
    rewrite (RunFacts.bind_eq _ _ _ _ _
               (RunFacts.get_media_info_run eng input s info Hin Hp)).
    rewrite Ha. cbn [negb]. rewrite RunFacts.bind_call.
    change (tick (call (fun t => ffprobe eng t input) s).2) with (S (tick s)).
    rewrite Hf. apply Z.eqb_neq in Hrc.
    cbv beta iota.
    rewrite (RunFacts.bind_eq (write_file output MediaFile) _ _ _ tt eq_refl).
    rewrite Hrc. cbn [negb].
    do 2 eexists. split; [reflexivity|]. cbn. apply lookup_insert_eq.
Qed.

(** With auto-ingest disabled in the worker, an auto-ingest job fails
  before anything is looked up or downloaded: the pipeline raises at
  once, leaving files and components as they were, and [process_job]
  marks the job failed with the message of the unexpected-error clause. *)
Theorem auto_ingest_disabled_fails_at_once (fl : Q -> Q) (cfg : Config)
    (eng : Engines) (job : Job) :
  YOUTUBE_AUTO_INGEST_ENABLED cfg = false ->
  (forall s,
     process_youtube_auto_ingest fl cfg eng job s
     = (Err (ValueError "YouTube auto-ingest is disabled. Set YOUTUBE_AUTO_INGEST=true to enable."),
        s))
  /\ (forall (w : World) (row : JobRow),
        job_type job = "youtube_auto_ingest" ->
        jobs (db w) !! id job = Some row ->
        let w' := process_job fl cfg eng job w in
        log w' = log w ++ [(id job, "running"); (id job, "failed")]
        /\ (exists row',
              jobs (db w') !! id job = Some row'
              /\ status row' = "failed"
              /\ error_message row'
                 = Some "Unexpected error: YouTube auto-ingest is disabled. Set YOUTUBE_AUTO_INGEST=true to enable.")
        /\ transcripts (db w') = transcripts (db w)
        /\ fs (sys w') = fs (sys w)).
Proof.
  intros Hoff.
  assert (Hp : forall s,
             process_youtube_auto_ingest fl cfg eng job s
             = (Err (ValueError "YouTube auto-ingest is disabled. Set YOUTUBE_AUTO_INGEST=true to enable."),
                s)).
  { intros s. unfold process_youtube_auto_ingest. now rewrite Hoff. }
  split; [exact Hp|]. intros w row Ht Hl. cbv zeta.
  set (w1 := update_job_status eng (id job) "running" None w).
  assert (Hr : route fl cfg eng job (sys w1)
               = (Err (ValueError "YouTube auto-ingest is disabled. Set YOUTUBE_AUTO_INGEST=true to enable."),
                  sys w1)).
  { unfold route. rewrite Ht. cbn. apply Hp. }
  destruct (WorkerFacts.process_job_effect fl cfg eng job w)
    as (final & upd & Hf & Hlog & _ & _ & Hiff & _ & Herr).
  cbv zeta in Hiff, Herr. fold w1 in Hiff, Herr.
  assert (final = "failed") as ->.
  { destruct Hf as [Hd|Hd]; [|exact Hd].
    apply Hiff in Hd as (paths & s' & Hq). congruence. }
  split; [exact Hlog|].
  rewrite (Herr _ _ Hr).
  set (w2 := {| db := db w1; sys := sys w1; log := log w1 |}).
  destruct (DispatchFacts.update_job_status_rows eng (id job) "failed"
              (Some (failure_message (ValueError "YouTube auto-ingest is disabled. Set YOUTUBE_AUTO_INGEST=true to enable.")))
              w2) as (J2 & T2 & F2).
  destruct (DispatchFacts.update_job_status_rows eng (id job) "running" None w)
    as (J1 & T1 & F1).
  fold w1 in J1, T1, F1.
  split; [|split].
  - rewrite J2. subst w2. cbn [db jobs]. rewrite J1.
    rewrite lookup_alter_eq, lookup_alter_eq, Hl. cbn [fmap option_fmap option_map].
    eexists. split; [reflexivity|]. split; reflexivity.
  - rewrite T2. subst w2. cbn [db transcripts]. exact T1.
  - rewrite F2. subst w2. cbn [sys]. exact F1.
Qed.

Lemma auto_ingest_disabled_fails_at_once_witness :
  YOUTUBE_AUTO_INGEST_ENABLED Examples.cfg = false
  /\ process_youtube_auto_ingest fl_exact Examples.cfg Examples.eng_ok
       Samples.job_ingest (sys Samples.world_ingest)
     = (Err (ValueError "YouTube auto-ingest is disabled. Set YOUTUBE_AUTO_INGEST=true to enable."),
        sys Samples.world_ingest).
Proof.
  split; [reflexivity|].
  exact (proj1 (auto_ingest_disabled_fails_at_once fl_exact Examples.cfg
                  Examples.eng_ok Samples.job_ingest eq_refl)
           (sys Samples.world_ingest)).
Defined.

(** The duration limit of auto-ingest.  [check_duration_limit] returns
  the video information only for a video within the limit; and a job
  for a longer video fails with the duration error after that one
  look-up: nothing is downloaded, no tool is run, and the only change to
  the files is that a normalized audio file left in the job's
  directory is removed. *)
Theorem overlong_video_is_not_downloaded (fl : Q -> Q) (cfg : Config)
    (eng : Engines) (job : Job) (url : string) (info : YouTubeVideoInfo)
    (s : Sys) :
  YOUTUBE_AUTO_INGEST_ENABLED cfg = true ->
  source_url job = Some url -> url <> "" ->
  yt_info eng (tick s) url = Ok info ->
  (YOUTUBE_MAX_DURATION cfg < yt_duration info)%Z ->
  (exists msg s',
     process_youtube_auto_ingest fl cfg eng job s
     = (Err (YouTubeDurationExceededError msg), s')
     /\ failure_message (YouTubeDurationExceededError msg) = msg
     /\ tick s' = S (tick s)
     /\ fs s' = delete (normalized_path_of cfg (id job)) (fs s))
  /\ (forall s0 info0 s1,
        check_duration_limit cfg eng url s0 = (Ok info0, s1) ->
        (yt_duration info0 <= YOUTUBE_MAX_DURATION cfg)%Z /\ fs s1 = fs s0).
Proof.
  intros He Hu Hne Hi Hlong. apply ApiFacts.truthy_true in Hne. split.
  - assert (Hg : get_video_info eng url s
                 = (Ok info, (call (fun t => yt_info eng t url) s).2)).
    { unfold get_video_info. rewrite RunFacts.bind_call, Hi. reflexivity. }
    assert (Hc : exists msg,
               check_duration_limit cfg eng url s
               = (Err (YouTubeDurationExceededError msg),
                  (call (fun t => yt_info eng t url) s).2)).
    { unfold check_duration_limit. rewrite (RunFacts.bind_eq _ _ _ _ _ Hg).
      apply Z.gtb_lt in Hlong. rewrite Hlong. eexists. reflexivity. }
    destruct Hc as [msg Hc]. exists msg.
    unfold process_youtube_auto_ingest, normalized_path_of.
    rewrite He, Hu, Hne. cbn [negb].
    rewrite (RunFacts.bind_raise _ _ _ _ _ Hc).
    eexists. split; [reflexivity|]. repeat split.
  - intros s0 info0 s1. unfold check_duration_limit. intros H.
    apply PipelineFacts.bind_Ok in H as (i & s2 & Hg & H).
    apply CaptionFacts.get_video_info_Ok in Hg as (_ & F & _).
    destruct (yt_duration i >? YOUTUBE_MAX_DURATION cfg)%Z eqn:E;
      [discriminate|].
    injection H as <- <-. split; [|exact F].
    rewrite Z.gtb_ltb, Z.ltb_ge in E. exact E.
Qed.

Lemma overlong_video_is_not_downloaded_witness :
  YOUTUBE_AUTO_INGEST_ENABLED Samples.cfg_ingest = true
  /\ (YOUTUBE_MAX_DURATION Samples.cfg_ingest < 7200)%Z
  /\ exists msg s',
       process_youtube_auto_ingest fl_exact Samples.cfg_ingest
         Samples.eng_long_video Samples.job_ingest (sys Samples.world_ingest)
       = (Err (YouTubeDurationExceededError msg), s')
       /\ failure_message (YouTubeDurationExceededError msg) = msg
       /\ tick s' = 1%nat
       /\ fs s' = delete (normalized_path_of Samples.cfg_ingest "job-4") ∅.
Proof.
  split; [reflexivity|]. split; [reflexivity|].
  exact (proj1 (overlong_video_is_not_downloaded fl_exact Samples.cfg_ingest
                  Samples.eng_long_video Samples.job_ingest
                  "https://youtu.be/dQw4w9WgXcQ"
                  {| video_id := "dQw4w9WgXcQ"; title := "A talk";
                     yt_duration := 7200; channel := "Talks" |}
                  (sys Samples.world_ingest)
                  eq_refl eq_refl ltac:(discriminate) eq_refl eq_refl)).
Defined.

Module JobFacts.
Import WorkerFacts.

Section Jobs.
Variable fl : Q -> Q.
Variable cfg : Config.
Variable eng : Engines.

(** The files after [process_job] are the files the pipeline left. *)
Lemma process_job_fs (job : Job) (w : World) :
  fs (sys (process_job fl cfg eng job w))
  = fs (route fl cfg eng job
          (sys (update_job_status eng (id job) "running" None w))).2.
Proof.
  unfold process_job.
  set (w1 := update_job_status eng (id job) "running" None w).
  destruct (route fl cfg eng job (sys w1)) as [[paths|e] s'].
  - set (w2 := save_transcript_paths (id job) paths
                 {| db := db w1; sys := s'; log := log w1 |}).
    destruct (DispatchFacts.update_job_status_rows eng (id job) "done" None w2)
      as (_ & _ & F). rewrite F. reflexivity.
  - set (w2 := {| db := db w1; sys := s'; log := log w1 |}).
    destruct (DispatchFacts.update_job_status_rows eng (id job) "failed"
                (Some (failure_message e)) w2) as (_ & _ & F).
    rewrite F. reflexivity.
Qed.

Lemma route_auto_ingest (job : Job) :
  job_type job = "youtube_auto_ingest" ->
  route fl cfg eng job = process_youtube_auto_ingest fl cfg eng job.
Proof. intros Ht. unfold route. now rewrite Ht. Qed.

Lemma route_file_upload (job : Job) :
  job_type job = "file_upload" ->
  route fl cfg eng job = process_file_upload fl cfg eng job.
Proof. intros Ht. unfold route. now rewrite Ht. Qed.

Lemma route_captions (job : Job) :
  job_type job = "youtube_captions" ->
  route fl cfg eng job = process_youtube_captions fl cfg eng job.
Proof. intros Ht. unfold route. now rewrite Ht. Qed.

End Jobs.
End JobFacts.

(** An auto-ingest job leaves no intermediate file behind, whatever its
  outcome: when [process_job] has taken it to [done] or [failed], the
  normalized audio does not exist, and neither does the downloaded
  file, once the download had returned its path. *)
Theorem auto_ingest_leaves_no_intermediate_file (fl : Q -> Q) (cfg : Config)
    (eng : Engines) (job : Job) (url : string) (w : World) :
  YOUTUBE_AUTO_INGEST_ENABLED cfg = true ->
  job_type job = "youtube_auto_ingest" ->
  source_url job = Some url -> url <> "" ->
  let w1 := update_job_status eng (id job) "running" None w in
  let w' := process_job fl cfg eng job w in
  (exists final,
     (final = "done" \/ final = "failed")
     /\ log w' = log w ++ [(id job, "running"); (id job, final)])
  /\ fs (sys w') !! normalized_path_of cfg (id job) = None
  /\ (forall video_info downloaded s1,
        bind (check_duration_limit cfg eng url)
          (fun video_info =>
             bind (download_audio cfg eng url)
               (fun downloaded_path => ret (video_info, downloaded_path)))
          (sys w1)
        = (Ok (video_info, downloaded), s1) ->
        downloaded <> "" ->
        fs (sys w') !! downloaded = None).
Proof.
  intros He Ht Hu Hne. cbv zeta. apply ApiFacts.truthy_true in Hne.
  destruct (WorkerFacts.process_job_effect fl cfg eng job w)
    as (final & upd & Hf & Hlog & _).
  split; [exists final; auto|].
  rewrite JobFacts.process_job_fs, (JobFacts.route_auto_ingest fl cfg eng job Ht).
  destruct (PipelineFacts.auto_ingest_removes_intermediates fl cfg eng job url
              (sys (update_job_status eng (id job) "running" None w))
              He Hu Hne) as [Hn Hd].
  split; [exact Hn|].
  intros video_info downloaded s1 Hs Hdl. apply ApiFacts.truthy_true in Hdl.
  exact (Hd video_info downloaded s1 Hs Hdl).
Qed.

Lemma auto_ingest_leaves_no_intermediate_file_witness :
  YOUTUBE_AUTO_INGEST_ENABLED Samples.cfg_ingest = true
  /\ fs (sys (process_job fl_exact Samples.cfg_ingest Examples.eng_ok
                Samples.job_ingest Samples.world_ingest))
       !! normalized_path_of Samples.cfg_ingest "job-4" = None.
Proof.
  split; [reflexivity|].
  exact (proj1 (proj2 (auto_ingest_leaves_no_intermediate_file fl_exact
                         Samples.cfg_ingest Examples.eng_ok Samples.job_ingest
                         "https://youtu.be/dQw4w9WgXcQ" Samples.world_ingest
                         eq_refl eq_refl eq_refl ltac:(discriminate)))).
Defined.

(** ** The API's writes: uploads and jobs *)

Module UploadPathFacts.
Import Shape DatabaseWrites.
Local Arguments String.append : simpl nomatch.

Lemma keep_name_chars_chars (extra s : string) :
  all_chars (name_char extra) (keep_name_chars extra s) = true.
Proof.
  induction s as [|c s IH]; cbn [keep_name_chars]; [reflexivity|].
  destruct (isalnum c || Spec.contains c extra) eqn:E; [|exact IH].
  cbn [all_chars]. unfold name_char at 1. now rewrite E.
Qed.

Lemma keep_name_chars_fixed (extra s : string) :
  all_chars (name_char extra) s = true -> keep_name_chars extra s = s.
Proof.
  induction s as [|c s IH]; cbn [keep_name_chars all_chars]; [reflexivity|].
  unfold name_char at 1. intros [-> Hs]%andb_true_iff. now rewrite IH.
Qed.

Lemma basename_no_slash (p : string) :
  Spec.contains "/" p = false -> basename p = p.
Proof.
  destruct p as [|c p]; [reflexivity|]. cbn [Spec.contains basename].
  intros [Hc Hp]%orb_false_iff. now rewrite Hc, Hp.
Qed.

Lemma contains_app_r (c : ascii) (a b : string) :
  Spec.contains c b = true -> Spec.contains c (a +:+ b) = true.
Proof.
  intros Hb. induction a as [|x a IH]; cbn [String.append Spec.contains];
    [exact Hb|]. rewrite IH. apply orb_true_r.
Qed.

(** Directories in front of a name are dropped. *)
Lemma basename_app (dir name : string) :
  Spec.contains "/" name = false -> basename (dir +:+ "/" +:+ name) = name.
Proof.
  intros Hn. induction dir as [|c dir IH].
  - cbn. now apply basename_no_slash.
  - change (String c dir +:+ "/" +:+ name)
      with (String c (dir +:+ "/" +:+ name)).
    cbn [basename]. rewrite IH.
    rewrite contains_app_r by reflexivity.
    now destruct (Ascii.eqb c "/").
Qed.

(** The stored name: never empty, of allowed characters only, and
  without a path separator. *)
Lemma safe_upload_path (UPLOADS hex8 filename : string) :
  all_chars (name_char "") hex8 = true ->
  let kept := keep_name_chars ".-_" (basename filename) in
  let safe_name := if negb (Py.truthy kept) then "upload" else kept in
  get_safe_upload_path UPLOADS hex8 filename
  = path_join UPLOADS (hex8 +:+ "_" +:+ safe_name)
  /\ safe_name <> ""
  /\ all_chars (name_char ".-_") (hex8 +:+ "_" +:+ safe_name) = true
  /\ Spec.contains "/" (hex8 +:+ "_" +:+ safe_name) = false.
Proof.
  intros Hhex kept safe_name.
  assert (Hs : safe_name <> ""
               /\ all_chars (name_char ".-_") safe_name = true).
  { subst safe_name. unfold Py.truthy.
    destruct (String.eqb_spec kept "") as [E|E]; cbn [negb].
    - split; [discriminate|reflexivity].
    - split; [exact E|apply keep_name_chars_chars]. }
  destruct Hs as [Hne Hc].
  assert (Hall : all_chars (name_char ".-_") (hex8 +:+ "_" +:+ safe_name)
                 = true).
  { rewrite !TextFacts.all_chars_app, Hc, andb_true_r.
    revert Hhex. apply TextFacts.all_chars_impl. intros c.
    unfold name_char. cbn [Spec.contains]. rewrite orb_false_r.
    now intros ->. }
  split; [reflexivity|]. split; [exact Hne|]. split; [exact Hall|].
  now apply (NameFacts.all_chars_excludes _ _ _ Hall).
Qed.

End UploadPathFacts.

(** The path under which an upload is stored.  Whatever file name the
  client sends, the stored name is the 8 hex digits drawn, an
  underscore, and the base name with every character dropped that is
  not alphanumeric, a dot, a hyphen or an underscore ("upload" when
  nothing is left): it holds no path separator, so the file lies
  directly in the uploads directory; directories in the client's name
  are ignored; and a plain name of allowed characters is kept whole. *)
Theorem upload_path_is_inside_uploads (UPLOADS hex8 filename : string) :
  Shape.all_chars (Shape.name_char "") hex8 = true ->
  exists safe_name,
    DatabaseWrites.get_safe_upload_path UPLOADS hex8 filename
    = path_join UPLOADS (hex8 +:+ "_" +:+ safe_name)
    /\ safe_name <> ""
    /\ Shape.all_chars (Shape.name_char ".-_") (hex8 +:+ "_" +:+ safe_name) = true
    /\ Spec.contains "/" (hex8 +:+ "_" +:+ safe_name) = false
    /\ (forall dir,
          Spec.contains "/" filename = false ->
          DatabaseWrites.get_safe_upload_path UPLOADS hex8
            (dir +:+ "/" +:+ filename)
          = DatabaseWrites.get_safe_upload_path UPLOADS hex8 filename)
    /\ (Spec.contains "/" filename = false -> filename <> "" ->
        Shape.all_chars (Shape.name_char ".-_") filename = true ->
        safe_name = filename).
Proof.
  intros Hhex.
  destruct (UploadPathFacts.safe_upload_path UPLOADS hex8 filename Hhex)
    as (Hp & Hne & Hall & Hslash).
  unfold DatabaseWrites.get_safe_upload_path in *. cbv zeta in *.
  eexists. split; [reflexivity|]. split; [exact Hne|].
  split; [exact Hall|]. split; [exact Hslash|]. split.
  - intros dir Hn. rewrite UploadPathFacts.basename_app by exact Hn.
    now rewrite UploadPathFacts.basename_no_slash by exact Hn.
  - intros Hn Hf Hok.
    rewrite UploadPathFacts.basename_no_slash by exact Hn.
    rewrite UploadPathFacts.keep_name_chars_fixed by exact Hok.
    apply ApiFacts.truthy_true in Hf. now rewrite Hf.
Qed.

Lemma upload_path_is_inside_uploads_witness :
  Shape.all_chars (Shape.name_char "") "ab12cd34" = true
  /\ exists safe_name,
       DatabaseWrites.get_safe_upload_path "data/uploads" "ab12cd34"
         "../../etc/pass wd"
       = path_join "data/uploads" ("ab12cd34" +:+ "_" +:+ safe_name)
       /\ safe_name <> "".
Proof.
  split; [reflexivity|].
  destruct (upload_path_is_inside_uploads "data/uploads" "ab12cd34"
              "../../etc/pass wd" eq_refl) as (safe_name & H1 & H2 & _).
  exists safe_name. split; [exact H1|exact H2].
Defined.

Module CreateFacts.
Import Models Database DatabaseWrites.

Lemma ModelSize_truthy (m : ModelSize) : Py.truthy (ModelSize_value m) = true.
Proof. now destruct m. Qed.

Section Created.
Variables (db : DB) (uuid4 now : string) (job_type' : JobType)
  (model' : ModelSize) (language' : string)
  (original_filename' stored_filename' source_url' : option string).

(** The row that [create_job] inserts. *)
Lemma create_job_Ok :
  jobs db !! uuid4 = None ->
  exists db' row,
    create_job db uuid4 now job_type' model' language' original_filename'
      stored_filename' source_url' = Ok (uuid4, db')
    /\ jobs db' = <[uuid4 := row]> (jobs db)
    /\ transcripts db' = transcripts db
    /\ status row = "queued" /\ created_at row = now /\ updated_at row = now
    /\ error_message row = None
    /\ Database.job_type row = JobType_value job_type'
    /\ Database.model row = ModelSize_value model'
    /\ Database.language row = language'
    /\ Database.original_filename row = original_filename'
    /\ Database.stored_filename row = stored_filename'
    /\ Database.source_url row = source_url'.
Proof.
  intros Hfresh. unfold create_job. cbv zeta. rewrite Hfresh.
  eexists _, _. split; [reflexivity|]. cbn. repeat split.
Qed.

End Created.

(** What the worker reads from a queued row that is the only candidate. *)
Lemma get_next_job_row (cfg : Config) (d : DB) (j : string) (row : JobRow) :
  jobs d !! j = Some row -> status row = "queued" ->
  (forall j' r', j' <> j -> jobs d !! j' = Some r' -> status r' = "queued" ->
     String.ltb (created_at row) (created_at r') = true) ->
  get_next_job cfg d
  = Some {| Worker.id := j;
            Worker.job_type := Database.job_type row;
            Worker.source_url := Database.source_url row;
            Worker.original_filename := Database.original_filename row;
            Worker.stored_filename := Database.stored_filename row;
            Worker.model := if Py.truthy (Database.model row)
                            then Database.model row else WHISPER_MODEL cfg;
            Worker.language := Database.language row |}.
Proof.
  intros Hl Hq Hlt.
  destruct (WorkerFacts.get_next_job_strictly_oldest cfg d j row Hl Hq Hlt)
    as (job & Hn & Hid).
  unfold get_next_job in *.
  destruct (oldest (queued_rows (jobs d))) as [[j' row']|] eqn:E;
    [|discriminate].
  injection Hn as <-. cbn [Worker.id] in Hid. subst j'.
  destruct (WorkerFacts.oldest_spec _ _ E) as [Hin _].
  apply WorkerFacts.elem_of_queued_rows in Hin as [Hl' _].
  rewrite Hl in Hl'. injection Hl' as <-. reflexivity.
Qed.

End CreateFacts.

(** A job the API creates under a fresh id is stored as a [queued] row
  whose creation and update times are the clock reading and which has
  no error message; no other job and no transcript record changes.
  The worker takes it next, with the type, model, language, file names
  and URL the API passed, when every other queued job was created
  later; while an older job is queued, the worker takes another job
  first. *)
Theorem created_job_waits_its_turn (cfg : Config) (db : DB)
    (uuid4 now : string) (job_type' : JobType) (model' : ModelSize)
    (language' : string)
    (original_filename' stored_filename' source_url' : option string) :
  jobs db !! uuid4 = None ->
  exists db',
    DatabaseWrites.create_job db uuid4 now job_type' model' language'
      original_filename' stored_filename' source_url' = Ok (uuid4, db')
    /\ (exists row,
          Database.get_job db' uuid4 = Some row
          /\ status row = "queued" /\ created_at row = now
          /\ updated_at row = now /\ error_message row = None)
    /\ (forall j, j <> uuid4 -> Database.get_job db' j = Database.get_job db j)
    /\ transcripts db' = transcripts db
    /\ ((forall j r, jobs db !! j = Some r -> status r = "queued" ->
           String.ltb now (created_at r) = true) ->
        get_next_job cfg db'
        = Some {| Worker.id := uuid4;
                  Worker.job_type := JobType_value job_type';
                  Worker.source_url := source_url';
                  Worker.original_filename := original_filename';
                  Worker.stored_filename := stored_filename';
                  Worker.model := ModelSize_value model';
                  Worker.language := language' |})
    /\ (forall j r, jobs db !! j = Some r -> status r = "queued" ->
          String.ltb (created_at r) now = true ->
          exists job, get_next_job cfg db' = Some job
                      /\ Worker.id job <> uuid4).
Proof.
  intros Hfresh.
  destruct (CreateFacts.create_job_Ok db uuid4 now job_type' model' language'
              original_filename' stored_filename' source_url' Hfresh)
    as (db' & row & Hc & Hj & Ht & Hs & Hca & Hua & He & Hjt & Hm & Hla
        & Ho & Hsf & Hu).
  assert (Hrow : jobs db' !! uuid4 = Some row)
    by (rewrite Hj; apply lookup_insert_eq).
  assert (Hother : forall j, j <> uuid4 -> jobs db' !! j = jobs db !! j)
    by (intros j Hne; rewrite Hj; now apply lookup_insert_ne).
  exists db'. split; [exact Hc|]. split.
  { exists row. unfold Database.get_job. auto. }
  split; [exact Hother|]. split; [exact Ht|]. split.
  - intros Hnew.
    rewrite (CreateFacts.get_next_job_row cfg db' uuid4 row Hrow Hs).
    + rewrite Hjt, Hu, Ho, Hsf, Hm, Hla, CreateFacts.ModelSize_truthy.
      reflexivity.
    + intros j' r' Hne Hl' Hq'. rewrite Hca. apply (Hnew j' r'); [|exact Hq'].
      now rewrite <- Hother.
  - intros j r Hl Hq Hlt.
    assert (Hne : j <> uuid4) by (intros ->; congruence).
    assert (Hl' : jobs db' !! j = Some r) by (now rewrite Hother).
    destruct (get_next_job cfg db') as [job|] eqn:E.
    + exists job. split; [reflexivity|]. intros Hid.
      destruct (WorkerFacts.get_next_job_Some cfg db' job E)
        as (row' & Hr' & _ & Hmin & _).
      rewrite Hid, Hrow in Hr'. injection Hr' as <-.
      pose proof (Hmin j r Hl' Hq) as Hle. rewrite Hca in Hle.
      apply WorkerFacts.ltb_not_leb in Hlt. congruence.
    + exfalso.
      exact (proj1 (WorkerFacts.get_next_job_None cfg db') E j r Hl' Hq).
Qed.

Lemma created_job_waits_its_turn_witness :
  jobs Examples.db_done !! "job-9" = None
  /\ exists db',
       DatabaseWrites.create_job Examples.db_done "job-9"
         "2024-05-01T11:00:00" FILE_UPLOAD SMALL "auto" (Some "talk.mp3")
         (Some "ab12cd34_talk.mp3") None = Ok ("job-9", db')
       /\ transcripts db' = transcripts Examples.db_done.
Proof.
  assert (H : jobs Examples.db_done !! "job-9" = None) by reflexivity.
  split; [exact H|].
  destruct (created_job_waits_its_turn Examples.cfg Examples.db_done "job-9"
              "2024-05-01T11:00:00" FILE_UPLOAD SMALL "auto" (Some "talk.mp3")
              (Some "ab12cd34_talk.mp3") None H)
    as (db' & Hc & _ & _ & Ht & _).
  exists db'. split; [exact Hc|exact Ht].
Defined.

(** ** The upload route *)

Module StreamFacts.
Import UploadRoute Shape.

Section Stream.
Variable MAX_FILE_SIZE : N.

(** A stream that is saved delivered what was counted, within the limit. *)
Lemma stream_Saved (steps : list ReadStep) (t total : N) :
  stream MAX_FILE_SIZE steps t = Saved total ->
  total = (t + received steps)%N
  /\ ((t <= MAX_FILE_SIZE)%N -> (total <= MAX_FILE_SIZE)%N).
Proof.
  revert t. induction steps as [|[size written|] rest IH]; intros t;
    cbn [stream received].
  - intros [= <-]. split; [lia|auto].
  - destruct (size =? 0)%N; [intros [= <-]; split; [lia|auto]|].
    destruct (MAX_FILE_SIZE <? t + size)%N eqn:E; [discriminate|].
    destruct written; [|discriminate]. intros H.
    apply IH in H as [-> H]. apply N.ltb_ge in E. split; [lia|auto].
  - discriminate.
Qed.

(** A stream is refused for its size only when it delivers more than
  the limit. *)
Lemma stream_TooLarge (steps : list ReadStep) (t : N) :
  stream MAX_FILE_SIZE steps t = TooLarge ->
  (MAX_FILE_SIZE < t + received steps)%N.
Proof.
  revert t. induction steps as [|[size written|] rest IH]; intros t;
    cbn [stream received]; try discriminate.
  destruct (size =? 0)%N; [discriminate|].
  destruct (MAX_FILE_SIZE <? t + size)%N eqn:E.
  - intros _. apply N.ltb_lt in E. lia.
  - destruct written; [|discriminate]. intros H%IH. lia.
Qed.

(** Without an input or output error, the stream is saved when it is
  within the limit. *)
Lemma stream_written (steps : list ReadStep) (t : N) :
  all_written steps = true ->
  (t + received steps <= MAX_FILE_SIZE)%N ->
  stream MAX_FILE_SIZE steps t = Saved (t + received steps).
Proof.
  revert t. induction steps as [|[size written|] rest IH]; intros t;
    cbn [stream received all_written forallb]; try discriminate.
  - intros _ _. f_equal. lia.
  - intros [-> Hw]%andb_true_iff.
    destruct (size =? 0)%N; [intros _; f_equal; lia|]. intros Hle.
    destruct (MAX_FILE_SIZE <? t + size)%N eqn:E;
      [apply N.ltb_lt in E; lia|].
    rewrite (IH (t + size)%N Hw) by lia. f_equal. lia.
Qed.

End Stream.

(** The name of a file directly in a directory. *)
Lemma name_path_join (dir file : string) :
  Spec.contains "/" file = false -> name (path_join dir file) = file.
Proof. apply UploadPathFacts.basename_app. Qed.

End StreamFacts.

(** How an upload request ends.  When it is answered with a job id, the
  bytes delivered were within the size limit, the id is the fresh one
  drawn, and the file is stored at the safe upload path.  When it is
  answered with an HTTP error, no job has been created; after 400 and
  415 no file has been touched, after 413 and 500 no file is left at
  the upload path; and 413 is answered only to an upload that delivers
  more than the limit.  The one other end is the store refusing the
  job id as taken, which leaves the stored file behind without a job. *)
Theorem upload_outcomes (suffix_lower : string -> string)
    (MAX_FILE_SIZE : N) (UPLOADS_DIR : string) (file : UploadRoute.UploadFile)
    (model' : ModelSize) (language' : string) (opened : bool)
    (hex8 uuid4 now : string) (db : DB) (fs : FS) :
  match UploadRoute.upload_file suffix_lower MAX_FILE_SIZE UPLOADS_DIR file
          model' language' opened hex8 uuid4 now db fs with
  | (Ok r, db', fs') =>
      (Shape.received (UploadRoute.reads file) <= MAX_FILE_SIZE)%N
      /\ UploadRoute.job_id r = uuid4 /\ jobs db !! uuid4 = None
      /\ exists filename',
           UploadRoute.filename file = Some filename'
           /\ fs' = <[DatabaseWrites.get_safe_upload_path UPLOADS_DIR hex8
                        filename' := MediaFile]> fs
  | (Err (UploadRoute.Http e), db', fs') =>
      db' = db
      /\ ((status_code e = 400%Z \/ status_code e = 415%Z) /\ fs' = fs
          \/ (status_code e = 413%Z \/ status_code e = 500%Z)
             /\ exists filename',
                  UploadRoute.filename file = Some filename'
                  /\ fs' = delete (DatabaseWrites.get_safe_upload_path
                                     UPLOADS_DIR hex8 filename') fs)
      /\ (status_code e = 413%Z ->
          (MAX_FILE_SIZE < Shape.received (UploadRoute.reads file))%N)
  | (Err (UploadRoute.Unhandled _), db', fs') =>
      db' = db /\ jobs db !! uuid4 <> None
      /\ exists filename',
           UploadRoute.filename file = Some filename'
           /\ fs' = <[DatabaseWrites.get_safe_upload_path UPLOADS_DIR hex8
                        filename' := MediaFile]> fs
  end.
Proof.
  unfold UploadRoute.upload_file.
  destruct (UploadRoute.filename file) as [filename'|];
    [|cbn; split; [reflexivity|]; split; [left; auto|discriminate]].
  destruct (Py.truthy filename'); cbn [negb];
    [|cbn; split; [reflexivity|]; split; [left; auto|discriminate]].
  destruct (UploadRoute.validate_file_type _ _ _); cbn [negb];
    [|cbn; split; [reflexivity|]; split; [left; auto|discriminate]].
  cbv zeta.
  set (p := DatabaseWrites.get_safe_upload_path UPLOADS_DIR hex8 filename').
  destruct opened; cbn [negb].
  2:{ cbn. split; [reflexivity|]. split; [|discriminate].
      right. split; [auto|]. now exists filename'. }
  destruct (UploadRoute.stream MAX_FILE_SIZE (UploadRoute.reads file) 0)
    as [total| |] eqn:E.
  - apply StreamFacts.stream_Saved in E as [-> Hle].
    unfold DatabaseWrites.create_job. cbv zeta.
    destruct (jobs db !! uuid4) eqn:Hl.
    + split; [reflexivity|]. split; [congruence|]. now exists filename'.
    + cbn [UploadRoute.job_id]. split; [apply Hle; lia|].
      split; [reflexivity|]. split; [reflexivity|]. now exists filename'.
  - apply StreamFacts.stream_TooLarge in E. cbn [status_code].
    split; [reflexivity|]. split; [|intros _; lia].
    right. split; [auto|]. exists filename'. split; [reflexivity|].
    apply delete_insert_eq.
  - cbn [status_code]. split; [reflexivity|]. split; [|discriminate].
    right. split; [auto|]. exists filename'. split; [reflexivity|].
    apply delete_insert_eq.
Qed.

(** From the upload to the worker.  An upload with a file name of an
  allowed type that arrives without an input or output error and within
  the size limit is accepted: the file is stored at the safe upload
  path and a job is queued under the fresh id.  When no older job is
  queued, the worker takes this job next, and the path where
  [process_file_upload] looks for the input (the worker's uploads
  directory joined with the stored file name) is the path the API wrote
  to, so with a common data directory the file is there; a worker that
  does not find a file at that path fails the job at once. *)
Theorem accepted_upload_reaches_the_worker (suffix_lower : string -> string)
    (MAX_FILE_SIZE : N) (fl : Q -> Q) (cfg : Config) (eng : Engines)
    (file : UploadRoute.UploadFile) (filename' : string)
    (model' : ModelSize) (language' hex8 uuid4 now : string)
    (db : DB) (fs : FS) :
  UploadRoute.filename file = Some filename' -> filename' <> "" ->
  UploadRoute.validate_file_type suffix_lower filename'
    (default "" (UploadRoute.content_type file)) = true ->
  Shape.all_written (UploadRoute.reads file) = true ->
  (Shape.received (UploadRoute.reads file) <= MAX_FILE_SIZE)%N ->
  Shape.all_chars (Shape.name_char "") hex8 = true ->
  jobs db !! uuid4 = None ->
  (forall j r, jobs db !! j = Some r -> status r = "queued" ->
     String.ltb now (created_at r) = true) ->
  exists stored db' job,
    let upload_path := path_join (Worker.UPLOADS_DIR cfg) stored in
    UploadRoute.upload_file suffix_lower MAX_FILE_SIZE (Worker.UPLOADS_DIR cfg)
      file model' language' true hex8 uuid4 now db fs
    = (Ok {| UploadRoute.job_id := uuid4; UploadRoute.status := QUEUED;
             UploadRoute.message :=
               "File uploaded successfully. Transcription queued with model="
                 +:+ ModelSize_value model' |},
       db', <[upload_path := MediaFile]> fs)
    /\ DatabaseWrites.get_safe_upload_path (Worker.UPLOADS_DIR cfg) hex8
         filename' = upload_path
    /\ get_next_job cfg db' = Some job
    /\ Worker.id job = uuid4 /\ Worker.job_type job = "file_upload"
    /\ Worker.stored_filename job = Some stored
    /\ Worker.original_filename job = Some filename'
    /\ Worker.model job = ModelSize_value model'
    /\ Worker.language job = language'
    /\ (forall s,
          Worker.fs s !! upload_path = None ->
          process_file_upload fl cfg eng job s
          = (Err (FileNotFoundError
                    ("Uploaded file not found: " +:+ upload_path)), s)).
Proof.
  intros Hname Hne Hvalid Hw Hle Hhex Hfresh Hnew.
  destruct (UploadPathFacts.safe_upload_path (Worker.UPLOADS_DIR cfg) hex8
              filename' Hhex) as (Hp & _ & _ & Hslash).
  cbv zeta in Hp, Hslash.
  set (stored := hex8 +:+ "_" +:+ _) in *.
  assert (Hstored : UploadRoute.name
                      (DatabaseWrites.get_safe_upload_path
                         (Worker.UPLOADS_DIR cfg) hex8 filename') = stored).
  { rewrite Hp. now apply StreamFacts.name_path_join. }
  destruct (CreateFacts.create_job_Ok db uuid4 now FILE_UPLOAD model' language'
              (Some filename') (Some stored) None Hfresh)
    as (db' & row & Hc & Hj & Ht & Hs & Hca & Hua & He & Hjt & Hm & Hla
        & Ho & Hsf & Hu).
  assert (Hrow : jobs db' !! uuid4 = Some row)
    by (rewrite Hj; apply lookup_insert_eq).
  assert (Hnext := CreateFacts.get_next_job_row cfg db' uuid4 row Hrow Hs).
  rewrite Hjt, Hu, Ho, Hsf, Hm, Hla, CreateFacts.ModelSize_truthy in Hnext.
  eexists stored, db', _. cbv zeta. split; [|split; [exact Hp|]].
  - unfold UploadRoute.upload_file. rewrite Hname.
    apply ApiFacts.truthy_true in Hne. rewrite Hne, Hvalid. cbn [negb].
    cbv zeta.
    rewrite (StreamFacts.stream_written _ _ 0%N Hw) by (now rewrite N.add_0_l).
    rewrite Hstored, Hc, Hp. reflexivity.
  - split.
    { apply Hnext. intros j' r' Hne' Hl' Hq'. rewrite Hca.
      apply (Hnew j' r'); [|exact Hq'].
      rewrite Hj in Hl'. now rewrite lookup_insert_ne in Hl'. }
    cbn [Worker.id Worker.job_type Worker.stored_filename
         Worker.original_filename Worker.model Worker.language].
    repeat (split; [reflexivity|]).
    intros s Hs'. unfold process_file_upload.
    cbn [Worker.stored_filename].
    assert (Hex : exists_ (path_join (Worker.UPLOADS_DIR cfg) stored) s
                  = (Ok false, s)).
    { unfold exists_. rewrite Hs'. reflexivity. }
    rewrite (RunFacts.bind_eq _ _ _ _ _ Hex). reflexivity.
Qed.

Lemma accepted_upload_reaches_the_worker_witness :
  UploadRoute.validate_file_type Samples.suffix_lower "talk.mp3"
    (default "" (UploadRoute.content_type Samples.talk_upload)) = true
  /\ (Shape.received (UploadRoute.reads Samples.talk_upload)
      <= Samples.MAX_FILE_SIZE)%N
  /\ exists stored db' job,
       UploadRoute.upload_file Samples.suffix_lower Samples.MAX_FILE_SIZE
         (Worker.UPLOADS_DIR Examples.cfg) Samples.talk_upload SMALL "auto"
         true "ab12cd34" "job-9" "2024-05-01T11:00:00" Examples.db_done ∅
       = (Ok {| UploadRoute.job_id := "job-9"; UploadRoute.status := QUEUED;
                UploadRoute.message :=
                  "File uploaded successfully. Transcription queued with model="
                    +:+ ModelSize_value SMALL |},
          db',
          <[path_join (Worker.UPLOADS_DIR Examples.cfg) stored := MediaFile]> ∅)
       /\ get_next_job Examples.cfg db' = Some job
       /\ Worker.stored_filename job = Some stored.
Proof.
  assert (Hv : UploadRoute.validate_file_type Samples.suffix_lower "talk.mp3"
                 (default "" (UploadRoute.content_type Samples.talk_upload))
               = true) by (vm_compute; reflexivity).
  assert (Hle : (Shape.received (UploadRoute.reads Samples.talk_upload)
                 <= Samples.MAX_FILE_SIZE)%N) by (vm_compute; discriminate).
  assert (Hq : forall j r, jobs Examples.db_done !! j = Some r ->
                 status r = "queued" ->
                 String.ltb "2024-05-01T11:00:00" (created_at r) = true).
  { intros j r Hl Hs. cbn [Examples.db_done jobs] in Hl.
    apply lookup_singleton_Some in Hl as [_ <-]. discriminate Hs. }
  split; [exact Hv|]. split; [exact Hle|].
  destruct (accepted_upload_reaches_the_worker Samples.suffix_lower
              Samples.MAX_FILE_SIZE fl_exact Examples.cfg Examples.eng_ok
              Samples.talk_upload "talk.mp3" SMALL "auto" "ab12cd34" "job-9"
              "2024-05-01T11:00:00" Examples.db_done ∅
              eq_refl ltac:(discriminate) Hv eq_refl Hle eq_refl eq_refl Hq)
    as (stored & db' & job & Hu & _ & Hn & _ & _ & Hst & _).
  exists stored, db', job. split; [exact Hu|]. split; [exact Hn|exact Hst].
Defined.

(** ** The YouTube routes *)

Module IngestFacts.
Import WorkerFacts.

Section Ingest.
Variable fl : Q -> Q.
Variable cfg : Config.
Variable eng : Engines.

(** A video over the worker's limit stops the pipeline at the look-up. *)
Lemma overlong_raises (job : Job) (url : string) (info : YouTubeVideoInfo)
    (s : Sys) :
  YOUTUBE_AUTO_INGEST_ENABLED cfg = true ->
  source_url job = Some url -> url <> "" ->
  yt_info eng (tick s) url = Ok info ->
  (YOUTUBE_MAX_DURATION cfg < yt_duration info)%Z ->
  exists msg s',
    process_youtube_auto_ingest fl cfg eng job s
    = (Err (YouTubeDurationExceededError msg), s')
    /\ msg <> ""
    /\ fs s' = delete (normalized_path_of cfg (id job)) (fs s).
Proof.
  intros He Hu Hne Hi Hlong. apply ApiFacts.truthy_true in Hne.
  assert (Hg : get_video_info eng url s
               = (Ok info, (call (fun t => yt_info eng t url) s).2)).
  { unfold get_video_info. rewrite RunFacts.bind_call, Hi. reflexivity. }
  assert (Hc : exists msg,
             check_duration_limit cfg eng url s
             = (Err (YouTubeDurationExceededError msg),
                (call (fun t => yt_info eng t url) s).2)
             /\ msg <> "").
  { unfold check_duration_limit. rewrite (RunFacts.bind_eq _ _ _ _ _ Hg).
    apply Z.gtb_lt in Hlong. rewrite Hlong. eexists.
    split; [reflexivity|discriminate]. }
  destruct Hc as (msg & Hc & Hmsg). exists msg.
  unfold process_youtube_auto_ingest, normalized_path_of.
  rewrite He, Hu, Hne. cbn [negb].
  rewrite (RunFacts.bind_raise _ _ _ _ _ Hc).
  eexists. split; [reflexivity|]. split; [exact Hmsg|reflexivity].
Qed.

(** The first characters of a text that is not empty. *)
Lemma substring_nonempty (n : nat) (m : string) :
  m <> "" -> String.substring 0 (S n) m <> "".
Proof. destruct m; [congruence|discriminate]. Qed.

End Ingest.
End IngestFacts.

(** The two duration limits of auto-ingest.  The API queues an
  auto-ingest job for a video no longer than its own limit
  ([YOUTUBE_MAX_DURATION_SECONDS], 7200 by default); the worker checks
  the duration against another setting ([YOUTUBE_MAX_DURATION], 3600 by
  default).  So a video between the two limits is accepted by the API
  with a queued job, and when the worker takes that job it marks it
  failed with the duration error, having downloaded nothing. *)
Theorem api_accepts_videos_the_worker_refuses (fl : Q -> Q) (cfg : Config)
    (eng : Engines) (MAX_DURATION_SECONDS : Z)
    (request : YouTubeRoute.YouTubeRequest) (info : YouTubeRoute.VideoInfo)
    (vinfo : YouTubeVideoInfo) (uuid4 now : string) (db : DB) :
  jobs db !! uuid4 = None ->
  (forall j r, jobs db !! j = Some r -> status r = "queued" ->
     String.ltb now (created_at r) = true) ->
  YouTubeRoute.url request <> "" ->
  (YOUTUBE_MAX_DURATION cfg < YouTubeRoute.duration info
   <= MAX_DURATION_SECONDS)%Z ->
  YOUTUBE_AUTO_INGEST_ENABLED cfg = true ->
  (forall t, yt_info eng t (YouTubeRoute.url request) = Ok vinfo) ->
  yt_duration vinfo = YouTubeRoute.duration info ->
  exists db',
    YouTubeRoute.handle_auto_mode true MAX_DURATION_SECONDS request info
      uuid4 now db
    = (Ok {| UploadRoute.job_id := uuid4; UploadRoute.status := QUEUED;
             UploadRoute.message :=
               "Auto ingest queued. Video: " +:+ YouTubeRoute.title info
                 +:+ " (" +:+ Py.str (YouTubeRoute.duration info) +:+ "s)" |},
       db')
    /\ forall (s : Sys) (l : list (string * string)),
         let w' := run_once fl cfg eng {| db := db'; sys := s; log := l |} in
         log w' = l ++ [(uuid4, "running"); (uuid4, "failed")]
         /\ (exists row' msg,
               jobs (Worker.db w') !! uuid4 = Some row'
               /\ status row' = "failed"
               /\ error_message row' = Some msg /\ msg <> "")
         /\ transcripts (Worker.db w') = transcripts db
         /\ fs (sys w') = delete (normalized_path_of cfg uuid4) (fs s).
Proof.
  intros Hfresh Hnew Hurl [Hlo Hhi] Hon Hinfo Hdur.
  destruct (CreateFacts.create_job_Ok db uuid4 now YOUTUBE_AUTO_INGEST
              (YouTubeRoute.model request) (YouTubeRoute.language request)
              (Some (YouTubeRoute.title info)) None
              (Some (YouTubeRoute.url request)) Hfresh)
    as (db' & row & Hc & Hj & Ht & Hs & Hca & Hua & He & Hjt & Hm & Hla
        & Ho & Hsf & Hu).
  exists db'. split.
  { unfold YouTubeRoute.handle_auto_mode. cbn [negb].
    assert (E : (YouTubeRoute.duration info >? MAX_DURATION_SECONDS)%Z = false)
      by (rewrite Z.gtb_ltb; apply Z.ltb_ge; exact Hhi).
    now rewrite E, Hc. }
  intros s l. cbv zeta.
  assert (Hrow : jobs db' !! uuid4 = Some row)
    by (rewrite Hj; apply lookup_insert_eq).
  assert (Hnext := CreateFacts.get_next_job_row cfg db' uuid4 row Hrow Hs).
  rewrite Hjt, Hu, Ho, Hsf, Hm, Hla, CreateFacts.ModelSize_truthy in Hnext.
  set (job := {| Worker.id := uuid4 |}) in Hnext.
  assert (Hn : get_next_job cfg db' = Some job).
  { apply Hnext. intros j' r' Hne' Hl' Hq'. rewrite Hca.
    apply (Hnew j' r'); [|exact Hq'].
    rewrite Hj in Hl'. now rewrite lookup_insert_ne in Hl'. }
  set (w := {| db := db'; sys := s; log := l |}).
  assert (Hrun : run_once fl cfg eng w = process_job fl cfg eng job w).
  { unfold run_once. cbn [Worker.db w]. now rewrite Hn. }
  rewrite Hrun.
  set (w1 := update_job_status eng (Worker.id job) "running" None w).
  destruct (DispatchFacts.update_job_status_rows eng (Worker.id job) "running"
              None w) as (J1 & T1 & F1).
  fold w1 in J1, T1, F1.
  destruct (IngestFacts.overlong_raises fl cfg eng job
              (YouTubeRoute.url request) vinfo (sys w1) Hon eq_refl Hurl
              (Hinfo _) ltac:(rewrite Hdur; exact Hlo))
    as (msg & s' & Hp & Hmsg & Hfs).
  assert (Hr : route fl cfg eng job (sys w1)
               = (Err (YouTubeDurationExceededError msg), s')).
  { rewrite JobFacts.route_auto_ingest by reflexivity. exact Hp. }
  destruct (WorkerFacts.process_job_effect fl cfg eng job w)
    as (final & upd & Hf & Hlog & _ & _ & Hiff & _ & Herr).
  cbv zeta in Hiff, Herr. fold w1 in Hiff, Herr.
  assert (final = "failed") as ->.
  { destruct Hf as [Hd|Hd]; [|exact Hd].
    apply Hiff in Hd as (paths & s'' & Hq). congruence. }
  split; [exact Hlog|].
  rewrite (Herr _ _ Hr). cbn [failure_message].
  set (w2 := {| db := Worker.db w1; sys := s'; log := log w1 |}).
  destruct (DispatchFacts.update_job_status_rows eng (Worker.id job) "failed"
              (Some msg) w2) as (J2 & T2 & F2).
  split; [|split].
  - rewrite J2. subst w2. cbn [Worker.db jobs]. rewrite J1.
    rewrite lookup_alter_eq, lookup_alter_eq. cbn [w Worker.db].
    change (Worker.id job) with uuid4. rewrite Hrow.
    cbn [fmap option_fmap option_map].
    eexists _, (String.substring 0 1000 msg). split; [reflexivity|].
    split; [apply DispatchFacts.status_update_fields|].
    split; [|now apply IngestFacts.substring_nonempty].
    rewrite (proj2 (proj2 (proj2 (DispatchFacts.status_update_fields _ _ _ _)))).
    apply ApiFacts.truthy_true in Hmsg. now rewrite Hmsg.
  - rewrite T2. subst w2. cbn [Worker.db transcripts]. rewrite T1.
    exact Ht.
  - rewrite F2. subst w2. cbn [sys]. rewrite Hfs, F1. reflexivity.
Qed.

Lemma api_accepts_videos_the_worker_refuses_witness :
  (YOUTUBE_MAX_DURATION Samples.cfg_ingest
   < YouTubeRoute.duration Samples.long_video <= 7200)%Z
  /\ exists db',
       YouTubeRoute.handle_auto_mode true 7200 Samples.auto_request
         Samples.long_video "job-9" "2024-05-01T11:00:00" Examples.db_done
       = (Ok {| UploadRoute.job_id := "job-9"; UploadRoute.status := QUEUED;
                UploadRoute.message := "Auto ingest queued. Video: A talk (7200s)" |},
          db')
       /\ exists row',
            jobs (Worker.db (run_once fl_exact Samples.cfg_ingest
                               Samples.eng_long_video
                               {| db := db'; sys := fresh ∅; log := [] |}))
              !! "job-9" = Some row'
            /\ status row' = "failed".
Proof.
  assert (Hd : (YOUTUBE_MAX_DURATION Samples.cfg_ingest
                < YouTubeRoute.duration Samples.long_video <= 7200)%Z)
    by (vm_compute; split; [reflexivity|discriminate]).
  assert (Hq : forall j r, jobs Examples.db_done !! j = Some r ->
                 status r = "queued" ->
                 String.ltb "2024-05-01T11:00:00" (created_at r) = true).
  { intros j r Hl Hs. cbn [Examples.db_done jobs] in Hl.
    apply lookup_singleton_Some in Hl as [_ <-]. discriminate Hs. }
  split; [exact Hd|].
  destruct (api_accepts_videos_the_worker_refuses fl_exact Samples.cfg_ingest
              Samples.eng_long_video 7200 Samples.auto_request
              Samples.long_video
              {| video_id := "dQw4w9WgXcQ"; title := "A talk";
                 yt_duration := 7200; channel := "Talks" |}
              "job-9" "2024-05-01T11:00:00" Examples.db_done
              eq_refl Hq ltac:(discriminate) Hd eq_refl
              (fun _ => eq_refl) eq_refl)
    as (db' & Ha & Hw).
  exists db'. split; [exact Ha|].
  destruct (Hw (fresh ∅) []) as (_ & (row' & msg & Hr & Hs & _) & _).
  exists row'. split; [exact Hr|exact Hs].
Defined.

Module CaptionRouteFacts.
Import YouTubeRoute Shape.
Local Arguments String.append : simpl nomatch.

Lemma no_tag_at_no_gt (s : string) :
  Spec.contains ">" s = false -> no_tag_at s = true.
Proof. destruct s; [reflexivity|]. cbn [no_tag_at]. intros ->. apply orb_true_r. Qed.

(** A text without [>] has no tag. *)
Lemma tagless_no_gt (s : string) :
  Spec.contains ">" s = false -> tagless s = true.
Proof.
  induction s as [|c s IH]; [reflexivity|]. cbn [Spec.contains tagless].
  intros [_ Hs]%orb_false_iff.
  now rewrite (no_tag_at_no_gt s Hs), orb_true_r, IH.
Qed.

(** In either state of the pass, what comes out has no tag. *)
Lemma strip_tags_from_tagless (s : string) :
  tagless (strip_tags_from None s) = true
  /\ forall body, Spec.contains ">" body = false ->
       tagless (strip_tags_from (Some body) s) = true.
Proof.
  induction s as [|c s [IH1 IH2]]; cbn [strip_tags_from].
  - split; [reflexivity|]. intros body Hb. cbn [tagless].
    now rewrite (no_tag_at_no_gt body Hb), (tagless_no_gt body Hb).
  - split.
    + destruct (Ascii.eqb c "<") eqn:E; [now apply IH2|].
      cbn [tagless]. now rewrite E, IH1.
    + intros body Hb. destruct (Ascii.eqb_spec c ">") as [->|Hc].
      * destruct (Py.truthy body); [exact IH1|].
        cbn [tagless no_tag_at]. rewrite IH1. reflexivity.
      * apply IH2. rewrite TimestampFacts.contains_app, Hb.
        cbn [Spec.contains].
        apply Ascii.eqb_neq in Hc. now rewrite Hc.
Qed.

(** A text without a tag passes unchanged. *)
Lemma strip_tags_from_fixed (s : string) :
  (tagless s = true -> strip_tags_from None s = s)
  /\ forall body, Spec.contains ">" s = false ->
       strip_tags_from (Some body) s = String "<" (body +:+ s).
Proof.
  induction s as [|c s [IH1 IH2]]; cbn [strip_tags_from].
  - split; [reflexivity|]. intros body _.
    now rewrite SubtitleFacts.app_empty_r.
  - split.
    + cbn [tagless]. intros [Hc Hs]%andb_true_iff.
      destruct (Ascii.eqb_spec c "<") as [->|Hne]; [|now rewrite (IH1 Hs)].
      cbn [negb orb] in Hc. destruct s as [|c' s']; [reflexivity|].
      cbn [no_tag_at] in Hc. apply orb_true_iff in Hc as [Hc|Hc].
      * apply Ascii.eqb_eq in Hc as ->. specialize (IH1 Hs).
        cbn [strip_tags_from] in *. cbn [Ascii.eqb Bool.eqb] in *.
        cbn. injection IH1 as ->. reflexivity.
      * apply negb_true_iff in Hc. now rewrite (IH2 "" Hc).
    + intros body [Hc Hs]%orb_false_iff. rewrite Hc.
      rewrite (IH2 _ Hs), PyFacts.string_app_assoc. reflexivity.
Qed.

(** The inner loop returns texts that are not empty and have no tag,
  and leaves a part of the lines it was given. *)
Lemma text_lines_spec (lines : list string) :
  Forall (fun t => t <> "" /\ tagless t = true) (text_lines lines).1
  /\ (length (text_lines lines).2 <= length lines)%nat.
Proof.
  induction lines as [|l rest [IHt IHr]]; cbn [text_lines].
  - split; [constructor|reflexivity].
  - destruct (Py.truthy (Py.strip l)); [|split; [constructor|reflexivity]].
    destruct (text_lines rest) as [texts rest']. cbn [fst snd length] in *.
    split; [|lia].
    destruct (Py.truthy (strip_tags (Py.strip l))) eqn:E; [|exact IHt].
    constructor; [|exact IHt]. split; [now apply ApiFacts.truthy_true|].
    apply strip_tags_from_tagless.
Qed.

Section Parse.
Variable fl : Q -> Q.
Variable int_ : string -> result exn Z.
Variable float_ : string -> result exn Q.

(** Fuel beyond the number of lines changes nothing. *)
Lemma parse_lines_fuel (fuel fuel' : nat) (lines : list string) (k : Z) :
  (length lines <= fuel)%nat -> (length lines <= fuel')%nat ->
  parse_lines fl int_ float_ fuel lines k
  = parse_lines fl int_ float_ fuel' lines k.
Proof.
  revert fuel' lines k.
  induction fuel as [|fuel IH]; intros fuel' lines k Hf Hf'.
  - destruct lines; [|cbn in Hf; lia]. now destruct fuel'.
  - destruct lines as [|l rest]; [now destruct fuel'|].
    destruct fuel' as [|fuel']; [cbn in Hf'; lia|].
    cbn [length] in Hf, Hf'. cbn [parse_lines].
    assert (Hrest : parse_lines fl int_ float_ fuel rest k
                    = parse_lines fl int_ float_ fuel' rest k)
      by (apply IH; lia).
    destruct (has_arrow (Py.strip l)); [|exact Hrest].
    destruct (split_arrow (Py.strip l)) as [|t0 [|t1 [|t2 ts]]];
      try exact Hrest.
    destruct (Py.split (Py.strip t1)) as [|end_str ?]; [reflexivity|].
    destruct (parse_vtt_timestamp fl int_ float_ (Py.strip t0));
      [|reflexivity].
    destruct (parse_vtt_timestamp fl int_ float_ end_str); [|reflexivity].
    pose proof (text_lines_spec rest) as [_ Hlen].
    destruct (text_lines rest) as [texts rest']. cbn [snd] in Hlen.
    assert (Htl : (length (tl rest') <= length rest)%nat)
      by (destruct rest'; cbn in *; lia).
    rewrite !(IH fuel' (tl rest')) by lia. reflexivity.
Qed.

(** The segments are numbered from the first id on, and the text of
  each is made of the pieces the inner loop kept. *)
Lemma parse_lines_ids (fuel : nat) (lines : list string) (k : Z)
    (segments : list TranscriptSegment) :
  parse_lines fl int_ float_ fuel lines k = Ok segments ->
  forall i seg, segments !! i = Some seg ->
    Models.id seg = (k + Z.of_nat i)%Z /\ caption_text (Models.text seg).
Proof.
  revert lines k segments.
  induction fuel as [|fuel IH]; intros lines k segments.
  - cbn. intros [= <-] i seg Hl. discriminate.
  - destruct lines as [|l rest]; [intros [= <-] i seg Hl; discriminate|].
    cbn [parse_lines].
    destruct (has_arrow (Py.strip l)); [|apply IH].
    destruct (split_arrow (Py.strip l)) as [|t0 [|t1 [|t2 ts]]];
      try apply IH.
    destruct (Py.split (Py.strip t1)) as [|end_str ?]; [discriminate|].
    destruct (parse_vtt_timestamp fl int_ float_ (Py.strip t0));
      [|discriminate].
    destruct (parse_vtt_timestamp fl int_ float_ end_str); [|discriminate].
    pose proof (text_lines_spec rest) as [Htexts _].
    destruct (text_lines rest) as [texts rest']. cbn [fst] in Htexts.
    destruct texts as [|t texts]; cbn [Py.is_empty negb]; [apply IH|].
    destruct (parse_lines fl int_ float_ fuel (tl rest') (k + 1)) as [segs|]
      eqn:E; [|discriminate].
    intros [= <-] [|i] seg Hl.
    + injection Hl as <-. cbn [Models.id Models.text]. split; [lia|].
      now exists t, texts.
    + cbn in Hl. destruct (IH _ _ _ E i seg Hl) as [-> Hne].
      split; [lia|exact Hne].
Qed.

End Parse.

(** The text of a caption is not empty. *)
Lemma caption_text_nonempty (t : string) : caption_text t -> t <> "".
Proof.
  intros (piece & pieces & -> & H). apply Forall_cons in H as [[Hp _] _].
  unfold Py.join. destruct pieces; cbn; [exact Hp|].
  destruct piece; [congruence|discriminate].
Qed.

End CaptionRouteFacts.

(** The captions parser.  When [parse_vtt_to_segments] returns, its
  segments are numbered 0, 1, 2, ... in order, a cue without text
  taking no number; and the text of every segment is not empty: it is
  made of one or more pieces joined by single spaces, each piece not
  empty and free of markup tags. *)
Theorem caption_segments_are_numbered (fl : Q -> Q)
    (int_ : string -> result exn Z) (float_ : string -> result exn Q)
    (vtt_content : string) (segments : list TranscriptSegment) :
  YouTubeRoute.parse_vtt_to_segments fl int_ float_ vtt_content = Ok segments ->
  forall i seg, segments !! i = Some seg ->
    Models.id seg = Z.of_nat i
    /\ Models.text seg <> ""
    /\ Shape.caption_text (Models.text seg).
Proof.
  unfold YouTubeRoute.parse_vtt_to_segments. cbv zeta. intros H i seg Hl.
  destruct (CaptionRouteFacts.parse_lines_ids _ _ _ _ _ _ _ H i seg Hl)
    as [Hid Ht].
  split; [lia|]. split; [|exact Ht].
  now apply CaptionRouteFacts.caption_text_nonempty.
Qed.

Lemma caption_segments_are_numbered_witness :
  exists seg,
    YouTubeRoute.parse_vtt_to_segments fl_exact Samples.int_ Samples.float_
      Samples.captions_vtt = Ok [seg]
    /\ Models.id seg = 0%Z /\ Models.text seg = "Hello world again".
Proof.
  destruct (YouTubeRoute.parse_vtt_to_segments fl_exact Samples.int_
              Samples.float_ Samples.captions_vtt)
    as [[|seg [|? ?]]|e] eqn:E; try (vm_compute in E; discriminate).
  exists seg. split; [reflexivity|].
  destruct (caption_segments_are_numbered fl_exact Samples.int_ Samples.float_
              Samples.captions_vtt [seg] E 0%nat seg eq_refl) as (Hid & _).
  split; [exact Hid|].
  vm_compute in E. injection E as <-. reflexivity.
Defined.

(** Markup in a caption line.  What [re.sub(r'<[^>]+>', '', line)]
  returns holds no tag any more; a line without a tag, and so any line
  without [<], is returned as it is; and removing tags twice gives
  what removing them once gives. *)
Theorem caption_tags_are_removed (s : string) :
  Shape.tagless (YouTubeRoute.strip_tags s) = true
  /\ (Shape.tagless s = true -> YouTubeRoute.strip_tags s = s)
  /\ (Spec.contains "<" s = false -> YouTubeRoute.strip_tags s = s)
  /\ YouTubeRoute.strip_tags (YouTubeRoute.strip_tags s)
     = YouTubeRoute.strip_tags s.
Proof.
  unfold YouTubeRoute.strip_tags.
  pose proof (proj1 (CaptionRouteFacts.strip_tags_from_tagless s)) as Ht.
  split; [exact Ht|]. split; [apply CaptionRouteFacts.strip_tags_from_fixed|].
  split; [|now apply CaptionRouteFacts.strip_tags_from_fixed].
  intros Hlt. apply CaptionRouteFacts.strip_tags_from_fixed.
  clear Ht. induction s as [|c s IH]; [reflexivity|].
  cbn [Spec.contains Shape.tagless] in *.
  apply orb_false_iff in Hlt as [-> Hs]. now rewrite IH.
Qed.

Module SafeModeFacts.
Import YouTubeRoute.

Section SafeMode.
Variable OUT : string.


End SafeMode.
End SafeModeFacts.



(** ** The views of jobs *)

Module ViewFacts.
Import Shape JobsViews.

Lemma JobType_of_value (t : JobType) : JobType_of (JobType_value t) = Ok t.
Proof. now destruct t. Qed.

Lemma JobStatus_of_value (st : JobStatus) :
  JobStatus_of (JobStatus_value st) = Ok st.
Proof. now destruct st. Qed.

Lemma ModelSize_of_value (m : ModelSize) :
  ModelSize_of (ModelSize_value m) = Ok m.
Proof. now destruct m. Qed.

Section Views.
Variable datetime : Type.
Variable fromisoformat : string -> result exn datetime.

(** A row that can be shown is converted, field by field. *)
Lemma row_to_job_detail_Ok (job_id : string) (row : JobRow) :
  api_row fromisoformat row ->
  exists d,
    row_to_job_detail datetime fromisoformat job_id row = Ok d
    /\ id datetime d = job_id
    /\ JobType_value (job_type datetime d) = Database.job_type row
    /\ JobStatus_value (status datetime d) = Database.status row
    /\ ModelSize_value (model datetime d) = Database.model row
    /\ language datetime d = Database.language row
    /\ error_message datetime d = Database.error_message row
    /\ fromisoformat (Database.created_at row) = Ok (created_at datetime d)
    /\ fromisoformat (Database.updated_at row) = Ok (updated_at datetime d).
Proof.
  intros ([t Ht] & [st Hs] & [m Hm] & [c Hc] & [u Hu]).
  unfold row_to_job_detail.
  rewrite Ht, Hs, Hm, Hc, Hu, JobType_of_value, JobStatus_of_value,
    ModelSize_of_value.
  eexists. split; [reflexivity|]. cbn. repeat split.
Qed.

Lemma row_to_job_summary_Ok (job_id : string) (row : JobRow) :
  api_row fromisoformat row ->
  exists s,
    row_to_job_summary datetime fromisoformat job_id row = Ok s
    /\ summary_id datetime s = job_id.
Proof.
  intros ([t Ht] & [st Hs] & [m Hm] & [c Hc] & _).
  unfold row_to_job_summary.
  rewrite Ht, Hs, Hm, Hc, JobType_of_value, JobStatus_of_value,
    ModelSize_of_value.
  eexists. split; reflexivity.
Qed.

Lemma summaries_Ok (rows : list (string * JobRow)) :
  Forall (fun r => api_row fromisoformat r.2) rows ->
  exists l,
    summaries datetime fromisoformat rows = Ok l
    /\ map (summary_id datetime) l = map fst rows.
Proof.
  induction 1 as [|[j row] rows Hr _ (l & Hl & Hids)]; cbn [summaries].
  - now exists [].
  - destruct (row_to_job_summary_Ok j row Hr) as (s & -> & Hid).
    rewrite Hl. exists (s :: l). split; [reflexivity|].
    cbn. now rewrite Hid, Hids.
Qed.

(** A status write with an enumerated status and a time that can be
  read keeps a row presentable. *)
Lemma api_row_status_update (st : JobStatus) (err : option string)
    (t : string) (row : JobRow) :
  (exists d, fromisoformat t = Ok d) ->
  api_row fromisoformat row ->
  api_row fromisoformat (status_update (JobStatus_value st) err t row).
Proof.
  intros Ht (Hty & _ & Hm & Hc & _).
  destruct (DispatchFacts.status_update_fields (JobStatus_value st) err t row)
    as ((E1 & _ & _ & _ & E5 & E6 & _) & S & U & _).
  unfold api_row. rewrite E1, E5, E6, S, U.
  split; [exact Hty|]. split; [now exists st|]. auto.
Qed.

Lemma api_rows_alter (d : gmap string JobRow) (f : JobRow -> JobRow)
    (k : string) :
  (forall row, api_row fromisoformat row -> api_row fromisoformat (f row)) ->
  (forall j row, d !! j = Some row -> api_row fromisoformat row) ->
  forall j row, alter f k d !! j = Some row -> api_row fromisoformat row.
Proof.
  intros Hf Hd j row. destruct (decide (k = j)) as [->|Hne].
  - rewrite lookup_alter_eq. destruct (d !! j) as [r|] eqn:E; [|discriminate].
    intros [= <-]. apply Hf. now apply (Hd j).
  - rewrite lookup_alter_ne by exact Hne. apply Hd.
Qed.

Section Worker.
Variable fl : Q -> Q.
Variable cfg : Config.
Variable eng : Engines.
Hypothesis clock : forall t, exists d, fromisoformat (utcnow eng t) = Ok d.

Lemma api_rows_update_job_status (job_id : string) (st : JobStatus)
    (err : option string) (w : World) :
  api_rows fromisoformat (db w) ->
  api_rows fromisoformat
    (db (update_job_status eng job_id (JobStatus_value st) err w)).
Proof.
  intros Hw.
  destruct (DispatchFacts.update_job_status_rows eng job_id
              (JobStatus_value st) err w) as (J & _).
  unfold api_rows. rewrite J. apply api_rows_alter; [|exact Hw].
  intros row. apply api_row_status_update, clock.
Qed.

Lemma api_rows_process_job (job : Job) (w : World) :
  api_rows fromisoformat (db w) ->
  api_rows fromisoformat (db (process_job fl cfg eng job w)).
Proof.
  intros Hw. unfold process_job.
  pose proof (api_rows_update_job_status (Worker.id job) RUNNING None w Hw)
    as H1.
  cbn [JobStatus_value] in H1.
  destruct (route fl cfg eng job _) as [[paths|e] s'].
  - apply (api_rows_update_job_status _ DONE). exact H1.
  - apply (api_rows_update_job_status _ FAILED). exact H1.
Qed.

Lemma api_rows_run (n : nat) (w : World) :
  api_rows fromisoformat (db w) ->
  api_rows fromisoformat (db (run fl cfg eng n w)).
Proof.
  revert w. induction n as [|n IH]; intros w Hw; cbn [run]; [exact Hw|].
  apply IH. unfold run_once.
  destruct (get_next_job cfg (db w)); [|exact Hw].
  now apply api_rows_process_job.
Qed.

End Worker.
End Views.
End ViewFacts.

Module ListFacts.
Import JobsViews.

Lemma newer_first_trans : Transitive newer_first.
Proof.
  intros a b c Hab Hbc. unfold newer_first in *.
  eapply WorkerFacts.leb_trans; eassumption.
Qed.

Lemma newer_first_total : Total newer_first.
Proof. intros a b. unfold newer_first. apply String.leb_total. Qed.

(** The rows before the page is cut. *)
Lemma selected_rows (d : DB) (st : option JobStatus) (x : string * JobRow) :
  x ∈ merge_sort newer_first
        (match st with
         | Some s => filter (fun r => Database.status r.2 = JobStatus_value s)
                       (map_to_list (jobs d))
         | None => map_to_list (jobs d)
         end)
  <-> jobs d !! x.1 = Some x.2
      /\ forall s, st = Some s -> Database.status x.2 = JobStatus_value s.
Proof.
  rewrite merge_sort_Permutation. destruct x as [j row]. cbn [fst snd].
  destruct st as [s|].
  - rewrite list_elem_of_filter, elem_of_map_to_list. cbn [snd]. split.
    + intros [Hs Hl]. split; [exact Hl|]. now intros ? [= <-].
    + intros [Hl Hs]. split; [now apply Hs|exact Hl].
  - rewrite elem_of_map_to_list. split; [|tauto].
    intros Hl. split; [exact Hl|discriminate].
Qed.

Lemma selected_NoDup (d : DB) (st : option JobStatus) :
  NoDup (merge_sort newer_first
           (match st with
            | Some s => filter (fun r => Database.status r.2 = JobStatus_value s)
                          (map_to_list (jobs d))
            | None => map_to_list (jobs d)
            end)).*1.
Proof.
  rewrite merge_sort_Permutation. destruct st as [s|].
  - apply (sublist_NoDup _ (map_to_list (jobs d)).*1);
      [apply NoDup_fst_map_to_list|apply fmap_sublist, sublist_filter].
  - apply NoDup_fst_map_to_list.
Qed.

(** In a sorted list an earlier element may stand before a later one. *)
Lemma StronglySorted_lookup {A} (R : relation A) (l : list A) (i k : nat)
    (a b : A) :
  StronglySorted R l -> (i < k)%nat -> l !! i = Some a -> l !! k = Some b ->
  R a b.
Proof.
  intros Hl. revert i k. induction Hl as [|x l Hl IH Hx]; intros i k Hik Ha Hb.
  - discriminate.
  - destruct k as [|k]; [lia|]. cbn in Hb. destruct i as [|i].
    + injection Ha as <-. rewrite Forall_forall in Hx. apply Hx.
      now apply list_elem_of_lookup_2 in Hb.
    + cbn in Ha. apply (IH i k); [lia|assumption|assumption].
Qed.

End ListFacts.

(** The list of jobs.  A page of [list_jobs] holds at most [limit] rows,
  each a row of the store (of the status asked for, when one is asked
  for), no job twice, and the newer row before the older.  When no two
  jobs were created at the same time, so that the order is fixed, the
  page after a page continues it: the two together are the page of
  their joint size.  And when the limit is no smaller than the number
  of jobs, the first page has every job (of that status). *)
Theorem job_list_is_paged_newest_first (d : DB) (limit offset : nat)
    (st : option JobStatus) :
  let page := JobsViews.list_jobs d limit offset st in
  (length page <= limit)%nat
  /\ (forall j row, (j, row) ∈ page ->
        jobs d !! j = Some row
        /\ forall s, st = Some s -> status row = JobStatus_value s)
  /\ NoDup page.*1
  /\ (forall i k a b, (i < k)%nat -> page !! i = Some a -> page !! k = Some b ->
        String.leb (created_at b.2) (created_at a.2) = true)
  /\ ((forall j1 j2 r1 r2, jobs d !! j1 = Some r1 -> jobs d !! j2 = Some r2 ->
          created_at r1 = created_at r2 -> j1 = j2) ->
      forall limit',
        page ++ JobsViews.list_jobs d limit' (offset + limit) st
        = JobsViews.list_jobs d (limit + limit') offset st)
  /\ (offset = 0%nat -> (size (jobs d) <= limit)%nat ->
      forall j row, jobs d !! j = Some row ->
        (forall s, st = Some s -> status row = JobStatus_value s) ->
        (j, row) ∈ page).
Proof.
  cbv zeta. unfold JobsViews.list_jobs. cbv zeta.
  set (rows := match st with
               | Some s => filter (fun r => status r.2 = JobStatus_value s)
                             (map_to_list (jobs d))
               | None => map_to_list (jobs d)
               end).
  set (L := merge_sort JobsViews.newer_first rows).
  assert (Hsub : take limit (drop offset L) `sublist_of` L).
  { etrans; [apply sublist_take|apply sublist_drop]. }
  assert (Hsorted : StronglySorted JobsViews.newer_first L).
  { apply (@StronglySorted_merge_sort _ _ _ ListFacts.newer_first_trans
             ListFacts.newer_first_total). }
  split; [rewrite length_take; lia|]. split.
  { intros j row Hin.
    apply (proj1 (ListFacts.selected_rows d st (j, row))).
    eapply elem_of_sublist; eassumption. }
  split.
  { apply (sublist_NoDup _ L.*1); [apply ListFacts.selected_NoDup|].
    now apply fmap_sublist. }
  split.
  { intros i k a b Hik Ha Hb.
    assert (Hpage : StronglySorted JobsViews.newer_first
                      (take limit (drop offset L))).
    { rewrite <- (take_drop offset L) in Hsorted.
      apply StronglySorted_app_1_r in Hsorted.
      rewrite <- (take_drop limit (drop offset L)) in Hsorted.
      now apply StronglySorted_app_1_l in Hsorted. }
    exact (ListFacts.StronglySorted_lookup _ _ i k a b Hpage Hik Ha Hb). }
  split.
  { intros _ limit'. rewrite <- (drop_drop L limit offset).
    apply take_take_drop. }
  intros -> Hsize j row Hl Hs. cbn [drop].
  rewrite take_ge.
  - apply (proj2 (ListFacts.selected_rows d st (j, row))). now split.
  - unfold L. rewrite merge_sort_Permutation.
    etrans; [|exact Hsize]. rewrite <- length_map_to_list.
    unfold rows. destruct st; [apply length_filter|reflexivity].
Qed.

(** What the worker writes, the API can show.  Let every job row be one
  the API can convert (type, status and model are values of its
  enumerations and the two times are read by [fromisoformat]), as the
  rows [create_job] inserts are, and let [fromisoformat] read the
  worker's clock.  Then after any number of turns of the worker loop
  every row is still such a row; GET job answers 404 exactly for the
  ids that are not stored and otherwise returns the row's fields, never
  failing on the conversion; and the list route returns one summary for
  each row that [list_jobs] selects. *)
Theorem worker_rows_stay_presentable (datetime : Type)
    (fromisoformat : string -> result exn datetime) (fl : Q -> Q)
    (cfg : Config) (eng : Engines) (n : nat) (w : World) :
  (forall t, exists d, fromisoformat (utcnow eng t) = Ok d) ->
  Shape.api_rows fromisoformat (db w) ->
  let d' := db (run fl cfg eng n w) in
  Shape.api_rows fromisoformat d'
  /\ (forall j,
        match JobsViews.get_job datetime fromisoformat d' j with
        | Ok detail =>
            exists row,
              jobs d' !! j = Some row
              /\ JobsViews.id datetime detail = j
              /\ JobStatus_value (JobsViews.status datetime detail)
                 = status row
              /\ JobType_value (JobsViews.job_type datetime detail)
                 = Database.job_type row
              /\ ModelSize_value (JobsViews.model datetime detail)
                 = Database.model row
              /\ JobsViews.error_message datetime detail = error_message row
        | Err (UploadRoute.Http e) =>
            status_code e = 404%Z /\ jobs (db w) !! j = None
        | Err (UploadRoute.Unhandled _) => False
        end)
  /\ (forall limit offset st,
        exists l,
          JobsViews.list_jobs_route datetime fromisoformat d' limit offset st
          = Ok l
          /\ map (JobsViews.summary_id datetime) l
             = (JobsViews.list_jobs d' limit offset st).*1)
  /\ (forall uuid4 now job_type' model' language' original_filename'
             stored_filename' source_url' d'',
        (exists t, fromisoformat now = Ok t) ->
        DatabaseWrites.create_job d' uuid4 now job_type' model' language'
          original_filename' stored_filename' source_url' = Ok (uuid4, d'') ->
        Shape.api_rows fromisoformat d'').
Proof.
  intros Hclock Hw. cbv zeta.
  pose proof (ViewFacts.api_rows_run datetime fromisoformat fl cfg eng Hclock
                n w Hw) as Hrun.
  split; [exact Hrun|]. split; [|split].
  - intros j. unfold JobsViews.get_job, get_job.
    destruct (jobs (db (run fl cfg eng n w)) !! j) as [row|] eqn:Hl.
    + destruct (ViewFacts.row_to_job_detail_Ok datetime fromisoformat j row
                  (Hrun j row Hl))
        as (detail & -> & Hid & Ht & Hs & Hm & _ & He & _).
      exists row. repeat split; assumption.
    + cbn [status_code]. split; [reflexivity|].
      destruct (jobs (db w) !! j) as [row|] eqn:Hl0; [|reflexivity].
      assert (Hkeep : forall m w0,
                jobs (db w0) !! j <> None ->
                jobs (db (run fl cfg eng m w0)) !! j <> None).
      { induction m as [|m IH]; intros w0 Hw0; cbn [run]; [exact Hw0|].
        apply IH.
        destruct (DispatchFacts.run_once_rows fl cfg eng w0)
          as (k & upd & -> & _).
        intros E. apply lookup_alter_None in E. contradiction. }
      exfalso. apply (Hkeep n w); congruence.
  - intros limit offset st. unfold JobsViews.list_jobs_route.
    destruct (ViewFacts.summaries_Ok datetime fromisoformat
                (JobsViews.list_jobs (db (run fl cfg eng n w)) limit offset st))
      as (l & -> & Hids).
    + apply Forall_forall. intros [j row] Hin. cbn [snd].
      apply (Hrun j).
      unfold JobsViews.list_jobs in Hin. cbv zeta in Hin.
      apply subseteq_take, subseteq_drop in Hin.
      now apply (proj1 (ListFacts.selected_rows _ st (j, row))) in Hin.
    + now exists l.
  - intros uuid4 now job_type' model' language' original_filename'
      stored_filename' source_url' d'' Hnow.
    unfold DatabaseWrites.create_job. cbv zeta.
    destruct (jobs (db (run fl cfg eng n w)) !! uuid4); [discriminate|].
    intros [= <-] j row. cbn [jobs].
    destruct (decide (j = uuid4)) as [->|Hne].
    + rewrite lookup_insert_eq. intros [= <-]. unfold Shape.api_row. cbn.
      split; [now exists job_type'|]. split; [now exists QUEUED|].
      split; [now exists model'|]. auto.
    + rewrite lookup_insert_ne by congruence. apply Hrun.
Qed.

Lemma worker_rows_stay_presentable_witness :
  Shape.api_rows Samples.fromisoformat (db Examples.world_one)
  /\ exists detail,
       JobsViews.get_job string Samples.fromisoformat
         (db (run fl_exact Examples.cfg Examples.eng_ok 1 Examples.world_one))
         "job-2" = Ok detail
       /\ JobsViews.status string detail = DONE.
Proof.
  assert (Hclock : forall t, exists d,
             Samples.fromisoformat (utcnow Examples.eng_ok t) = Ok d)
    by (intros t; eexists; reflexivity).
  assert (Hw : Shape.api_rows Samples.fromisoformat (db Examples.world_one)).
  { intros j row Hl. cbn [Examples.world_one db jobs] in Hl.
    apply lookup_singleton_Some in Hl as [_ <-]. unfold Shape.api_row.
    split; [now exists FILE_UPLOAD|]. split; [now exists QUEUED|].
    split; [now exists SMALL|]. split; eexists; reflexivity. }
  split; [exact Hw|].
  destruct (worker_rows_stay_presentable string Samples.fromisoformat fl_exact
              Examples.cfg Examples.eng_ok 1 Examples.world_one Hclock Hw)
    as (_ & Hget & _).
  specialize (Hget "job-2").
  destruct (JobsViews.get_job string Samples.fromisoformat
              (db (run fl_exact Examples.cfg Examples.eng_ok 1
                     Examples.world_one)) "job-2")
    as [detail|[e|e]] eqn:E; [|vm_compute in E; discriminate|contradiction].
  exists detail. split; [reflexivity|].
  vm_compute in E. injection E as <-. reflexivity.
Defined.

Module VideoIdFacts.
Import YouTubeRoute Shape.
Local Arguments String.append : simpl nomatch.

Lemma id_chars_spec (n : nat) (s video_id : string) :
  id_chars n s = Some video_id ->
  String.length video_id = n
  /\ all_chars id_char video_id = true
  /\ exists post, s = video_id +:+ post.
Proof.
  revert s video_id. induction n as [|n IH]; intros s video_id; cbn [id_chars].
  - intros [= <-]. split; [reflexivity|]. split; [reflexivity|]. now exists s.
  - destruct s as [|c s]; [discriminate|].
    destruct (id_char c) eqn:Hc; [|discriminate].
    destruct (id_chars n s) as [r|] eqn:E; [|discriminate].
    intros [= <-]. destruct (IH s r E) as (Hl & Ha & post & ->).
    cbn [String.length all_chars]. rewrite Hl, Hc, Ha.
    split; [reflexivity|]. split; [reflexivity|]. now exists post.
Qed.

Lemma after_prefix_spec (prefix s rest : string) :
  after_prefix prefix s = Some rest -> s = prefix +:+ rest.
Proof.
  revert s. induction prefix as [|p prefix IH]; intros s; cbn [after_prefix].
  - now intros [= ->].
  - destruct s as [|c s]; [discriminate|].
    destruct (Ascii.eqb_spec p c) as [->|]; [|discriminate].
    intros H%IH. now rewrite H.
Qed.

(** What the pattern matches at one place. *)
Lemma match_here_spec (s video_id : string) :
  match_here s = Some video_id ->
  exists prefix post,
    prefix ∈ id_prefixes /\ s = prefix +:+ video_id +:+ post
    /\ String.length video_id = 11%nat
    /\ all_chars id_char video_id = true.
Proof.
  unfold match_here.
  assert (H : forall prefixes,
             foldr (fun prefix other =>
                      match after_prefix prefix s ≫= id_chars 11 with
                      | Some v => Some v
                      | None => other
                      end) None prefixes = Some video_id ->
             exists prefix post,
               prefix ∈ prefixes /\ s = prefix +:+ video_id +:+ post
               /\ String.length video_id = 11%nat
               /\ all_chars id_char video_id = true).
  { induction prefixes as [|prefix prefixes IH]; cbn [foldr]; [discriminate|].
    destruct (after_prefix prefix s) as [rest|] eqn:Ep; cbn [mbind option_bind].
    - destruct (id_chars 11 rest) as [v|] eqn:Ei.
      + intros [= ->]. apply after_prefix_spec in Ep as ->.
        destruct (id_chars_spec _ _ _ Ei) as (Hl & Ha & post & ->).
        exists prefix, post. split; [apply elem_of_cons; auto|]. auto.
      + intros (p & post & Hin & Hs)%IH. exists p, post.
        split; [apply elem_of_cons; auto|exact Hs].
    - intros (p & post & Hin & Hs)%IH. exists p, post.
      split; [apply elem_of_cons; auto|exact Hs]. }
  apply H.
Qed.

(** What [extract_video_id] returns: eleven characters of the class,
  standing in the URL after one of the four prefixes. *)
Lemma extract_video_id_spec (url video_id : string) :
  extract_video_id url = Some video_id ->
  exists pre prefix post,
    prefix ∈ id_prefixes /\ url = pre +:+ prefix +:+ video_id +:+ post
    /\ String.length video_id = 11%nat
    /\ all_chars id_char video_id = true.
Proof.
  unfold extract_video_id. induction url as [|c url IH]; cbn [search].
  - destruct (match_here "") as [v|] eqn:E; [|discriminate].
    intros [= ->]. destruct (match_here_spec _ _ E) as (p & post & H).
    now exists "", p, post.
  - destruct (match_here (String c url)) as [v|] eqn:E.
    + intros [= ->]. destruct (match_here_spec _ _ E) as (p & post & H).
      now exists "", p, post.
    + intros (pre & p & post & Hin & -> & H)%IH.
      exists (String c pre), p, post. split; [exact Hin|]. now split.
Qed.

End VideoIdFacts.

(** How a request to the YouTube route ends.  An answer with an
  [HTTPException] (the URL holds no video id, the look-up failed,
  auto-ingest is disabled, or the video is too long) and an answer with
  guidance leave the jobs, the transcript records and the files as they
  were.  An answer with a job means the URL holds a video id (eleven
  characters of letters, digits, [_] and [-] after one of the four
  prefixes) and a job has been stored under the fresh id: queued in
  auto mode, with no file written, and done in safe mode.  An exception
  that nothing handles leaves either nothing behind, or, in safe mode
  when the job's transcript record cannot be inserted, a queued job
  without a record of its own. *)
Theorem youtube_route_outcomes (fl : Q -> Q)
    (int_ : string -> result exn Z) (float_ : string -> result exn Q)
    (OUT : string) (YOUTUBE_AUTO_INGEST_ENABLED : bool)
    (MAX_DURATION_SECONDS : Z)
    (fetch_captions : string -> string -> option string)
    (get_video_info : string -> result exn YouTubeRoute.VideoInfo)
    (request : YouTubeRoute.YouTubeRequest) (uuid4 now1 now2 : string)
    (db : DB) (fs : FS) :
  match YouTubeRoute.process_youtube_url fl int_ float_ OUT
          YOUTUBE_AUTO_INGEST_ENABLED MAX_DURATION_SECONDS fetch_captions
          get_video_info request uuid4 now1 now2 db fs with
  | (Err (UploadRoute.Http e), db', fs') =>
      db' = db /\ fs' = fs
      /\ (status_code e = 400 \/ status_code e = 403 \/ status_code e = 422)%Z
  | (Ok (YouTubeRoute.Guidance g), db', fs') =>
      db' = db /\ fs' = fs /\ YouTubeRoute.mode request = YouTubeRoute.SAFE
  | (Ok (YouTubeRoute.Created r), db', fs') =>
      UploadRoute.job_id r = uuid4 /\ jobs db !! uuid4 = None
      /\ (exists video_id pre prefix post,
            YouTubeRoute.extract_video_id (YouTubeRoute.url request)
            = Some video_id
            /\ prefix ∈ YouTubeRoute.id_prefixes
            /\ YouTubeRoute.url request
               = pre +:+ prefix +:+ video_id +:+ post
            /\ String.length video_id = 11%nat
            /\ Shape.all_chars YouTubeRoute.id_char video_id = true)
      /\ exists row,
           jobs db' !! uuid4 = Some row
           /\ Database.source_url row = Some (YouTubeRoute.url request)
           /\ match YouTubeRoute.mode request with
              | YouTubeRoute.AUTO =>
                  status row = "queued" /\ fs' = fs
                  /\ transcripts db' = transcripts db
              | YouTubeRoute.SAFE =>
                  status row = "done" /\ is_Some (transcripts db' !! uuid4)
              end
  | (Err (UploadRoute.Unhandled _), db', fs') =>
      (db' = db /\ fs' = fs)
      \/ (YouTubeRoute.mode request = YouTubeRoute.SAFE
          /\ jobs db !! uuid4 = None
          /\ is_Some (transcripts db !! uuid4)
          /\ transcripts db' = transcripts db
          /\ exists row, jobs db' !! uuid4 = Some row /\ status row = "queued")
  end.
Proof.
  unfold YouTubeRoute.process_youtube_url. cbv zeta.
  destruct (YouTubeRoute.extract_video_id (YouTubeRoute.url request))
    as [video_id|] eqn:Hid; [|cbn; auto].
  destruct (VideoIdFacts.extract_video_id_spec _ _ Hid)
    as (pre & prefix & post & Hin & Hurl & Hlen & Hchars).
  destruct (Py.truthy video_id); cbn [negb]; [|cbn; auto].
  destruct (get_video_info (YouTubeRoute.url request)) as [info|e];
    [|cbn; auto].
  destruct (YouTubeRoute.mode request) eqn:Hmode.
  - (* safe mode *)
    unfold YouTubeRoute.handle_safe_mode. cbv zeta.
    destruct (YouTubeRoute.has_manual_captions info
              || YouTubeRoute.has_auto_captions info); [|auto].
    destruct (fetch_captions _ _) as [captions|]; [|auto].
    destruct (Py.truthy captions); [|auto].
    destruct (YouTubeRoute.parse_vtt_to_segments fl int_ float_ captions)
      as [segments|]; [|auto].
    unfold DatabaseWrites.create_job. cbv zeta.
    destruct (jobs db !! uuid4) eqn:Hfresh; [auto|].
    unfold DatabaseWrites.create_transcript_record. cbn [transcripts].
    destruct (transcripts db !! uuid4) eqn:Hrec.
    + right. split; [reflexivity|]. split; [reflexivity|].
      split; [eauto|]. split; [reflexivity|]. cbn [jobs].
      rewrite lookup_insert_eq. eexists. split; reflexivity.
    + cbn [UploadRoute.job_id]. split; [reflexivity|]. split; [reflexivity|].
      split; [exists video_id, pre, prefix, post; auto|].
      unfold DatabaseWrites.update_job_status. cbn [jobs transcripts].
      rewrite lookup_alter_eq, !lookup_insert_eq.
      eexists. split; [reflexivity|]. cbn. split; [reflexivity|]. eauto.
  - (* auto mode *)
    unfold YouTubeRoute.handle_auto_mode.
    destruct YOUTUBE_AUTO_INGEST_ENABLED; cbn [negb]; [|cbn; auto].
    destruct (YouTubeRoute.duration info >? MAX_DURATION_SECONDS)%Z;
      [cbn; auto|].
    unfold DatabaseWrites.create_job. cbv zeta.
    destruct (jobs db !! uuid4) eqn:Hfresh; [auto|].
    cbn [UploadRoute.job_id]. split; [reflexivity|]. split; [reflexivity|].
    split; [exists video_id, pre, prefix, post; auto|].
    cbn [jobs transcripts]. rewrite lookup_insert_eq.
    eexists. split; [reflexivity|]. cbn. auto.
Qed.
